(** * ValidadorAISC: limit-state checks of W sections (AISC 360, chapters D, E, F, H)

  Shallow embedding of [aisc_w_validator.py], whose checks take any
  [PropiedadesPerfilW] value, and of the catalogue [perfiles_aisc.py]:
  its table of sections and the functions [obtener_perfil] and
  [listar_perfiles], in the module [perfiles_aisc].  The printing
  functions of both files are not modelled.

  Numbers.  The program computes with Python floats.  They are modelled
  by the real numbers [R]: [+ - *] are exact, [x ** 2] is [x ^ 2],
  [0.658 ** y] is [Rpower 0.658 y] (the base is a positive literal),
  [math.pi] is [PI], [abs] is [Rabs], [min]/[max] are [Rmin]/[Rmax].
  Rounding, overflow, infinities and NaN are outside the model, and so
  is the [OverflowError] that Python raises when a float power [x ** y]
  overflows.  Where a function computes a power, the general theorems
  are therefore conditional on its returning; the lemmas that say such a
  function returns speak of exact arithmetic and serve the concrete
  inputs.

  Exceptions.  Python raises [ZeroDivisionError] on [x / 0] (also for
  floats) and [ValueError] on [math.sqrt] of a negative number.  Every
  function of the validator is therefore a computation in the error
  monad [Py]; the order of the binds is Python's evaluation order.

  Dictionaries.  Every result dict has a fixed key set; each becomes a
  record whose fields are the keys.  String values stay strings.

  Since [R] does not compute, the checks are run on sample inputs by
  rewriting: the samples are chosen so that the square roots on the way
  are exact. *)

From Stdlib Require Import Reals Lra Psatz String List Bool.
From Stdlib Require Import Ascii NArith Sorted Permutation.
Import ListNotations.
Open Scope string_scope.
Open Scope R_scope.

(* ================================================================== *)
(** * Exceptions *)

Inductive Excepcion : Set :=
| ZeroDivisionError
| ValueError.

Definition Py (T : Type) : Type := (Excepcion + T)%type.

Definition ret {T : Type} (v : T) : Py T := inr v.
Definition raise {T : Type} (e : Excepcion) : Py T := inl e.
Definition bind {T U : Type} (m : Py T) (k : T -> Py U) : Py U :=
  match m with
  | inl e => inl e
  | inr v => k v
  end.

Notation "x <- m ;; k" := (bind m (fun x => k))
  (at level 61, m at next level, right associativity).
Notation "' pat <- m ;; k" := (bind m (fun x => match x with pat => k end))
  (at level 61, pat pattern, m at next level, right associativity).

(* ================================================================== *)
(** * Float operations *)

Definition Rleb (x y : R) : bool := if Rle_dec x y then true else false.
Definition Rltb (x y : R) : bool := if Rlt_dec x y then true else false.
Definition Rgeb (x y : R) : bool := Rleb y x.
Definition Rgtb (x y : R) : bool := Rltb y x.

(** [x / y] *)
Definition div (x y : R) : Py R :=
  if Req_dec_T y 0 then raise ZeroDivisionError else ret (x / y).

(** [math.sqrt(x)] *)
Definition math_sqrt (x : R) : Py R :=
  if Rlt_dec x 0 then raise ValueError else ret (sqrt x).

(* ================================================================== *)
(** * Input data: [PropiedadesPerfilW] and [CondicionesCarga] *)

Record PropiedadesPerfilW : Type := mkPerfil {
  d : R;  bf : R;  tf : R;  tw : R;
  A : R;
  Ix : R;  Sx : R;  Zx : R;  rx : R;
  Iy : R;  Sy : R;  Zy : R;  ry : R;  ho : R;
  J : R;  Cw : R;
  Fy : R;  Fu : R;  E : R
}.

Record CondicionesCarga : Type := mkCargas {
  Pu : R;  Mux : R;  Muy : R;
  L : R;  Lx : R;  Ly : R;  Lt : R;
  Cb : R
}.

Inductive TipoCarga : Set := TENSION | COMPRESION | FLEXION.

Inductive Eje : Set := FUERTE | DEBIL.

(* ================================================================== *)
(** * Result dictionaries *)

Module Relaciones.
Record t : Type := mk {
  lambda_f : R;  lambda_w : R;
  lambda_p_f_comp : R;  lambda_r_f_comp : R;
  lambda_p_f_flex : R;  lambda_r_f_flex : R;
  lambda_p_w_flex : R;  lambda_r_w_flex : R
}.
End Relaciones.

Module Clasificacion.
Record t : Type := mk {
  patin_compresion : string;
  patin_flexion : string;
  alma_flexion : string;
  relaciones : Relaciones.t
}.
End Clasificacion.

Module Tension.
Record t : Type := mk {
  Pn_fluencia : R;  Pt_fluencia : R;
  Pn_ruptura : R;  Pt_ruptura : R;
  Pt_gobernante : R;
  Pu_aplicada : R;
  RDC : R;
  estado : string;
  modo_gobernante : string;
  ecuaciones_ref : list string
}.
End Tension.

(** Result of [_verificar_compresion_no_esbeltos]. *)
Module E3.
Record t : Type := mk {
  KL_r_x : R;  KL_r_y : R;  KL_r_gobernante : R;
  Fe : R;  lambda_c : R;  Fcr : R;
  Pn : R;  Pc : R;
  Pu_aplicada : R;
  RDC : R;
  estado : string;
  modo_pandeo : string;
  ecuaciones_ref : list string
}.
End E3.

(** Result of [_verificar_compresion_esbeltos]. *)
Module E7.
Record t : Type := mk {
  KL_r_x : R;  KL_r_y : R;  KL_r_gobernante : R;
  Fe : R;  lambda_c : R;  Fcr : R;
  Ae : R;  Fy_mod : R;
  be_patin : R;  be_alma : R;
  Pn : R;  Pc : R;
  Pu_aplicada : R;
  RDC : R;
  estado : string;
  modo_pandeo : string;
  tipo_analisis : string;
  ecuaciones_ref : list string
}.
End E7.

(** [verificar_compresion] returns one dict or the other. *)
Inductive Compresion : Type :=
| NoEsbeltos (r : E3.t)
| Esbeltos (r : E7.t).

(** [compresion['Pc']] *)
Definition Compresion_Pc (r : Compresion) : R :=
  match r with
  | NoEsbeltos r => E3.Pc r
  | Esbeltos r => E7.Pc r
  end.

(** Result of [_verificar_flexion_eje_fuerte]. *)
Module F2.
Record t : Type := mk {
  Lp : R;  Lr : R;  Lt : R;  rts : R;
  Mn : R;  Mb : R;
  Mux_aplicada : R;
  RDC : R;
  estado : string;
  estado_limite : string;
  clasificacion : string;
  ecuaciones_ref : list string
}.
End F2.

(** Result of [_verificar_flexion_eje_debil]. *)
Module F6.
Record t : Type := mk {
  Mn : R;  Mb : R;
  Muy_aplicada : R;
  RDC : R;
  estado : string;
  estado_limite : string;
  clasificacion : string;
  ecuaciones_ref : list string
}.
End F6.

(** [verificar_flexion] returns one dict or the other; both have ['Mb']. *)
Inductive Flexion : Type :=
| EjeFuerte (r : F2.t)
| EjeDebil (r : F6.t).

Definition Flexion_Mb (r : Flexion) : R :=
  match r with
  | EjeFuerte r => F2.Mb r
  | EjeDebil r => F6.Mb r
  end.

Module H1.
Record t : Type := mk {
  interaccion : R;
  ecuacion_aplicada : string;
  Pr_Pc : R;  Mrx_Mcx : R;  Mry_Mcy : R;
  Pr : R;  Pc : R;
  Mrx : R;  Mcx : R;
  Mry : R;  Mcy : R;
  estado : string;
  ecuaciones_ref : list string
}.
End H1.

(** [verificar_interaccion_flexo_compresion] returns either the two-key
  dict [{'estado': 'ERROR', 'nota': ...}] or the full dict. *)
Inductive Interaccion : Type :=
| InteraccionError (estado nota : string)
| InteraccionOk (r : H1.t).

(** The dict built by [validar_todo]; [None] is Python's [None]. *)
Module Resultados.
Record t : Type := mk {
  tension : option Tension.t;
  compresion : option Compresion;
  flexion_eje_fuerte : option Flexion;
  flexion_eje_debil : option Flexion;
  clasificacion_seccion : Clasificacion.t;
  interaccion_flexo_compresion : option Interaccion
}.
End Resultados.

(* ================================================================== *)
(** * The validator *)

Section Validador.

(** [self.perfil], [self.cargas] *)
Variable perfil : PropiedadesPerfilW.
Variable cargas : CondicionesCarga.

(** [math.sqrt(self.perfil.E / self.perfil.Fy)] *)
Definition raiz_E_Fy : Py R :=
  q <- div perfil.(E) perfil.(Fy) ;;
  math_sqrt q.

Definition _clasificar_elemento (lambda_val lambda_p lambda_r : R) : string :=
  if Rleb lambda_val lambda_p then "compacta"
  else if Rleb lambda_val lambda_r then "no_compacta"
  else "esbelta".

Definition clasificar_seccion : Py Clasificacion.t :=
  lambda_f <- div perfil.(bf) (2 * perfil.(tf)) ;;
  lambda_w <- div (perfil.(d) - 2 * perfil.(tf)) perfil.(tw) ;;
  s1 <- raiz_E_Fy ;;
  let lambda_p_f_comp := 0.56 * s1 in
  s2 <- raiz_E_Fy ;;
  let lambda_r_f_comp := 1.49 * s2 in
  s3 <- raiz_E_Fy ;;
  let lambda_p_f_flex := 0.38 * s3 in
  s4 <- raiz_E_Fy ;;
  let lambda_r_f_flex := 1.0 * s4 in
  s5 <- raiz_E_Fy ;;
  let lambda_p_w_flex := 3.76 * s5 in
  s6 <- raiz_E_Fy ;;
  let lambda_r_w_flex := 5.70 * s6 in
  ret {|
    Clasificacion.patin_compresion :=
      _clasificar_elemento lambda_f lambda_p_f_comp lambda_r_f_comp;
    Clasificacion.patin_flexion :=
      _clasificar_elemento lambda_f lambda_p_f_flex lambda_r_f_flex;
    Clasificacion.alma_flexion :=
      _clasificar_elemento lambda_w lambda_p_w_flex lambda_r_w_flex;
    Clasificacion.relaciones := {|
      Relaciones.lambda_f := lambda_f;
      Relaciones.lambda_w := lambda_w;
      Relaciones.lambda_p_f_comp := lambda_p_f_comp;
      Relaciones.lambda_r_f_comp := lambda_r_f_comp;
      Relaciones.lambda_p_f_flex := lambda_p_f_flex;
      Relaciones.lambda_r_f_flex := lambda_r_f_flex;
      Relaciones.lambda_p_w_flex := lambda_p_w_flex;
      Relaciones.lambda_r_w_flex := lambda_r_w_flex
    |}
  |}.

(** ** Chapter D: tension *)

Definition verificar_tension : Py Tension.t :=
  let phi_t_fluencia := 0.9 in
  let Pn_fluencia := perfil.(Fy) * perfil.(A) in
  let Pt_fluencia := phi_t_fluencia * Pn_fluencia in
  let Ae := perfil.(A) in
  let Pn_ruptura := perfil.(Fu) * Ae in
  let phi_t_ruptura := 0.75 in
  let Pt_ruptura := phi_t_ruptura * Pn_ruptura in
  let Pt := Rmin Pt_fluencia Pt_ruptura in
  RDC <- div (Rabs cargas.(Pu)) Pt ;;
  ret {|
    Tension.Pn_fluencia := Pn_fluencia;
    Tension.Pt_fluencia := Pt_fluencia;
    Tension.Pn_ruptura := Pn_ruptura;
    Tension.Pt_ruptura := Pt_ruptura;
    Tension.Pt_gobernante := Pt;
    Tension.Pu_aplicada := cargas.(Pu);
    Tension.RDC := RDC;
    Tension.estado := if Rleb RDC 1.0 then "PASA" else "FALLA";
    Tension.modo_gobernante :=
      if Rltb Pt_fluencia Pt_ruptura then "fluencia" else "ruptura";
    Tension.ecuaciones_ref := ["D2-1"; "D2-2"]
  |}.

(** ** Chapter E: compression *)

(** E3: members without slender elements. *)
Definition _verificar_compresion_no_esbeltos : Py E3.t :=
  KL_r_x <- div cargas.(Lx) perfil.(rx) ;;
  KL_r_y <- div cargas.(Ly) perfil.(ry) ;;
  let KL_r := Rmax KL_r_x KL_r_y in
  Fe <- div (PI ^ 2 * perfil.(E)) (KL_r ^ 2) ;;
  lambda_c <- div perfil.(Fy) Fe ;;
  s <- raiz_E_Fy ;;
  let '(Fcr, modo_pandeo) :=
    if Rleb KL_r (4.71 * s) || Rleb lambda_c 2.25
    then (Rpower 0.658 lambda_c * perfil.(Fy), "inelastico")
    else (0.877 * Fe, "elastico") in
  let Pn := Fcr * perfil.(A) in
  let phi_c := 0.9 in
  let Pc := phi_c * Pn in
  RDC <- div (Rabs cargas.(Pu)) Pc ;;
  ret {|
    E3.KL_r_x := KL_r_x;
    E3.KL_r_y := KL_r_y;
    E3.KL_r_gobernante := KL_r;
    E3.Fe := Fe;
    E3.lambda_c := lambda_c;
    E3.Fcr := Fcr;
    E3.Pn := Pn;
    E3.Pc := Pc;
    E3.Pu_aplicada := Rabs cargas.(Pu);
    E3.RDC := RDC;
    E3.estado := if Rleb RDC 1.0 then "PASA" else "FALLA";
    E3.modo_pandeo := modo_pandeo;
    E3.ecuaciones_ref :=
      ["E3-1"; if String.eqb modo_pandeo "inelastico" then "E3-2" else "E3-3";
       "E3-4"]
  |}.

(** [math.sqrt(Fcl / Fn)] *)
Definition raiz_Fcl_Fn (Fcl Fn : R) : Py R :=
  q <- div Fcl Fn ;;
  math_sqrt q.

(** E7: members with slender elements. *)
Definition _verificar_compresion_esbeltos : Py E7.t :=
  clasificacion <- clasificar_seccion ;;
  let c1 := 0.22 in
  let c2 := 1.49 in
  r0 <- _verificar_compresion_no_esbeltos ;;
  let Fn := E3.Pc r0 in
  be_patin <-
    (if String.eqb (Clasificacion.patin_compresion clasificacion) "esbelta"
     then
       lambda_f <- div perfil.(bf) (2 * perfil.(tf)) ;;
       s <- raiz_E_Fy ;;
       let lambda_r_f := 1.03 * s in
       t <- div lambda_r_f lambda_f ;;
       let Fcl_patin := (c2 * t ^ 2) * perfil.(Fy) in
       let Fcl_patin :=
         if Rgtb Fcl_patin perfil.(Fy) then perfil.(Fy) else Fcl_patin in
       if Rgtb lambda_f lambda_r_f then
         s1 <- raiz_Fcl_Fn Fcl_patin Fn ;;
         s2 <- raiz_Fcl_Fn Fcl_patin Fn ;;
         ret (perfil.(bf) * (1 - c1 * s1) * s2)
       else ret perfil.(bf)
     else ret perfil.(bf)) ;;
  be_alma <-
    (if String.eqb (Clasificacion.alma_flexion clasificacion) "esbelta"
     then
       lambda_w <- div (perfil.(d) - 2 * perfil.(tf)) perfil.(tw) ;;
       s <- raiz_E_Fy ;;
       let lambda_r_w := 5.70 * s in
       t <- div lambda_r_w lambda_w ;;
       let Fcl_alma := (c2 * t ^ 2) * perfil.(Fy) in
       let Fcl_alma :=
         if Rgtb Fcl_alma perfil.(Fy) then perfil.(Fy) else Fcl_alma in
       if Rgtb lambda_w lambda_r_w then
         s1 <- raiz_Fcl_Fn Fcl_alma Fn ;;
         s2 <- raiz_Fcl_Fn Fcl_alma Fn ;;
         ret ((perfil.(d) - 2 * perfil.(tf)) * (1 - c1 * s1) * s2)
       else ret (perfil.(d) - 2 * perfil.(tf))
     else ret (perfil.(d) - 2 * perfil.(tf))) ;;
  let Ae := perfil.(A) - 2 * (perfil.(bf) - be_patin) * perfil.(tf)
            - (perfil.(d) - 2 * perfil.(tf) - be_alma) * perfil.(tw) in
  let Ae := if Rgtb Ae perfil.(A) then perfil.(A) else Ae in
  q <- div Ae perfil.(A) ;;
  let Fy_mod := perfil.(Fy) * q in
  KL_r_x <- div cargas.(Lx) perfil.(rx) ;;
  KL_r_y <- div cargas.(Ly) perfil.(ry) ;;
  let KL_r := Rmax KL_r_x KL_r_y in
  Fe <- div (PI ^ 2 * perfil.(E)) (KL_r ^ 2) ;;
  q1 <- div Fy_mod Fe ;;
  lambda_c <- math_sqrt q1 ;;
  q2 <- div perfil.(E) Fy_mod ;;
  s <- math_sqrt q2 ;;
  let '(Fcr, modo_pandeo) :=
    if Rleb KL_r (4.71 * s) || Rleb lambda_c 2.25
    then (Rpower 0.658 (lambda_c ^ 2) * Fy_mod, "inelastico")
    else (0.877 * Fe, "elastico") in
  let Pn := Fcr * Ae in
  let phi_c := 0.9 in
  let Pc := phi_c * Pn in
  RDC <- div (Rabs cargas.(Pu)) Pc ;;
  ret {|
    E7.KL_r_x := KL_r_x;
    E7.KL_r_y := KL_r_y;
    E7.KL_r_gobernante := KL_r;
    E7.Fe := Fe;
    E7.lambda_c := lambda_c;
    E7.Fcr := Fcr;
    E7.Ae := Ae;
    E7.Fy_mod := Fy_mod;
    E7.be_patin := be_patin;
    E7.be_alma := be_alma;
    E7.Pn := Pn;
    E7.Pc := Pc;
    E7.Pu_aplicada := Rabs cargas.(Pu);
    E7.RDC := RDC;
    E7.estado := if Rleb RDC 1.0 then "PASA" else "FALLA";
    E7.modo_pandeo := modo_pandeo;
    E7.tipo_analisis := "elementos_esbeltos";
    E7.ecuaciones_ref := ["E7-1"; "E7-2"; "E7-3"; "E7-5"]
  |}.

Definition verificar_compresion : Py Compresion :=
  clasificacion <- clasificar_seccion ;;
  if String.eqb (Clasificacion.patin_compresion clasificacion) "esbelta"
     || String.eqb (Clasificacion.alma_flexion clasificacion) "esbelta"
  then r <- _verificar_compresion_esbeltos ;; ret (Esbeltos r)
  else r <- _verificar_compresion_no_esbeltos ;; ret (NoEsbeltos r).

(** ** Chapter F: flexure *)

(** F2: strong axis. *)
Definition _verificar_flexion_eje_fuerte : Py F2.t :=
  clasificacion <- clasificar_seccion ;;
  s <- raiz_E_Fy ;;
  let Lp := 1.76 * perfil.(ry) * s in
  let ho := perfil.(ho) in
  q <- math_sqrt (perfil.(Iy) * perfil.(Cw)) ;;
  q <- div q perfil.(Sx) ;;
  rts <- math_sqrt q ;;
  let c := 1.0 in
  a1 <- div perfil.(E) (0.7 * perfil.(Fy)) ;;
  a2 <- div (perfil.(J) * c) (perfil.(Sx) * ho) ;;
  a3 <- div (perfil.(J) * c) (perfil.(Sx) * ho) ;;
  a4 <- div (0.7 * perfil.(Fy)) perfil.(E) ;;
  a5 <- math_sqrt (a3 ^ 2 + 6.76 * a4 ^ 2) ;;
  a6 <- math_sqrt (a2 + a5) ;;
  let Lr := 1.95 * rts * a1 * a6 in
  '(Mn, estado_limite, ecuacion_ref) <-
    (if Rleb cargas.(Lt) Lp then
       let Mp := perfil.(Fy) * perfil.(Zx) in
       let Mn := Mp in
       ret (Mn, "fluencia", "F2-1")
     else if Rltb cargas.(Lt) Lr && Rleb cargas.(Lt) Lr then
       let Mp := perfil.(Fy) * perfil.(Zx) in
       q <- div ((Mp - 0.7 * perfil.(Fy) * perfil.(Sx)) * (cargas.(Lt) - Lp))
                (Lr - Lp) ;;
       let Mn := cargas.(Cb) * (Mp - q) in
       ret (Mn, "pandeo_LT_inelastico", "F2-2")
     else
       e1 <- div cargas.(Lt) rts ;;
       e2 <- div (cargas.(Cb) * PI ^ 2 * perfil.(E)) (e1 ^ 2) ;;
       e3 <- div (perfil.(J) * c) (perfil.(Sx) * ho) ;;
       e4 <- div cargas.(Lt) rts ;;
       e5 <- math_sqrt (1 + 0.078 * e3 * e4 ^ 2) ;;
       let Fcr := e2 * e5 in
       let Mn := Fcr * perfil.(Sx) in
       let Mn := if Rgtb Mn (perfil.(Fy) * perfil.(Zx))
                 then perfil.(Fy) * perfil.(Zx) else Mn in
       ret (Mn, "pandeo_LT_elastico", "F2-3")) ;;
  let phi_b := 0.9 in
  let Mb := phi_b * Mn in
  RDC <- div (Rabs cargas.(Mux)) Mb ;;
  ret {|
    F2.Lp := Lp;
    F2.Lr := Lr;
    F2.Lt := cargas.(Lt);
    F2.rts := rts;
    F2.Mn := Mn;
    F2.Mb := Mb;
    F2.Mux_aplicada := cargas.(Mux);
    F2.RDC := RDC;
    F2.estado := if Rleb RDC 1.0 then "PASA" else "FALLA";
    F2.estado_limite := estado_limite;
    F2.clasificacion := Clasificacion.patin_flexion clasificacion;
    F2.ecuaciones_ref := [ecuacion_ref; "F2-5"; "F2-6"]
  |}.

(** F6: weak axis. *)
Definition _verificar_flexion_eje_debil : Py F6.t :=
  clasificacion <- clasificar_seccion ;;
  let b := perfil.(bf) in
  let tf := perfil.(tf) in
  let rel := Clasificacion.relaciones clasificacion in
  let lambda_pf := Relaciones.lambda_p_f_flex rel in
  let lambda_rf := Relaciones.lambda_r_f_flex rel in
  let E := perfil.(E) in
  let Fy := perfil.(Fy) in
  let Sy := perfil.(Sy) in
  let Zy := perfil.(Zy) in
  let lambda1 := Relaciones.lambda_f rel in
  q <- div b tf ;;
  Fcr <- div (0.70 * E) (q ^ 2) ;;
  '(Mn, estado_limite, ecuacion_ref) <-
    (if String.eqb (Clasificacion.patin_flexion clasificacion) "compacta" then
       let Mp := Fy * Zy in
       let Mn := Mp in
       ret (Mn, "fluencia", "F6-1")
     else if String.eqb (Clasificacion.patin_flexion clasificacion)
               "no_compacta" then
       let Mp := Fy * Zy in
       q <- div (lambda1 - lambda_pf) (lambda_rf - lambda_pf) ;;
       let Mn := Mp - (Mp - 0.70 * Sy * Sy) * q in
       ret (Mn, "no_compacta", "F6-2")
     else
       let Mn := Fcr * Sy in
       ret (Mn, "esbelta", "F6-3")) ;;
  let phi_b := 0.9 in
  let Mb := phi_b * Mn in
  RDC <- div (Rabs cargas.(Muy)) Mb ;;
  ret {|
    F6.Mn := Mn;
    F6.Mb := Mb;
    F6.Muy_aplicada := cargas.(Muy);
    F6.RDC := RDC;
    F6.estado := if Rleb RDC 1.0 then "PASA" else "FALLA";
    F6.estado_limite := estado_limite;
    F6.clasificacion := Clasificacion.patin_flexion clasificacion;
    F6.ecuaciones_ref := [ecuacion_ref]
  |}.

Definition verificar_flexion (eje : Eje) : Py Flexion :=
  match eje with
  | FUERTE => r <- _verificar_flexion_eje_fuerte ;; ret (EjeFuerte r)
  | DEBIL => r <- _verificar_flexion_eje_debil ;; ret (EjeDebil r)
  end.

(** ** Chapter H: interaction *)

Definition verificar_interaccion_flexo_compresion
    (resultados_previos : Resultados.t) : Py Interaccion :=
  match Resultados.compresion resultados_previos with
  | None =>
      ret (InteraccionError "ERROR" "Se requiere verificación de compresión")
  | Some compresion =>
      let Pc := Compresion_Pc compresion in
      let Mcx := 0 in
      let Mcy := 0 in
      let Mcx :=
        match Resultados.flexion_eje_fuerte resultados_previos with
        | Some f => Flexion_Mb f
        | None => Mcx
        end in
      let Mcy :=
        match Resultados.flexion_eje_debil resultados_previos with
        | Some f => Flexion_Mb f
        | None => Mcy
        end in
      let Pr := Rabs cargas.(Pu) in
      let Mrx := Rabs cargas.(Mux) in
      let Mry := Rabs cargas.(Muy) in
      t <- div Pr Pc ;;
      '(interaccion, ecuacion_aplicada) <-
        (if Rgeb t 0.2 then
           p <- div Pr Pc ;;
           mx <- div Mrx Mcx ;;
           my <- div Mry Mcy ;;
           ret (p + (8.0 / 9.0) * (mx + my), "H1-1a")
         else
           p <- div Pr (2 * Pc) ;;
           mx <- div Mrx Mcx ;;
           my <- div Mry Mcy ;;
           ret (p + (mx + my), "H1-1b")) ;;
      let estado := if Rleb interaccion 1.0 then "PASA" else "FALLA" in
      Pr_Pc <- (if Rgtb Pc 0 then div Pr Pc else ret 0) ;;
      Mrx_Mcx <- (if Rgtb Mcx 0 then div Mrx Mcx else ret 0) ;;
      Mry_Mcy <- (if Rgtb Mcy 0 then div Mry Mcy else ret 0) ;;
      ret (InteraccionOk {|
        H1.interaccion := interaccion;
        H1.ecuacion_aplicada := ecuacion_aplicada;
        H1.Pr_Pc := Pr_Pc;
        H1.Mrx_Mcx := Mrx_Mcx;
        H1.Mry_Mcy := Mry_Mcy;
        H1.Pr := Pr;
        H1.Pc := Pc;
        H1.Mrx := Mrx;
        H1.Mcx := Mcx;
        H1.Mry := Mry;
        H1.Mcy := Mcy;
        H1.estado := estado;
        H1.ecuaciones_ref := [ecuacion_aplicada]
      |})
  end.

(** ** The orchestrator *)

Definition validar_todo : Py Resultados.t :=
  tension <-
    (if Rgtb cargas.(Pu) 0
     then r <- verificar_tension ;; ret (Some r) else ret None) ;;
  compresion <-
    (if Rltb cargas.(Pu) 0
     then r <- verificar_compresion ;; ret (Some r) else ret None) ;;
  flexion_eje_fuerte <-
    (if Rgtb (Rabs cargas.(Mux)) 0
     then r <- verificar_flexion FUERTE ;; ret (Some r) else ret None) ;;
  flexion_eje_debil <-
    (if Rgtb (Rabs cargas.(Muy)) 0
     then r <- verificar_flexion DEBIL ;; ret (Some r) else ret None) ;;
  clasificacion_seccion <- clasificar_seccion ;;
  let resultados := {|
    Resultados.tension := tension;
    Resultados.compresion := compresion;
    Resultados.flexion_eje_fuerte := flexion_eje_fuerte;
    Resultados.flexion_eje_debil := flexion_eje_debil;
    Resultados.clasificacion_seccion := clasificacion_seccion;
    Resultados.interaccion_flexo_compresion := None
  |} in
  if Rltb cargas.(Pu) 0
     && (Rgtb (Rabs cargas.(Mux)) 0 || Rgtb (Rabs cargas.(Muy)) 0)
  then
    i <- verificar_interaccion_flexo_compresion resultados ;;
    ret {|
      Resultados.tension := tension;
      Resultados.compresion := compresion;
      Resultados.flexion_eje_fuerte := flexion_eje_fuerte;
      Resultados.flexion_eje_debil := flexion_eje_debil;
      Resultados.clasificacion_seccion := clasificacion_seccion;
      Resultados.interaccion_flexo_compresion := Some i
    |}
  else ret resultados.

End Validador.

(* ================================================================== *)
(** * Derived quantities

    Closed forms of the intermediate values of the checks, with total
    real division and square root.  The lemmas below show that a check
    which returns has computed exactly these. *)

(** The values the strong-axis check computes before choosing a regime. *)
Definition Lp_F2_5 (perfil : PropiedadesPerfilW) : R :=
  1.76 * ry perfil * sqrt (E perfil / Fy perfil).

Definition rts_F2_7 (perfil : PropiedadesPerfilW) : R :=
  sqrt (sqrt (Iy perfil * Cw perfil) / Sx perfil).

Definition Lr_F2_6 (perfil : PropiedadesPerfilW) : R :=
  1.95 * rts_F2_7 perfil * (E perfil / (0.7 * Fy perfil))
  * sqrt (J perfil * 1.0 / (Sx perfil * ho perfil)
          + sqrt ((J perfil * 1.0 / (Sx perfil * ho perfil)) ^ 2
                  + 6.76 * (0.7 * Fy perfil / E perfil) ^ 2)).

(** F2-1, F2-2 and F2-3/F2-4 as the code writes them. *)
Definition Mn_F2_1 (perfil : PropiedadesPerfilW) : R :=
  Fy perfil * Zx perfil.

Definition Mn_F2_2 (perfil : PropiedadesPerfilW) (Cb Lt Lp Lr : R) : R :=
  Cb * (Fy perfil * Zx perfil
        - (Fy perfil * Zx perfil - 0.7 * Fy perfil * Sx perfil) * (Lt - Lp)
          / (Lr - Lp)).

Definition Fcr_F2_4 (perfil : PropiedadesPerfilW) (Cb Lt : R) : R :=
  Cb * PI ^ 2 * E perfil / (Lt / rts_F2_7 perfil) ^ 2
  * sqrt (1 + 0.078 * (J perfil * 1.0 / (Sx perfil * ho perfil))
              * (Lt / rts_F2_7 perfil) ^ 2).

Definition Mn_F2_3 (perfil : PropiedadesPerfilW) (Cb Lt : R) : R :=
  Rmin (Fcr_F2_4 perfil Cb Lt * Sx perfil) (Fy perfil * Zx perfil).

(** The governing slenderness and the elastic buckling stress E3-4. *)
Definition KL_r_E3 (perfil : PropiedadesPerfilW) (cargas : CondicionesCarga)
    : R :=
  Rmax (Lx cargas / rx perfil) (Ly cargas / ry perfil).

Definition Fe_E3_4 (perfil : PropiedadesPerfilW) (cargas : CondicionesCarga)
    : R :=
  PI ^ 2 * E perfil / KL_r_E3 perfil cargas ^ 2.

(* ================================================================== *)
(** * Sample inputs *)

(** A doubly symmetric I section in kgf and cm.  [E / Fy = 576 = 24^2],
    [rts = 5], [Lp = 168.96] and [Lr = 468] are exact. *)
Definition perfil_S1 : PropiedadesPerfilW := {|
  d := 41.25;  bf := 20;  tf := 1.25;  tw := 0.8;
  A := 100;
  Ix := 13200;  Sx := 640;  Zx := 720;  rx := 11.5;
  Iy := 1600;  Sy := 160;  Zy := 245;  ry := 4;  ho := 40;
  J := 6;  Cw := 160000;
  Fy := 3500;  Fu := 4570;  E := 2016000
|}.

(** Pure axial tension. *)
Definition cargas_tension : CondicionesCarga := {|
  Pu := 157500;  Mux := 0;  Muy := 0;
  L := 300;  Lx := 300;  Ly := 300;  Lt := 300;  Cb := 1
|}.

(** Axial compression with a strong-axis moment only. *)
Definition cargas_un_momento : CondicionesCarga := {|
  Pu := -50000;  Mux := 500000;  Muy := 0;
  L := 300;  Lx := 300;  Ly := 300;  Lt := 100;  Cb := 1
|}.

(** Strong-axis bending with the unbraced length exactly at [Lr]. *)
Definition cargas_Lt_Lr : CondicionesCarga := {|
  Pu := 0;  Mux := 1000000;  Muy := 0;
  L := 468;  Lx := 468;  Ly := 468;  Lt := 468;  Cb := 2
|}.

(** Strong-axis bending with the unbraced length exactly at [Lp]. *)
Definition cargas_Lt_Lp : CondicionesCarga := {|
  Pu := 0;  Mux := 1000000;  Muy := 0;
  L := 168.96;  Lx := 168.96;  Ly := 168.96;  Lt := 168.96;  Cb := 2
|}.

(** Strong-axis bending with [Lp < Lt < Lr] and [Cb = 2]. *)
Definition cargas_inelastico : CondicionesCarga := {|
  Pu := 0;  Mux := 1000000;  Muy := 0;
  L := 300;  Lx := 300;  Ly := 300;  Lt := 300;  Cb := 2
|}.

(** Sample earlier results: Pc = 100, Mcx = Mcy = 90. *)
Definition previos_ejemplo : Resultados.t := {|
  Resultados.tension := None;
  Resultados.compresion :=
    Some (NoEsbeltos
            (E3.mk 40 60 60 5000 (1 / 2) 2 (1000 / 9) 100 50 (1 / 2)
               "PASA" "inelastico" ["E3-1"; "E3-2"; "E3-4"]));
  Resultados.flexion_eje_fuerte :=
    Some (EjeFuerte
            (F2.mk 150 500 100 4 100 90 9 (1 / 10)
               "PASA" "fluencia" "compacta" ["F2-1"; "F2-5"; "F2-6"]));
  Resultados.flexion_eje_debil :=
    Some (EjeDebil
            (F6.mk 100 90 18 (1 / 5) "PASA" "fluencia" "compacta" ["F6-1"]));
  Resultados.clasificacion_seccion :=
    Clasificacion.mk "compacta" "compacta" "compacta"
      (Relaciones.mk 5 30 13 35 9 24 90 137);
  Resultados.interaccion_flexo_compresion := None
|}.


(** Axial compression on a slender column: KL/r = 608 / 4 = 152. *)
Definition cargas_columna : CondicionesCarga := {|
  Pu := -50000;  Mux := 0;  Muy := 0;
  L := 608;  Lx := 608;  Ly := 608;  Lt := 608;  Cb := 1
|}.

(** An I section with thin, wide flanges: bf / (2 tf) = 40 is above
    both slender limits (1.49 * 24 in compression, 1.0 * 24 in flexure);
    the web is not slender. *)
Definition perfil_S2 : PropiedadesPerfilW := {|
  d := 41;  bf := 40;  tf := 0.5;  tw := 0.5;
  A := 60;
  Ix := 18000;  Sx := 880;  Zx := 1000;  rx := 17;
  Iy := 5300;  Sy := 265;  Zy := 405;  ry := 9.4;  ho := 40.5;
  J := 4;  Cw := 2000000;
  Fy := 3500;  Fu := 4570;  E := 2016000
|}.

(** Axial compression with a weak-axis moment; KL/r = 188 / 9.4 = 20. *)
Definition cargas_S2 : CondicionesCarga := {|
  Pu := -20000;  Mux := 0;  Muy := 30000;
  L := 188;  Lx := 188;  Ly := 188;  Lt := 188;  Cb := 1
|}.

(* ================================================================== *)
(** * Further derived quantities *)

(** The width-thickness ratios of Table B4.1 and the dict that
    [clasificar_seccion] builds from them. *)
Definition lambda_f_B4 (perfil : PropiedadesPerfilW) : R :=
  bf perfil / (2 * tf perfil).

Definition lambda_w_B4 (perfil : PropiedadesPerfilW) : R :=
  (d perfil - 2 * tf perfil) / tw perfil.

Definition clasificacion_B4 (perfil : PropiedadesPerfilW) : Clasificacion.t :=
  let s := sqrt (E perfil / Fy perfil) in
  {|
    Clasificacion.patin_compresion :=
      _clasificar_elemento (lambda_f_B4 perfil) (0.56 * s) (1.49 * s);
    Clasificacion.patin_flexion :=
      _clasificar_elemento (lambda_f_B4 perfil) (0.38 * s) (1.0 * s);
    Clasificacion.alma_flexion :=
      _clasificar_elemento (lambda_w_B4 perfil) (3.76 * s) (5.70 * s);
    Clasificacion.relaciones := {|
      Relaciones.lambda_f := lambda_f_B4 perfil;
      Relaciones.lambda_w := lambda_w_B4 perfil;
      Relaciones.lambda_p_f_comp := 0.56 * s;
      Relaciones.lambda_r_f_comp := 1.49 * s;
      Relaciones.lambda_p_f_flex := 0.38 * s;
      Relaciones.lambda_r_f_flex := 1.0 * s;
      Relaciones.lambda_p_w_flex := 3.76 * s;
      Relaciones.lambda_r_w_flex := 5.70 * s
    |}
  |}.

(** More sample loads on [perfil_S1]. *)

(** The same column as [cargas_columna], shorter: KL/r = 300 / 4 = 75. *)
Definition cargas_columna_corta : CondicionesCarga := {|
  Pu := -50000;  Mux := 0;  Muy := 0;
  L := 300;  Lx := 300;  Ly := 300;  Lt := 300;  Cb := 1
|}.


(** The local buckling stress E7-5 of an element with ratio [lambda_e]
    and limit coefficient [coef], capped at Fy, and the effective width
    E7-3 of a width [b] for that stress and the reference stress [Fn],
    with the coefficients c1 = 0.22 and c2 = 1.49 of the code. *)
Definition Fcl_E7_5 (perfil : PropiedadesPerfilW) (coef lambda_e : R) : R :=
  Rmin (1.49 * (coef * sqrt (E perfil / Fy perfil) / lambda_e) ^ 2
        * Fy perfil)
       (Fy perfil).

Definition be_E7_3 (b Fcl Fn : R) : R :=
  b * (1 - 0.22 * sqrt (Fcl / Fn)) * sqrt (Fcl / Fn).

(** [perfil_S1] with a wide, thin flange (bf / (2 tf) = 32, slender in
    flexure); every property that the strong-axis formulas read is that
    of [perfil_S1]. *)
Definition perfil_S1_patin_esbelto : PropiedadesPerfilW := {|
  d := 41.25;  bf := 64;  tf := 1;  tw := 0.8;
  A := 100;
  Ix := 13200;  Sx := 640;  Zx := 720;  rx := 11.5;
  Iy := 1600;  Sy := 160;  Zy := 245;  ry := 4;  ho := 40;
  J := 6;  Cw := 160000;
  Fy := 3500;  Fu := 4570;  E := 2016000
|}.

(** Strong-axis bending further into the inelastic range. *)
Definition cargas_inelastico_largo : CondicionesCarga := {|
  Pu := 0;  Mux := 1000000;  Muy := 0;
  L := 400;  Lx := 400;  Ly := 400;  Lt := 400;  Cb := 2
|}.

(** Weak-axis bending only. *)
Definition cargas_eje_debil : CondicionesCarga := {|
  Pu := 0;  Mux := 0;  Muy := 200000;
  L := 300;  Lx := 300;  Ly := 300;  Lt := 300;  Cb := 1
|}.

(** The capacity the interaction check takes from a flexure slot of the
    previous results: [resultados_previos[...]['Mb']] when the slot is
    filled, and the initial value 0 otherwise. *)
Definition Mb_previo (f : option Flexion) : R :=
  match f with
  | Some f => Flexion_Mb f
  | None => 0
  end.

(** [compresion['estado']] *)
Definition Compresion_estado (r : Compresion) : string :=
  match r with
  | NoEsbeltos r => E3.estado r
  | Esbeltos r => E7.estado r
  end.

(** [flexion['estado']] *)
Definition Flexion_estado (r : Flexion) : string :=
  match r with
  | EjeFuerte r => F2.estado r
  | EjeDebil r => F6.estado r
  end.

(** Loads below those of [previos_ejemplo]'s interaction example. *)
Definition cargas_interaccion : CondicionesCarga :=
  mkCargas (-50) 9 (-18) 300 300 300 100 1.

Definition cargas_interaccion_menor : CondicionesCarga :=
  mkCargas (-10) 9 9 300 300 300 100 1.

(** Two loads on either side of Pr/Pc = 0.2 for [previos_ejemplo]
    (Pc = 100, Mcx = 90), with the same moments. *)
Definition cargas_bajo_02 : CondicionesCarga :=
  mkCargas (-19) 90 0 300 300 300 100 1.

Definition cargas_en_02 : CondicionesCarga :=
  mkCargas (-20) 90 0 300 300 300 100 1.

(** A section whose properties are all positive (J may be zero). *)
Definition perfil_positivo (perfil : PropiedadesPerfilW) : Prop :=
  0 < bf perfil /\ 0 < tf perfil /\ 0 < tw perfil /\ 0 < A perfil /\
  0 < Sx perfil /\ 0 < Zx perfil /\ 0 < rx perfil /\
  0 < Iy perfil /\ 0 < Sy perfil /\ 0 < Zy perfil /\ 0 < ry perfil /\
  0 < ho perfil /\ 0 <= J perfil /\ 0 < Cw perfil /\
  0 < Fy perfil /\ 0 < Fu perfil /\ 0 < E perfil.

(** Neither the flange nor the web is slender for compression. *)
Definition sin_elementos_esbeltos (perfil : PropiedadesPerfilW) : Prop :=
  lambda_f_B4 perfil <= 1.49 * sqrt (E perfil / Fy perfil) /\
  lambda_w_B4 perfil <= 5.70 * sqrt (E perfil / Fy perfil).

(** Compression with exactly one of the two moments. *)
Definition un_solo_momento (cargas : CondicionesCarga) : Prop :=
  Pu cargas < 0 /\
  ((Mux cargas = 0 /\ Muy cargas <> 0) \/
   (Mux cargas <> 0 /\ Muy cargas = 0)).

(** Compression with both moments, small against the capacities of
    [perfil_S1]. *)
Definition cargas_flexo_compresion : CondicionesCarga := {|
  Pu := -1000;  Mux := 10000;  Muy := -5000;
  L := 300;  Lx := 300;  Ly := 300;  Lt := 100;  Cb := 1
|}.

(** [perfil_S1] with a web of no thickness. *)
Definition perfil_S1_sin_alma : PropiedadesPerfilW := {|
  d := 41.25;  bf := 20;  tf := 1.25;  tw := 0;
  A := 100;
  Ix := 13200;  Sx := 640;  Zx := 720;  rx := 11.5;
  Iy := 1600;  Sy := 160;  Zy := 245;  ry := 4;  ho := 40;
  J := 6;  Cw := 160000;
  Fy := 3500;  Fu := 4570;  E := 2016000
|}.

(* ================================================================== *)
(** * The catalogue [perfiles_aisc.py] *)

(** The catalogue has a class of its own, also called
    [PropiedadesPerfilW], without the modulus E; its table and functions
    live in a module named after the Python module.  Names are Python
    strings of ASCII characters: on these [str.lower] changes the letters
    A to Z only, and the order of [sorted] is the order of the character
    codes. *)
Module perfiles_aisc.

Record PropiedadesPerfilW : Type := mk {
  d : R;  bf : R;  tf : R;  tw : R;  A : R;
  Ix : R;  Sx : R;  Zx : R;  rx : R;
  Iy : R;  Sy : R;  Zy : R;  ry : R;
  J : R;  Cw : R;  ho : R;
  Fy : R;  Fu : R
}.

(** [raise ValueError(mensaje)] *)
Inductive Excepcion : Type :=
| ValueError (mensaje : string).

(** ** The table, in the order of the source *)

Definition w44x335 : PropiedadesPerfilW := {|
  d := 114.05;  bf := 40.16;  tf := 3.61;  tw := 2.36;  A := 642.58;
  Ix := 527934.82;  Sx := 9258.25;  Zx := 10409.15;  rx := 28.68;
  Iy := 54789.93;  Sy := 2728.35;  Zy := 4131.37;  ry := 9.22;
  J := 312.98;  Cw := 6746259.74;  ho := 110.44;  Fy := 3515;  Fu := 4570
|}.

Definition w44x290 : PropiedadesPerfilW := {|
  d := 112.65;  bf := 39.88;  tf := 3.05;  tw := 2.01;  A := 556.13;
  Ix := 453349.76;  Sx := 8049.82;  Zx := 9012.26;  rx := 28.55;
  Iy := 46633.85;  Sy := 2338.43;  Zy := 3540.09;  ry := 9.17;
  J := 206.90;  Cw := 5656699.37;  ho := 109.60;  Fy := 3515;  Fu := 4570
|}.

Definition w44x230 : PropiedadesPerfilW := {|
  d := 109.73;  bf := 39.37;  tf := 2.36;  tw := 1.57;  A := 441.29;
  Ix := 352862.44;  Sx := 6432.97;  Zx := 7150.46;  rx := 28.27;
  Iy := 35689.36;  Sy := 1812.67;  Zy := 2738.74;  ry := 9.02;
  J := 102.06;  Cw := 4194879.00;  ho := 107.37;  Fy := 3515;  Fu := 4570
|}.

Definition w40x503 : PropiedadesPerfilW := {|
  d := 106.50;  bf := 42.47;  tf := 5.18;  tw := 3.33;  A := 964.52;
  Ix := 548688.37;  Sx := 10309.23;  Zx := 11797.72;  rx := 23.85;
  Iy := 86066.08;  Sy := 4053.79;  Zy := 6145.81;  ry := 9.45;
  J := 880.26;  Cw := 8847551.57;  ho := 101.32;  Fy := 3515;  Fu := 4570
|}.

Definition w40x397 : PropiedadesPerfilW := {|
  d := 102.92;  bf := 41.15;  tf := 3.99;  tw := 2.57;  A := 760.00;
  Ix := 416930.90;  Sx := 8105.35;  Zx := 9175.91;  rx := 23.42;
  Iy := 64558.64;  Sy := 3138.19;  Zy := 4752.23;  ry := 9.22;
  J := 463.55;  Cw := 6368811.42;  ho := 98.93;  Fy := 3515;  Fu := 4570
|}.

Definition w40x331 : PropiedadesPerfilW := {|
  d := 100.33;  bf := 40.26;  tf := 3.28;  tw := 2.13;  A := 634.84;
  Ix := 340773.08;  Sx := 6794.44;  Zx := 7649.30;  rx := 23.19;
  Iy := 52238.27;  Sy := 2594.78;  Zy := 3917.88;  ry := 9.07;
  J := 295.08;  Cw := 4987879.95;  ho := 97.05;  Fy := 3515;  Fu := 4570
|}.

Definition w36x300 : PropiedadesPerfilW := {|
  d := 94.74;  bf := 40.64;  tf := 2.77;  tw := 1.78;  A := 575.48;
  Ix := 292881.35;  Sx := 6182.91;  Zx := 6943.19;  rx := 22.53;
  Iy := 43965.44;  Sy := 2164.22;  Zy := 3278.70;  ry := 8.74;
  J := 214.82;  Cw := 4492472.62;  ho := 91.97;  Fy := 3515;  Fu := 4570
|}.

Definition w36x232 : PropiedadesPerfilW := {|
  d := 91.95;  bf := 39.88;  tf := 2.11;  tw := 1.37;  A := 444.52;
  Ix := 221943.75;  Sx := 4827.51;  Zx := 5384.65;  rx := 22.35;
  Iy := 33169.41;  Sy := 1663.68;  Zy := 2516.13;  ry := 8.64;
  J := 105.18;  Cw := 3219466.88;  ho := 89.84;  Fy := 3515;  Fu := 4570
|}.

Definition w36x194 : PropiedadesPerfilW := {|
  d := 90.37;  bf := 30.48;  tf := 2.13;  tw := 1.27;  A := 371.61;
  Ix := 183787.46;  Sx := 4068.38;  Zx := 4509.13;  rx := 22.25;
  Iy := 15569.18;  Sy := 1021.94;  Zy := 1567.74;  ry := 6.48;
  J := 86.99;  Cw := 1270506.24;  ho := 88.24;  Fy := 3515;  Fu := 4570
|}.

Definition w36x160 : PropiedadesPerfilW := {|
  d := 88.90;  bf := 30.48;  tf := 1.73;  tw := 1.02;  A := 306.45;
  Ix := 149762.81;  Sx := 3369.02;  Zx := 3722.60;  rx := 22.10;
  Iy := 12569.87;  Sy := 825.16;  Zy := 1264.52;  ry := 6.40;
  J := 48.26;  Cw := 998533.44;  ho := 87.17;  Fy := 3515;  Fu := 4570
|}.

Definition w36x135 : PropiedadesPerfilW := {|
  d := 87.63;  bf := 30.48;  tf := 1.40;  tw := 0.79;  A := 258.06;
  Ix := 122819.88;  Sx := 2804.84;  Zx := 3080.64;  rx := 21.82;
  Iy := 10088.61;  Sy := 662.26;  Zy := 1012.90;  ry := 6.25;
  J := 25.75;  Cw := 760855.68;  ho := 86.23;  Fy := 3515;  Fu := 4570
|}.

Definition w33x241 : PropiedadesPerfilW := {|
  d := 87.50;  bf := 40.64;  tf := 2.39;  tw := 1.40;  A := 462.58;
  Ix := 233569.68;  Sx := 5340.42;  Zx := 5983.61;  rx := 22.48;
  Iy := 36522.48;  Sy := 1798.19;  Zy := 2721.29;  ry := 8.89;
  J := 148.64;  Cw := 3777691.87;  ho := 85.11;  Fy := 3515;  Fu := 4570
|}.

Definition w33x201 : PropiedadesPerfilW := {|
  d := 85.34;  bf := 40.13;  tf := 1.96;  tw := 1.17;  A := 385.48;
  Ix := 191064.28;  Sx := 4478.12;  Zx := 4994.99;  rx := 22.28;
  Iy := 29670.69;  Sy := 1479.40;  Zy := 2239.35;  ry := 8.79;
  J := 84.77;  Cw := 2895289.92;  ho := 83.38;  Fy := 3515;  Fu := 4570
|}.

Definition w33x152 : PropiedadesPerfilW := {|
  d := 83.44;  bf := 28.96;  tf := 1.88;  tw := 1.07;  A := 291.61;
  Ix := 143975.72;  Sx := 3452.00;  Zx := 3814.84;  rx := 22.23;
  Iy := 11902.04;  Sy := 822.58;  Zy := 1262.90;  ry := 6.40;
  J := 64.77;  Cw := 1142125.44;  ho := 81.56;  Fy := 3515;  Fu := 4570
|}.

Definition w33x130 : PropiedadesPerfilW := {|
  d := 82.30;  bf := 28.96;  tf := 1.57;  tw := 0.89;  A := 249.03;
  Ix := 120929.76;  Sx := 2941.76;  Zx := 3243.87;  rx := 22.05;
  Iy := 9912.26;  Sy := 685.16;  Zy := 1049.68;  ry := 6.30;
  J := 38.71;  Cw := 887709.12;  ho := 80.73;  Fy := 3515;  Fu := 4570
|}.

Definition w33x118 : PropiedadesPerfilW := {|
  d := 81.59;  bf := 28.96;  tf := 1.40;  tw := 0.76;  A := 226.45;
  Ix := 108012.48;  Sx := 2648.65;  Zx := 2913.55;  rx := 21.87;
  Iy := 8797.42;  Sy := 607.87;  Zy := 929.68;  ry := 6.25;
  J := 27.42;  Cw := 761690.88;  ho := 80.19;  Fy := 3515;  Fu := 4570
|}.

Definition w30x211 : PropiedadesPerfilW := {|
  d := 79.88;  bf := 38.81;  tf := 2.16;  tw := 1.27;  A := 404.52;
  Ix := 173886.24;  Sx := 4355.48;  Zx := 4862.26;  rx := 20.73;
  Iy := 28654.08;  Sy := 1477.42;  Zy := 2237.42;  ry := 8.41;
  J := 117.42;  Cw := 2744958.72;  ho := 77.72;  Fy := 3515;  Fu := 4570
|}.

Definition w30x173 : PropiedadesPerfilW := {|
  d := 77.85;  bf := 38.05;  tf := 1.73;  tw := 1.07;  A := 331.61;
  Ix := 139331.52;  Sx := 3580.65;  Zx := 3978.71;  rx := 20.52;
  Iy := 22752.26;  Sy := 1196.13;  Zy := 1808.39;  ry := 8.28;
  J := 63.87;  Cw := 2041709.44;  ho := 76.12;  Fy := 3515;  Fu := 4570
|}.

Definition w30x132 : PropiedadesPerfilW := {|
  d := 76.20;  bf := 26.67;  tf := 1.65;  tw := 0.97;  A := 253.55;
  Ix := 104887.68;  Sx := 2753.87;  Zx := 3039.35;  rx := 20.35;
  Iy := 8264.52;  Sy := 620.00;  Zy := 953.55;  ry := 5.72;
  J := 46.13;  Cw := 751822.08;  ho := 74.55;  Fy := 3515;  Fu := 4570
|}.

Definition w30x124 : PropiedadesPerfilW := {|
  d := 75.69;  bf := 26.42;  tf := 1.57;  tw := 0.89;  A := 237.42;
  Ix := 98273.55;  Sx := 2598.06;  Zx := 2864.52;  rx := 20.35;
  Iy := 7735.48;  Sy := 585.81;  Zy := 897.42;  ry := 5.72;
  J := 39.35;  Cw := 694870.08;  ho := 74.12;  Fy := 3515;  Fu := 4570
|}.

Definition w30x116 : PropiedadesPerfilW := {|
  d := 75.18;  bf := 26.67;  tf := 1.42;  tw := 0.84;  A := 222.58;
  Ix := 91659.42;  Sx := 2439.35;  Zx := 2689.03;  rx := 20.27;
  Iy := 7206.45;  Sy := 540.65;  Zy := 826.45;  ry := 5.69;
  J := 30.97;  Cw := 633564.48;  ho := 73.76;  Fy := 3515;  Fu := 4570
|}.

Definition w30x108 : PropiedadesPerfilW := {|
  d := 74.68;  bf := 26.42;  tf := 1.32;  tw := 0.76;  A := 207.10;
  Ix := 84544.90;  Sx := 2264.52;  Zx := 2493.87;  rx := 20.22;
  Iy := 6593.55;  Sy := 499.35;  Zy := 763.87;  ry := 5.64;
  J := 24.52;  Cw := 566904.96;  ho := 73.36;  Fy := 3515;  Fu := 4570
|}.

Definition w30x99 : PropiedadesPerfilW := {|
  d := 74.17;  bf := 26.67;  tf := 1.17;  tw := 0.64;  A := 189.68;
  Ix := 76547.10;  Sx := 2064.52;  Zx := 2267.74;  rx := 20.12;
  Iy := 5896.77;  Sy := 442.58;  Zy := 676.13;  ry := 5.59;
  J := 16.77;  Cw := 482293.76;  ho := 73.00;  Fy := 3515;  Fu := 4570
|}.

Definition w30x90 : PropiedadesPerfilW := {|
  d := 73.66;  bf := 26.42;  tf := 1.04;  tw := 0.61;  A := 172.26;
  Ix := 68966.13;  Sx := 1873.55;  Zx := 2051.61;  rx := 20.02;
  Iy := 5264.52;  Sy := 398.71;  Zy := 609.03;  ry := 5.54;
  J := 12.26;  Cw := 424941.12;  ho := 72.62;  Fy := 3515;  Fu := 4570
|}.

Definition w27x178 : PropiedadesPerfilW := {|
  d := 71.12;  bf := 35.81;  tf := 1.93;  tw := 1.19;  A := 341.29;
  Ix := 133709.03;  Sx := 3761.29;  Zx := 4194.84;  rx := 19.79;
  Iy := 20736.77;  Sy := 1158.71;  Zy := 1753.55;  ry := 7.80;
  J := 89.03;  Cw := 1875774.72;  ho := 69.19;  Fy := 3515;  Fu := 4570
|}.

Definition w27x146 : PropiedadesPerfilW := {|
  d := 69.34;  bf := 35.56;  tf := 1.57;  tw := 0.97;  A := 280.00;
  Ix := 107548.39;  Sx := 3102.58;  Zx := 3437.42;  rx := 19.61;
  Iy := 16469.03;  Sy := 926.45;  Zy := 1400.00;  ry := 7.67;
  J := 49.03;  Cw := 1389535.68;  ho := 67.77;  Fy := 3515;  Fu := 4570
|}.

Definition w27x114 : PropiedadesPerfilW := {|
  d := 68.07;  bf := 25.91;  tf := 1.57;  tw := 0.84;  A := 218.71;
  Ix := 84461.29;  Sx := 2483.23;  Zx := 2738.71;  rx := 19.66;
  Iy := 6777.42;  Sy := 523.87;  Zy := 803.87;  ry := 5.56;
  J := 38.06;  Cw := 607741.44;  ho := 66.50;  Fy := 3515;  Fu := 4570
|}.

Definition w27x102 : PropiedadesPerfilW := {|
  d := 67.31;  bf := 25.40;  tf := 1.42;  tw := 0.79;  A := 195.48;
  Ix := 75631.61;  Sx := 2248.39;  Zx := 2473.55;  rx := 19.66;
  Iy := 6031.61;  Sy := 475.48;  Zy := 727.74;  ry := 5.56;
  J := 29.03;  Cw := 538064.64;  ho := 65.89;  Fy := 3515;  Fu := 4570
|}.

Definition w27x94 : PropiedadesPerfilW := {|
  d := 66.80;  bf := 25.40;  tf := 1.27;  tw := 0.74;  A := 180.65;
  Ix := 69435.48;  Sx := 2079.35;  Zx := 2283.87;  rx := 19.61;
  Iy := 5515.48;  Sy := 434.84;  Zy := 664.52;  ry := 5.51;
  J := 22.58;  Cw := 480386.88;  ho := 65.53;  Fy := 3515;  Fu := 4570
|}.

Definition w27x84 : PropiedadesPerfilW := {|
  d := 66.04;  bf := 25.40;  tf := 1.12;  tw := 0.64;  A := 161.29;
  Ix := 61187.10;  Sx := 1853.55;  Zx := 2028.39;  rx := 19.51;
  Iy := 4833.55;  Sy := 381.29;  Zy := 581.29;  ry := 5.46;
  J := 15.48;  Cw := 407225.28;  ho := 65.92;  Fy := 3515;  Fu := 4570
|}.

Definition w24x162 : PropiedadesPerfilW := {|
  d := 63.25;  bf := 32.77;  tf := 1.73;  tw := 1.07;  A := 310.97;
  Ix := 109631.61;  Sx := 3468.39;  Zx := 3869.03;  rx := 18.77;
  Iy := 17238.71;  Sy := 1052.26;  Zy := 1593.55;  ry := 7.44;
  J := 74.19;  Cw := 1579693.44;  ho := 61.52;  Fy := 3515;  Fu := 4570
|}.

Definition w24x146 : PropiedadesPerfilW := {|
  d := 62.74;  bf := 32.51;  tf := 1.57;  tw := 0.97;  A := 280.00;
  Ix := 98523.87;  Sx := 3141.94;  Zx := 3491.61;  rx := 18.77;
  Iy := 15319.35;  Sy := 942.58;  Zy := 1426.45;  ry := 7.39;
  J := 56.77;  Cw := 1401858.56;  ho := 61.17;  Fy := 3515;  Fu := 4570
|}.

Definition w24x131 : PropiedadesPerfilW := {|
  d := 62.23;  bf := 32.26;  tf := 1.40;  tw := 0.89;  A := 251.61;
  Ix := 87416.13;  Sx := 2809.68;  Zx := 3114.84;  rx := 18.67;
  Iy := 13483.87;  Sy := 836.77;  Zy := 1264.52;  ry := 7.32;
  J := 42.58;  Cw := 1225858.56;  ho := 60.83;  Fy := 3515;  Fu := 4570
|}.

Definition w24x117 : PropiedadesPerfilW := {|
  d := 61.73;  bf := 32.26;  tf := 1.24;  tw := 0.79;  A := 224.52;
  Ix := 77391.61;  Sx := 2508.39;  Zx := 2774.84;  rx := 18.57;
  Iy := 11896.77;  Sy := 738.71;  Zy := 1115.48;  ry := 7.29;
  J := 31.61;  Cw := 1067380.80;  ho := 60.49;  Fy := 3515;  Fu := 4570
|}.

Definition w24x104 : PropiedadesPerfilW := {|
  d := 61.21;  bf := 32.01;  tf := 1.09;  tw := 0.74;  A := 199.35;
  Ix := 68133.55;  Sx := 2226.45;  Zx := 2454.84;  rx := 18.49;
  Iy := 10393.55;  Sy := 649.68;  Zy := 979.35;  ry := 7.21;
  J := 22.58;  Cw := 915612.48;  ho := 60.12;  Fy := 3515;  Fu := 4570
|}.

Definition w24x94 : PropiedadesPerfilW := {|
  d := 60.96;  bf := 22.86;  tf := 1.29;  tw := 0.74;  A := 180.00;
  Ix := 63069.03;  Sx := 2069.03;  Zx := 2281.29;  rx := 18.72;
  Iy := 4999.35;  Sy := 437.42;  Zy := 672.26;  ry := 5.26;
  J := 23.87;  Cw := 421777.92;  ho := 59.67;  Fy := 3515;  Fu := 4570
|}.

Definition w24x84 : PropiedadesPerfilW := {|
  d := 60.45;  bf := 22.86;  tf := 1.14;  tw := 0.66;  A := 160.65;
  Ix := 55803.87;  Sx := 1847.74;  Zx := 2032.26;  rx := 18.62;
  Iy := 4383.87;  Sy := 383.87;  Zy := 589.03;  ry := 5.21;
  J := 16.77;  Cw := 361612.80;  ho := 60.31;  Fy := 3515;  Fu := 4570
|}.

Definition w24x76 : PropiedadesPerfilW := {|
  d := 59.94;  bf := 22.86;  tf := 1.02;  tw := 0.58;  A := 145.16;
  Ix := 49871.61;  Sx := 1664.52;  Zx := 1828.39;  rx := 18.54;
  Iy := 3893.55;  Sy := 340.65;  Zy := 522.58;  ry := 5.18;
  J := 11.61;  Cw := 311225.28;  ho := 60.92;  Fy := 3515;  Fu := 4570
|}.

Definition w24x68 : PropiedadesPerfilW := {|
  d := 59.69;  bf := 22.61;  tf := 0.89;  tw := 0.53;  A := 130.32;
  Ix := 44122.58;  Sx := 1479.35;  Zx := 1621.94;  rx := 18.39;
  Iy := 3403.23;  Sy := 301.29;  Zy := 461.29;  ry := 5.11;
  J := 8.39;  Cw := 264709.12;  ho := 60.80;  Fy := 3515;  Fu := 4570
|}.

Definition w24x62 : PropiedadesPerfilW := {|
  d := 59.44;  bf := 17.78;  tf := 1.02;  tw := 0.58;  A := 118.71;
  Ix := 41393.55;  Sx := 1393.55;  Zx := 1530.97;  rx := 18.67;
  Iy := 1803.87;  Sy := 203.23;  Zy := 315.48;  ry := 3.89;
  J := 10.97;  Cw := 125806.08;  ho := 58.42;  Fy := 3515;  Fu := 4570
|}.

Definition w24x55 : PropiedadesPerfilW := {|
  d := 58.93;  bf := 17.78;  tf := 0.89;  tw := 0.51;  A := 105.81;
  Ix := 36393.55;  Sx := 1235.48;  Zx := 1352.26;  rx := 18.57;
  Iy := 1567.74;  Sy := 176.77;  Zy := 273.55;  ry := 3.84;
  J := 7.10;  Cw := 105225.28;  ho := 58.04;  Fy := 3515;  Fu := 4570
|}.

Definition w21x201 : PropiedadesPerfilW := {|
  d := 56.39;  bf := 31.24;  tf := 2.01;  tw := 1.30;  A := 385.81;
  Ix := 104804.52;  Sx := 3717.42;  Zx := 4175.48;  rx := 16.48;
  Iy := 16969.03;  Sy := 1086.45;  Zy := 1653.55;  ry := 6.63;
  J := 115.48;  Cw := 1434838.56;  ho := 54.38;  Fy := 3515;  Fu := 4570
|}.

Definition w21x182 : PropiedadesPerfilW := {|
  d := 55.63;  bf := 31.24;  tf := 1.78;  tw := 1.19;  A := 348.39;
  Ix := 93447.10;  Sx := 3361.29;  Zx := 3762.58;  rx := 16.38;
  Iy := 15069.03;  Sy := 965.16;  Zy := 1465.81;  ry := 6.58;
  J := 87.10;  Cw := 1260322.56;  ho := 53.85;  Fy := 3515;  Fu := 4570
|}.

Definition w21x166 : PropiedadesPerfilW := {|
  d := 55.12;  bf := 30.99;  tf := 1.63;  tw := 1.09;  A := 318.71;
  Ix := 84339.35;  Sx := 3061.94;  Zx := 3422.58;  rx := 16.26;
  Iy := 13583.87;  Sy := 876.77;  Zy := 1330.97;  ry := 6.53;
  J := 67.74;  Cw := 1121548.80;  ho := 53.49;  Fy := 3515;  Fu := 4570
|}.

Definition w21x147 : PropiedadesPerfilW := {|
  d := 54.36;  bf := 30.48;  tf := 1.42;  tw := 0.97;  A := 282.58;
  Ix := 73231.61;  Sx := 2694.84;  Zx := 3000.00;  rx := 16.10;
  Iy := 11731.61;  Sy := 770.32;  Zy := 1166.45;  ry := 6.45;
  J := 47.10;  Cw := 956870.88;  ho := 52.94;  Fy := 3515;  Fu := 4570
|}.

Definition w21x132 : PropiedadesPerfilW := {|
  d := 53.85;  bf := 30.48;  tf := 1.27;  tw := 0.89;  A := 253.55;
  Ix := 65150.97;  Sx := 2421.29;  Zx := 2690.32;  rx := 16.03;
  Iy := 10393.55;  Sy := 682.58;  Zy := 1033.55;  ry := 6.40;
  J := 34.19;  Cw := 834838.56;  ho := 52.58;  Fy := 3515;  Fu := 4570
|}.

Definition w21x122 : PropiedadesPerfilW := {|
  d := 53.59;  bf := 30.48;  tf := 1.17;  tw := 0.81;  A := 233.55;
  Ix := 59820.00;  Sx := 2233.55;  Zx := 2477.42;  rx := 16.00;
  Iy := 9544.52;  Sy := 626.45;  Zy := 948.39;  ry := 6.38;
  J := 27.10;  Cw := 755806.08;  ho := 52.42;  Fy := 3515;  Fu := 4570
|}.

Definition w21x111 : PropiedadesPerfilW := {|
  d := 53.09;  bf := 30.23;  tf := 1.04;  tw := 0.74;  A := 213.55;
  Ix := 53739.35;  Sx := 2024.52;  Zx := 2241.94;  rx := 15.87;
  Iy := 8529.68;  Sy := 564.52;  Zy := 853.55;  ry := 6.32;
  J := 19.35;  Cw := 660000.00;  ho := 52.05;  Fy := 3515;  Fu := 4570
|}.

Definition w21x101 : PropiedadesPerfilW := {|
  d := 52.83;  bf := 30.48;  tf := 0.94;  tw := 0.66;  A := 193.55;
  Ix := 48075.48;  Sx := 1821.29;  Zx := 2013.55;  rx := 15.77;
  Iy := 7598.71;  Sy := 499.35;  Zy := 754.84;  ry := 6.27;
  J := 13.55;  Cw := 572129.28;  ho := 51.89;  Fy := 3515;  Fu := 4570
|}.

Definition w21x93 : PropiedadesPerfilW := {|
  d := 52.32;  bf := 20.83;  tf := 1.22;  tw := 0.74;  A := 178.71;
  Ix := 45597.42;  Sx := 1744.52;  Zx := 1928.39;  rx := 15.98;
  Iy := 3768.39;  Sy := 361.94;  Zy := 557.42;  ry := 4.59;
  J := 18.71;  Cw := 266064.96;  ho := 51.10;  Fy := 3515;  Fu := 4570
|}.

Definition w21x83 : PropiedadesPerfilW := {|
  d := 51.82;  bf := 20.83;  tf := 1.07;  tw := 0.66;  A := 159.35;
  Ix := 40177.42;  Sx := 1551.61;  Zx := 1712.90;  rx := 15.88;
  Iy := 3268.39;  Sy := 313.55;  Zy := 482.58;  ry := 4.52;
  J := 12.58;  Cw := 221225.28;  ho := 50.75;  Fy := 3515;  Fu := 4570
|}.

Definition w21x73 : PropiedadesPerfilW := {|
  d := 51.56;  bf := 20.83;  tf := 0.94;  tw := 0.58;  A := 140.65;
  Ix := 35174.19;  Sx := 1366.45;  Zx := 1503.87;  rx := 15.80;
  Iy := 2851.61;  Sy := 273.55;  Zy := 419.35;  ry := 4.50;
  J := 8.71;  Cw := 187096.32;  ho := 50.62;  Fy := 3515;  Fu := 4570
|}.

Definition w21x68 : PropiedadesPerfilW := {|
  d := 51.31;  bf := 20.83;  tf := 0.86;  tw := 0.53;  A := 130.32;
  Ix := 32612.26;  Sx := 1272.26;  Zx := 1398.71;  rx := 15.80;
  Iy := 2601.29;  Sy := 249.68;  Zy := 382.58;  ry := 4.47;
  J := 6.77;  Cw := 168193.92;  ho := 50.45;  Fy := 3515;  Fu := 4570
|}.

Definition w21x62 : PropiedadesPerfilW := {|
  d := 52.07;  bf := 20.83;  tf := 0.79;  tw := 0.51;  A := 118.71;
  Ix := 30000.00;  Sx := 1153.55;  Zx := 1271.61;  rx := 15.90;
  Iy := 2393.55;  Sy := 229.68;  Zy := 351.61;  ry := 4.49;
  J := 5.16;  Cw := 153870.72;  ho := 51.28;  Fy := 3515;  Fu := 4570
|}.

Definition w21x57 : PropiedadesPerfilW := {|
  d := 51.56;  bf := 16.51;  tf := 0.91;  tw := 0.51;  A := 109.03;
  Ix := 27935.48;  Sx := 1084.52;  Zx := 1194.84;  rx := 16.00;
  Iy := 1351.61;  Sy := 163.87;  Zy := 254.84;  ry := 3.51;
  J := 6.13;  Cw := 86967.84;  ho := 50.65;  Fy := 3515;  Fu := 4570
|}.

Definition w21x50 : PropiedadesPerfilW := {|
  d := 51.31;  bf := 16.51;  tf := 0.79;  tw := 0.46;  A := 96.13;
  Ix := 24387.10;  Sx := 951.61;  Zx := 1046.45;  rx := 15.93;
  Iy := 1169.03;  Sy := 141.94;  Zy := 220.65;  ry := 3.48;
  J := 4.19;  Cw := 72580.80;  ho := 50.52;  Fy := 3515;  Fu := 4570
|}.

Definition w21x48 : PropiedadesPerfilW := {|
  d := 51.05;  bf := 20.32;  tf := 0.69;  tw := 0.43;  A := 91.61;
  Ix := 23580.65;  Sx := 924.52;  Zx := 1016.77;  rx := 16.05;
  Iy := 1967.74;  Sy := 193.55;  Zy := 296.77;  ry := 4.63;
  J := 3.87;  Cw := 124129.28;  ho := 50.36;  Fy := 3515;  Fu := 4570
|}.

Definition w21x44 : PropiedadesPerfilW := {|
  d := 52.32;  bf := 16.51;  tf := 0.71;  tw := 0.43;  A := 84.52;
  Ix := 22193.55;  Sx := 848.39;  Zx := 932.26;  rx := 16.21;
  Iy := 1085.81;  Sy := 131.61;  Zy := 204.52;  ry := 3.58;
  J := 3.23;  Cw := 66774.72;  ho := 51.61;  Fy := 3515;  Fu := 4570
|}.

Definition w18x192 : PropiedadesPerfilW := {|
  d := 48.01;  bf := 28.19;  tf := 2.01;  tw := 1.32;  A := 368.39;
  Ix := 83461.29;  Sx := 3479.35;  Zx := 3929.03;  rx := 15.04;
  Iy := 13900.00;  Sy := 986.45;  Zy := 1509.68;  ry := 6.15;
  J := 109.03;  Cw := 1076129.28;  ho := 46.00;  Fy := 3515;  Fu := 4570
|}.

Definition w18x175 : PropiedadesPerfilW := {|
  d := 47.50;  bf := 28.19;  tf := 1.83;  tw := 1.19;  A := 335.48;
  Ix := 75547.10;  Sx := 3181.94;  Zx := 3584.52;  rx := 15.01;
  Iy := 12566.45;  Sy := 891.61;  Zy := 1364.52;  ry := 6.12;
  J := 83.87;  Cw := 967096.32;  ho := 45.67;  Fy := 3515;  Fu := 4570
|}.

Definition w18x158 : PropiedadesPerfilW := {|
  d := 46.99;  bf := 28.19;  tf := 1.65;  tw := 1.09;  A := 303.23;
  Ix := 67966.45;  Sx := 2893.55;  Zx := 3254.84;  rx := 14.96;
  Iy := 11316.77;  Sy := 803.23;  Zy := 1228.39;  ry := 6.10;
  J := 63.87;  Cw := 867096.32;  ho := 45.34;  Fy := 3515;  Fu := 4570
|}.

Definition w18x143 : PropiedadesPerfilW := {|
  d := 46.48;  bf := 27.94;  tf := 1.47;  tw := 0.99;  A := 274.19;
  Ix := 60551.61;  Sx := 2605.81;  Zx := 2927.74;  rx := 14.86;
  Iy := 10066.45;  Sy := 720.65;  Zy := 1101.29;  ry := 6.05;
  J := 47.10;  Cw := 768193.92;  ho := 45.01;  Fy := 3515;  Fu := 4570
|}.

Definition w18x130 : PropiedadesPerfilW := {|
  d := 45.97;  bf := 27.69;  tf := 1.32;  tw := 0.89;  A := 249.03;
  Ix := 54303.23;  Sx := 2362.58;  Zx := 2651.61;  rx := 14.78;
  Iy := 8983.87;  Sy := 649.68;  Zy := 990.32;  ry := 6.00;
  J := 35.48;  Cw := 679354.56;  ho := 44.65;  Fy := 3515;  Fu := 4570
|}.

Definition w18x119 : PropiedadesPerfilW := {|
  d := 45.72;  bf := 27.94;  tf := 1.19;  tw := 0.81;  A := 228.39;
  Ix := 49221.94;  Sx := 2153.55;  Zx := 2415.48;  rx := 14.68;
  Iy := 8180.65;  Sy := 585.81;  Zy := 893.55;  ry := 5.99;
  J := 26.45;  Cw := 611225.28;  ho := 44.53;  Fy := 3515;  Fu := 4570
|}.

Definition w18x106 : PropiedadesPerfilW := {|
  d := 45.21;  bf := 27.69;  tf := 1.04;  tw := 0.74;  A := 203.23;
  Ix := 43140.65;  Sx := 1909.68;  Zx := 2138.71;  rx := 14.58;
  Iy := 7127.74;  Sy := 514.84;  Zy := 785.81;  ry := 5.92;
  J := 18.39;  Cw := 523870.72;  ho := 44.17;  Fy := 3515;  Fu := 4570
|}.

Definition w18x97 : PropiedadesPerfilW := {|
  d := 44.96;  bf := 27.94;  tf := 0.94;  tw := 0.66;  A := 185.81;
  Ix := 38725.81;  Sx := 1724.52;  Zx := 1927.74;  rx := 14.43;
  Iy := 6427.74;  Sy := 460.00;  Zy := 702.58;  ry := 5.87;
  J := 12.90;  Cw := 459354.56;  ho := 44.02;  Fy := 3515;  Fu := 4570
|}.

Definition w18x86 : PropiedadesPerfilW := {|
  d := 45.97;  bf := 27.94;  tf := 0.84;  tw := 0.58;  A := 165.16;
  Ix := 34310.97;  Sx := 1493.55;  Zx := 1664.52;  rx := 14.43;
  Iy := 5764.52;  Sy := 412.90;  Zy := 630.97;  ry := 5.92;
  J := 9.03;  Cw := 406451.52;  ho := 45.13;  Fy := 3515;  Fu := 4570
|}.

Definition w18x76 : PropiedadesPerfilW := {|
  d := 45.21;  bf := 27.94;  tf := 0.74;  tw := 0.53;  A := 145.81;
  Ix := 30312.90;  Sx := 1341.29;  Zx := 1491.61;  rx := 14.40;
  Iy := 5101.29;  Sy := 365.16;  Zy := 556.13;  ry := 5.92;
  J := 6.45;  Cw := 355806.08;  ho := 45.47;  Fy := 3515;  Fu := 4570
|}.

Definition w18x71 : PropiedadesPerfilW := {|
  d := 45.97;  bf := 19.05;  tf := 1.02;  tw := 0.61;  A := 136.13;
  Ix := 29589.68;  Sx := 1288.39;  Zx := 1434.84;  rx := 14.73;
  Iy := 2393.55;  Sy := 251.61;  Zy := 389.68;  ry := 4.19;
  J := 9.03;  Cw := 154838.56;  ho := 44.95;  Fy := 3515;  Fu := 4570
|}.

Definition w18x65 : PropiedadesPerfilW := {|
  d := 45.72;  bf := 19.05;  tf := 0.91;  tw := 0.53;  A := 124.52;
  Ix := 26699.35;  Sx := 1169.03;  Zx := 1298.71;  rx := 14.63;
  Iy := 2143.87;  Sy := 225.16;  Zy := 347.74;  ry := 4.14;
  J := 6.45;  Cw := 135483.84;  ho := 44.81;  Fy := 3515;  Fu := 4570
|}.

Definition w18x60 : PropiedadesPerfilW := {|
  d := 45.72;  bf := 19.05;  tf := 0.84;  tw := 0.51;  A := 114.84;
  Ix := 24554.84;  Sx := 1075.48;  Zx := 1194.84;  rx := 14.63;
  Iy := 1977.42;  Sy := 207.74;  Zy := 320.65;  ry := 4.14;
  J := 5.16;  Cw := 123870.72;  ho := 44.88;  Fy := 3515;  Fu := 4570
|}.

Definition w18x55 : PropiedadesPerfilW := {|
  d := 45.72;  bf := 19.05;  tf := 0.76;  tw := 0.46;  A := 105.16;
  Ix := 22410.32;  Sx := 981.94;  Zx := 1090.97;  rx := 14.61;
  Iy := 1811.61;  Sy := 190.32;  Zy := 293.55;  ry := 4.14;
  J := 3.87;  Cw := 112258.08;  ho := 44.96;  Fy := 3515;  Fu := 4570
|}.

Definition w18x50 : PropiedadesPerfilW := {|
  d := 45.72;  bf := 19.05;  tf := 0.69;  tw := 0.41;  A := 95.48;
  Ix := 20100.00;  Sx := 880.65;  Zx := 976.13;  rx := 14.50;
  Iy := 1645.16;  Sy := 172.90;  Zy := 266.45;  ry := 4.14;
  J := 2.90;  Cw := 100645.44;  ho := 45.03;  Fy := 3515;  Fu := 4570
|}.

Definition w18x46 : PropiedadesPerfilW := {|
  d := 45.97;  bf := 15.24;  tf := 0.79;  tw := 0.46;  A := 88.39;
  Ix := 19393.55;  Sx := 844.52;  Zx := 936.77;  rx := 14.81;
  Iy := 973.55;  Sy := 127.74;  Zy := 199.35;  ry := 3.32;
  J := 3.55;  Cw := 52258.08;  ho := 45.18;  Fy := 3515;  Fu := 4570
|}.

Definition w18x40 : PropiedadesPerfilW := {|
  d := 45.47;  bf := 15.24;  tf := 0.69;  tw := 0.41;  A := 76.77;
  Ix := 16783.87;  Sx := 739.35;  Zx := 818.71;  rx := 14.78;
  Iy := 835.48;  Sy := 109.68;  Zy := 171.61;  ry := 3.30;
  J := 2.26;  Cw := 42580.80;  ho := 45.78;  Fy := 3515;  Fu := 4570
|}.

Definition w18x35 : PropiedadesPerfilW := {|
  d := 44.96;  bf := 15.24;  tf := 0.61;  tw := 0.36;  A := 67.10;
  Ix := 14472.26;  Sx := 644.52;  Zx := 710.97;  rx := 14.68;
  Iy := 719.35;  Sy := 94.52;  Zy := 147.74;  ry := 3.28;
  J := 1.61;  Cw := 35483.84;  ho := 45.35;  Fy := 3515;  Fu := 4570
|}.

Definition w16x100 : PropiedadesPerfilW := {|
  d := 43.18;  bf := 25.40;  tf := 1.17;  tw := 0.76;  A := 191.61;
  Ix := 41977.42;  Sx := 1945.16;  Zx := 2187.10;  rx := 14.81;
  Iy := 5931.61;  Sy := 467.10;  Zy := 717.42;  ry := 5.56;
  J := 22.58;  Cw := 419354.56;  ho := 42.01;  Fy := 3515;  Fu := 4570
|}.

Definition w16x89 : PropiedadesPerfilW := {|
  d := 42.67;  bf := 25.40;  tf := 1.02;  tw := 0.66;  A := 170.32;
  Ix := 36810.97;  Sx := 1725.81;  Zx := 1933.55;  rx := 14.71;
  Iy := 5185.81;  Sy := 408.39;  Zy := 626.45;  ry := 5.51;
  J := 15.48;  Cw := 359354.56;  ho := 41.65;  Fy := 3515;  Fu := 4570
|}.

Definition w16x77 : PropiedadesPerfilW := {|
  d := 42.16;  bf := 25.40;  tf := 0.89;  tw := 0.58;  A := 147.74;
  Ix := 31644.52;  Sx := 1502.58;  Zx := 1680.00;  rx := 14.63;
  Iy := 4440.00;  Sy := 349.68;  Zy := 536.77;  ry := 5.49;
  J := 10.32;  Cw := 299354.56;  ho := 41.27;  Fy := 3515;  Fu := 4570
|}.

Definition w16x67 : PropiedadesPerfilW := {|
  d := 41.91;  bf := 25.40;  tf := 0.76;  tw := 0.51;  A := 128.39;
  Ix := 27561.29;  Sx := 1316.13;  Zx := 1467.74;  rx := 14.63;
  Iy := 3860.00;  Sy := 304.52;  Zy := 466.45;  ry := 5.49;
  J := 6.77;  Cw := 250967.04;  ho := 41.15;  Fy := 3515;  Fu := 4570
|}.

Definition w16x57 : PropiedadesPerfilW := {|
  d := 40.89;  bf := 18.03;  tf := 0.89;  tw := 0.53;  A := 109.03;
  Ix := 23996.77;  Sx := 1174.19;  Zx := 1307.74;  rx := 14.83;
  Iy := 1811.61;  Sy := 201.29;  Zy := 312.90;  ry := 4.09;
  J := 7.10;  Cw := 105225.28;  ho := 40.00;  Fy := 3515;  Fu := 4570
|}.

Definition w16x50 : PropiedadesPerfilW := {|
  d := 40.64;  bf := 18.03;  tf := 0.79;  tw := 0.46;  A := 95.48;
  Ix := 21018.71;  Sx := 1035.48;  Zx := 1151.61;  rx := 14.83;
  Iy := 1562.58;  Sy := 173.55;  Zy := 269.68;  ry := 4.04;
  J := 4.84;  Cw := 88387.20;  ho := 39.85;  Fy := 3515;  Fu := 4570
|}.

Definition w16x45 : PropiedadesPerfilW := {|
  d := 40.39;  bf := 17.78;  tf := 0.71;  tw := 0.43;  A := 86.45;
  Ix := 18790.32;  Sx := 931.61;  Zx := 1035.48;  rx := 14.76;
  Iy := 1396.77;  Sy := 157.42;  Zy := 244.52;  ry := 4.01;
  J := 3.55;  Cw := 78064.64;  ho := 39.68;  Fy := 3515;  Fu := 4570
|}.

Definition w16x40 : PropiedadesPerfilW := {|
  d := 40.64;  bf := 17.78;  tf := 0.66;  tw := 0.41;  A := 76.77;
  Ix := 17145.16;  Sx := 844.52;  Zx := 938.71;  rx := 14.93;
  Iy := 1314.84;  Sy := 148.39;  Zy := 230.32;  ry := 4.14;
  J := 2.90;  Cw := 73548.48;  ho := 39.98;  Fy := 3515;  Fu := 4570
|}.

Definition w16x36 : PropiedadesPerfilW := {|
  d := 40.39;  bf := 17.78;  tf := 0.58;  tw := 0.36;  A := 69.03;
  Ix := 15251.61;  Sx := 756.77;  Zx := 838.71;  rx := 14.86;
  Iy := 1149.03;  Sy := 129.68;  Zy := 201.29;  ry := 4.09;
  J := 2.10;  Cw := 63548.48;  ho := 39.81;  Fy := 3515;  Fu := 4570
|}.

Definition w16x31 : PropiedadesPerfilW := {|
  d := 39.88;  bf := 14.02;  tf := 0.61;  tw := 0.38;  A := 59.35;
  Ix := 13357.42;  Sx := 670.32;  Zx := 739.35;  rx := 15.01;
  Iy := 635.48;  Sy := 90.65;  Zy := 142.58;  ry := 3.28;
  J := 1.94;  Cw := 31612.80;  ho := 39.27;  Fy := 3515;  Fu := 4570
|}.

Definition w16x26 : PropiedadesPerfilW := {|
  d := 39.37;  bf := 13.97;  tf := 0.51;  tw := 0.30;  A := 49.68;
  Ix := 10883.87;  Sx := 553.55;  Zx := 607.74;  rx := 14.81;
  Iy := 518.71;  Sy := 74.19;  Zy := 116.13;  ry := 3.23;
  J := 1.13;  Cw := 24709.12;  ho := 38.86;  Fy := 3515;  Fu := 4570
|}.

Definition w14x808 : PropiedadesPerfilW := {|
  d := 45.21;  bf := 43.18;  tf := 7.62;  tw := 4.83;  A := 1548.39;
  Ix := 330225.81;  Sx := 14612.90;  Zx := 16677.42;  rx := 14.61;
  Iy := 99900.00;  Sy := 4627.74;  Zy := 7154.84;  ry := 8.03;
  J := 1619.35;  Cw := 6667096.32;  ho := 37.59;  Fy := 3515;  Fu := 4570
|}.

Definition w14x730 : PropiedadesPerfilW := {|
  d := 43.43;  bf := 42.42;  tf := 6.81;  tw := 4.32;  A := 1398.71;
  Ix := 286354.84;  Sx := 13193.55;  Zx := 15000.00;  rx := 14.30;
  Iy := 86066.45;  Sy := 4058.06;  Zy := 6280.65;  ry := 7.85;
  J := 1258.06;  Cw := 5667096.32;  ho := 36.62;  Fy := 3515;  Fu := 4570
|}.

Definition w14x665 : PropiedadesPerfilW := {|
  d := 42.16;  bf := 41.66;  tf := 6.22;  tw := 3.94;  A := 1274.19;
  Ix := 255193.55;  Sx := 12109.68;  Zx := 13774.19;  rx := 14.17;
  Iy := 75464.52;  Sy := 3622.58;  Zy := 5612.90;  ry := 7.70;
  J := 1019.35;  Cw := 4800000.00;  ho := 35.94;  Fy := 3515;  Fu := 4570
|}.

Definition w14x605 : PropiedadesPerfilW := {|
  d := 40.89;  bf := 41.15;  tf := 5.64;  tw := 3.58;  A := 1159.35;
  Ix := 226354.84;  Sx := 11070.97;  Zx := 12580.65;  rx := 13.97;
  Iy := 66150.00;  Sy := 3216.13;  Zy := 4983.87;  ry := 7.55;
  J := 829.03;  Cw := 4100000.00;  ho := 35.25;  Fy := 3515;  Fu := 4570
|}.

Definition w14x550 : PropiedadesPerfilW := {|
  d := 39.62;  bf := 40.39;  tf := 5.13;  tw := 3.25;  A := 1054.84;
  Ix := 199193.55;  Sx := 10051.61;  Zx := 11419.35;  rx := 13.74;
  Iy := 57483.87;  Sy := 2848.39;  Zy := 4415.48;  ry := 7.39;
  J := 667.74;  Cw := 3467096.32;  ho := 34.49;  Fy := 3515;  Fu := 4570
|}.

Definition w14x500 : PropiedadesPerfilW := {|
  d := 38.61;  bf := 39.88;  tf := 4.65;  tw := 2.95;  A := 958.06;
  Ix := 176612.90;  Sx := 9148.39;  Zx := 10387.10;  rx := 13.57;
  Iy := 50483.87;  Sy := 2532.26;  Zy := 3925.81;  ry := 7.26;
  J := 541.29;  Cw := 2967096.32;  ho := 33.96;  Fy := 3515;  Fu := 4570
|}.

Definition w14x455 : PropiedadesPerfilW := {|
  d := 37.59;  bf := 39.37;  tf := 4.24;  tw := 2.69;  A := 872.26;
  Ix := 156612.90;  Sx := 8332.26;  Zx := 9451.61;  rx := 13.41;
  Iy := 44150.00;  Sy := 2243.87;  Zy := 3477.42;  ry := 7.11;
  J := 438.71;  Cw := 2534193.92;  ho := 33.35;  Fy := 3515;  Fu := 4570
|}.

Definition w14x426 : PropiedadesPerfilW := {|
  d := 36.83;  bf := 39.12;  tf := 3.94;  tw := 2.51;  A := 816.77;
  Ix := 145193.55;  Sx := 7887.74;  Zx := 8935.48;  rx := 13.34;
  Iy := 40566.45;  Sy := 2074.19;  Zy := 3215.48;  ry := 7.04;
  J := 379.35;  Cw := 2267096.32;  ho := 32.89;  Fy := 3515;  Fu := 4570
|}.

Definition w14x398 : PropiedadesPerfilW := {|
  d := 36.07;  bf := 38.61;  tf := 3.68;  tw := 2.34;  A := 763.23;
  Ix := 133612.90;  Sx := 7406.45;  Zx := 8387.10;  rx := 13.23;
  Iy := 37150.00;  Sy := 1925.16;  Zy := 2983.87;  ry := 6.98;
  J := 319.35;  Cw := 2000000.00;  ho := 32.39;  Fy := 3515;  Fu := 4570
|}.

Definition w14x370 : PropiedadesPerfilW := {|
  d := 35.56;  bf := 38.35;  tf := 3.40;  tw := 2.16;  A := 709.68;
  Ix := 122612.90;  Sx := 6896.77;  Zx := 7806.45;  rx := 13.16;
  Iy := 33900.00;  Sy := 1767.74;  Zy := 2738.71;  ry := 6.91;
  J := 267.74;  Cw := 1767096.32;  ho := 32.16;  Fy := 3515;  Fu := 4570
|}.

Definition w14x342 : PropiedadesPerfilW := {|
  d := 34.80;  bf := 37.85;  tf := 3.15;  tw := 2.01;  A := 656.13;
  Ix := 112196.77;  Sx := 6451.61;  Zx := 7287.10;  rx := 13.08;
  Iy := 30650.00;  Sy := 1619.35;  Zy := 2509.68;  ry := 6.83;
  J := 225.81;  Cw := 1567096.32;  ho := 31.65;  Fy := 3515;  Fu := 4570
|}.

Definition w14x311 : PropiedadesPerfilW := {|
  d := 34.04;  bf := 37.34;  tf := 2.87;  tw := 1.83;  A := 596.13;
  Ix := 101032.26;  Sx := 5935.48;  Zx := 6700.00;  rx := 13.01;
  Iy := 27150.00;  Sy := 1454.84;  Zy := 2254.84;  ry := 6.76;
  J := 183.87;  Cw := 1367096.32;  ho := 31.17;  Fy := 3515;  Fu := 4570
|}.

Definition w14x283 : PropiedadesPerfilW := {|
  d := 33.53;  bf := 36.83;  tf := 2.62;  tw := 1.68;  A := 542.58;
  Ix := 90612.90;  Sx := 5406.45;  Zx := 6106.45;  rx := 12.93;
  Iy := 24233.87;  Sy := 1316.13;  Zy := 2041.94;  ry := 6.68;
  J := 150.00;  Cw := 1200000.00;  ho := 30.91;  Fy := 3515;  Fu := 4570
|}.

Definition w14x257 : PropiedadesPerfilW := {|
  d := 32.77;  bf := 36.32;  tf := 2.39;  tw := 1.52;  A := 492.26;
  Ix := 81032.26;  Sx := 4951.61;  Zx := 5580.65;  rx := 12.85;
  Iy := 21650.00;  Sy := 1193.55;  Zy := 1848.39;  ry := 6.63;
  J := 122.58;  Cw := 1034193.92;  ho := 30.38;  Fy := 3515;  Fu := 4570
|}.

Definition w14x233 : PropiedadesPerfilW := {|
  d := 32.26;  bf := 35.81;  tf := 2.16;  tw := 1.37;  A := 447.10;
  Ix := 72612.90;  Sx := 4503.23;  Zx := 5077.42;  rx := 12.75;
  Iy := 19400.00;  Sy := 1083.87;  Zy := 1677.42;  ry := 6.58;
  J := 99.35;  Cw := 901290.24;  ho := 30.10;  Fy := 3515;  Fu := 4570
|}.

Definition w14x211 : PropiedadesPerfilW := {|
  d := 31.75;  bf := 35.56;  tf := 1.96;  tw := 1.24;  A := 404.52;
  Ix := 65032.26;  Sx := 4096.77;  Zx := 4612.90;  rx := 12.68;
  Iy := 17400.00;  Sy := 977.42;  Zy := 1512.90;  ry := 6.55;
  J := 79.35;  Cw := 787096.32;  ho := 29.79;  Fy := 3515;  Fu := 4570
|}.

Definition w14x193 : PropiedadesPerfilW := {|
  d := 31.24;  bf := 35.05;  tf := 1.78;  tw := 1.14;  A := 370.32;
  Ix := 58532.26;  Sx := 3748.39;  Zx := 4219.35;  rx := 12.58;
  Iy := 15650.00;  Sy := 893.55;  Zy := 1380.65;  ry := 6.50;
  J := 64.52;  Cw := 687096.32;  ho := 29.46;  Fy := 3515;  Fu := 4570
|}.

Definition w14x176 : PropiedadesPerfilW := {|
  d := 30.73;  bf := 34.80;  tf := 1.63;  tw := 1.04;  A := 337.42;
  Ix := 52612.90;  Sx := 3425.81;  Zx := 3854.84;  rx := 12.50;
  Iy := 14150.00;  Sy := 813.55;  Zy := 1258.06;  ry := 6.48;
  J := 52.58;  Cw := 600000.00;  ho := 29.10;  Fy := 3515;  Fu := 4570
|}.

Definition w14x159 : PropiedadesPerfilW := {|
  d := 30.23;  bf := 34.29;  tf := 1.47;  tw := 0.94;  A := 305.16;
  Ix := 46780.65;  Sx := 3096.77;  Zx := 3480.65;  rx := 12.40;
  Iy := 12650.00;  Sy := 738.71;  Zy := 1141.94;  ry := 6.43;
  J := 42.58;  Cw := 520000.00;  ho := 28.76;  Fy := 3515;  Fu := 4570
|}.

Definition w14x145 : PropiedadesPerfilW := {|
  d := 29.97;  bf := 39.88;  tf := 1.32;  tw := 0.84;  A := 278.06;
  Ix := 42532.26;  Sx := 2838.71;  Zx := 3193.55;  rx := 12.37;
  Iy := 11483.87;  Sy := 576.13;  Zy := 893.55;  ry := 6.43;
  J := 34.19;  Cw := 453548.16;  ho := 28.65;  Fy := 3515;  Fu := 4570
|}.

Definition w14x132 : PropiedadesPerfilW := {|
  d := 29.46;  bf := 39.62;  tf := 1.19;  tw := 0.76;  A := 253.55;
  Ix := 38283.87;  Sx := 2600.00;  Zx := 2919.35;  rx := 12.30;
  Iy := 10316.13;  Sy := 520.65;  Zy := 806.45;  ry := 6.38;
  J := 27.10;  Cw := 399354.56;  ho := 28.27;  Fy := 3515;  Fu := 4570
|}.

Definition w14x120 : PropiedadesPerfilW := {|
  d := 29.21;  bf := 39.37;  tf := 1.07;  tw := 0.69;  A := 230.97;
  Ix := 34533.87;  Sx := 2367.74;  Zx := 2654.84;  rx := 12.22;
  Iy := 9316.13;  Sy := 473.55;  Zy := 733.55;  ry := 6.35;
  J := 21.29;  Cw := 351612.80;  ho := 28.14;  Fy := 3515;  Fu := 4570
|}.

Definition w14x109 : PropiedadesPerfilW := {|
  d := 28.96;  bf := 39.12;  tf := 0.97;  tw := 0.61;  A := 209.03;
  Ix := 31033.87;  Sx := 2141.94;  Zx := 2400.00;  rx := 12.17;
  Iy := 8400.00;  Sy := 429.68;  Zy := 664.52;  ry := 6.33;
  J := 16.13;  Cw := 308387.20;  ho := 27.99;  Fy := 3515;  Fu := 4570
|}.

Definition w14x99 : PropiedadesPerfilW := {|
  d := 28.45;  bf := 38.61;  tf := 0.89;  tw := 0.56;  A := 190.32;
  Ix := 27783.87;  Sx := 1954.84;  Zx := 2187.10;  rx := 12.09;
  Iy := 7566.45;  Sy := 391.61;  Zy := 606.45;  ry := 6.30;
  J := 12.26;  Cw := 270967.04;  ho := 27.56;  Fy := 3515;  Fu := 4570
|}.

Definition w14x90 : PropiedadesPerfilW := {|
  d := 28.19;  bf := 38.35;  tf := 0.79;  tw := 0.51;  A := 172.90;
  Ix := 24866.45;  Sx := 1764.52;  Zx := 1974.19;  rx := 12.00;
  Iy := 6816.13;  Sy := 355.48;  Zy := 550.00;  ry := 6.27;
  J := 8.71;  Cw := 235483.84;  ho := 27.40;  Fy := 3515;  Fu := 4570
|}.

Definition w14x82 : PropiedadesPerfilW := {|
  d := 27.94;  bf := 25.40;  tf := 0.89;  tw := 0.51;  A := 157.42;
  Ix := 22700.00;  Sx := 1625.81;  Zx := 1816.13;  rx := 12.01;
  Iy := 3150.00;  Sy := 248.39;  Zy := 385.81;  ry := 4.47;
  J := 9.68;  Cw := 119354.56;  ho := 27.05;  Fy := 3515;  Fu := 4570
|}.

Definition w14x74 : PropiedadesPerfilW := {|
  d := 27.94;  bf := 25.40;  tf := 0.79;  tw := 0.46;  A := 142.58;
  Ix := 20366.45;  Sx := 1458.06;  Zx := 1625.81;  rx := 11.96;
  Iy := 2816.13;  Sy := 221.94;  Zy := 344.52;  ry := 4.45;
  J := 6.77;  Cw := 104129.28;  ho := 27.15;  Fy := 3515;  Fu := 4570
|}.

Definition w14x68 : PropiedadesPerfilW := {|
  d := 27.69;  bf := 25.40;  tf := 0.74;  tw := 0.41;  A := 130.32;
  Ix := 18533.87;  Sx := 1341.29;  Zx := 1496.13;  rx := 11.91;
  Iy := 2566.45;  Sy := 202.58;  Zy := 314.19;  ry := 4.42;
  J := 5.16;  Cw := 93548.48;  ho := 26.95;  Fy := 3515;  Fu := 4570
|}.

Definition w14x61 : PropiedadesPerfilW := {|
  d := 27.43;  bf := 25.15;  tf := 0.66;  tw := 0.38;  A := 117.42;
  Ix := 16450.00;  Sx := 1200.00;  Zx := 1335.48;  rx := 11.84;
  Iy := 2266.45;  Sy := 180.65;  Zy := 280.65;  ry := 4.39;
  J := 3.55;  Cw := 80000.00;  ho := 26.77;  Fy := 3515;  Fu := 4570
|}.

Definition w14x53 : PropiedadesPerfilW := {|
  d := 33.02;  bf := 20.32;  tf := 0.66;  tw := 0.36;  A := 101.29;
  Ix := 14533.87;  Sx := 880.65;  Zx := 983.87;  rx := 11.99;
  Iy := 1066.45;  Sy := 105.16;  Zy := 164.52;  ry := 3.25;
  J := 3.55;  Cw := 32580.80;  ho := 32.36;  Fy := 3515;  Fu := 4570
|}.

Definition w14x48 : PropiedadesPerfilW := {|
  d := 32.77;  bf := 20.32;  tf := 0.61;  tw := 0.33;  A := 91.61;
  Ix := 13150.00;  Sx := 803.23;  Zx := 896.77;  rx := 11.96;
  Iy := 966.45;  Sy := 95.48;  Zy := 149.68;  ry := 3.25;
  J := 2.58;  Cw := 28387.20;  ho := 32.16;  Fy := 3515;  Fu := 4570
|}.

Definition w14x43 : PropiedadesPerfilW := {|
  d := 32.26;  bf := 20.32;  tf := 0.53;  tw := 0.30;  A := 82.58;
  Ix := 11566.45;  Sx := 718.06;  Zx := 800.00;  rx := 11.84;
  Iy := 850.00;  Sy := 83.87;  Zy := 131.61;  ry := 3.20;
  J := 2.10;  Cw := 24129.28;  ho := 31.73;  Fy := 3515;  Fu := 4570
|}.

Definition w14x38 : PropiedadesPerfilW := {|
  d := 37.85;  bf := 17.02;  tf := 0.51;  tw := 0.30;  A := 72.90;
  Ix := 10650.00;  Sx := 563.23;  Zx := 628.39;  rx := 12.09;
  Iy := 434.84;  Sy := 51.13;  Zy := 80.65;  ry := 2.44;
  J := 1.61;  Cw := 9677.52;  ho := 37.34;  Fy := 3515;  Fu := 4570
|}.

Definition w14x34 : PropiedadesPerfilW := {|
  d := 35.56;  bf := 16.76;  tf := 0.46;  tw := 0.28;  A := 65.16;
  Ix := 9400.00;  Sx := 529.03;  Zx := 589.03;  rx := 12.01;
  Iy := 385.81;  Sy := 46.13;  Zy := 72.26;  ry := 2.44;
  J := 1.29;  Cw := 8387.20;  ho := 35.10;  Fy := 3515;  Fu := 4570
|}.

Definition w14x30 : PropiedadesPerfilW := {|
  d := 35.05;  bf := 16.51;  tf := 0.41;  tw := 0.25;  A := 57.42;
  Ix := 8150.00;  Sx := 465.16;  Zx := 516.77;  rx := 11.91;
  Iy := 333.87;  Sy := 40.65;  Zy := 63.87;  ry := 2.41;
  J := 0.97;  Cw := 7096.32;  ho := 34.64;  Fy := 3515;  Fu := 4570
|}.

Definition w14x26 : PropiedadesPerfilW := {|
  d := 34.80;  bf := 12.70;  tf := 0.46;  tw := 0.25;  A := 49.68;
  Ix := 7233.87;  Sx := 415.48;  Zx := 462.58;  rx := 12.09;
  Iy := 186.45;  Sy := 29.35;  Zy := 46.45;  ry := 1.94;
  J := 0.97;  Cw := 3225.60;  ho := 34.34;  Fy := 3515;  Fu := 4570
|}.

Definition w14x22 : PropiedadesPerfilW := {|
  d := 34.29;  bf := 12.70;  tf := 0.38;  tw := 0.23;  A := 42.58;
  Ix := 6066.45;  Sx := 354.19;  Zx := 393.55;  rx := 11.96;
  Iy := 155.48;  Sy := 24.52;  Zy := 38.71;  ry := 1.91;
  J := 0.65;  Cw := 2580.80;  ho := 33.91;  Fy := 3515;  Fu := 4570
|}.

Definition w12x336 : PropiedadesPerfilW := {|
  d := 34.29;  bf := 32.26;  tf := 3.00;  tw := 1.91;  A := 644.52;
  Ix := 93033.87;  Sx := 5429.03;  Zx := 6193.55;  rx := 12.01;
  Iy := 23233.87;  Sy := 1441.94;  Zy := 2225.81;  ry := 6.00;
  J := 200.00;  Cw := 1300000.00;  ho := 31.29;  Fy := 3515;  Fu := 4570
|}.

Definition w12x305 : PropiedadesPerfilW := {|
  d := 33.53;  bf := 31.75;  tf := 2.74;  tw := 1.75;  A := 585.81;
  Ix := 83866.45;  Sx := 5006.45;  Zx := 5706.45;  rx := 11.96;
  Iy := 20650.00;  Sy := 1300.00;  Zy := 2006.45;  ry := 5.94;
  J := 161.29;  Cw := 1134193.92;  ho := 30.79;  Fy := 3515;  Fu := 4570
|}.

Definition w12x279 : PropiedadesPerfilW := {|
  d := 32.77;  bf := 31.50;  tf := 2.49;  tw := 1.60;  A := 535.48;
  Ix := 75700.00;  Sx := 4622.58;  Zx := 5258.06;  rx := 11.89;
  Iy := 18400.00;  Sy := 1167.74;  Zy := 1800.00;  ry := 5.87;
  J := 130.97;  Cw := 1001290.24;  ho := 30.28;  Fy := 3515;  Fu := 4570
|}.

Definition w12x252 : PropiedadesPerfilW := {|
  d := 32.26;  bf := 30.99;  tf := 2.26;  tw := 1.45;  A := 483.87;
  Ix := 67866.45;  Sx := 4209.68;  Zx := 4787.10;  rx := 11.84;
  Iy := 16400.00;  Sy := 1058.06;  Zy := 1632.26;  ry := 5.82;
  J := 105.81;  Cw := 887096.32;  ho := 30.00;  Fy := 3515;  Fu := 4570
|}.

Definition w12x230 : PropiedadesPerfilW := {|
  d := 31.75;  bf := 30.48;  tf := 2.06;  tw := 1.32;  A := 441.29;
  Ix := 61450.00;  Sx := 3870.97;  Zx := 4403.23;  rx := 11.81;
  Iy := 14733.87;  Sy := 967.74;  Zy := 1490.32;  ry := 5.77;
  J := 86.45;  Cw := 787096.32;  ho := 29.69;  Fy := 3515;  Fu := 4570
|}.

Definition w12x210 : PropiedadesPerfilW := {|
  d := 31.24;  bf := 30.23;  tf := 1.88;  tw := 1.19;  A := 403.23;
  Ix := 55533.87;  Sx := 3554.84;  Zx := 4038.71;  rx := 11.73;
  Iy := 13233.87;  Sy := 875.48;  Zy := 1348.39;  ry := 5.72;
  J := 69.68;  Cw := 687096.32;  ho := 29.36;  Fy := 3515;  Fu := 4570
|}.

Definition w12x190 : PropiedadesPerfilW := {|
  d := 30.73;  bf := 29.72;  tf := 1.70;  tw := 1.09;  A := 364.52;
  Ix := 49700.00;  Sx := 3235.48;  Zx := 3677.42;  rx := 11.68;
  Iy := 11816.13;  Sy := 795.48;  Zy := 1225.81;  ry := 5.69;
  J := 56.13;  Cw := 600000.00;  ho := 29.03;  Fy := 3515;  Fu := 4570
|}.

Definition w12x170 : PropiedadesPerfilW := {|
  d := 30.48;  bf := 29.21;  tf := 1.52;  tw := 0.97;  A := 326.45;
  Ix := 43866.45;  Sx := 2880.65;  Zx := 3270.97;  rx := 11.59;
  Iy := 10400.00;  Sy := 712.90;  Zy := 1096.77;  ry := 5.64;
  J := 43.87;  Cw := 520000.00;  ho := 28.96;  Fy := 3515;  Fu := 4570
|}.

Definition w12x152 : PropiedadesPerfilW := {|
  d := 29.97;  bf := 28.96;  tf := 1.35;  tw := 0.87;  A := 291.61;
  Ix := 38700.00;  Sx := 2583.87;  Zx := 2929.03;  rx := 11.51;
  Iy := 9233.87;  Sy := 637.42;  Zy := 980.65;  ry := 5.61;
  J := 33.55;  Cw := 451612.80;  ho := 28.62;  Fy := 3515;  Fu := 4570
|}.

Definition w12x136 : PropiedadesPerfilW := {|
  d := 29.72;  bf := 28.45;  tf := 1.22;  tw := 0.79;  A := 260.65;
  Ix := 34533.87;  Sx := 2325.81;  Zx := 2635.48;  rx := 11.51;
  Iy := 8233.87;  Sy := 579.35;  Zy := 890.32;  ry := 5.61;
  J := 26.77;  Cw := 399354.56;  ho := 28.50;  Fy := 3515;  Fu := 4570
|}.

Definition w12x120 : PropiedadesPerfilW := {|
  d := 29.21;  bf := 28.19;  tf := 1.07;  tw := 0.71;  A := 230.32;
  Ix := 30033.87;  Sx := 2058.06;  Zx := 2332.26;  rx := 11.40;
  Iy := 7150.00;  Sy := 507.74;  Zy := 780.65;  ry := 5.56;
  J := 19.35;  Cw := 339354.56;  ho := 28.14;  Fy := 3515;  Fu := 4570
|}.

Definition w12x106 : PropiedadesPerfilW := {|
  d := 28.70;  bf := 27.94;  tf := 0.94;  tw := 0.61;  A := 203.23;
  Ix := 25866.45;  Sx := 1803.23;  Zx := 2041.94;  rx := 11.28;
  Iy := 6150.00;  Sy := 440.65;  Zy := 677.42;  ry := 5.49;
  J := 13.55;  Cw := 279354.56;  ho := 27.76;  Fy := 3515;  Fu := 4570
|}.

Definition w12x96 : PropiedadesPerfilW := {|
  d := 28.45;  bf := 27.69;  tf := 0.86;  tw := 0.56;  A := 184.52;
  Ix := 23533.87;  Sx := 1654.84;  Zx := 1867.74;  rx := 11.28;
  Iy := 5600.00;  Sy := 404.52;  Zy := 622.58;  ry := 5.51;
  J := 10.65;  Cw := 249354.56;  ho := 27.59;  Fy := 3515;  Fu := 4570
|}.

Definition w12x87 : PropiedadesPerfilW := {|
  d := 28.19;  bf := 27.43;  tf := 0.76;  tw := 0.51;  A := 167.10;
  Ix := 21200.00;  Sx := 1503.23;  Zx := 1696.77;  rx := 11.25;
  Iy := 5033.87;  Sy := 367.10;  Zy := 564.52;  ry := 5.49;
  J := 7.74;  Cw := 219354.56;  ho := 27.43;  Fy := 3515;  Fu := 4570
|}.

Definition w12x79 : PropiedadesPerfilW := {|
  d := 27.94;  bf := 27.18;  tf := 0.69;  tw := 0.47;  A := 151.61;
  Ix := 19200.00;  Sx := 1374.19;  Zx := 1548.39;  rx := 11.25;
  Iy := 4566.45;  Sy := 336.13;  Zy := 516.77;  ry := 5.49;
  J := 5.81;  Cw := 195483.84;  ho := 27.25;  Fy := 3515;  Fu := 4570
|}.

Definition w12x72 : PropiedadesPerfilW := {|
  d := 27.69;  bf := 26.67;  tf := 0.64;  tw := 0.43;  A := 138.06;
  Ix := 17533.87;  Sx := 1267.74;  Zx := 1425.81;  rx := 11.25;
  Iy := 4150.00;  Sy := 311.61;  Zy := 479.35;  ry := 5.49;
  J := 4.52;  Cw := 175483.84;  ho := 27.05;  Fy := 3515;  Fu := 4570
|}.

Definition w12x65 : PropiedadesPerfilW := {|
  d := 27.43;  bf := 26.42;  tf := 0.58;  tw := 0.39;  A := 124.52;
  Ix := 15700.00;  Sx := 1145.16;  Zx := 1287.10;  rx := 11.23;
  Iy := 3733.87;  Sy := 282.58;  Zy := 435.48;  ry := 5.48;
  J := 3.55;  Cw := 155483.84;  ho := 26.85;  Fy := 3515;  Fu := 4570
|}.

Definition w12x58 : PropiedadesPerfilW := {|
  d := 27.18;  bf := 25.40;  tf := 0.53;  tw := 0.36;  A := 111.61;
  Ix := 14033.87;  Sx := 1032.26;  Zx := 1161.29;  rx := 11.20;
  Iy := 3350.00;  Sy := 264.52;  Zy := 406.45;  ry := 5.48;
  J := 2.58;  Cw := 139354.56;  ho := 26.65;  Fy := 3515;  Fu := 4570
|}.

Definition w12x53 : PropiedadesPerfilW := {|
  d := 30.48;  bf := 25.40;  tf := 0.51;  tw := 0.35;  A := 101.29;
  Ix := 12700.00;  Sx := 832.26;  Zx := 935.48;  rx := 11.20;
  Iy := 3033.87;  Sy := 239.35;  Zy := 367.74;  ry := 5.48;
  J := 2.26;  Cw := 126451.52;  ho := 29.97;  Fy := 3515;  Fu := 4570
|}.

Definition w12x50 : PropiedadesPerfilW := {|
  d := 30.23;  bf := 20.32;  tf := 0.64;  tw := 0.38;  A := 95.48;
  Ix := 12200.00;  Sx := 807.74;  Zx := 906.45;  rx := 11.30;
  Iy := 1500.00;  Sy := 147.74;  Zy := 230.97;  ry := 3.96;
  J := 3.23;  Cw := 57096.32;  ho := 29.59;  Fy := 3515;  Fu := 4570
|}.

Definition w12x45 : PropiedadesPerfilW := {|
  d := 29.97;  bf := 20.32;  tf := 0.58;  tw := 0.33;  A := 86.45;
  Ix := 10933.87;  Sx := 729.68;  Zx := 819.35;  rx := 11.25;
  Iy := 1350.00;  Sy := 133.55;  Zy := 208.39;  ry := 3.96;
  J := 2.26;  Cw := 49354.56;  ho := 29.39;  Fy := 3515;  Fu := 4570
|}.

Definition w12x40 : PropiedadesPerfilW := {|
  d := 29.72;  bf := 20.32;  tf := 0.51;  tw := 0.30;  A := 76.77;
  Ix := 9700.00;  Sx := 653.55;  Zx := 732.90;  rx := 11.23;
  Iy := 1200.00;  Sy := 118.71;  Zy := 185.81;  ry := 3.96;
  J := 1.61;  Cw := 42580.80;  ho := 29.21;  Fy := 3515;  Fu := 4570
|}.

Definition w12x35 : PropiedadesPerfilW := {|
  d := 30.48;  bf := 16.51;  tf := 0.53;  tw := 0.30;  A := 67.10;
  Ix := 8866.45;  Sx := 581.94;  Zx := 653.55;  rx := 11.51;
  Iy := 633.87;  Sy := 76.77;  Zy := 120.65;  ry := 3.07;
  J := 1.61;  Cw := 19354.56;  ho := 29.95;  Fy := 3515;  Fu := 4570
|}.

Definition w12x30 : PropiedadesPerfilW := {|
  d := 30.23;  bf := 16.51;  tf := 0.44;  tw := 0.26;  A := 57.42;
  Ix := 7566.45;  Sx := 500.65;  Zx := 561.29;  rx := 11.46;
  Iy := 533.87;  Sy := 64.52;  Zy := 101.29;  ry := 3.05;
  J := 1.13;  Cw := 15483.84;  ho := 29.79;  Fy := 3515;  Fu := 4570
|}.

Definition w12x26 : PropiedadesPerfilW := {|
  d := 29.97;  bf := 16.51;  tf := 0.38;  tw := 0.23;  A := 49.68;
  Ix := 6533.87;  Sx := 436.77;  Zx := 489.03;  rx := 11.46;
  Iy := 458.06;  Sy := 55.48;  Zy := 87.10;  ry := 3.04;
  J := 0.81;  Cw := 12580.80;  ho := 29.59;  Fy := 3515;  Fu := 4570
|}.

Definition w12x22 : PropiedadesPerfilW := {|
  d := 29.72;  bf := 10.16;  tf := 0.43;  tw := 0.26;  A := 42.58;
  Ix := 5700.00;  Sx := 384.52;  Zx := 430.97;  rx := 11.56;
  Iy := 166.45;  Sy := 32.77;  Zy := 51.61;  ry := 1.98;
  J := 0.81;  Cw := 2580.80;  ho := 29.29;  Fy := 3515;  Fu := 4570
|}.

Definition w12x19 : PropiedadesPerfilW := {|
  d := 29.46;  bf := 10.16;  tf := 0.36;  tw := 0.24;  A := 36.77;
  Ix := 4900.00;  Sx := 333.55;  Zx := 373.55;  rx := 11.53;
  Iy := 141.29;  Sy := 27.87;  Zy := 43.87;  ry := 1.96;
  J := 0.65;  Cw := 2096.32;  ho := 29.10;  Fy := 3515;  Fu := 4570
|}.

Definition w12x16 : PropiedadesPerfilW := {|
  d := 29.21;  bf := 10.16;  tf := 0.28;  tw := 0.23;  A := 30.65;
  Ix := 4066.45;  Sx := 279.35;  Zx := 312.26;  rx := 11.51;
  Iy := 116.13;  Sy := 22.90;  Zy := 36.13;  ry := 1.94;
  J := 0.48;  Cw := 1612.80;  ho := 28.93;  Fy := 3515;  Fu := 4570
|}.

Definition w12x14 : PropiedadesPerfilW := {|
  d := 28.96;  bf := 10.16;  tf := 0.23;  tw := 0.20;  A := 26.45;
  Ix := 3500.00;  Sx := 241.94;  Zx := 270.32;  rx := 11.51;
  Iy := 98.71;  Sy := 19.35;  Zy := 30.65;  ry := 1.93;
  J := 0.32;  Cw := 1290.24;  ho := 28.73;  Fy := 3515;  Fu := 4570
|}.

Definition w10x112 : PropiedadesPerfilW := {|
  d := 28.70;  bf := 25.65;  tf := 1.24;  tw := 0.76;  A := 214.84;
  Ix := 26700.00;  Sx := 1861.29;  Zx := 2112.90;  rx := 11.15;
  Iy := 5900.00;  Sy := 460.65;  Zy := 716.13;  ry := 5.23;
  J := 28.39;  Cw := 287096.32;  ho := 27.46;  Fy := 3515;  Fu := 4570
|}.

Definition w10x100 : PropiedadesPerfilW := {|
  d := 28.19;  bf := 25.40;  tf := 1.12;  tw := 0.69;  A := 191.61;
  Ix := 23900.00;  Sx := 1696.77;  Zx := 1925.81;  rx := 11.15;
  Iy := 5283.87;  Sy := 416.13;  Zy := 645.16;  ry := 5.23;
  J := 21.94;  Cw := 251612.80;  ho := 27.07;  Fy := 3515;  Fu := 4570
|}.

Definition w10x88 : PropiedadesPerfilW := {|
  d := 27.69;  bf := 25.40;  tf := 0.99;  tw := 0.61;  A := 168.39;
  Ix := 21033.87;  Sx := 1519.35;  Zx := 1722.58;  rx := 11.15;
  Iy := 4650.00;  Sy := 366.45;  Zy := 567.74;  ry := 5.26;
  J := 16.13;  Cw := 215483.84;  ho := 26.70;  Fy := 3515;  Fu := 4570
|}.

Definition w10x77 : PropiedadesPerfilW := {|
  d := 27.18;  bf := 25.15;  tf := 0.87;  tw := 0.53;  A := 147.74;
  Ix := 18300.00;  Sx := 1348.39;  Zx := 1525.81;  rx := 11.12;
  Iy := 4066.45;  Sy := 323.87;  Zy := 501.29;  ry := 5.26;
  J := 11.29;  Cw := 183870.72;  ho := 26.31;  Fy := 3515;  Fu := 4570
|}.

Definition w10x68 : PropiedadesPerfilW := {|
  d := 26.92;  bf := 25.15;  tf := 0.76;  tw := 0.46;  A := 130.97;
  Ix := 15900.00;  Sx := 1182.58;  Zx := 1335.48;  rx := 11.02;
  Iy := 3533.87;  Sy := 281.29;  Zy := 435.48;  ry := 5.20;
  J := 7.74;  Cw := 155483.84;  ho := 26.16;  Fy := 3515;  Fu := 4570
|}.

Definition w10x60 : PropiedadesPerfilW := {|
  d := 26.42;  bf := 25.15;  tf := 0.66;  tw := 0.41;  A := 115.48;
  Ix := 13733.87;  Sx := 1041.94;  Zx := 1177.42;  rx := 10.90;
  Iy := 3033.87;  Sy := 241.94;  Zy := 374.19;  ry := 5.13;
  J := 5.16;  Cw := 127096.32;  ho := 25.76;  Fy := 3515;  Fu := 4570
|}.

Definition w10x54 : PropiedadesPerfilW := {|
  d := 26.16;  bf := 25.15;  tf := 0.59;  tw := 0.37;  A := 103.87;
  Ix := 12200.00;  Sx := 933.55;  Zx := 1054.84;  rx := 10.85;
  Iy := 2700.00;  Sy := 215.48;  Zy := 333.55;  ry := 5.10;
  J := 3.87;  Cw := 111225.28;  ho := 25.57;  Fy := 3515;  Fu := 4570
|}.

Definition w10x49 : PropiedadesPerfilW := {|
  d := 25.91;  bf := 25.15;  tf := 0.56;  tw := 0.34;  A := 94.19;
  Ix := 11200.00;  Sx := 864.52;  Zx := 976.77;  rx := 10.90;
  Iy := 2500.00;  Sy := 198.71;  Zy := 308.39;  ry := 5.15;
  J := 3.23;  Cw := 102580.80;  ho := 25.35;  Fy := 3515;  Fu := 4570
|}.

Definition w10x45 : PropiedadesPerfilW := {|
  d := 25.65;  bf := 20.32;  tf := 0.62;  tw := 0.36;  A := 86.45;
  Ix := 10166.45;  Sx := 793.55;  Zx := 896.77;  rx := 10.85;
  Iy := 1283.87;  Sy := 126.45;  Zy := 197.42;  ry := 3.86;
  J := 3.55;  Cw := 49354.56;  ho := 25.03;  Fy := 3515;  Fu := 4570
|}.

Definition w10x39 : PropiedadesPerfilW := {|
  d := 25.40;  bf := 20.07;  tf := 0.53;  tw := 0.32;  A := 75.48;
  Ix := 8866.45;  Sx := 699.35;  Zx := 787.10;  rx := 10.85;
  Iy := 1116.13;  Sy := 111.61;  Zy := 174.19;  ry := 3.84;
  J := 2.42;  Cw := 41612.80;  ho := 24.87;  Fy := 3515;  Fu := 4570
|}.

Definition w10x33 : PropiedadesPerfilW := {|
  d := 24.89;  bf := 20.07;  tf := 0.43;  tw := 0.29;  A := 63.23;
  Ix := 7400.00;  Sx := 595.48;  Zx := 670.32;  rx := 10.82;
  Iy := 933.87;  Sy := 93.23;  Zy := 145.81;  ry := 3.84;
  J := 1.61;  Cw := 33548.48;  ho := 24.46;  Fy := 3515;  Fu := 4570
|}.

Definition w10x30 : PropiedadesPerfilW := {|
  d := 25.65;  bf := 14.02;  tf := 0.51;  tw := 0.30;  A := 57.42;
  Ix := 6866.45;  Sx := 536.13;  Zx := 606.45;  rx := 10.95;
  Iy := 391.61;  Sy := 55.81;  Zy := 87.74;  ry := 2.61;
  J := 1.61;  Cw := 10000.00;  ho := 25.14;  Fy := 3515;  Fu := 4570
|}.

Definition w10x26 : PropiedadesPerfilW := {|
  d := 25.40;  bf := 14.02;  tf := 0.44;  tw := 0.25;  A := 49.68;
  Ix := 5933.87;  Sx := 467.74;  Zx := 528.39;  rx := 10.95;
  Iy := 333.87;  Sy := 47.74;  Zy := 74.84;  ry := 2.59;
  J := 1.13;  Cw := 8064.64;  ho := 24.96;  Fy := 3515;  Fu := 4570
|}.

Definition w10x22 : PropiedadesPerfilW := {|
  d := 25.15;  bf := 13.97;  tf := 0.36;  tw := 0.22;  A := 42.58;
  Ix := 5033.87;  Sx := 400.65;  Zx := 451.61;  rx := 10.87;
  Iy := 283.87;  Sy := 40.65;  Zy := 63.87;  ry := 2.59;
  J := 0.81;  Cw := 6451.52;  ho := 24.79;  Fy := 3515;  Fu := 4570
|}.

Definition w10x19 : PropiedadesPerfilW := {|
  d := 26.16;  bf := 10.24;  tf := 0.39;  tw := 0.25;  A := 36.45;
  Ix := 4466.45;  Sx := 341.94;  Zx := 385.81;  rx := 11.07;
  Iy := 133.87;  Sy := 26.13;  Zy := 41.29;  ry := 1.91;
  J := 0.81;  Cw := 2580.80;  ho := 25.77;  Fy := 3515;  Fu := 4570
|}.

Definition w10x17 : PropiedadesPerfilW := {|
  d := 25.91;  bf := 10.24;  tf := 0.33;  tw := 0.24;  A := 31.61;
  Ix := 3866.45;  Sx := 298.71;  Zx := 337.42;  rx := 11.05;
  Iy := 114.19;  Sy := 22.32;  Zy := 35.48;  ry := 1.91;
  J := 0.65;  Cw := 2096.32;  ho := 25.58;  Fy := 3515;  Fu := 4570
|}.

Definition w10x15 : PropiedadesPerfilW := {|
  d := 25.65;  bf := 10.16;  tf := 0.27;  tw := 0.23;  A := 27.10;
  Ix := 3300.00;  Sx := 257.42;  Zx := 290.97;  rx := 11.05;
  Iy := 96.77;  Sy := 19.10;  Zy := 30.32;  ry := 1.89;
  J := 0.48;  Cw := 1612.80;  ho := 25.38;  Fy := 3515;  Fu := 4570
|}.

Definition w10x12 : PropiedadesPerfilW := {|
  d := 25.27;  bf := 10.16;  tf := 0.21;  tw := 0.19;  A := 22.58;
  Ix := 2700.00;  Sx := 213.55;  Zx := 241.29;  rx := 10.95;
  Iy := 79.35;  Sy := 15.65;  Zy := 24.84;  ry := 1.87;
  J := 0.32;  Cw := 1290.24;  ho := 25.06;  Fy := 3515;  Fu := 4570
|}.

Definition w8x67 : PropiedadesPerfilW := {|
  d := 22.86;  bf := 20.96;  tf := 0.94;  tw := 0.58;  A := 128.39;
  Ix := 9733.87;  Sx := 851.61;  Zx := 982.58;  rx := 8.71;
  Iy := 2116.13;  Sy := 202.58;  Zy := 318.71;  ry := 4.06;
  J := 13.55;  Cw := 79354.56;  ho := 21.92;  Fy := 3515;  Fu := 4570
|}.

Definition w8x58 : PropiedadesPerfilW := {|
  d := 22.35;  bf := 20.83;  tf := 0.81;  tw := 0.51;  A := 111.61;
  Ix := 8366.45;  Sx := 748.39;  Zx := 861.29;  rx := 8.66;
  Iy := 1833.87;  Sy := 176.13;  Zy := 276.77;  ry := 4.06;
  J := 9.03;  Cw := 66774.72;  ho := 21.54;  Fy := 3515;  Fu := 4570
|}.

Definition w8x48 : PropiedadesPerfilW := {|
  d := 21.84;  bf := 20.57;  tf := 0.68;  tw := 0.40;  A := 92.26;
  Ix := 6833.87;  Sx := 626.45;  Zx := 719.35;  rx := 8.61;
  Iy := 1500.00;  Sy := 145.81;  Zy := 229.03;  ry := 4.04;
  J := 5.48;  Cw := 52258.08;  ho := 21.16;  Fy := 3515;  Fu := 4570
|}.

Definition w8x40 : PropiedadesPerfilW := {|
  d := 21.59;  bf := 20.32;  tf := 0.56;  tw := 0.36;  A := 76.77;
  Ix := 5600.00;  Sx := 519.35;  Zx := 596.77;  rx := 8.53;
  Iy := 1233.87;  Sy := 121.61;  Zy := 191.61;  ry := 4.01;
  J := 3.23;  Cw := 41612.80;  ho := 21.03;  Fy := 3515;  Fu := 4570
|}.

Definition w8x35 : PropiedadesPerfilW := {|
  d := 21.34;  bf := 20.32;  tf := 0.49;  tw := 0.31;  A := 67.10;
  Ix := 4900.00;  Sx := 459.68;  Zx := 527.74;  rx := 8.56;
  Iy := 1083.87;  Sy := 106.77;  Zy := 168.39;  ry := 4.04;
  J := 2.26;  Cw := 35483.84;  ho := 20.85;  Fy := 3515;  Fu := 4570
|}.

Definition w8x31 : PropiedadesPerfilW := {|
  d := 20.32;  bf := 20.32;  tf := 0.43;  tw := 0.29;  A := 59.35;
  Ix := 4333.87;  Sx := 427.10;  Zx := 489.68;  rx := 8.56;
  Iy := 966.45;  Sy := 95.16;  Zy := 149.68;  ry := 4.04;
  J := 1.61;  Cw := 31612.80;  ho := 19.89;  Fy := 3515;  Fu := 4570
|}.

Definition w8x28 : PropiedadesPerfilW := {|
  d := 20.57;  bf := 16.51;  tf := 0.52;  tw := 0.29;  A := 53.55;
  Ix := 4000.00;  Sx := 389.03;  Zx := 446.45;  rx := 8.64;
  Iy := 466.45;  Sy := 56.45;  Zy := 88.71;  ry := 2.95;
  J := 1.77;  Cw := 12580.80;  ho := 20.05;  Fy := 3515;  Fu := 4570
|}.

Definition w8x24 : PropiedadesPerfilW := {|
  d := 20.32;  bf := 16.51;  tf := 0.43;  tw := 0.25;  A := 46.13;
  Ix := 3466.45;  Sx := 341.94;  Zx := 391.61;  rx := 8.64;
  Iy := 400.00;  Sy := 48.39;  Zy := 75.81;  ry := 2.95;
  J := 1.13;  Cw := 9677.52;  ho := 19.89;  Fy := 3515;  Fu := 4570
|}.

Definition w8x21 : PropiedadesPerfilW := {|
  d := 21.08;  bf := 13.34;  tf := 0.40;  tw := 0.25;  A := 40.32;
  Ix := 3100.00;  Sx := 294.84;  Zx := 337.42;  rx := 8.76;
  Iy := 216.13;  Sy := 32.42;  Zy := 50.97;  ry := 2.32;
  J := 0.97;  Cw := 3870.72;  ho := 20.68;  Fy := 3515;  Fu := 4570
|}.

Definition w8x18 : PropiedadesPerfilW := {|
  d := 20.83;  bf := 13.34;  tf := 0.33;  tw := 0.23;  A := 34.84;
  Ix := 2633.87;  Sx := 253.55;  Zx := 290.32;  rx := 8.69;
  Iy := 183.87;  Sy := 27.58;  Zy := 43.55;  ry := 2.29;
  J := 0.65;  Cw := 3064.64;  ho := 20.50;  Fy := 3515;  Fu := 4570
|}.

Definition w8x15 : PropiedadesPerfilW := {|
  d := 20.57;  bf := 10.20;  tf := 0.32;  tw := 0.25;  A := 28.71;
  Ix := 2300.00;  Sx := 223.87;  Zx := 255.48;  rx := 8.94;
  Iy := 100.65;  Sy := 19.74;  Zy := 31.29;  ry := 1.87;
  J := 0.65;  Cw := 1290.24;  ho := 20.25;  Fy := 3515;  Fu := 4570
|}.

Definition w8x13 : PropiedadesPerfilW := {|
  d := 20.32;  bf := 10.16;  tf := 0.25;  tw := 0.23;  A := 24.52;
  Ix := 1933.87;  Sx := 190.97;  Zx := 217.42;  rx := 8.89;
  Iy := 83.87;  Sy := 16.52;  Zy := 26.13;  ry := 1.85;
  J := 0.48;  Cw := 967.84;  ho := 20.07;  Fy := 3515;  Fu := 4570
|}.

Definition w8x10 : PropiedadesPerfilW := {|
  d := 20.04;  bf := 10.01;  tf := 0.52;  tw := 0.43;  A := 19.10;
  Ix := 1281.99;  Sx := 128;  Zx := 145;  rx := 8.18;
  Iy := 86.99;  Sy := 17;  Zy := 27;  ry := 2.14;
  J := 1.77;  Cw := 8297.76;  ho := 19.5;  Fy := 3515;  Fu := 4570
|}.

Definition w6x25 : PropiedadesPerfilW := {|
  d := 16.00;  bf := 15.01;  tf := 0.46;  tw := 0.32;  A := 47.74;
  Ix := 1316.13;  Sx := 164.52;  Zx := 193.55;  rx := 5.26;
  Iy := 283.87;  Sy := 37.90;  Zy := 59.35;  ry := 2.44;
  J := 1.29;  Cw := 5806.08;  ho := 15.54;  Fy := 3515;  Fu := 4570
|}.

Definition w6x20 : PropiedadesPerfilW := {|
  d := 15.49;  bf := 15.01;  tf := 0.36;  tw := 0.26;  A := 38.39;
  Ix := 1033.87;  Sx := 133.55;  Zx := 156.77;  rx := 5.18;
  Iy := 224.52;  Sy := 29.90;  Zy := 46.77;  ry := 2.41;
  J := 0.81;  Cw := 4193.92;  ho := 15.13;  Fy := 3515;  Fu := 4570
|}.

Definition w6x16 : PropiedadesPerfilW := {|
  d := 15.24;  bf := 10.16;  tf := 0.40;  tw := 0.26;  A := 30.65;
  Ix := 900.00;  Sx := 118.06;  Zx := 137.42;  rx := 5.41;
  Iy := 83.87;  Sy := 16.52;  Zy := 26.13;  ry := 1.65;
  J := 0.81;  Cw := 967.84;  ho := 14.84;  Fy := 3515;  Fu := 4570
|}.

Definition w6x15 : PropiedadesPerfilW := {|
  d := 14.99;  bf := 15.01;  tf := 0.28;  tw := 0.23;  A := 28.71;
  Ix := 766.45;  Sx := 102.26;  Zx := 119.35;  rx := 5.16;
  Iy := 166.45;  Sy := 22.19;  Zy := 34.52;  ry := 2.41;
  J := 0.48;  Cw := 2903.04;  ho := 14.71;  Fy := 3515;  Fu := 4570
|}.

Definition w6x12 : PropiedadesPerfilW := {|
  d := 15.24;  bf := 10.16;  tf := 0.28;  tw := 0.23;  A := 22.90;
  Ix := 666.45;  Sx := 87.42;  Zx := 101.94;  rx := 5.38;
  Iy := 66.45;  Sy := 13.10;  Zy := 20.65;  ry := 1.70;
  J := 0.48;  Cw := 645.44;  ho := 14.96;  Fy := 3515;  Fu := 4570
|}.

Definition w6x9 : PropiedadesPerfilW := {|
  d := 14.99;  bf := 10.01;  tf := 0.55;  tw := 0.43;  A := 17.29;
  Ix := 483.87;  Sx := 65.81;  Zx := 76.77;  rx := 5.28;
  Iy := 50.00;  Sy := 10.10;  Zy := 15.81;  ry := 1.70;
  J := 0.32;  Cw := 387.20;  ho := 14.51;  Fy := 3515;  Fu := 4570
|}.

Definition w5x19 : PropiedadesPerfilW := {|
  d := 12.95;  bf := 12.78;  tf := 1.09;  tw := 0.69;  A := 35.87;
  Ix := 1094.69;  Sx := 167;  Zx := 190;  rx := 5.51;
  Iy := 380.02;  Sy := 59;  Zy := 91;  ry := 3.25;
  J := 13.15;  Cw := 13668.48;  ho := 12.52;  Fy := 3515;  Fu := 4570
|}.

Definition w5x16 : PropiedadesPerfilW := {|
  d := 12.73;  bf := 12.70;  tf := 0.91;  tw := 0.61;  A := 30.39;
  Ix := 890.74;  Sx := 140;  Zx := 158;  rx := 5.41;
  Iy := 312.59;  Sy := 49;  Zy := 75;  ry := 3.2;
  J := 7.99;  Cw := 10902.56;  ho := 12.34;  Fy := 3515;  Fu := 4570
|}.

Definition w4x13 : PropiedadesPerfilW := {|
  d := 10.57;  bf := 10.31;  tf := 0.88;  tw := 0.71;  A := 24.71;
  Ix := 470.34;  Sx := 89;  Zx := 103;  rx := 4.37;
  Iy := 160.67;  Sy := 31;  Zy := 48;  ry := 2.54;
  J := 6.29;  Cw := 3759.50;  ho := 10.32;  Fy := 3515;  Fu := 4570
|}.
Definition perfiles_w : list (string * PropiedadesPerfilW) := [
  ("w44x335", w44x335); ("w44x290", w44x290); ("w44x230", w44x230);
  ("w40x503", w40x503); ("w40x397", w40x397); ("w40x331", w40x331);
  ("w36x300", w36x300); ("w36x232", w36x232); ("w36x194", w36x194);
  ("w36x160", w36x160); ("w36x135", w36x135); ("w33x241", w33x241);
  ("w33x201", w33x201); ("w33x152", w33x152); ("w33x130", w33x130);
  ("w33x118", w33x118); ("w30x211", w30x211); ("w30x173", w30x173);
  ("w30x132", w30x132); ("w30x124", w30x124); ("w30x116", w30x116);
  ("w30x108", w30x108); ("w30x99", w30x99); ("w30x90", w30x90);
  ("w27x178", w27x178); ("w27x146", w27x146); ("w27x114", w27x114);
  ("w27x102", w27x102); ("w27x94", w27x94); ("w27x84", w27x84);
  ("w24x162", w24x162); ("w24x146", w24x146); ("w24x131", w24x131);
  ("w24x117", w24x117); ("w24x104", w24x104); ("w24x94", w24x94);
  ("w24x84", w24x84); ("w24x76", w24x76); ("w24x68", w24x68);
  ("w24x62", w24x62); ("w24x55", w24x55); ("w21x201", w21x201);
  ("w21x182", w21x182); ("w21x166", w21x166); ("w21x147", w21x147);
  ("w21x132", w21x132); ("w21x122", w21x122); ("w21x111", w21x111);
  ("w21x101", w21x101); ("w21x93", w21x93); ("w21x83", w21x83);
  ("w21x73", w21x73); ("w21x68", w21x68); ("w21x62", w21x62);
  ("w21x57", w21x57); ("w21x50", w21x50); ("w21x48", w21x48);
  ("w21x44", w21x44); ("w18x192", w18x192); ("w18x175", w18x175);
  ("w18x158", w18x158); ("w18x143", w18x143); ("w18x130", w18x130);
  ("w18x119", w18x119); ("w18x106", w18x106); ("w18x97", w18x97);
  ("w18x86", w18x86); ("w18x76", w18x76); ("w18x71", w18x71);
  ("w18x65", w18x65); ("w18x60", w18x60); ("w18x55", w18x55);
  ("w18x50", w18x50); ("w18x46", w18x46); ("w18x40", w18x40);
  ("w18x35", w18x35); ("w16x100", w16x100); ("w16x89", w16x89);
  ("w16x77", w16x77); ("w16x67", w16x67); ("w16x57", w16x57);
  ("w16x50", w16x50); ("w16x45", w16x45); ("w16x40", w16x40);
  ("w16x36", w16x36); ("w16x31", w16x31); ("w16x26", w16x26);
  ("w14x808", w14x808); ("w14x730", w14x730); ("w14x665", w14x665);
  ("w14x605", w14x605); ("w14x550", w14x550); ("w14x500", w14x500);
  ("w14x455", w14x455); ("w14x426", w14x426); ("w14x398", w14x398);
  ("w14x370", w14x370); ("w14x342", w14x342); ("w14x311", w14x311);
  ("w14x283", w14x283); ("w14x257", w14x257); ("w14x233", w14x233);
  ("w14x211", w14x211); ("w14x193", w14x193); ("w14x176", w14x176);
  ("w14x159", w14x159); ("w14x145", w14x145); ("w14x132", w14x132);
  ("w14x120", w14x120); ("w14x109", w14x109); ("w14x99", w14x99);
  ("w14x90", w14x90); ("w14x82", w14x82); ("w14x74", w14x74);
  ("w14x68", w14x68); ("w14x61", w14x61); ("w14x53", w14x53);
  ("w14x48", w14x48); ("w14x43", w14x43); ("w14x38", w14x38);
  ("w14x34", w14x34); ("w14x30", w14x30); ("w14x26", w14x26);
  ("w14x22", w14x22); ("w12x336", w12x336); ("w12x305", w12x305);
  ("w12x279", w12x279); ("w12x252", w12x252); ("w12x230", w12x230);
  ("w12x210", w12x210); ("w12x190", w12x190); ("w12x170", w12x170);
  ("w12x152", w12x152); ("w12x136", w12x136); ("w12x120", w12x120);
  ("w12x106", w12x106); ("w12x96", w12x96); ("w12x87", w12x87);
  ("w12x79", w12x79); ("w12x72", w12x72); ("w12x65", w12x65);
  ("w12x58", w12x58); ("w12x53", w12x53); ("w12x50", w12x50);
  ("w12x45", w12x45); ("w12x40", w12x40); ("w12x35", w12x35);
  ("w12x30", w12x30); ("w12x26", w12x26); ("w12x22", w12x22);
  ("w12x19", w12x19); ("w12x16", w12x16); ("w12x14", w12x14);
  ("w10x112", w10x112); ("w10x100", w10x100); ("w10x88", w10x88);
  ("w10x77", w10x77); ("w10x68", w10x68); ("w10x60", w10x60);
  ("w10x54", w10x54); ("w10x49", w10x49); ("w10x45", w10x45);
  ("w10x39", w10x39); ("w10x33", w10x33); ("w10x30", w10x30);
  ("w10x26", w10x26); ("w10x22", w10x22); ("w10x19", w10x19);
  ("w10x17", w10x17); ("w10x15", w10x15); ("w10x12", w10x12);
  ("w8x67", w8x67); ("w8x58", w8x58); ("w8x48", w8x48); ("w8x40", w8x40);
  ("w8x35", w8x35); ("w8x31", w8x31); ("w8x28", w8x28); ("w8x24", w8x24);
  ("w8x21", w8x21); ("w8x18", w8x18); ("w8x15", w8x15); ("w8x13", w8x13);
  ("w8x10", w8x10); ("w6x25", w6x25); ("w6x20", w6x20); ("w6x16", w6x16);
  ("w6x15", w6x15); ("w6x12", w6x12); ("w6x9", w6x9); ("w5x19", w5x19);
  ("w5x16", w5x16); ("w4x13", w4x13)
].

(** ** Python's string and dict operations *)

(** [str.lower] on one ASCII character. *)
Definition lower_char (c : ascii) : ascii :=
  let n := N_of_ascii c in
  if ((65 <=? n) && (n <=? 90))%N then ascii_of_N (n + 32) else c.

(** [str.lower] *)
Fixpoint lower (s : string) : string :=
  match s with
  | EmptyString => EmptyString
  | String c s' => String (lower_char c) (lower s')
  end.

(** [s.startswith(prefijo)] *)
Definition startswith (s prefijo : string) : bool := String.prefix prefijo s.

(** [k in dic] and [dic[k]] in one lookup. *)
Fixpoint dict_get {V : Type} (dic : list (string * V)) (k : string)
    : option V :=
  match dic with
  | [] => None
  | (k', v) :: dic' => if String.eqb k k' then Some v else dict_get dic' k
  end.

(** [dic.keys()] *)
Definition keys {V : Type} (dic : list (string * V)) : list string :=
  map fst dic.

(** [sorted] on strings, as a stable insertion sort; the order of
    strings is total and antisymmetric, so that every sorting algorithm
    returns the same list. *)
Fixpoint insertar (x : string) (l : list string) : list string :=
  match l with
  | [] => [x]
  | y :: l' => if String.leb x y then x :: l else y :: insertar x l'
  end.

Definition sorted (l : list string) : list string :=
  fold_right insertar [] l.

(** ** The functions *)

Definition obtener_perfil (nombre : string)
    : Excepcion + PropiedadesPerfilW :=
  let nombre_lower := lower nombre in
  match dict_get perfiles_w nombre_lower with
  | Some perfil => inr perfil
  | None =>
      inl (ValueError
             ("Perfil '" ++ nombre
              ++ "' no encontrado. Use listar_perfiles() para ver disponibles."))
  end.

Definition listar_perfiles (serie : option string) : list string :=
  match serie with
  | None => sorted (keys perfiles_w)
  | Some serie =>
      let serie_lower := lower serie in
      sorted (filter (fun p => startswith p serie_lower) (keys perfiles_w))
  end.

End perfiles_aisc.

(* ================================================================== *)
(** * Reasoning principles for the error monad and the float operations *)

Lemma Rleb_true_iff (x y : R) : Rleb x y = true <-> x <= y.
Proof. unfold Rleb. destruct (Rle_dec x y); split; intros; try discriminate; tauto. Qed.

Lemma Rleb_false_iff (x y : R) : Rleb x y = false <-> y < x.
Proof.
  unfold Rleb. destruct (Rle_dec x y); split; intros; try discriminate; try lra;
    reflexivity.
Qed.

Lemma Rltb_true_iff (x y : R) : Rltb x y = true <-> x < y.
Proof. unfold Rltb. destruct (Rlt_dec x y); split; intros; try discriminate; tauto. Qed.

Lemma Rltb_false_iff (x y : R) : Rltb x y = false <-> y <= x.
Proof.
  unfold Rltb. destruct (Rlt_dec x y); split; intros; try discriminate; try lra;
    reflexivity.
Qed.

Lemma div_ok (x y : R) : y <> 0 -> div x y = inr (x / y).
Proof.
  intros Hy. unfold div. destruct (Req_dec_T y 0); [contradiction | reflexivity].
Qed.

Lemma div_zero (x : R) : div x 0 = inl ZeroDivisionError.
Proof. unfold div. destruct (Req_dec_T 0 0); [reflexivity | contradiction]. Qed.

Lemma div_inr (x y z : R) : div x y = inr z -> y <> 0 /\ z = x / y.
Proof.
  unfold div. destruct (Req_dec_T y 0); intros H; [discriminate H | ].
  injection H as <-. split; [assumption | reflexivity].
Qed.

Lemma div_inl (x y : R) (e : Excepcion) :
  div x y = inl e -> y = 0 /\ e = ZeroDivisionError.
Proof.
  unfold div. destruct (Req_dec_T y 0); intros H; [ | discriminate H].
  injection H as <-. split; [assumption | reflexivity].
Qed.

Lemma math_sqrt_ok (x : R) : 0 <= x -> math_sqrt x = inr (sqrt x).
Proof. intros Hx. unfold math_sqrt. destruct (Rlt_dec x 0); [lra | reflexivity]. Qed.

Lemma math_sqrt_inr (x z : R) : math_sqrt x = inr z -> 0 <= x /\ z = sqrt x.
Proof.
  unfold math_sqrt. destruct (Rlt_dec x 0); intros H; [discriminate H | ].
  injection H as <-. split; [lra | reflexivity].
Qed.

Lemma bind_inr {T U : Type} (m : Py T) (k : T -> Py U) (u : U) :
  bind m k = inr u -> exists v, m = inr v /\ k v = inr u.
Proof. destruct m as [e | v]; cbn; intros H; [discriminate H | eauto]. Qed.

Lemma bind_ok {T U : Type} (m : Py T) (k : T -> Py U) (v : T) :
  m = inr v -> bind m k = k v.
Proof. intros ->. reflexivity. Qed.

Lemma bind_raise {T U : Type} (m : Py T) (k : T -> Py U) (e : Excepcion) :
  m = inl e -> bind m k = inl e.
Proof. intros ->. reflexivity. Qed.

Lemma raiz_E_Fy_inr (perfil : PropiedadesPerfilW) (s : R) :
  raiz_E_Fy perfil = inr s ->
  Fy perfil <> 0 /\ 0 <= E perfil / Fy perfil /\ s = sqrt (E perfil / Fy perfil).
Proof.
  unfold raiz_E_Fy. intros H.
  apply bind_inr in H. destruct H as (q & Hq & H).
  apply div_inr in Hq. destruct Hq as [Hg ->].
  apply math_sqrt_inr in H. tauto.
Qed.

Lemma raiz_Fcl_Fn_inr (Fcl Fn s : R) :
  raiz_Fcl_Fn Fcl Fn = inr s ->
  Fn <> 0 /\ 0 <= Fcl / Fn /\ s = sqrt (Fcl / Fn).
Proof.
  unfold raiz_Fcl_Fn. intros H.
  apply bind_inr in H. destruct H as (q & Hq & H).
  apply div_inr in Hq. destruct Hq as [Hg ->].
  apply math_sqrt_inr in H. tauto.
Qed.

Lemma raiz_Fcl_Fn_ok (Fcl Fn : R) :
  Fn <> 0 -> 0 <= Fcl / Fn -> raiz_Fcl_Fn Fcl Fn = inr (sqrt (Fcl / Fn)).
Proof.
  intros H1 H2. unfold raiz_Fcl_Fn.
  rewrite div_ok by assumption. cbn [bind].
  apply math_sqrt_ok; assumption.
Qed.

(** Peel the binds of a computation known to return: every
    [x <- m ;; k] in [H : ... = inr _] yields the value of [m]; divisions
    and square roots are replaced by their values and their guards are
    kept as hypotheses. *)

Ltac peel H :=
  cbv beta zeta in H;
  lazymatch type of H with
  | bind (div ?x ?y) _ = inr _ =>
      let v := fresh "v" in let Hv := fresh "Hv" in let Hg := fresh "Hg" in
      apply bind_inr in H; destruct H as (v & Hv & H);
      apply div_inr in Hv; destruct Hv as (Hg & ->); peel H
  | bind (math_sqrt ?x) _ = inr _ =>
      let v := fresh "v" in let Hv := fresh "Hv" in let Hg := fresh "Hg" in
      apply bind_inr in H; destruct H as (v & Hv & H);
      apply math_sqrt_inr in Hv; destruct Hv as (Hg & ->); peel H
  | bind (raiz_E_Fy ?p) _ = inr _ =>
      let v := fresh "v" in let Hv := fresh "Hv" in
      apply bind_inr in H; destruct H as (v & Hv & H);
      apply raiz_E_Fy_inr in Hv; destruct Hv as (? & ? & ->); peel H
  | bind (raiz_Fcl_Fn ?x ?y) _ = inr _ =>
      let v := fresh "v" in let Hv := fresh "Hv" in
      apply bind_inr in H; destruct H as (v & Hv & H);
      apply raiz_Fcl_Fn_inr in Hv; destruct Hv as (? & ? & ->); peel H
  | _ => idtac
  end.

(** One bind of any other computation, with chosen names. *)
Tactic Notation "peel_bind" hyp(H) "as" ident(v) ident(Hv) :=
  cbv beta zeta in H; apply bind_inr in H; destruct H as (v & Hv & H).

Lemma raiz_E_Fy_ok (perfil : PropiedadesPerfilW) :
  Fy perfil <> 0 -> 0 <= E perfil / Fy perfil ->
  raiz_E_Fy perfil = inr (sqrt (E perfil / Fy perfil)).
Proof.
  intros H1 H2. unfold raiz_E_Fy.
  rewrite div_ok by assumption. cbn [bind].
  apply math_sqrt_ok; assumption.
Qed.

Lemma estado_PASA (x : R) :
  (if Rleb x 1.0 then "PASA" else "FALLA") = "PASA" <-> x <= 1.
Proof.
  destruct (Rleb x 1.0) eqn:Hx.
  - apply Rleb_true_iff in Hx. split; [lra | reflexivity].
  - apply Rleb_false_iff in Hx. split; [discriminate | lra].
Qed.

(* ================================================================== *)
(** * Section classification *)

(** C5.  For limits [lambda_p < lambda_r], an element is compact when its
    ratio is at most [lambda_p], noncompact when it is above [lambda_p]
    and at most [lambda_r], and slender above [lambda_r]: each band
    includes its upper limit ([lambda_p] itself is compact, [lambda_r]
    itself is noncompact). *)
Theorem clasificar_elemento_bandas (lambda_val lambda_p lambda_r : R) :
  lambda_p < lambda_r ->
  (lambda_val <= lambda_p ->
   _clasificar_elemento lambda_val lambda_p lambda_r = "compacta") /\
  (lambda_p < lambda_val <= lambda_r ->
   _clasificar_elemento lambda_val lambda_p lambda_r = "no_compacta") /\
  (lambda_r < lambda_val ->
   _clasificar_elemento lambda_val lambda_p lambda_r = "esbelta") /\
  _clasificar_elemento lambda_p lambda_p lambda_r = "compacta" /\
  _clasificar_elemento lambda_r lambda_p lambda_r = "no_compacta".
Proof.
  intros Hpr. unfold _clasificar_elemento.
  repeat split; intros;
    repeat match goal with
    | |- context [Rleb ?x ?y] =>
        let Hb := fresh "Hb" in
        destruct (Rleb x y) eqn:Hb;
        [apply Rleb_true_iff in Hb | apply Rleb_false_iff in Hb]
    end;
    try reflexivity; exfalso; lra.
Qed.

Lemma clasificar_elemento_bandas_witness :
  _clasificar_elemento 5 5 10 = "compacta" /\
  _clasificar_elemento 10 5 10 = "no_compacta" /\
  _clasificar_elemento 11 5 10 = "esbelta".
Proof.
  split; [ | split].
  - apply (clasificar_elemento_bandas 5 5 10); lra.
  - apply (clasificar_elemento_bandas 10 5 10); lra.
  - apply (clasificar_elemento_bandas 11 5 10); lra.
Defined.

(* ================================================================== *)
(** * Chapter D: tension *)

(** The ratio is a division by the governing capacity: with a zero
    capacity the check raises instead of returning. *)
Lemma verificar_tension_capacidad_nula (perfil : PropiedadesPerfilW)
    (cargas : CondicionesCarga) :
  Rmin (0.9 * (Fy perfil * A perfil)) (0.75 * (Fu perfil * A perfil)) = 0 ->
  verificar_tension perfil cargas = inl ZeroDivisionError.
Proof.
  intros H0. unfold verificar_tension. cbv zeta. rewrite H0, div_zero. reflexivity.
Qed.

(** C9.  Whenever the governing capacity is not zero the tension check
    returns; its governing capacity is min(0.9 Fy A, 0.75 Fu A), which is
    one of the two factored capacities; the ratio is |Pu| over it; and
    the verdict is PASA exactly when the ratio is at most 1. *)
Theorem verificar_tension_gobernante (perfil : PropiedadesPerfilW)
    (cargas : CondicionesCarga) :
  Rmin (0.9 * (Fy perfil * A perfil)) (0.75 * (Fu perfil * A perfil)) <> 0 ->
  exists r : Tension.t,
    verificar_tension perfil cargas = inr r /\
    Tension.Pt_fluencia r = 0.9 * (Fy perfil * A perfil) /\
    Tension.Pt_ruptura r = 0.75 * (Fu perfil * A perfil) /\
    Tension.Pt_gobernante r = Rmin (Tension.Pt_fluencia r) (Tension.Pt_ruptura r) /\
    (Tension.Pt_gobernante r = Tension.Pt_fluencia r \/
     Tension.Pt_gobernante r = Tension.Pt_ruptura r) /\
    Tension.RDC r = Rabs (Pu cargas) / Tension.Pt_gobernante r /\
    (Tension.estado r = "PASA" <-> Tension.RDC r <= 1).
Proof.
  intros Hne. unfold verificar_tension. cbv zeta.
  rewrite div_ok by exact Hne. cbn [bind ret].
  eexists. split; [reflexivity | ].
  cbn [Tension.Pt_fluencia Tension.Pt_ruptura Tension.Pt_gobernante
       Tension.RDC Tension.estado].
  repeat split; try reflexivity.
  - unfold Rmin. destruct (Rle_dec _ _); [left | right]; reflexivity.
  - apply estado_PASA.
  - apply estado_PASA.
Qed.

Lemma verificar_tension_gobernante_witness :
  exists r : Tension.t,
    verificar_tension perfil_S1 cargas_tension = inr r /\
    Tension.Pt_gobernante r = 315000 /\
    Tension.RDC r = 1 / 2 /\
    Tension.estado r = "PASA".
Proof.
  destruct (verificar_tension_gobernante perfil_S1 cargas_tension)
    as (r & Hr & Hf & Hu & Hg & _ & Hrdc & Hest).
  - cbn [perfil_S1 Fy A Fu]. unfold Rmin. destruct (Rle_dec _ _); lra.
  - exists r. cbn [perfil_S1 cargas_tension Fy A Fu Pu] in *.
    assert (Hpt : Tension.Pt_gobernante r = 315000).
    { rewrite Hg, Hf, Hu. unfold Rmin. destruct (Rle_dec _ _); lra. }
    assert (Hrd : Tension.RDC r = 1 / 2).
    { rewrite Hrdc, Hpt. rewrite Rabs_pos_eq by lra. lra. }
    repeat split; try assumption.
    apply Hest. rewrite Hrd. lra.
Defined.

(* ================================================================== *)
(** * Chapter H: interaction *)

(** C3.  With a compression result and both flexure results whose design
    capacities are not zero, the interaction check returns the full
    result; it applies H1-1a exactly when Pr/Pc >= 0.2, with
    Pr/Pc + (8/9)(Mrx/Mcx + Mry/Mcy), and H1-1b otherwise, with
    Pr/(2 Pc) + (Mrx/Mcx + Mry/Mcy); the verdict is PASA exactly when the
    combined value is at most 1. *)
Theorem interaccion_H1_1 (cargas : CondicionesCarga) (previos : Resultados.t)
    (comp : Compresion) (fx fy : Flexion) :
  Resultados.compresion previos = Some comp ->
  Resultados.flexion_eje_fuerte previos = Some fx ->
  Resultados.flexion_eje_debil previos = Some fy ->
  Compresion_Pc comp <> 0 ->
  Flexion_Mb fx <> 0 ->
  Flexion_Mb fy <> 0 ->
  exists r : H1.t,
    verificar_interaccion_flexo_compresion cargas previos
      = inr (InteraccionOk r) /\
    (H1.ecuacion_aplicada r = "H1-1a" <->
     0.2 <= Rabs (Pu cargas) / Compresion_Pc comp) /\
    (H1.ecuacion_aplicada r = "H1-1b" <->
     Rabs (Pu cargas) / Compresion_Pc comp < 0.2) /\
    (0.2 <= Rabs (Pu cargas) / Compresion_Pc comp ->
     H1.interaccion r =
       Rabs (Pu cargas) / Compresion_Pc comp
       + (8 / 9) * (Rabs (Mux cargas) / Flexion_Mb fx
                    + Rabs (Muy cargas) / Flexion_Mb fy)) /\
    (Rabs (Pu cargas) / Compresion_Pc comp < 0.2 ->
     H1.interaccion r =
       Rabs (Pu cargas) / (2 * Compresion_Pc comp)
       + (Rabs (Mux cargas) / Flexion_Mb fx
          + Rabs (Muy cargas) / Flexion_Mb fy)) /\
    (H1.estado r = "PASA" <-> H1.interaccion r <= 1).
Proof.
  intros Hc Hx Hy HPc HMx HMy.
  unfold verificar_interaccion_flexo_compresion.
  rewrite Hc, Hx, Hy. cbv zeta.
  assert (H2Pc : 2 * Compresion_Pc comp <> 0) by lra.
  repeat rewrite (div_ok _ _ HPc). cbn [bind].
  unfold Rgeb.
  destruct (Rleb 0.2 (Rabs (Pu cargas) / Compresion_Pc comp)) eqn:Hsel;
    [apply Rleb_true_iff in Hsel | apply Rleb_false_iff in Hsel];
    repeat rewrite (div_ok _ _ HPc);
    repeat rewrite (div_ok _ _ H2Pc);
    repeat rewrite (div_ok _ _ HMx);
    repeat rewrite (div_ok _ _ HMy);
    cbn [bind ret];
    repeat match goal with
    | |- context [if Rgtb ?a ?b then _ else _] => destruct (Rgtb a b)
    end;
    repeat rewrite (div_ok _ _ HPc);
    repeat rewrite (div_ok _ _ HMx);
    repeat rewrite (div_ok _ _ HMy);
    cbn [bind ret];
    (eexists; split; [reflexivity | ]);
    cbn [H1.ecuacion_aplicada H1.interaccion H1.estado];
    (repeat split; intros; try reflexivity; try discriminate; try lra;
     try (apply estado_PASA; assumption)).
Qed.

Lemma interaccion_H1_1_witness :
  exists r : H1.t,
    verificar_interaccion_flexo_compresion
      (mkCargas (-50) 9 (-18) 300 300 300 100 1) previos_ejemplo
      = inr (InteraccionOk r) /\
    H1.ecuacion_aplicada r = "H1-1a" /\
    H1.interaccion r = 1 / 2 + (8 / 9) * (1 / 10 + 1 / 5) /\
    H1.estado r = "PASA".
Proof.
  destruct (interaccion_H1_1 (mkCargas (-50) 9 (-18) 300 300 300 100 1)
              previos_ejemplo
              (NoEsbeltos
                 (E3.mk 40 60 60 5000 (1 / 2) 2 (1000 / 9) 100 50 (1 / 2)
                    "PASA" "inelastico" ["E3-1"; "E3-2"; "E3-4"]))
              (EjeFuerte
                 (F2.mk 150 500 100 4 100 90 9 (1 / 10)
                    "PASA" "fluencia" "compacta" ["F2-1"; "F2-5"; "F2-6"]))
              (EjeDebil
                 (F6.mk 100 90 18 (1 / 5) "PASA" "fluencia" "compacta" ["F6-1"]))
              eq_refl eq_refl eq_refl)
    as (r & Hr & Ha & _ & Hva & _ & Hest);
    cbn [Compresion_Pc Flexion_Mb E3.Pc F2.Mb F6.Mb Pu Mux Muy] in *;
    try lra.
  assert (Hp : Rabs (-50) = 50) by (rewrite Rabs_left; lra).
  assert (Hx : Rabs 9 = 9) by (apply Rabs_pos_eq; lra).
  assert (Hy : Rabs (-18) = 18) by (rewrite Rabs_left; lra).
  rewrite Hp, Hx, Hy in *.
  assert (Hi : H1.interaccion r = 1 / 2 + 8 / 9 * (1 / 10 + 1 / 5)).
  { rewrite Hva; lra. }
  exists r. repeat split.
  - exact Hr.
  - apply Ha. lra.
  - exact Hi.
  - apply Hest. rewrite Hi. lra.
Defined.

(** With a compression result but no weak-axis flexure result, [Mcy]
    stays [0] and the combined value divides by it: the check raises
    whatever the other capacities are.  (The reported ['Mry_Mcy'] is
    guarded by [if Mcy > 0], the combined value is not.) *)
Lemma interaccion_sin_eje_debil (cargas : CondicionesCarga)
    (previos : Resultados.t) (comp : Compresion) :
  Resultados.compresion previos = Some comp ->
  Resultados.flexion_eje_debil previos = None ->
  verificar_interaccion_flexo_compresion cargas previos = inl ZeroDivisionError.
Proof.
  intros Hc Hy. unfold verificar_interaccion_flexo_compresion.
  rewrite Hc, Hy. cbv zeta.
  destruct (div (Rabs (Pu cargas)) (Compresion_Pc comp)) as [e | t] eqn:Ht.
  { apply div_inl in Ht. destruct Ht as [_ ->]. reflexivity. }
  cbn [bind].
  destruct (Rgeb t 0.2); cbn [bind].
  - destruct (div (Rabs (Mux cargas)) _) as [e | mx] eqn:Hmx.
    { apply div_inl in Hmx. destruct Hmx as [_ ->]. reflexivity. }
    cbn [bind]. rewrite div_zero. reflexivity.
  - destruct (div (Rabs (Pu cargas)) (2 * Compresion_Pc comp)) as [e | p] eqn:Hp.
    { apply div_inl in Hp. destruct Hp as [_ ->]. reflexivity. }
    cbn [bind].
    destruct (div (Rabs (Mux cargas)) _) as [e | mx] eqn:Hmx.
    { apply div_inl in Hmx. destruct Hmx as [_ ->]. reflexivity. }
    cbn [bind]. rewrite div_zero. reflexivity.
Qed.

(** The same with no strong-axis result. *)
Lemma interaccion_sin_eje_fuerte (cargas : CondicionesCarga)
    (previos : Resultados.t) (comp : Compresion) :
  Resultados.compresion previos = Some comp ->
  Resultados.flexion_eje_fuerte previos = None ->
  verificar_interaccion_flexo_compresion cargas previos = inl ZeroDivisionError.
Proof.
  intros Hc Hx. unfold verificar_interaccion_flexo_compresion.
  rewrite Hc, Hx. cbv zeta.
  destruct (div (Rabs (Pu cargas)) (Compresion_Pc comp)) as [e | t] eqn:Ht.
  { apply div_inl in Ht. destruct Ht as [_ ->]. reflexivity. }
  cbn [bind].
  destruct (Rgeb t 0.2); cbn [bind].
  - rewrite div_zero. reflexivity.
  - destruct (div (Rabs (Pu cargas)) (2 * Compresion_Pc comp)) as [e | p] eqn:Hp.
    { apply div_inl in Hp. destruct Hp as [_ ->]. reflexivity. }
    cbn [bind]. rewrite div_zero. reflexivity.
Qed.

(** C4 (fails on the code).  Under axial compression with a strong-axis
    moment and no weak-axis moment, [validar_todo] never returns a
    result: if the checks before it return, the interaction check is
    called with no weak-axis result and raises ZeroDivisionError; no
    combined value is produced. *)
Theorem validar_todo_un_solo_momento (perfil : PropiedadesPerfilW)
    (cargas : CondicionesCarga) :
  Pu cargas < 0 -> Mux cargas <> 0 -> Muy cargas = 0 ->
  (exists e : Excepcion, validar_todo perfil cargas = inl e) /\
  (forall (comp : Compresion) (fx : Flexion),
     verificar_compresion perfil cargas = inr comp ->
     verificar_flexion perfil cargas FUERTE = inr fx ->
     validar_todo perfil cargas = inl ZeroDivisionError).
Proof.
  intros HPu HMux HMuy.
  assert (Hgt : Rgtb (Pu cargas) 0 = false) by (apply Rltb_false_iff; lra).
  assert (Hlt : Rltb (Pu cargas) 0 = true) by (apply Rltb_true_iff; lra).
  assert (Hx : Rgtb (Rabs (Mux cargas)) 0 = true).
  { apply Rltb_true_iff. apply Rabs_pos_lt. exact HMux. }
  assert (Hy : Rgtb (Rabs (Muy cargas)) 0 = false).
  { apply Rltb_false_iff. rewrite HMuy, Rabs_R0. lra. }
  assert (Hgen : forall (comp : Compresion) (fx : Flexion),
     verificar_compresion perfil cargas = inr comp ->
     verificar_flexion perfil cargas FUERTE = inr fx ->
     validar_todo perfil cargas = inl ZeroDivisionError).
  { intros comp fx Hcomp Hfx. unfold validar_todo.
    rewrite Hgt, Hlt, Hx, Hy, Hcomp, Hfx. cbn [bind ret andb orb].
    destruct (clasificar_seccion perfil) as [e | cl] eqn:Hcl.
    - exfalso. unfold verificar_compresion in Hcomp.
      rewrite Hcl in Hcomp. discriminate Hcomp.
    - cbn [bind].
      rewrite (interaccion_sin_eje_debil cargas _ comp) by reflexivity.
      reflexivity. }
  split; [ | exact Hgen].
  destruct (verificar_compresion perfil cargas) as [e | comp] eqn:Hcomp.
  { exists e. unfold validar_todo. rewrite Hgt, Hlt, Hcomp. reflexivity. }
  destruct (verificar_flexion perfil cargas FUERTE) as [e | fx] eqn:Hfx.
  { exists e. unfold validar_todo. rewrite Hgt, Hlt, Hx, Hcomp, Hfx. reflexivity. }
  exists ZeroDivisionError. exact (Hgen comp fx eq_refl eq_refl).
Qed.

(* ================================================================== *)
(** * Chapter F: strong-axis flexure *)

Lemma Rmin_cap (x y : R) : (if Rgtb x y then y else x) = Rmin x y.
Proof.
  unfold Rgtb, Rmin. destruct (Rltb y x) eqn:Hb.
  - apply Rltb_true_iff in Hb. destruct (Rle_dec x y); [lra | reflexivity].
  - apply Rltb_false_iff in Hb. destruct (Rle_dec x y); [reflexivity | lra].
Qed.

(** What the strong-axis check returns, regime by regime.  The middle
    regime is entered for [Lp < Lt < Lr] only: its guard is
    [Lt < Lr and Lt <= Lr]. *)
Lemma flexion_eje_fuerte_regimenes (perfil : PropiedadesPerfilW)
    (cargas : CondicionesCarga) (r : F2.t) :
  _verificar_flexion_eje_fuerte perfil cargas = inr r ->
  F2.Lp r = Lp_F2_5 perfil /\
  F2.Lr r = Lr_F2_6 perfil /\
  F2.Mb r = 0.9 * F2.Mn r /\
  (Lt cargas <= Lp_F2_5 perfil ->
   F2.Mn r = Mn_F2_1 perfil /\
   F2.estado_limite r = "fluencia" /\
   F2.ecuaciones_ref r = ["F2-1"; "F2-5"; "F2-6"]) /\
  (Lp_F2_5 perfil < Lt cargas < Lr_F2_6 perfil ->
   F2.Mn r = Mn_F2_2 perfil (Cb cargas) (Lt cargas)
               (Lp_F2_5 perfil) (Lr_F2_6 perfil) /\
   F2.estado_limite r = "pandeo_LT_inelastico" /\
   F2.ecuaciones_ref r = ["F2-2"; "F2-5"; "F2-6"]) /\
  (Lp_F2_5 perfil < Lt cargas /\ Lr_F2_6 perfil <= Lt cargas ->
   F2.Mn r = Mn_F2_3 perfil (Cb cargas) (Lt cargas) /\
   F2.estado_limite r = "pandeo_LT_elastico" /\
   F2.ecuaciones_ref r = ["F2-3"; "F2-5"; "F2-6"]).
Proof.
  unfold _verificar_flexion_eje_fuerte. intros H.
  peel_bind H as cl Hcl. peel H. peel_bind H as v8 Hv8.
  destruct v8 as [[Mn el] ec]. peel H. injection H as <-.
  cbn [F2.Lp F2.Lr F2.Mb F2.Mn F2.estado_limite F2.ecuaciones_ref].
  fold (Lp_F2_5 perfil) in *. fold (rts_F2_7 perfil) in *.
  fold (Lr_F2_6 perfil) in *.
  split; [reflexivity | ]. split; [reflexivity | ]. split; [reflexivity | ].
  destruct (Rleb (Lt cargas) (Lp_F2_5 perfil)) eqn:Hp;
    [apply Rleb_true_iff in Hp | apply Rleb_false_iff in Hp].
  { injection Hv8 as <- <- <-.
    repeat split; try reflexivity; intros; exfalso; lra. }
  destruct (Rltb (Lt cargas) (Lr_F2_6 perfil)) eqn:Hr;
    [apply Rltb_true_iff in Hr | apply Rltb_false_iff in Hr].
  { assert (Hle : Rleb (Lt cargas) (Lr_F2_6 perfil) = true)
      by (apply Rleb_true_iff; lra).
    rewrite Hle in Hv8. cbn [andb] in Hv8. peel Hv8.
    injection Hv8 as <- <- <-.
    repeat split; try reflexivity; intros; exfalso; lra. }
  cbn [andb] in Hv8. peel Hv8.
  rewrite Rmin_cap in Hv8. injection Hv8 as <- <- <-.
  repeat split; try reflexivity; intros; exfalso; lra.
Qed.

(** ** Running the checks on a sample input

    On concrete rational inputs every guard of a division or square root
    and every comparison is a linear fact; where a square root has an
    exact rational value, [run_sqrt] replaces it by that value. *)

Lemma sqrt_val (x v : R) : 0 <= v /\ v * v = x -> sqrt x = v.
Proof. intros [Hv <-]. apply sqrt_square. exact Hv. Qed.

Lemma Rleb_true (x y : R) : x <= y -> Rleb x y = true.
Proof. apply Rleb_true_iff. Qed.

Lemma Rleb_false (x y : R) : y < x -> Rleb x y = false.
Proof. apply Rleb_false_iff. Qed.

Lemma Rltb_true (x y : R) : x < y -> Rltb x y = true.
Proof. apply Rltb_true_iff. Qed.

Lemma Rltb_false (x y : R) : y <= x -> Rltb x y = false.
Proof. apply Rltb_false_iff. Qed.

Ltac proj :=
  cbn [d bf tf tw A Ix Sx Zx rx Iy Sy Zy ry ho J Cw Fy Fu E
       Pu Mux Muy L Lx Ly Lt Cb].

Ltac run_div :=
  match goal with
  | |- context [div ?x ?y] => rewrite (div_ok x y) by lra
  end;
  cbn [bind ret].

Ltac run_sqrt v :=
  match goal with
  | |- context [math_sqrt ?x] =>
      rewrite (math_sqrt_ok x) by lra;
      rewrite (sqrt_val x v) by (split; lra)
  end;
  cbn [bind ret].

Ltac run_cmp :=
  match goal with
  | |- context [Rleb ?x ?y] =>
      first [rewrite (Rleb_true x y) by lra | rewrite (Rleb_false x y) by lra]
  | |- context [Rltb ?x ?y] =>
      first [rewrite (Rltb_true x y) by lra | rewrite (Rltb_false x y) by lra]
  end.

Lemma raiz_E_Fy_S1 : raiz_E_Fy perfil_S1 = inr 24.
Proof.
  unfold raiz_E_Fy, perfil_S1. proj. run_div. run_sqrt 24. reflexivity.
Qed.

Lemma clasificar_seccion_S1 :
  exists cl : Clasificacion.t, clasificar_seccion perfil_S1 = inr cl.
Proof.
  unfold clasificar_seccion. rewrite raiz_E_Fy_S1. unfold perfil_S1. proj.
  repeat run_div. eexists. reflexivity.
Qed.

(** No element of [perfil_S1] is slender. *)
Lemma clasificar_seccion_S1_compacta (cl : Clasificacion.t) :
  clasificar_seccion perfil_S1 = inr cl ->
  Clasificacion.patin_compresion cl = "compacta" /\
  Clasificacion.patin_flexion cl = "compacta" /\
  Clasificacion.alma_flexion cl = "compacta".
Proof.
  unfold clasificar_seccion. rewrite raiz_E_Fy_S1. unfold perfil_S1. proj.
  repeat run_div. unfold _clasificar_elemento. repeat run_cmp.
  intros H. injection H as <-.
  cbn [Clasificacion.patin_compresion Clasificacion.patin_flexion
       Clasificacion.alma_flexion].
  repeat split; reflexivity.
Qed.

Lemma Lp_S1 : Lp_F2_5 perfil_S1 = 168.96.
Proof.
  unfold Lp_F2_5, perfil_S1. proj.
  rewrite (sqrt_val _ 24) by (split; lra). lra.
Qed.

Lemma rts_S1 : rts_F2_7 perfil_S1 = 5.
Proof.
  unfold rts_F2_7, perfil_S1. proj.
  rewrite (sqrt_val (1600 * 160000) 16000) by (split; lra).
  apply sqrt_val. split; lra.
Qed.

Lemma Lr_S1 : Lr_F2_6 perfil_S1 = 468.
Proof.
  unfold Lr_F2_6. rewrite rts_S1. unfold perfil_S1. proj.
  rewrite (sqrt_val ((6 * 1.0 / (640 * 40)) ^ 2
                     + 6.76 * (0.7 * 3500 / 2016000) ^ 2) (730 / 230400))
    by (split; lra).
  rewrite (sqrt_val _ (28 / 480)) by (split; lra). lra.
Qed.

(** C1 (fails on the code).  With [Lt] exactly equal to [Lr] (here
    [Lp = 168.96 < Lt = Lr = 468], [Cb = 2]) the strong-axis check takes
    the elastic branch F2-3, whose nominal moment is capped at the
    plastic moment 2520000; the interpolation F2-2 would give 3136000
    there. *)
Theorem flexion_eje_fuerte_en_Lr :
  exists r : F2.t,
    _verificar_flexion_eje_fuerte perfil_S1 cargas_Lt_Lr = inr r /\
    F2.Lp r = 168.96 /\
    F2.Lr r = 468 /\
    Lt cargas_Lt_Lr = F2.Lr r /\
    F2.estado_limite r = "pandeo_LT_elastico" /\
    F2.ecuaciones_ref r = ["F2-3"; "F2-5"; "F2-6"] /\
    F2.Mn r <= 2520000 /\
    Mn_F2_2 perfil_S1 (Cb cargas_Lt_Lr) (Lt cargas_Lt_Lr) (F2.Lp r) (F2.Lr r)
      = 3136000.
Proof.
  unfold _verificar_flexion_eje_fuerte.
  destruct clasificar_seccion_S1 as [cl ->]. cbn [bind].
  rewrite raiz_E_Fy_S1. cbn [bind].
  unfold cargas_Lt_Lr, perfil_S1. proj.
  run_sqrt 16000. repeat run_div. run_sqrt 5. repeat run_div.
  run_sqrt (730 / 230400). run_sqrt (28 / 480).
  unfold Rgtb. repeat run_cmp. cbn [andb].
  repeat run_div.
  rewrite math_sqrt_ok by lra. cbn [bind ret].
  match goal with
  | |- context [if Rltb ?y ?x then ?y else ?x] =>
      fold (Rgtb x y); rewrite (Rmin_cap x y); set (FcrSx := x)
  end.
  assert (Hpos : 0 < FcrSx).
  { unfold FcrSx.
    assert (Hpi := PI_RGT_0).
    assert (Hs : 0 < sqrt (1 + 0.078 * (6 * 1.0 / (640 * 40)) * (468 / 5) ^ 2))
      by (apply sqrt_lt_R0; lra).
    apply Rmult_lt_0_compat; [ | lra].
    apply Rmult_lt_0_compat; [ | exact Hs].
    apply Rdiv_lt_0_compat; [ | lra].
    assert (0 < PI ^ 2) by (apply pow_lt; exact Hpi). lra. }
  assert (Hmin : 0 < Rmin FcrSx (3500 * 720) <= 3500 * 720).
  { split; [apply Rmin_glb_lt; lra | apply Rmin_r]. }
  rewrite div_ok by lra. cbn [bind ret].
  eexists. split; [reflexivity | ].
  cbn [F2.Lp F2.Lr F2.estado_limite F2.ecuaciones_ref F2.Mn].
  unfold Mn_F2_2. proj.
  repeat split; try reflexivity; try lra.
Qed.

(** The check also returns in the middle of the inelastic range. *)
Lemma flexion_eje_fuerte_S1_inelastico :
  exists r : F2.t,
    _verificar_flexion_eje_fuerte perfil_S1 cargas_inelastico = inr r.
Proof.
  unfold _verificar_flexion_eje_fuerte.
  destruct clasificar_seccion_S1 as [cl ->]. cbn [bind].
  rewrite raiz_E_Fy_S1. cbn [bind].
  unfold cargas_inelastico, perfil_S1. proj.
  run_sqrt 16000. repeat run_div. run_sqrt 5. repeat run_div.
  run_sqrt (730 / 230400). run_sqrt (28 / 480).
  unfold Rgtb. repeat run_cmp. cbn [andb].
  repeat run_div.
  eexists. reflexivity.
Qed.

(** C10.  In the inelastic regime [Lp < Lt < Lr] the nominal moment is
    exactly Cb (Mp - (Mp - 0.7 Fy Sx)(Lt - Lp)/(Lr - Lp)), with no cap:
    there is an input in this regime with [Cb > 1] whose nominal moment
    is strictly above the plastic moment Fy Zx.  In the elastic regime
    the nominal moment never exceeds the plastic moment. *)
Theorem flexion_eje_fuerte_inelastico_sin_tope :
  (forall (perfil : PropiedadesPerfilW) (cargas : CondicionesCarga) (r : F2.t),
     _verificar_flexion_eje_fuerte perfil cargas = inr r ->
     Lp_F2_5 perfil < Lt cargas < Lr_F2_6 perfil ->
     F2.estado_limite r = "pandeo_LT_inelastico" /\
     F2.Mn r =
       Cb cargas
       * (Fy perfil * Zx perfil
          - (Fy perfil * Zx perfil - 0.7 * Fy perfil * Sx perfil)
            * (Lt cargas - Lp_F2_5 perfil)
            / (Lr_F2_6 perfil - Lp_F2_5 perfil))) /\
  (exists (perfil : PropiedadesPerfilW) (cargas : CondicionesCarga) (r : F2.t),
     1 < Cb cargas /\
     _verificar_flexion_eje_fuerte perfil cargas = inr r /\
     Lp_F2_5 perfil < Lt cargas < Lr_F2_6 perfil /\
     Fy perfil * Zx perfil < F2.Mn r) /\
  (forall (perfil : PropiedadesPerfilW) (cargas : CondicionesCarga) (r : F2.t),
     _verificar_flexion_eje_fuerte perfil cargas = inr r ->
     Lp_F2_5 perfil < Lt cargas /\ Lr_F2_6 perfil <= Lt cargas ->
     F2.estado_limite r = "pandeo_LT_elastico" /\
     F2.Mn r <= Fy perfil * Zx perfil).
Proof.
  split; [ | split].
  - intros perfil cargas r Hr Hreg.
    destruct (flexion_eje_fuerte_regimenes perfil cargas r Hr)
      as (_ & _ & _ & _ & Hin & _).
    destruct (Hin Hreg) as (HMn & Hel & _).
    split; [exact Hel | exact HMn].
  - destruct flexion_eje_fuerte_S1_inelastico as [r Hr].
    exists perfil_S1, cargas_inelastico, r.
    assert (Hreg : Lp_F2_5 perfil_S1 < Lt cargas_inelastico < Lr_F2_6 perfil_S1).
    { rewrite Lp_S1, Lr_S1. cbn [cargas_inelastico Lt]. lra. }
    destruct (flexion_eje_fuerte_regimenes _ _ r Hr)
      as (_ & _ & _ & _ & Hin & _).
    destruct (Hin Hreg) as (HMn & _ & _).
    repeat split; try exact Hr; try apply Hreg.
    + cbn [cargas_inelastico Cb]. lra.
    + rewrite HMn. unfold Mn_F2_2. rewrite Lp_S1, Lr_S1.
      cbn [perfil_S1 cargas_inelastico Fy Zx Sx Cb Lt]. lra.
  - intros perfil cargas r Hr Hreg.
    destruct (flexion_eje_fuerte_regimenes perfil cargas r Hr)
      as (_ & _ & _ & _ & _ & Hel).
    destruct (Hel Hreg) as (HMn & Hlim & _).
    split; [exact Hlim | ].
    rewrite HMn. unfold Mn_F2_3. apply Rmin_r.
Qed.

(** C7 (as the code has it).  At [Lt = Lp] the check is in the yielding
    regime and returns Fy Zx.  The interpolation F2-2 evaluated at
    [Lt = Lp] is Cb times that, for every section and every Cb; the two
    agree when Cb = 1, the default modifier. *)
Theorem continuidad_en_Lp (perfil : PropiedadesPerfilW)
    (cargas : CondicionesCarga) :
  (forall r : F2.t,
     _verificar_flexion_eje_fuerte perfil cargas = inr r ->
     Lt cargas = Lp_F2_5 perfil ->
     F2.estado_limite r = "fluencia" /\ F2.Mn r = Fy perfil * Zx perfil) /\
  Mn_F2_2 perfil (Cb cargas) (Lp_F2_5 perfil) (Lp_F2_5 perfil) (Lr_F2_6 perfil)
    = Cb cargas * (Fy perfil * Zx perfil) /\
  Mn_F2_2 perfil 1 (Lp_F2_5 perfil) (Lp_F2_5 perfil) (Lr_F2_6 perfil)
    = Fy perfil * Zx perfil.
Proof.
  split.
  - intros r Hr HLt.
    destruct (flexion_eje_fuerte_regimenes perfil cargas r Hr)
      as (_ & _ & _ & Hy & _).
    destruct Hy as (HMn & Hel & _); [lra | ].
    split; [exact Hel | exact HMn].
  - unfold Mn_F2_2.
    replace (Lp_F2_5 perfil - Lp_F2_5 perfil) with 0 by lra.
    rewrite Rmult_0_r. unfold Rdiv at 1 2. rewrite Rmult_0_l.
    split; lra.
Qed.

(** The check at [Lt = Lp] on [perfil_S1]. *)
Lemma flexion_eje_fuerte_S1_en_Lp :
  exists r : F2.t,
    _verificar_flexion_eje_fuerte perfil_S1 cargas_Lt_Lp = inr r /\
    F2.Mn r = 2520000.
Proof.
  unfold _verificar_flexion_eje_fuerte.
  destruct clasificar_seccion_S1 as [cl ->]. cbn [bind].
  rewrite raiz_E_Fy_S1. cbn [bind].
  unfold cargas_Lt_Lp, perfil_S1. proj.
  run_sqrt 16000. repeat run_div. run_sqrt 5. repeat run_div.
  run_sqrt (730 / 230400). run_sqrt (28 / 480).
  repeat run_cmp. cbn [bind ret]. repeat run_div.
  eexists. split; [reflexivity | ]. cbn [F2.Mn]. lra.
Qed.

(** C7 as stated fails: on [perfil_S1] with [Cb = 2] and [Lt = Lp] the
    yielding regime returns 2520000, and the interpolation evaluated at
    [Lt = Lp] is 5040000. *)
Lemma continuidad_en_Lp_falla :
  exists r : F2.t,
    _verificar_flexion_eje_fuerte perfil_S1 cargas_Lt_Lp = inr r /\
    Lt cargas_Lt_Lp = Lp_F2_5 perfil_S1 /\
    F2.Mn r = 2520000 /\
    Mn_F2_2 perfil_S1 (Cb cargas_Lt_Lp) (Lp_F2_5 perfil_S1)
      (Lp_F2_5 perfil_S1) (Lr_F2_6 perfil_S1) = 5040000 /\
    F2.Mn r <>
    Mn_F2_2 perfil_S1 (Cb cargas_Lt_Lp) (Lp_F2_5 perfil_S1)
      (Lp_F2_5 perfil_S1) (Lr_F2_6 perfil_S1).
Proof.
  destruct flexion_eje_fuerte_S1_en_Lp as (r & Hr & HMn).
  exists r. rewrite HMn, Lp_S1, Lr_S1. unfold Mn_F2_2.
  cbn [perfil_S1 cargas_Lt_Lp Fy Zx Sx Cb Lt].
  repeat split; try assumption; lra.
Qed.

(* ================================================================== *)
(** * Chapter E: compression *)

(** What the standard path returns: inelastic buckling when
    [KL/r <= 4.71 sqrt(E/Fy)] or [Fy/Fe <= 2.25], elastic otherwise. *)
Lemma compresion_no_esbeltos_regimenes (perfil : PropiedadesPerfilW)
    (cargas : CondicionesCarga) (r0 : E3.t) :
  _verificar_compresion_no_esbeltos perfil cargas = inr r0 ->
  E3.Fe r0 = Fe_E3_4 perfil cargas /\
  E3.Pn r0 = E3.Fcr r0 * A perfil /\
  E3.Pc r0 = 0.9 * E3.Pn r0 /\
  (KL_r_E3 perfil cargas <= 4.71 * sqrt (E perfil / Fy perfil) \/
   Fy perfil / Fe_E3_4 perfil cargas <= 2.25 ->
   E3.modo_pandeo r0 = "inelastico" /\
   E3.Fcr r0
     = Rpower 0.658 (Fy perfil / Fe_E3_4 perfil cargas) * Fy perfil) /\
  (4.71 * sqrt (E perfil / Fy perfil) < KL_r_E3 perfil cargas /\
   2.25 < Fy perfil / Fe_E3_4 perfil cargas ->
   E3.modo_pandeo r0 = "elastico" /\
   E3.Fcr r0 = 0.877 * Fe_E3_4 perfil cargas).
Proof.
  unfold _verificar_compresion_no_esbeltos. intros H. peel H.
  fold (KL_r_E3 perfil cargas) in *. fold (Fe_E3_4 perfil cargas) in *.
  destruct (Rleb (KL_r_E3 perfil cargas) _) eqn:Hk;
    [apply Rleb_true_iff in Hk | apply Rleb_false_iff in Hk];
    destruct (Rleb (Fy perfil / Fe_E3_4 perfil cargas) 2.25) eqn:Hl;
    [apply Rleb_true_iff in Hl | apply Rleb_false_iff in Hl
    |apply Rleb_true_iff in Hl | apply Rleb_false_iff in Hl];
    cbn [orb] in H; peel H; injection H as <-;
    cbn [E3.Fe E3.Pn E3.Pc E3.Fcr E3.modo_pandeo];
    repeat split; try reflexivity; intros; exfalso; lra.
Qed.



Lemma PI_cotas : 3.13 < PI < 3.15.
Proof.
  assert (Hu := PI_2_3_7_ineq 1). assert (Hl := PI_2_3_7_ineq 0).
  destruct Hu as [_ Hu]. destruct Hl as [Hl _].
  cbn [Nat.mul Nat.add sum_f_R0] in Hu, Hl.
  unfold tg_alt, PI_2_3_7_tg, Ratan_seq in Hu, Hl.
  cbn [Nat.mul Nat.add pow INR] in Hu, Hl.
  replace (1 + 1 + 1 + 1 + 1) with 5 in Hu by lra.
  replace (1 + 1 + 1) with 3 in Hu, Hl by lra.
  split; lra.
Qed.

Lemma PI2_cotas : 9.79 < PI ^ 2 < 9.93.
Proof. assert (H := PI_cotas). split; nra. Qed.

(** [0.658 ** y] decreases in [y]. *)
Lemma Rpower_decreciente (b x y : R) :
  0 < b < 1 -> x < y -> Rpower b y < Rpower b x.
Proof.
  intros [Hb0 Hb1] Hxy. unfold Rpower. apply exp_increasing.
  assert (Hln : ln b < 0).
  { rewrite <- ln_1. apply ln_increasing; lra. }
  nra.
Qed.

Lemma Rpower_0658_4 (x : R) : 4 < x -> Rpower 0.658 x < 0.1875.
Proof.
  intros Hx.
  apply Rlt_trans with (Rpower 0.658 (INR 4)).
  - apply Rpower_decreciente; [lra | ]. cbn [INR]. lra.
  - rewrite Rpower_pow by lra. cbn [pow]. lra.
Qed.

Lemma Rpower_pos (b x : R) : 0 < Rpower b x.
Proof. unfold Rpower. apply exp_pos. Qed.

Lemma cociente_cotas (a lo hi y : R) :
  0 < a -> 0 < lo -> lo < y < hi -> a / hi < a / y < a / lo.
Proof.
  intros Ha Hlo [Hl Hh].
  assert (Hy : 0 < y) by lra. assert (Hhi : 0 < hi) by lra.
  split.
  - apply Rmult_lt_compat_l; [exact Ha | ].
    apply Rinv_lt_contravar; [apply Rmult_lt_0_compat; lra | exact Hh].
  - apply Rmult_lt_compat_l; [exact Ha | ].
    apply Rinv_lt_contravar; [apply Rmult_lt_0_compat; lra | exact Hl].
Qed.

Ltac run_str :=
  repeat match goal with
  | |- context [String.eqb ?a ?b] =>
      let v := eval vm_compute in (String.eqb a b) in
      change (String.eqb a b) with v
  end.

(** [Fe] and [Fy / Fe] of [perfil_S1] under [cargas_columna]. *)
Lemma Fe_columna_cotas :
  854 < PI ^ 2 * 2016000 / (608 / 4) ^ 2 < 867 /\
  4.03 < 3500 / (PI ^ 2 * 2016000 / (608 / 4) ^ 2) < 4.1.
Proof.
  assert (HP := PI2_cotas). set (P2 := PI ^ 2) in *.
  assert (HFe : 854 < P2 * 2016000 / (608 / 4) ^ 2 < 867) by (split; lra).
  split; [exact HFe | ].
  destruct (cociente_cotas 3500 854 867 _ ltac:(lra) ltac:(lra) HFe) as [H1 H2].
  split; lra.
Qed.

(** The standard path on the sample column: elastic buckling. *)
Lemma compresion_no_esbeltos_columna :
  exists r0 : E3.t,
    _verificar_compresion_no_esbeltos perfil_S1 cargas_columna = inr r0 /\
    E3.lambda_c r0 = 3500 / (PI ^ 2 * 2016000 / (608 / 4) ^ 2) /\
    E3.Fcr r0 = 0.877 * (PI ^ 2 * 2016000 / (608 / 4) ^ 2) /\
    E3.Pn r0 = E3.Fcr r0 * 100 /\
    E3.Pc r0 = 0.9 * E3.Pn r0 /\
    E3.modo_pandeo r0 = "elastico".
Proof.
  unfold _verificar_compresion_no_esbeltos.
  rewrite raiz_E_Fy_S1.
  unfold cargas_columna, perfil_S1. proj.
  repeat run_div.
  rewrite (Rmax_right (608 / 11.5) (608 / 4)) by lra.
  destruct Fe_columna_cotas as [HFe Hlc].
  run_div. set (Fe := PI ^ 2 * 2016000 / (608 / 4) ^ 2) in *.
  run_div. set (lc := 3500 / Fe) in *.
  repeat run_cmp. cbn [orb].
  repeat run_div.
  eexists. split; [reflexivity | ].
  cbn [E3.lambda_c E3.Fcr E3.Pn E3.Pc E3.modo_pandeo].
  repeat split; reflexivity.
Qed.

(** The slender-element path on the same input.  No element of
    [perfil_S1] is slender, so [Ae = A] and [Fy_mod = Fy]; the regime
    test compares [sqrt (Fy_mod / Fe)] with 2.25 and selects inelastic
    buckling. *)
Lemma compresion_esbeltos_columna :
  exists r1 : E7.t,
    _verificar_compresion_esbeltos perfil_S1 cargas_columna = inr r1 /\
    E7.Ae r1 = 100 /\
    E7.Fy_mod r1 = 3500 /\
    E7.Fcr r1
      = Rpower 0.658 (3500 / (PI ^ 2 * 2016000 / (608 / 4) ^ 2)) * 3500 /\
    E7.Pn r1 = E7.Fcr r1 * 100 /\
    E7.Pc r1 = 0.9 * E7.Pn r1 /\
    E7.modo_pandeo r1 = "inelastico".
Proof.
  unfold _verificar_compresion_esbeltos.
  destruct compresion_no_esbeltos_columna as (r0 & -> & _). cbn [bind].
  unfold clasificar_seccion. rewrite raiz_E_Fy_S1.
  unfold cargas_columna, perfil_S1. proj.
  repeat run_div. unfold _clasificar_elemento. repeat run_cmp.
  cbn [Clasificacion.patin_compresion Clasificacion.alma_flexion].
  run_str. cbn [bind ret].
  replace (100 - 2 * (20 - 20) * 1.25
           - (41.25 - 2 * 1.25 - (41.25 - 2 * 1.25)) * 0.8)
    with 100 by lra.
  unfold Rgtb. run_cmp. run_div.
  replace (3500 * (100 / 100)) with 3500 by lra.
  rewrite (Rmax_right (608 / 11.5) (608 / 4)) by lra.
  destruct Fe_columna_cotas as [HFe Hlc].
  run_div. set (Fe := PI ^ 2 * 2016000 / (608 / 4) ^ 2) in *.
  run_div. set (lc := 3500 / Fe) in *.
  rewrite (math_sqrt_ok lc) by lra. cbn [bind ret].
  run_div. run_sqrt 24.
  assert (Hs : sqrt lc <= 2.25).
  { rewrite <- (sqrt_val (2.25 * 2.25) 2.25) by (split; lra).
    apply sqrt_le_1_alt. lra. }
  rewrite (Rleb_false (608 / 4)) by lra.
  rewrite (Rleb_true (sqrt lc)) by exact Hs.
  cbn [orb].
  replace (sqrt lc ^ 2) with lc by (rewrite pow2_sqrt; lra).
  assert (Hpw := Rpower_pos 0.658 lc).
  rewrite div_ok by lra. cbn [bind ret].
  eexists. split; [reflexivity | ].
  cbn [E7.Ae E7.Fy_mod E7.Fcr E7.Pn E7.Pc E7.modo_pandeo].
  repeat split; reflexivity.
Qed.

(** C2 (fails on the code).  On [perfil_S1], which has no slender
    element, with KL/r = 152, the slender-element path has [Ae = A] and
    [Fy_mod = Fy] but selects inelastic buckling where the standard path
    selects elastic buckling: its critical stress, nominal capacity and
    design capacity are all strictly below the standard path's. *)
Theorem compresion_esbeltos_no_reduce :
  exists (r0 : E3.t) (r1 : E7.t),
    _verificar_compresion_no_esbeltos perfil_S1 cargas_columna = inr r0 /\
    _verificar_compresion_esbeltos perfil_S1 cargas_columna = inr r1 /\
    E7.Ae r1 = A perfil_S1 /\
    E7.Fy_mod r1 = Fy perfil_S1 /\
    E3.modo_pandeo r0 = "elastico" /\
    E7.modo_pandeo r1 = "inelastico" /\
    E7.Fcr r1 < 657 /\ 748 < E3.Fcr r0 /\
    E7.Fcr r1 < E3.Fcr r0 /\
    E7.Pn r1 < E3.Pn r0 /\
    E7.Pc r1 < E3.Pc r0.
Proof.
  destruct compresion_no_esbeltos_columna
    as (r0 & Hr0 & _ & HFcr0 & HPn0 & HPc0 & Hm0).
  destruct compresion_esbeltos_columna
    as (r1 & Hr1 & HAe & HFy & HFcr1 & HPn1 & HPc1 & Hm1).
  exists r0, r1.
  destruct Fe_columna_cotas as [HFe Hlc].
  assert (Hpw : Rpower 0.658 (3500 / (PI ^ 2 * 2016000 / (608 / 4) ^ 2))
                < 0.1875) by (apply Rpower_0658_4; lra).
  assert (Hpos := Rpower_pos 0.658 (3500 / (PI ^ 2 * 2016000 / (608 / 4) ^ 2))).
  assert (H1 : E7.Fcr r1 < 657) by (rewrite HFcr1; lra).
  assert (H0 : 748 < E3.Fcr r0) by (rewrite HFcr0; lra).
  cbn [perfil_S1 A Fy].
  rewrite HPc1, HPc0, HPn1, HPn0.
  repeat split; try assumption; lra.
Qed.

(* ================================================================== *)
(** * Chapter F: weak-axis flexure *)

Lemma raiz_E_Fy_S2 : raiz_E_Fy perfil_S2 = inr 24.
Proof.
  unfold raiz_E_Fy, perfil_S2. proj. run_div. run_sqrt 24. reflexivity.
Qed.

(** The classification of [perfil_S2]. *)
Lemma clasificar_seccion_S2 :
  exists cl : Clasificacion.t,
    clasificar_seccion perfil_S2 = inr cl /\
    Clasificacion.patin_compresion cl = "esbelta" /\
    Clasificacion.patin_flexion cl = "esbelta" /\
    Clasificacion.alma_flexion cl = "compacta" /\
    Relaciones.lambda_f (Clasificacion.relaciones cl) = 40.
Proof.
  unfold clasificar_seccion. rewrite raiz_E_Fy_S2. unfold perfil_S2. proj.
  repeat run_div. unfold _clasificar_elemento. repeat run_cmp.
  eexists. split; [reflexivity | ].
  cbn [Clasificacion.patin_compresion Clasificacion.patin_flexion
       Clasificacion.alma_flexion Clasificacion.relaciones Relaciones.lambda_f].
  repeat split; try reflexivity. lra.
Qed.

(** C8 (fails on the code).  When the weak-axis check returns and the
    flange is slender in flexure, the elastic stress divides 0.70 E by the
    square of bf / tf, the full flange width over the flange thickness,
    which is twice the flange ratio bf / (2 tf) that the claim squares.
    The nominal moment returned is therefore one quarter of
    0.70 E / (bf / (2 tf))^2 * Sy, and never equal to it. *)
Theorem flexion_eje_debil_esbelta (perfil : PropiedadesPerfilW)
    (cargas : CondicionesCarga) (r : F6.t) :
  _verificar_flexion_eje_debil perfil cargas = inr r ->
  F6.clasificacion r = "esbelta" ->
  F6.estado_limite r = "esbelta" /\
  F6.ecuaciones_ref r = ["F6-3"] /\
  F6.Mn r = 0.70 * E perfil / (bf perfil / tf perfil) ^ 2 * Sy perfil /\
  4 * F6.Mn r
    = 0.70 * E perfil / (bf perfil / (2 * tf perfil)) ^ 2 * Sy perfil /\
  F6.Mn r
    <> 0.70 * E perfil / (bf perfil / (2 * tf perfil)) ^ 2 * Sy perfil.
Proof.
  unfold _verificar_flexion_eje_debil. intros H Hcls.
  peel_bind H as cl Hcl. peel H. peel_bind H as v Hv.
  destruct v as [[Mn el] ec]. peel H. injection H as <-.
  cbn [F6.clasificacion F6.estado_limite F6.ecuaciones_ref F6.Mn] in *.
  assert (Htf : tf perfil <> 0) by assumption.
  assert (Hq2 : (bf perfil / tf perfil) ^ 2 <> 0) by assumption.
  assert (HMb : 0.9 * Mn <> 0) by assumption.
  rewrite Hcls in Hv.
  change ("esbelta" =? "compacta")%string with false in Hv.
  change ("esbelta" =? "no_compacta")%string with false in Hv.
  injection Hv as <- <- <-.
  assert (Hbf : bf perfil <> 0).
  { intros Hbf. apply Hq2. rewrite Hbf. unfold Rdiv. ring. }
  assert (H4 : 4 * (0.70 * E perfil / (bf perfil / tf perfil) ^ 2
                    * Sy perfil)
               = 0.70 * E perfil / (bf perfil / (2 * tf perfil)) ^ 2
                 * Sy perfil).
  { field. split; assumption. }
  split; [reflexivity | ]. split; [reflexivity | ].
  split; [reflexivity | ]. split; [exact H4 | ].
  change (bf perfil / tf perfil * (bf perfil / tf perfil * 1))
    with ((bf perfil / tf perfil) ^ 2) in *.
  rewrite <- H4. intros Heq. apply HMb. lra.
Qed.

(** The weak-axis check on [perfil_S2]: Fcr = 0.70 E / 80^2 = 220.5. *)
Lemma flexion_eje_debil_S2 :
  exists r : F6.t,
    _verificar_flexion_eje_debil perfil_S2 cargas_S2 = inr r /\
    F6.clasificacion r = "esbelta" /\
    F6.Mn r = 58432.5.
Proof.
  unfold _verificar_flexion_eje_debil.
  destruct clasificar_seccion_S2 as (cl & -> & _ & Hpf & _). cbn [bind].
  rewrite Hpf. unfold cargas_S2, perfil_S2. proj.
  repeat run_div. run_str. cbn [bind ret]. repeat run_div.
  eexists. split; [reflexivity | ].
  cbn [F6.clasificacion F6.Mn]. split; [reflexivity | lra].
Qed.

Lemma flexion_eje_debil_esbelta_witness :
  exists r : F6.t,
    _verificar_flexion_eje_debil perfil_S2 cargas_S2 = inr r /\
    F6.estado_limite r = "esbelta" /\
    bf perfil_S2 / (2 * tf perfil_S2) = 40 /\
    F6.Mn r = 58432.5 /\
    0.70 * E perfil_S2 / (bf perfil_S2 / (2 * tf perfil_S2)) ^ 2 * Sy perfil_S2
      = 233730 /\
    F6.Mn r <>
    0.70 * E perfil_S2 / (bf perfil_S2 / (2 * tf perfil_S2)) ^ 2 * Sy perfil_S2.
Proof.
  destruct flexion_eje_debil_S2 as (r & Hr & Hcls & HMn).
  exists r. split; [exact Hr | ].
  destruct (flexion_eje_debil_esbelta perfil_S2 cargas_S2 r Hr Hcls)
    as (Hel & _ & _ & _ & Hne).
  split; [exact Hel | ].
  split; [cbn [perfil_S2 bf tf]; lra | ].
  split; [exact HMn | ].
  split; [cbn [perfil_S2 bf tf E Sy]; lra | exact Hne].
Defined.

(* ================================================================== *)
(** * Chapter E: effective width of a slender flange *)

(** The standard path's design capacity is 0.9 x critical stress x
    gross area. *)
Lemma compresion_no_esbeltos_Pc (perfil : PropiedadesPerfilW)
    (cargas : CondicionesCarga) (r0 : E3.t) :
  _verificar_compresion_no_esbeltos perfil cargas = inr r0 ->
  E3.Pn r0 = E3.Fcr r0 * A perfil /\
  E3.Pc r0 = 0.9 * (E3.Fcr r0 * A perfil).
Proof.
  unfold _verificar_compresion_no_esbeltos. intros H. peel H.
  destruct (_ || _) in H; peel H; injection H as <-;
    cbn [E3.Pn E3.Pc E3.Fcr]; split; reflexivity.
Qed.

(** C6.  When the slender-element path returns for a section whose
    flange is classified slender in compression and whose flange ratio
    exceeds 1.03 sqrt(E / Fy), the effective flange width is
    bf (1 - 0.22 sqrt(Fcl / Fn)) sqrt(Fcl / Fn), where Fcl is
    min(1.49 (1.03 sqrt(E / Fy) / lambda_f)^2 Fy, Fy) and Fn is the
    design capacity Pc = 0.9 Fcr A returned by the standard path on the
    same input. *)
Theorem compresion_esbeltos_be_patin (perfil : PropiedadesPerfilW)
    (cargas : CondicionesCarga) (r : E7.t) (cl : Clasificacion.t) :
  _verificar_compresion_esbeltos perfil cargas = inr r ->
  clasificar_seccion perfil = inr cl ->
  Clasificacion.patin_compresion cl = "esbelta" ->
  1.03 * sqrt (E perfil / Fy perfil) < bf perfil / (2 * tf perfil) ->
  exists r0 : E3.t,
    _verificar_compresion_no_esbeltos perfil cargas = inr r0 /\
    E3.Pc r0 = 0.9 * (E3.Fcr r0 * A perfil) /\
    E7.be_patin r =
      bf perfil
      * (1 - 0.22
             * sqrt (Rmin (1.49 * (1.03 * sqrt (E perfil / Fy perfil)
                                   / (bf perfil / (2 * tf perfil))) ^ 2
                           * Fy perfil)
                          (Fy perfil)
                     / E3.Pc r0))
      * sqrt (Rmin (1.49 * (1.03 * sqrt (E perfil / Fy perfil)
                            / (bf perfil / (2 * tf perfil))) ^ 2
                    * Fy perfil)
                   (Fy perfil)
              / E3.Pc r0).
Proof.
  unfold _verificar_compresion_esbeltos. intros H Hcl Hesb Hlam.
  rewrite Hcl in H. cbn [bind] in H. cbv beta zeta in H.
  peel_bind H as r0 Hr0. exists r0. split; [exact Hr0 | ].
  split; [apply (compresion_no_esbeltos_Pc perfil cargas r0 Hr0) | ].
  rewrite Hesb in H.
  change ("esbelta" =? "esbelta")%string with true in H.
  peel_bind H as be Hbe. peel_bind H as bw Hbw. peel H.
  assert (Hr : E7.be_patin r = be).
  { destruct (_ || _) in H; peel H; injection H as <-; reflexivity. }
  rewrite Hr. clear H Hr Hbw.
  peel Hbe. rewrite Rmin_cap in Hbe.
  unfold Rgtb in Hbe. rewrite (Rltb_true _ _ Hlam) in Hbe.
  peel Hbe. injection Hbe as <-. reflexivity.
Qed.
(** ** The slender-element path on [perfil_S2] *)

Lemma Rpower_0658_unidad (x : R) : 0 < x < 1 -> 0.658 < Rpower 0.658 x < 1.
Proof.
  intros [H0 H1]. split.
  - rewrite <- (Rpower_1 0.658) at 1 by lra.
    apply Rpower_decreciente; lra.
  - rewrite <- (Rpower_O 0.658) by lra.
    apply Rpower_decreciente; lra.
Qed.

Lemma Fe_S2_cotas :
  49000 < PI ^ 2 * 2016000 / (188 / 9.4) ^ 2 < 50100 /\
  0 < 3500 / (PI ^ 2 * 2016000 / (188 / 9.4) ^ 2) < 1.
Proof.
  assert (HP := PI2_cotas). set (P2 := PI ^ 2) in *.
  assert (HFe : 49000 < P2 * 2016000 / (188 / 9.4) ^ 2 < 50100) by (split; lra).
  split; [exact HFe | ].
  destruct (cociente_cotas 3500 49000 50100 _ ltac:(lra) ltac:(lra) HFe) as [H1 H2].
  split; lra.
Qed.

Lemma compresion_no_esbeltos_S2 :
  exists r0 : E3.t,
    _verificar_compresion_no_esbeltos perfil_S2 cargas_S2 = inr r0 /\
    124362 < E3.Pc r0 < 189000.
Proof.
  unfold _verificar_compresion_no_esbeltos.
  rewrite raiz_E_Fy_S2.
  unfold cargas_S2, perfil_S2. proj.
  repeat run_div.
  rewrite (Rmax_right (188 / 17) (188 / 9.4)) by lra.
  destruct Fe_S2_cotas as [HFe Hlc].
  run_div. set (Fe := PI ^ 2 * 2016000 / (188 / 9.4) ^ 2) in *.
  run_div. set (lc := 3500 / Fe) in *.
  run_cmp. cbn [orb].
  assert (Hpw := Rpower_0658_unidad lc Hlc).
  rewrite div_ok by lra. cbn [bind ret].
  eexists. split; [reflexivity | ].
  cbn [E3.Pc]. lra.
Qed.


Lemma sqrt_unidad (x : R) : 0 <= x <= 1 -> 0 <= sqrt x <= 1.
Proof.
  intros [H0 H1]. split; [apply sqrt_pos | ].
  rewrite <- sqrt_1. apply sqrt_le_1_alt. exact H1.
Qed.

Lemma cociente_unidad (a b : R) : 0 <= a -> a < b -> 0 <= a / b <= 1.
Proof.
  intros Ha Hab. assert (Hb : 0 < b) by lra.
  split.
  - apply Rmult_le_pos; [exact Ha | ]. left. apply Rinv_0_lt_compat. exact Hb.
  - apply Rmult_le_reg_r with b; [exact Hb | ].
    unfold Rdiv. rewrite Rmult_assoc, Rinv_l by lra. lra.
Qed.

Lemma compresion_esbeltos_S2 :
  exists r : E7.t, _verificar_compresion_esbeltos perfil_S2 cargas_S2 = inr r.
Proof.
  unfold _verificar_compresion_esbeltos.
  destruct clasificar_seccion_S2 as (cl & -> & Hpc & _ & Haf & _). cbn [bind].
  destruct compresion_no_esbeltos_S2 as (r0 & -> & HFn). cbn [bind].
  rewrite Hpc, Haf. run_str.
  rewrite raiz_E_Fy_S2. unfold cargas_S2, perfil_S2. proj.
  repeat run_div. unfold Rgtb. repeat run_cmp.
  set (Fcl := 1.49 * (1.03 * 24 / (40 / (2 * 0.5))) ^ 2 * 3500).
  assert (HFcl : 0 <= Fcl < 2000) by (unfold Fcl; split; lra).
  assert (Hq : 0 <= Fcl / E3.Pc r0 <= 1) by (apply cociente_unidad; lra).
  rewrite raiz_Fcl_Fn_ok by lra. cbn [bind ret].
  assert (Hs := sqrt_unidad _ Hq). set (s := sqrt (Fcl / E3.Pc r0)) in *.
  assert (Hbe : 0 <= 40 * (1 - 0.22 * s) * s <= 40) by (split; nra).
  set (be := 40 * (1 - 0.22 * s) * s) in *.
  rewrite Rltb_false by lra.
  set (Ae := 60 - 2 * (40 - be) * 0.5 - (41 - 2 * 0.5 - (41 - 2 * 0.5)) * 0.5).
  assert (HAe : 20 <= Ae <= 60) by (unfold Ae; split; lra).
  run_div. 
  rewrite (Rmax_right (188 / 17) (188 / 9.4)) by lra.
  destruct Fe_S2_cotas as [HFe _].
  run_div. set (Fe := PI ^ 2 * 2016000 / (188 / 9.4) ^ 2) in *.
  run_div.
  assert (HFm : 1000 < 3500 * (Ae / 60) <= 3500) by (split; lra).
  set (Fy_mod := 3500 * (Ae / 60)) in *.
  assert (Hq1 : 0 <= Fy_mod / Fe <= 1) by (apply cociente_unidad; lra).
  rewrite (math_sqrt_ok (Fy_mod / Fe)) by lra. cbn [bind ret].
  run_div.
  assert (Hq2 : 0 < 2016000 / Fy_mod) by (apply Rdiv_lt_0_compat; lra).
  rewrite (math_sqrt_ok (2016000 / Fy_mod)) by lra. cbn [bind ret].
  assert (Hpw := Rpower_pos 0.658 (sqrt (Fy_mod / Fe) ^ 2)).
  destruct (_ || _).
  - assert (0 < Rpower 0.658 (sqrt (Fy_mod / Fe) ^ 2) * Fy_mod * Ae) by
      (repeat apply Rmult_lt_0_compat; lra).
    rewrite div_ok by lra. cbn [bind ret]. eexists. reflexivity.
  - assert (0 < Fe * Ae) by (apply Rmult_lt_0_compat; lra).
    rewrite div_ok by lra. cbn [bind ret]. eexists. reflexivity.
Qed.

Lemma compresion_esbeltos_be_patin_witness :
  exists (r : E7.t) (r0 : E3.t),
    _verificar_compresion_esbeltos perfil_S2 cargas_S2 = inr r /\
    _verificar_compresion_no_esbeltos perfil_S2 cargas_S2 = inr r0 /\
    E3.Pc r0 = 0.9 * (E3.Fcr r0 * 60) /\
    E7.be_patin r =
      40
      * (1 - 0.22
             * sqrt (Rmin (1.49 * (1.03 * sqrt (2016000 / 3500)
                                   / (40 / (2 * 0.5))) ^ 2 * 3500) 3500
                     / E3.Pc r0))
      * sqrt (Rmin (1.49 * (1.03 * sqrt (2016000 / 3500)
                            / (40 / (2 * 0.5))) ^ 2 * 3500) 3500
              / E3.Pc r0).
Proof.
  destruct compresion_esbeltos_S2 as [r Hr].
  destruct clasificar_seccion_S2 as (cl & Hcl & Hpc & _).
  assert (Hlam : 1.03 * sqrt (E perfil_S2 / Fy perfil_S2)
                 < bf perfil_S2 / (2 * tf perfil_S2)).
  { cbn [perfil_S2 E Fy bf tf].
    rewrite (sqrt_val (2016000 / 3500) 24) by (split; lra). lra. }
  destruct (compresion_esbeltos_be_patin perfil_S2 cargas_S2 r cl
              Hr Hcl Hpc Hlam) as (r0 & Hr0 & HPc & Hbe).
  exists r, r0. cbn [perfil_S2 E Fy bf tf A] in HPc, Hbe.
  repeat split; assumption.
Defined.

(* ================================================================== *)
(** * The orchestrator on a sample input *)

Lemma verificar_compresion_S1_un_momento :
  exists comp : Compresion,
    verificar_compresion perfil_S1 cargas_un_momento = inr comp.
Proof.
  unfold verificar_compresion.
  destruct clasificar_seccion_S1 as [cl Hcl].
  destruct (clasificar_seccion_S1_compacta cl Hcl) as (Hpc & _ & Haf).
  rewrite Hcl. cbn [bind]. rewrite Hpc, Haf. run_str. cbn [orb].
  unfold _verificar_compresion_no_esbeltos.
  rewrite raiz_E_Fy_S1.
  unfold cargas_un_momento, perfil_S1. proj.
  repeat run_div.
  rewrite (Rmax_right (300 / 11.5) (300 / 4)) by lra.
  assert (HP := PI2_cotas).
  run_div.
  assert (HFe : 0 < PI ^ 2 * 2016000 / (300 / 4) ^ 2) by lra.
  rewrite div_ok by lra. cbn [bind ret].
  run_cmp. cbn [orb].
  assert (Hpw := Rpower_pos 0.658
                   (3500 / (PI ^ 2 * 2016000 / (300 / 4) ^ 2))).
  rewrite div_ok by lra. cbn [bind ret].
  eexists. reflexivity.
Qed.

Lemma verificar_flexion_S1_un_momento :
  exists fx : Flexion,
    verificar_flexion perfil_S1 cargas_un_momento FUERTE = inr fx.
Proof.
  unfold verificar_flexion, _verificar_flexion_eje_fuerte.
  destruct clasificar_seccion_S1 as [cl ->]. cbn [bind].
  rewrite raiz_E_Fy_S1. cbn [bind].
  unfold cargas_un_momento, perfil_S1. proj.
  run_sqrt 16000. repeat run_div. run_sqrt 5. repeat run_div.
  run_sqrt (730 / 230400). run_sqrt (28 / 480).
  repeat run_cmp. cbn [bind ret].
  rewrite (Rabs_pos_eq 500000) by lra.
  repeat run_div.
  eexists. reflexivity.
Qed.

Lemma validar_todo_un_solo_momento_witness :
  validar_todo perfil_S1 cargas_un_momento = inl ZeroDivisionError.
Proof.
  destruct verificar_compresion_S1_un_momento as [comp Hcomp].
  destruct verificar_flexion_S1_un_momento as [fx Hfx].
  assert (HPu : Pu cargas_un_momento < 0)
    by (cbn [cargas_un_momento Pu]; lra).
  assert (HMux : Mux cargas_un_momento <> 0)
    by (cbn [cargas_un_momento Mux]; lra).
  assert (HMuy : Muy cargas_un_momento = 0) by reflexivity.
  exact (proj2 (validar_todo_un_solo_momento perfil_S1 cargas_un_momento
                  HPu HMux HMuy) comp fx Hcomp Hfx).
Defined.

(* ================================================================== *)
(** * More on the classification *)

Lemma raiz_E_Fy_ValueError (perfil : PropiedadesPerfilW) :
  Fy perfil <> 0 -> E perfil / Fy perfil < 0 ->
  raiz_E_Fy perfil = inl ValueError.
Proof.
  intros H1 H2. unfold raiz_E_Fy. rewrite div_ok by assumption. cbn [bind].
  unfold math_sqrt. destruct (Rlt_dec _ 0); [reflexivity | contradiction].
Qed.

Lemma raiz_E_Fy_ZeroDivisionError (perfil : PropiedadesPerfilW) :
  Fy perfil = 0 -> raiz_E_Fy perfil = inl ZeroDivisionError.
Proof. intros H. unfold raiz_E_Fy. rewrite H, div_zero. reflexivity. Qed.

(** The classification of a section whose guards hold. *)
Lemma clasificar_seccion_ok (perfil : PropiedadesPerfilW) :
  tf perfil <> 0 -> tw perfil <> 0 -> Fy perfil <> 0 ->
  0 <= E perfil / Fy perfil ->
  clasificar_seccion perfil = inr (clasificacion_B4 perfil).
Proof.
  intros Htf Htw HFy HE. unfold clasificar_seccion.
  rewrite (raiz_E_Fy_ok perfil HFy HE).
  rewrite !div_ok by lra. reflexivity.
Qed.

Lemma clasificar_seccion_inr (perfil : PropiedadesPerfilW)
    (cl : Clasificacion.t) :
  clasificar_seccion perfil = inr cl ->
  tf perfil <> 0 /\ tw perfil <> 0 /\ Fy perfil <> 0 /\
  0 <= E perfil / Fy perfil /\ cl = clasificacion_B4 perfil.
Proof.
  unfold clasificar_seccion. intros H. peel H. injection H as <-.
  repeat split; try assumption; lra.
Qed.

(** X1.  [clasificar_seccion] returns exactly when the flange
    thickness, the web thickness and the yield stress are not zero and
    E / Fy is not negative, with the ratios bf / (2 tf) and
    (d - 2 tf) / tw and the six limits 0.56, 1.49, 0.38, 1.0, 3.76 and
    5.70 times sqrt(E / Fy); a zero thickness or yield stress raises
    ZeroDivisionError, and a negative E / Fy raises ValueError. *)
Theorem clasificar_seccion_excepciones (perfil : PropiedadesPerfilW) :
  (tf perfil <> 0 /\ tw perfil <> 0 /\ Fy perfil <> 0 /\
   0 <= E perfil / Fy perfil <->
   clasificar_seccion perfil = inr (clasificacion_B4 perfil)) /\
  (tf perfil = 0 \/ tw perfil = 0 \/ Fy perfil = 0 <->
   clasificar_seccion perfil = inl ZeroDivisionError) /\
  (tf perfil <> 0 /\ tw perfil <> 0 /\ Fy perfil <> 0 /\
   E perfil / Fy perfil < 0 <->
   clasificar_seccion perfil = inl ValueError).
Proof.
  assert (Hzero : tf perfil = 0 \/ tw perfil = 0 \/ Fy perfil = 0 ->
                  clasificar_seccion perfil = inl ZeroDivisionError).
  { intros Hz. unfold clasificar_seccion.
    destruct (Req_dec_T (tf perfil) 0) as [Htf | Htf].
    { replace (2 * tf perfil) with 0 by lra. rewrite div_zero. reflexivity. }
    rewrite (div_ok (bf perfil)) by lra. cbn [bind].
    destruct (Req_dec_T (tw perfil) 0) as [Htw | Htw].
    { rewrite Htw, div_zero. reflexivity. }
    rewrite div_ok by exact Htw. cbn [bind].
    rewrite raiz_E_Fy_ZeroDivisionError by tauto. reflexivity. }
  assert (Hval : tf perfil <> 0 /\ tw perfil <> 0 /\ Fy perfil <> 0 /\
                 E perfil / Fy perfil < 0 ->
                 clasificar_seccion perfil = inl ValueError).
  { intros (Htf & Htw & HFy & HE). unfold clasificar_seccion.
    rewrite !div_ok by lra. cbn [bind].
    rewrite raiz_E_Fy_ValueError by assumption. reflexivity. }
  assert (Hcases :
    (tf perfil <> 0 /\ tw perfil <> 0 /\ Fy perfil <> 0 /\
     0 <= E perfil / Fy perfil) \/
    (tf perfil = 0 \/ tw perfil = 0 \/ Fy perfil = 0) \/
    (tf perfil <> 0 /\ tw perfil <> 0 /\ Fy perfil <> 0 /\
     E perfil / Fy perfil < 0)).
  { destruct (Req_dec_T (tf perfil) 0); [tauto | ].
    destruct (Req_dec_T (tw perfil) 0); [tauto | ].
    destruct (Req_dec_T (Fy perfil) 0); [tauto | ].
    destruct (Rlt_dec (E perfil / Fy perfil) 0); [tauto | ].
    left. repeat split; try assumption. lra. }
  split; [ | split]; split.
  - intros (Htf & Htw & HFy & HE). apply clasificar_seccion_ok; assumption.
  - intros H. apply clasificar_seccion_inr in H. tauto.
  - exact Hzero.
  - intros H. destruct Hcases as [Hok | [Hz | Hv]]; [ | exact Hz | ].
    + destruct Hok as (Htf & Htw & HFy & HE).
      rewrite (clasificar_seccion_ok perfil Htf Htw HFy HE) in H. discriminate H.
    + rewrite (Hval Hv) in H. discriminate H.
  - exact Hval.
  - intros H. destruct Hcases as [Hok | [Hz | Hv]]; [ | | exact Hv].
    + destruct Hok as (Htf & Htw & HFy & HE).
      rewrite (clasificar_seccion_ok perfil Htf Htw HFy HE) in H. discriminate H.
    + rewrite (Hzero Hz) in H. discriminate H.
Qed.

(** When does [_clasificar_elemento] give each answer. *)
Lemma clasificar_elemento_inv (lambda_val lambda_p lambda_r : R) :
  (_clasificar_elemento lambda_val lambda_p lambda_r = "compacta" <->
   lambda_val <= lambda_p) /\
  (_clasificar_elemento lambda_val lambda_p lambda_r = "no_compacta" <->
   lambda_p < lambda_val /\ lambda_val <= lambda_r) /\
  (_clasificar_elemento lambda_val lambda_p lambda_r = "esbelta" <->
   lambda_p < lambda_val /\ lambda_r < lambda_val).
Proof.
  unfold _clasificar_elemento.
  destruct (Rleb lambda_val lambda_p) eqn:Hp;
    [apply Rleb_true_iff in Hp | apply Rleb_false_iff in Hp];
    [ | destruct (Rleb lambda_val lambda_r) eqn:Hr;
        [apply Rleb_true_iff in Hr | apply Rleb_false_iff in Hr]];
    repeat split; intros; try reflexivity; try discriminate; try lra.
Qed.

(** X2.  The flange limits are nested (0.38 <= 0.56 <= 1.0 <= 1.49 times
    sqrt(E / Fy)), so the two flange classifications of one section are
    consistent: a flange compact in flexure is compact in compression, a
    flange slender in compression is slender in flexure, and a flange
    noncompact in flexure is never slender in compression. *)
Theorem clasificacion_patin_coherente (perfil : PropiedadesPerfilW)
    (cl : Clasificacion.t) :
  clasificar_seccion perfil = inr cl ->
  (Clasificacion.patin_flexion cl = "compacta" ->
   Clasificacion.patin_compresion cl = "compacta") /\
  (Clasificacion.patin_compresion cl = "esbelta" ->
   Clasificacion.patin_flexion cl = "esbelta") /\
  (Clasificacion.patin_flexion cl = "no_compacta" ->
   Clasificacion.patin_compresion cl <> "esbelta") /\
  (Clasificacion.patin_compresion cl <> "compacta" ->
   Clasificacion.patin_flexion cl <> "compacta").
Proof.
  intros H. apply clasificar_seccion_inr in H.
  destruct H as (_ & _ & _ & _ & ->).
  unfold clasificacion_B4.
  cbn [Clasificacion.patin_compresion Clasificacion.patin_flexion].
  assert (Hs := sqrt_pos (E perfil / Fy perfil)).
  set (s := sqrt (E perfil / Fy perfil)) in *.
  set (lf := lambda_f_B4 perfil).
  destruct (clasificar_elemento_inv lf (0.56 * s) (1.49 * s))
    as (Hc1 & Hc2 & Hc3).
  destruct (clasificar_elemento_inv lf (0.38 * s) (1.0 * s))
    as (Hf1 & Hf2 & Hf3).
  repeat split.
  - intros Hf. apply Hc1. apply Hf1 in Hf. lra.
  - intros Hc. apply Hf3. apply Hc3 in Hc. lra.
  - intros Hf Hc. apply Hf2 in Hf. apply Hc3 in Hc. lra.
  - intros Hc Hf. apply Hc. apply Hc1. apply Hf1 in Hf. lra.
Qed.

Lemma clasificacion_patin_coherente_witness :
  exists cl : Clasificacion.t,
    clasificar_seccion perfil_S2 = inr cl /\
    Clasificacion.patin_compresion cl = "esbelta" /\
    Clasificacion.patin_flexion cl = "esbelta".
Proof.
  destruct clasificar_seccion_S2 as (cl & Hcl & Hpc & _).
  exists cl. split; [exact Hcl | ]. split; [exact Hpc | ].
  apply (clasificacion_patin_coherente perfil_S2 cl Hcl). exact Hpc.
Defined.

(* ================================================================== *)
(** * More on the tension check *)

Lemma Rabs_cociente_le_1 (x y : R) : 0 < y -> (Rabs x / y <= 1 <-> Rabs x <= y).
Proof.
  intros Hy. split; intros H.
  - apply Rmult_le_compat_r with (r := y) in H; [ | lra].
    unfold Rdiv in H. rewrite Rmult_assoc, Rinv_l in H by lra. lra.
  - apply Rmult_le_reg_r with y; [exact Hy | ].
    unfold Rdiv. rewrite Rmult_assoc, Rinv_l by lra. lra.
Qed.

Lemma Rabs_cociente_pos (x y : R) : 0 < y -> 0 <= Rabs x / y.
Proof.
  intros Hy. apply Rmult_le_pos; [apply Rabs_pos | ].
  left. apply Rinv_0_lt_compat. exact Hy.
Qed.



(* ================================================================== *)
(** * More on the standard compression path *)

Lemma PI_cota_inferior : 3.1415 < PI.
Proof.
  assert (Hl := PI_2_3_7_ineq 1). destruct Hl as [Hl _].
  cbn [Nat.mul Nat.add sum_f_R0] in Hl.
  unfold tg_alt, PI_2_3_7_tg, Ratan_seq in Hl.
  cbn [Nat.mul Nat.add pow INR] in Hl.
  replace (1 + 1 + 1 + 1 + 1 + 1 + 1) with 7 in Hl by lra.
  replace (1 + 1 + 1 + 1 + 1) with 5 in Hl by lra.
  replace (1 + 1 + 1) with 3 in Hl by lra.
  lra.
Qed.

(** The values of the standard path: the guards it passed and the
    elastic buckling stress. *)
Lemma compresion_no_esbeltos_guardas (perfil : PropiedadesPerfilW)
    (cargas : CondicionesCarga) (r0 : E3.t) :
  _verificar_compresion_no_esbeltos perfil cargas = inr r0 ->
  rx perfil <> 0 /\ ry perfil <> 0 /\
  KL_r_E3 perfil cargas <> 0 /\ Fe_E3_4 perfil cargas <> 0 /\
  Fy perfil <> 0 /\ 0 <= E perfil / Fy perfil /\
  E3.Pc r0 <> 0 /\
  E3.KL_r_gobernante r0 = KL_r_E3 perfil cargas /\
  E3.lambda_c r0 = Fy perfil / Fe_E3_4 perfil cargas /\
  E3.RDC r0 = Rabs (Pu cargas) / E3.Pc r0 /\
  E3.estado r0 = (if Rleb (E3.RDC r0) 1.0 then "PASA" else "FALLA").
Proof.
  unfold _verificar_compresion_no_esbeltos. intros H. peel H.
  fold (KL_r_E3 perfil cargas) in *. fold (Fe_E3_4 perfil cargas) in *.
  destruct (_ || _) in H; peel H; injection H as <-;
    cbn [E3.Pc E3.KL_r_gobernante E3.lambda_c E3.RDC E3.estado];
    repeat split; try assumption; try reflexivity;
    match goal with
    | Hk : KL_r_E3 perfil cargas ^ 2 <> 0 |- _ =>
        intros Hz; apply Hk; rewrite Hz; ring
    end.
Qed.

(** With positive [E], [Fy] and governing slenderness, [Fy / Fe] is
    (KL/r)^2 / (PI^2 E / Fy) and is positive. *)
Lemma lambda_c_positivo (perfil : PropiedadesPerfilW)
    (cargas : CondicionesCarga) :
  0 < E perfil -> 0 < Fy perfil -> KL_r_E3 perfil cargas <> 0 ->
  0 < Fe_E3_4 perfil cargas /\
  0 < Fy perfil / Fe_E3_4 perfil cargas /\
  Fy perfil / Fe_E3_4 perfil cargas
    = KL_r_E3 perfil cargas ^ 2 / (PI ^ 2 * (E perfil / Fy perfil)).
Proof.
  intros HE HFy HK. unfold Fe_E3_4.
  set (k := KL_r_E3 perfil cargas) in *.
  assert (Hk2 : 0 < k ^ 2).
  { assert (H0 := pow2_ge_0 k). assert (H1 := pow_nonzero k 2 HK). lra. }
  assert (Hpi : 0 < PI ^ 2) by (apply pow_lt; apply PI_RGT_0).
  assert (HFe : 0 < PI ^ 2 * E perfil / k ^ 2).
  { apply Rdiv_lt_0_compat; [ | exact Hk2]. apply Rmult_lt_0_compat; assumption. }
  split; [exact HFe | ]. split.
  - apply Rdiv_lt_0_compat; assumption.
  - assert (Hpi0 := PI_RGT_0). field. repeat split; try assumption; lra.
Qed.

(** The coefficient test implies the stress-ratio test: 4.71 is below
    1.5 PI. *)
Lemma limite_471_implica_225 (perfil : PropiedadesPerfilW)
    (cargas : CondicionesCarga) :
  0 < E perfil -> 0 < Fy perfil -> 0 < KL_r_E3 perfil cargas ->
  KL_r_E3 perfil cargas <= 4.71 * sqrt (E perfil / Fy perfil) ->
  Fy perfil / Fe_E3_4 perfil cargas <= 2.25.
Proof.
  intros HE HFy HK Hle.
  destruct (lambda_c_positivo perfil cargas HE HFy) as (_ & _ & ->); [lra | ].
  assert (Hq : 0 < E perfil / Fy perfil) by (apply Rdiv_lt_0_compat; assumption).
  assert (Hs : 0 < sqrt (E perfil / Fy perfil)) by (apply sqrt_lt_R0; exact Hq).
  assert (Hss := sqrt_sqrt (E perfil / Fy perfil) (Rlt_le _ _ Hq)).
  set (s := sqrt (E perfil / Fy perfil)) in *.
  set (q := E perfil / Fy perfil) in *.
  set (k := KL_r_E3 perfil cargas) in *.
  assert (Hpi := PI_cota_inferior).
  assert (Hpi2 : 3.1415 * 3.1415 < PI ^ 2) by nra.
  assert (Hk2 : k ^ 2 <= 4.71 * 4.71 * q) by nra.
  assert (Hden : 0 < PI ^ 2 * q) by nra.
  apply Rmult_le_reg_r with (PI ^ 2 * q); [exact Hden | ].
  unfold Rdiv. rewrite Rmult_assoc, Rinv_l by lra. nra.
Qed.

(** X4.  For positive E, Fy and governing slenderness the regime of the
    standard path is decided by Fy / Fe alone: it is inelastic exactly
    when Fy / Fe <= 2.25, that is when KL/r <= 1.5 PI sqrt(E / Fy).  The
    first test of the code, KL/r <= 4.71 sqrt(E / Fy), never decides,
    because 4.71 < 1.5 PI. *)
Theorem compresion_no_esbeltos_limite (perfil : PropiedadesPerfilW)
    (cargas : CondicionesCarga) (r0 : E3.t) :
  _verificar_compresion_no_esbeltos perfil cargas = inr r0 ->
  0 < E perfil -> 0 < Fy perfil -> 0 < KL_r_E3 perfil cargas ->
  (E3.modo_pandeo r0 = "inelastico" <->
   Fy perfil / Fe_E3_4 perfil cargas <= 2.25) /\
  (E3.modo_pandeo r0 = "elastico" <->
   2.25 < Fy perfil / Fe_E3_4 perfil cargas) /\
  (E3.modo_pandeo r0 = "inelastico" <->
   KL_r_E3 perfil cargas <= 1.5 * PI * sqrt (E perfil / Fy perfil)).
Proof.
  intros Hr HE HFy HK.
  destruct (compresion_no_esbeltos_regimenes perfil cargas r0 Hr)
    as (_ & _ & _ & Hin & Hel).
  assert (H471 := limite_471_implica_225 perfil cargas HE HFy HK).
  assert (Hiff : E3.modo_pandeo r0 = "inelastico" <->
                 Fy perfil / Fe_E3_4 perfil cargas <= 2.25).
  { split.
    - intros Hm.
      destruct (Rle_dec (Fy perfil / Fe_E3_4 perfil cargas) 2.25) as [Hl | Hl];
        [exact Hl | ].
      destruct Hel as (Hm' & _); [ | rewrite Hm in Hm'; discriminate Hm'].
      split; [ | lra].
      destruct (Rlt_dec (4.71 * sqrt (E perfil / Fy perfil))
                  (KL_r_E3 perfil cargas)) as [Hk | Hk]; [exact Hk | ].
      exfalso. apply Hl. apply H471. lra.
    - intros Hl. apply Hin. right. exact Hl. }
  split; [exact Hiff | ]. split.
  - split.
    + intros Hm.
      destruct (Rlt_dec 2.25 (Fy perfil / Fe_E3_4 perfil cargas)) as [Hl | Hl];
        [exact Hl | ].
      assert (Hi : E3.modo_pandeo r0 = "inelastico") by (apply Hiff; lra).
      rewrite Hm in Hi. discriminate Hi.
    + intros Hl. apply Hel. split; [ | exact Hl].
      destruct (Rlt_dec (4.71 * sqrt (E perfil / Fy perfil))
                  (KL_r_E3 perfil cargas)) as [Hk | Hk]; [exact Hk | ].
      exfalso. assert (Hle := H471 ltac:(lra)). lra.
  - rewrite Hiff.
    destruct (lambda_c_positivo perfil cargas HE HFy) as (_ & _ & ->); [lra | ].
    assert (Hq : 0 < E perfil / Fy perfil) by (apply Rdiv_lt_0_compat; assumption).
    assert (Hs : 0 < sqrt (E perfil / Fy perfil)) by (apply sqrt_lt_R0; exact Hq).
    assert (Hss := sqrt_sqrt (E perfil / Fy perfil) (Rlt_le _ _ Hq)).
    set (s := sqrt (E perfil / Fy perfil)) in *.
    set (q := E perfil / Fy perfil) in *.
    set (k := KL_r_E3 perfil cargas) in *.
    assert (Hpi := PI_RGT_0).
    assert (Hpi2 : 0 < PI ^ 2) by (apply pow_lt; exact Hpi).
    assert (Hden : 0 < PI ^ 2 * q) by (apply Rmult_lt_0_compat; assumption).
    set (t := 1.5 * PI * s).
    assert (Ht : 0 < t).
    { unfold t. apply Rmult_lt_0_compat; [apply Rmult_lt_0_compat; lra | lra]. }
    assert (Ht2 : t ^ 2 = 2.25 * (PI ^ 2 * q)) by (unfold t; rewrite <- Hss; nra).
    split; intros H.
    + apply Rmult_le_compat_r with (r := PI ^ 2 * q) in H; [ | lra].
      unfold Rdiv in H. rewrite Rmult_assoc, Rinv_l in H by lra.
      destruct (Rle_dec k t) as [Hkt | Hkt]; [exact Hkt | ].
      exfalso. assert (Hlt : t * t < k * k) by (apply Rmult_le_0_lt_compat; lra).
      nra.
    + apply Rmult_le_reg_r with (PI ^ 2 * q); [exact Hden | ].
      unfold Rdiv. rewrite Rmult_assoc, Rinv_l by lra.
      assert (Hle : k * k <= t * t) by (apply Rmult_le_compat; lra).
      nra.
Qed.

Lemma KL_r_columna : KL_r_E3 perfil_S1 cargas_columna = 152.
Proof.
  unfold KL_r_E3. cbn [perfil_S1 cargas_columna Lx Ly rx ry].
  rewrite Rmax_right by lra. lra.
Qed.

Lemma compresion_no_esbeltos_limite_witness :
  exists r0 : E3.t,
    _verificar_compresion_no_esbeltos perfil_S1 cargas_columna = inr r0 /\
    E3.modo_pandeo r0 = "elastico" /\
    2.25 < Fy perfil_S1 / Fe_E3_4 perfil_S1 cargas_columna.
Proof.
  destruct compresion_no_esbeltos_columna as (r0 & Hr0 & _ & _ & _ & _ & Hm).
  exists r0. split; [exact Hr0 | ]. split; [exact Hm | ].
  apply (compresion_no_esbeltos_limite perfil_S1 cargas_columna r0 Hr0).
  - cbn [perfil_S1 E]. lra.
  - cbn [perfil_S1 Fy]. lra.
  - rewrite KL_r_columna. lra.
  - exact Hm.
Defined.

Lemma Rpower_0658_lt_1 (x : R) : 0 < x -> 0 < Rpower 0.658 x < 1.
Proof.
  intros Hx. split; [apply Rpower_pos | ].
  rewrite <- (Rpower_O 0.658) by lra.
  apply Rpower_decreciente; lra.
Qed.

Lemma Rpower_0658_decreciente (x y : R) :
  x <= y -> Rpower 0.658 y <= Rpower 0.658 x.
Proof.
  intros [Hlt | ->]; [ | lra].
  left. apply Rpower_decreciente; lra.
Qed.

(** At the switch point the inelastic curve is above the elastic one:
    0.658^2.25 >= 0.877 / 2.25. *)
Lemma Rpower_0658_225 : 0.3898 <= Rpower 0.658 2.25.
Proof.
  replace 2.25 with (INR 2 + / 4) by (cbn [INR]; lra).
  rewrite Rpower_plus, Rpower_pow by lra.
  assert (Hq : 0.9006 <= Rpower 0.658 (/ 4)).
  { replace 0.9006 with (Rpower (Rpower 0.9006 (INR 4)) (/ 4)).
    - apply Rle_Rpower_l; [lra | ].
      rewrite Rpower_pow by lra. cbn [pow]. split; lra.
    - rewrite Rpower_mult. replace (INR 4 * / 4) with 1 by (cbn [INR]; lra).
      apply Rpower_1. lra. }
  cbn [pow]. nra.
Qed.

(** X5.  For positive E, Fy and A, whenever the standard path returns,
    its critical stress is positive and at most Fy, so the nominal
    capacity is at most the squash load Fy A and the design capacity at
    most 0.9 Fy A; the ratio is not negative and the check passes
    exactly when |Pu| does not exceed the design capacity. *)
Theorem compresion_no_esbeltos_cotas (perfil : PropiedadesPerfilW)
    (cargas : CondicionesCarga) (r0 : E3.t) :
  _verificar_compresion_no_esbeltos perfil cargas = inr r0 ->
  0 < E perfil -> 0 < Fy perfil -> 0 < A perfil ->
  0 < E3.Fcr r0 <= Fy perfil /\
  0 < E3.Pn r0 <= Fy perfil * A perfil /\
  0 < E3.Pc r0 <= 0.9 * (Fy perfil * A perfil) /\
  0 <= E3.RDC r0 /\
  (E3.estado r0 = "PASA" <-> Rabs (Pu cargas) <= E3.Pc r0).
Proof.
  intros Hr HE HFy HA.
  destruct (compresion_no_esbeltos_guardas perfil cargas r0 Hr)
    as (_ & _ & HK & _ & _ & _ & _ & _ & _ & HRDC & Hest).
  destruct (compresion_no_esbeltos_regimenes perfil cargas r0 Hr)
    as (_ & HPn & HPc & Hin & Hel).
  destruct (lambda_c_positivo perfil cargas HE HFy HK) as (HFe & Hlc & _).
  assert (HFcr : 0 < E3.Fcr r0 <= Fy perfil).
  { destruct (Rle_dec (Fy perfil / Fe_E3_4 perfil cargas) 2.25) as [Hl | Hl].
    - destruct Hin as (_ & ->); [right; exact Hl | ].
      destruct (Rpower_0658_lt_1 _ Hlc) as [Hp0 Hp1]. split; nra.
    - destruct (Rle_dec (KL_r_E3 perfil cargas)
                  (4.71 * sqrt (E perfil / Fy perfil))) as [Hk | Hk].
      + destruct Hin as (_ & ->); [left; exact Hk | ].
        destruct (Rpower_0658_lt_1 _ Hlc) as [Hp0 Hp1]. split; nra.
      + destruct Hel as (_ & ->); [split; lra | ].
        assert (H225 : 2.25 * Fe_E3_4 perfil cargas < Fy perfil).
        { apply Rnot_le_lt in Hl.
          apply Rmult_lt_compat_r with (r := Fe_E3_4 perfil cargas) in Hl;
            [ | exact HFe].
          unfold Rdiv in Hl. rewrite Rmult_assoc, Rinv_l in Hl by lra. lra. }
        split; lra. }
  assert (HPn' : 0 < E3.Pn r0 <= Fy perfil * A perfil) by (rewrite HPn; split; nra).
  assert (HPc' : 0 < E3.Pc r0 <= 0.9 * (Fy perfil * A perfil))
    by (rewrite HPc; split; lra).
  repeat split; try tauto; try lra.
  - rewrite HRDC. apply Rabs_cociente_pos. lra.
  - rewrite Hest, HRDC. intros H. apply Rabs_cociente_le_1; [lra | ].
    apply estado_PASA. exact H.
  - rewrite Hest, HRDC. intros H. apply estado_PASA.
    apply Rabs_cociente_le_1; [lra | exact H].
Qed.

Lemma compresion_no_esbeltos_cotas_witness :
  exists r0 : E3.t,
    _verificar_compresion_no_esbeltos perfil_S1 cargas_columna = inr r0 /\
    0 < E3.Pc r0 <= 315000.
Proof.
  destruct compresion_no_esbeltos_columna as (r0 & Hr0 & _).
  exists r0. split; [exact Hr0 | ].
  destruct (compresion_no_esbeltos_cotas perfil_S1 cargas_columna r0 Hr0)
    as (_ & _ & HPc & _); try (cbn [perfil_S1 E Fy A]; lra).
  cbn [perfil_S1 Fy A] in HPc. lra.
Defined.

(** X6.  A longer column is never stronger: on one section with
    positive E, Fy and A, if the governing slenderness of one load case
    is positive and at most that of another, the critical stress and the
    capacities of the second are at most those of the first, also across
    the switch from the inelastic to the elastic formula. *)
Theorem compresion_no_esbeltos_monotona (perfil : PropiedadesPerfilW)
    (c1 c2 : CondicionesCarga) (r1 r2 : E3.t) :
  _verificar_compresion_no_esbeltos perfil c1 = inr r1 ->
  _verificar_compresion_no_esbeltos perfil c2 = inr r2 ->
  0 < E perfil -> 0 < Fy perfil -> 0 < A perfil ->
  0 < KL_r_E3 perfil c1 <= KL_r_E3 perfil c2 ->
  E3.Fcr r2 <= E3.Fcr r1 /\
  E3.Pn r2 <= E3.Pn r1 /\
  E3.Pc r2 <= E3.Pc r1.
Proof.
  intros Hr1 Hr2 HE HFy HA [HK1 HK12].
  destruct (compresion_no_esbeltos_regimenes perfil c1 r1 Hr1)
    as (_ & HPn1 & HPc1 & Hin1 & Hel1).
  destruct (compresion_no_esbeltos_regimenes perfil c2 r2 Hr2)
    as (_ & HPn2 & HPc2 & Hin2 & Hel2).
  destruct (lambda_c_positivo perfil c1 HE HFy) as (HFe1 & Hl1 & Hq1); [lra | ].
  destruct (lambda_c_positivo perfil c2 HE HFy) as (HFe2 & Hl2 & Hq2); [lra | ].
  assert (H471_1 := limite_471_implica_225 perfil c1 HE HFy HK1).
  assert (H471_2 := limite_471_implica_225 perfil c2 HE HFy ltac:(lra)).
  assert (Hq : 0 < E perfil / Fy perfil) by (apply Rdiv_lt_0_compat; assumption).
  assert (Hpi2 : 0 < PI ^ 2) by (apply pow_lt; apply PI_RGT_0).
  assert (Hden : 0 < PI ^ 2 * (E perfil / Fy perfil))
    by (apply Rmult_lt_0_compat; assumption).
  assert (Hk : KL_r_E3 perfil c1 ^ 2 <= KL_r_E3 perfil c2 ^ 2).
  { cbn [pow]. rewrite !Rmult_1_r. apply Rmult_le_compat; lra. }
  assert (Hlam : Fy perfil / Fe_E3_4 perfil c1 <= Fy perfil / Fe_E3_4 perfil c2).
  { rewrite Hq1, Hq2. apply Rmult_le_compat_r; [ | exact Hk].
    left. apply Rinv_0_lt_compat. exact Hden. }
  set (l1 := Fy perfil / Fe_E3_4 perfil c1) in *.
  set (l2 := Fy perfil / Fe_E3_4 perfil c2) in *.
  assert (Helast : forall (c : CondicionesCarga),
            0 < Fe_E3_4 perfil c -> 2.25 < Fy perfil / Fe_E3_4 perfil c ->
            2.25 * Fe_E3_4 perfil c < Fy perfil).
  { intros c HFe Hl.
    apply Rmult_lt_compat_r with (r := Fe_E3_4 perfil c) in Hl; [ | exact HFe].
    unfold Rdiv in Hl. rewrite Rmult_assoc, Rinv_l in Hl by lra. lra. }
  assert (HFcr : E3.Fcr r2 <= E3.Fcr r1).
  { destruct (Rle_dec l2 2.25) as [H2 | H2].
    - destruct Hin1 as (_ & ->); [right; lra | ].
      destruct Hin2 as (_ & ->); [right; exact H2 | ].
      apply Rmult_le_compat_r; [lra | ].
      apply Rpower_0658_decreciente. exact Hlam.
    - apply Rnot_le_lt in H2.
      assert (Hk2 : 4.71 * sqrt (E perfil / Fy perfil) < KL_r_E3 perfil c2).
      { apply Rnot_le_lt. intros Hc. apply H471_2 in Hc. lra. }
      destruct Hel2 as (_ & ->); [split; assumption | ].
      assert (He2 := Helast c2 HFe2 H2).
      destruct (Rle_dec l1 2.25) as [H1 | H1].
      + destruct Hin1 as (_ & ->); [right; exact H1 | ].
        assert (Hp := Rpower_0658_decreciente l1 2.25 H1).
        assert (Hp225 := Rpower_0658_225). nra.
      + apply Rnot_le_lt in H1.
        assert (Hk1 : 4.71 * sqrt (E perfil / Fy perfil) < KL_r_E3 perfil c1).
        { apply Rnot_le_lt. intros Hc. apply H471_1 in Hc. lra. }
        destruct Hel1 as (_ & ->); [split; assumption | ].
        assert (HFe : Fe_E3_4 perfil c2 <= Fe_E3_4 perfil c1).
        { unfold Fe_E3_4. apply Rmult_le_compat_l; [nra | ].
          apply Rinv_le_contravar; [ | exact Hk].
          cbn [pow]. rewrite Rmult_1_r. apply Rmult_lt_0_compat; lra. }
        lra. }
  rewrite HPc1, HPc2, HPn1, HPn2. repeat split; try exact HFcr; nra.
Qed.

(** In the exact arithmetic of the model the standard path returns on
    every input that passes its guards. *)
Lemma compresion_no_esbeltos_devuelve (perfil : PropiedadesPerfilW)
    (cargas : CondicionesCarga) :
  rx perfil <> 0 -> ry perfil <> 0 -> KL_r_E3 perfil cargas <> 0 ->
  A perfil <> 0 -> Fy perfil <> 0 -> 0 < E perfil / Fy perfil ->
  exists r0 : E3.t, _verificar_compresion_no_esbeltos perfil cargas = inr r0.
Proof.
  intros Hrx Hry HK HA HFy HEFy.
  assert (HE : E perfil <> 0).
  { intros H0. rewrite H0 in HEFy. unfold Rdiv in HEFy.
    rewrite Rmult_0_l in HEFy. lra. }
  assert (Hpi : PI ^ 2 <> 0) by (apply pow_nonzero; apply PI_neq0).
  assert (HK2 : KL_r_E3 perfil cargas ^ 2 <> 0) by (apply pow_nonzero; exact HK).
  assert (HFe : Fe_E3_4 perfil cargas <> 0).
  { unfold Fe_E3_4, Rdiv. apply Rmult_integral_contrapositive_currified.
    - apply Rmult_integral_contrapositive_currified; assumption.
    - apply Rinv_neq_0_compat. exact HK2. }
  unfold _verificar_compresion_no_esbeltos.
  rewrite (div_ok (Lx cargas)) by exact Hrx. cbn [bind].
  rewrite (div_ok (Ly cargas)) by exact Hry. cbn [bind]. cbv zeta.
  fold (KL_r_E3 perfil cargas).
  rewrite (div_ok (PI ^ 2 * E perfil)) by exact HK2. cbn [bind].
  fold (Fe_E3_4 perfil cargas).
  rewrite (div_ok (Fy perfil)) by exact HFe. cbn [bind].
  rewrite raiz_E_Fy_ok by lra. cbn [bind].
  assert (Hpw := Rpower_pos 0.658 (Fy perfil / Fe_E3_4 perfil cargas)).
  destruct (_ || _).
  - rewrite div_ok; [cbn [bind ret]; eexists; reflexivity | ].
    apply Rmult_integral_contrapositive_currified; [lra | ].
    apply Rmult_integral_contrapositive_currified; [ | exact HA].
    apply Rmult_integral_contrapositive_currified; [lra | exact HFy].
  - rewrite div_ok; [cbn [bind ret]; eexists; reflexivity | ].
    apply Rmult_integral_contrapositive_currified; [lra | ].
    apply Rmult_integral_contrapositive_currified; [ | exact HA].
    apply Rmult_integral_contrapositive_currified; [lra | exact HFe].
Qed.



Lemma KL_r_columna_corta : KL_r_E3 perfil_S1 cargas_columna_corta = 75.
Proof.
  unfold KL_r_E3. cbn [perfil_S1 cargas_columna_corta Lx Ly rx ry].
  rewrite Rmax_right by lra. lra.
Qed.

Lemma compresion_no_esbeltos_columna_corta :
  exists r0 : E3.t,
    _verificar_compresion_no_esbeltos perfil_S1 cargas_columna_corta = inr r0.
Proof.
  apply compresion_no_esbeltos_devuelve;
    try rewrite KL_r_columna_corta; cbn [perfil_S1 rx ry A Fy E]; lra.
Qed.


Lemma compresion_no_esbeltos_monotona_witness :
  exists r1 r2 : E3.t,
    _verificar_compresion_no_esbeltos perfil_S1 cargas_columna_corta = inr r1 /\
    _verificar_compresion_no_esbeltos perfil_S1 cargas_columna = inr r2 /\
    E3.Pc r2 <= E3.Pc r1.
Proof.
  destruct compresion_no_esbeltos_columna_corta as [r1 Hr1].
  destruct compresion_no_esbeltos_columna as (r2 & Hr2 & _).
  exists r1, r2. split; [exact Hr1 | ]. split; [exact Hr2 | ].
  apply (compresion_no_esbeltos_monotona perfil_S1
           cargas_columna_corta cargas_columna r1 r2 Hr1 Hr2);
    try rewrite KL_r_columna_corta; try rewrite KL_r_columna;
    cbn [perfil_S1 E Fy A]; lra.
Defined.

(* ================================================================== *)
(** * More on the compression dispatch and the slender-element path *)

(** An element is classified slender exactly when its ratio is above the
    second limit, provided the limits are in order. *)
Lemma esbelta_iff (lambda_val lambda_p lambda_r : R) :
  lambda_p <= lambda_r ->
  (_clasificar_elemento lambda_val lambda_p lambda_r = "esbelta" <->
   lambda_r < lambda_val).
Proof.
  intros Hpr.
  destruct (clasificar_elemento_inv lambda_val lambda_p lambda_r)
    as (_ & _ & He).
  rewrite He. split; [tauto | ]. intros H. split; lra.
Qed.

Lemma patin_compresion_esbelta_iff (perfil : PropiedadesPerfilW) :
  Clasificacion.patin_compresion (clasificacion_B4 perfil) = "esbelta" <->
  1.49 * sqrt (E perfil / Fy perfil) < lambda_f_B4 perfil.
Proof.
  unfold clasificacion_B4. cbn [Clasificacion.patin_compresion].
  apply esbelta_iff. assert (Hs := sqrt_pos (E perfil / Fy perfil)). lra.
Qed.

Lemma alma_flexion_esbelta_iff (perfil : PropiedadesPerfilW) :
  Clasificacion.alma_flexion (clasificacion_B4 perfil) = "esbelta" <->
  5.70 * sqrt (E perfil / Fy perfil) < lambda_w_B4 perfil.
Proof.
  unfold clasificacion_B4. cbn [Clasificacion.alma_flexion].
  apply esbelta_iff. assert (Hs := sqrt_pos (E perfil / Fy perfil)). lra.
Qed.

Lemma eqb_esbelta (s : string) :
  (s =? "esbelta")%string = false <-> s <> "esbelta".
Proof. apply String.eqb_neq. Qed.

(** X8.  [verificar_compresion] returns the result of the standard path
    when the flange ratio is at most 1.49 sqrt(E / Fy) and the web ratio
    at most 5.70 sqrt(E / Fy), and the result of the slender-element
    path when either ratio is above its limit; in both cases it is the
    result of that path on the same input. *)
Theorem verificar_compresion_despacho (perfil : PropiedadesPerfilW)
    (cargas : CondicionesCarga) (comp : Compresion) :
  verificar_compresion perfil cargas = inr comp ->
  (lambda_f_B4 perfil <= 1.49 * sqrt (E perfil / Fy perfil) /\
   lambda_w_B4 perfil <= 5.70 * sqrt (E perfil / Fy perfil) ->
   exists r0 : E3.t,
     comp = NoEsbeltos r0 /\
     _verificar_compresion_no_esbeltos perfil cargas = inr r0) /\
  (1.49 * sqrt (E perfil / Fy perfil) < lambda_f_B4 perfil \/
   5.70 * sqrt (E perfil / Fy perfil) < lambda_w_B4 perfil ->
   exists r1 : E7.t,
     comp = Esbeltos r1 /\
     _verificar_compresion_esbeltos perfil cargas = inr r1).
Proof.
  unfold verificar_compresion. intros H.
  peel_bind H as cl Hcl.
  apply clasificar_seccion_inr in Hcl. destruct Hcl as (_ & _ & _ & _ & ->).
  assert (Hf := patin_compresion_esbelta_iff perfil).
  assert (Hw := alma_flexion_esbelta_iff perfil).
  destruct (_ =? _)%string eqn:Ef in H;
    [apply String.eqb_eq in Ef | apply String.eqb_neq in Ef];
    [ | destruct (_ =? _)%string eqn:Ew in H;
        [apply String.eqb_eq in Ew | apply String.eqb_neq in Ew]];
    cbn [orb] in H; peel_bind H as r Hr; injection H as <-.
  - split.
    + intros [H1 _]. apply Hf in Ef. lra.
    + intros _. exists r. split; [reflexivity | exact Hr].
  - split.
    + intros [_ H2]. apply Hw in Ew. lra.
    + intros _. exists r. split; [reflexivity | exact Hr].
  - split.
    + intros _. exists r. split; [reflexivity | exact Hr].
    + intros [H1 | H2]; [apply Hf in H1 | apply Hw in H2]; contradiction.
Qed.

Lemma verificar_compresion_despacho_witness :
  exists (comp : Compresion) (r0 : E3.t),
    verificar_compresion perfil_S1 cargas_un_momento = inr comp /\
    comp = NoEsbeltos r0.
Proof.
  destruct verificar_compresion_S1_un_momento as [comp Hcomp].
  destruct (verificar_compresion_despacho perfil_S1 cargas_un_momento
              comp Hcomp) as [Hno _].
  destruct Hno as (r0 & Hc & _).
  - unfold lambda_f_B4, lambda_w_B4. cbn [perfil_S1 bf tf d tw E Fy].
    rewrite (sqrt_val (2016000 / 3500) 24) by (split; lra). split; lra.
  - exists comp, r0. split; [exact Hcomp | exact Hc].
Defined.

(** The effective widths of the slender-element path. *)
Lemma compresion_esbeltos_inr_anchos (perfil : PropiedadesPerfilW)
    (cargas : CondicionesCarga) (r : E7.t) :
  _verificar_compresion_esbeltos perfil cargas = inr r ->
  exists r0 : E3.t,
    _verificar_compresion_no_esbeltos perfil cargas = inr r0 /\
    (1.49 * sqrt (E perfil / Fy perfil) < lambda_f_B4 perfil ->
     E7.be_patin r =
       be_E7_3 (bf perfil) (Fcl_E7_5 perfil 1.03 (lambda_f_B4 perfil))
         (E3.Pc r0)) /\
    (lambda_f_B4 perfil <= 1.49 * sqrt (E perfil / Fy perfil) ->
     E7.be_patin r = bf perfil) /\
    (5.70 * sqrt (E perfil / Fy perfil) < lambda_w_B4 perfil ->
     E7.be_alma r =
       be_E7_3 (d perfil - 2 * tf perfil)
         (Fcl_E7_5 perfil 5.70 (lambda_w_B4 perfil)) (E3.Pc r0)) /\
    (lambda_w_B4 perfil <= 5.70 * sqrt (E perfil / Fy perfil) ->
     E7.be_alma r = d perfil - 2 * tf perfil).
Proof.
  unfold _verificar_compresion_esbeltos. intros H.
  peel_bind H as cl Hcl.
  apply clasificar_seccion_inr in Hcl. destruct Hcl as (_ & _ & _ & _ & ->).
  peel_bind H as r0 Hr0. exists r0. split; [exact Hr0 | ].
  peel_bind H as be Hbe. peel_bind H as bw Hbw. peel H.
  assert (Hr : E7.be_patin r = be /\ E7.be_alma r = bw).
  { destruct (_ || _) in H; peel H; injection H as <-; split; reflexivity. }
  destruct Hr as [-> ->]. clear H.
  assert (Hf := patin_compresion_esbelta_iff perfil).
  assert (Hw := alma_flexion_esbelta_iff perfil).
  assert (Hs := sqrt_pos (E perfil / Fy perfil)).
  split; [ | split; [ | split]].
  - intros Hlam. apply Hf in Hlam. rewrite Hlam in Hbe.
    change ("esbelta" =? "esbelta")%string with true in Hbe.
    cbv iota in Hbe. peel Hbe. fold (lambda_f_B4 perfil) in *.
    rewrite Rmin_cap in Hbe.
    apply Hf in Hlam.
    unfold Rgtb in Hbe. rewrite Rltb_true in Hbe by lra.
    peel Hbe. injection Hbe as <-. reflexivity.
  - intros Hlam.
    assert (Hne : Clasificacion.patin_compresion (clasificacion_B4 perfil)
                  <> "esbelta") by (intros Hc; apply Hf in Hc; lra).
    apply String.eqb_neq in Hne. rewrite Hne in Hbe.
    injection Hbe as <-. reflexivity.
  - intros Hlam. apply Hw in Hlam. rewrite Hlam in Hbw.
    change ("esbelta" =? "esbelta")%string with true in Hbw.
    cbv iota in Hbw. peel Hbw. fold (lambda_w_B4 perfil) in *.
    rewrite Rmin_cap in Hbw.
    apply Hw in Hlam.
    unfold Rgtb in Hbw. rewrite Rltb_true in Hbw by lra.
    peel Hbw. injection Hbw as <-. reflexivity.
  - intros Hlam.
    assert (Hne : Clasificacion.alma_flexion (clasificacion_B4 perfil)
                  <> "esbelta") by (intros Hc; apply Hw in Hc; lra).
    apply String.eqb_neq in Hne. rewrite Hne in Hbw.
    injection Hbw as <-. reflexivity.
Qed.

(** X9.  In the slender-element path an element keeps its full width
    exactly when it is not classified slender.  A slender flange gets
    bf (1 - 0.22 s) s with s = sqrt(Fcl / Fn), Fcl from the limit
    1.03 sqrt(E / Fy) and the ratio bf / (2 tf); a slender web gets
    (d - 2 tf)(1 - 0.22 s) s with Fcl from the limit 5.70 sqrt(E / Fy)
    and the ratio (d - 2 tf) / tw; Fn is the design capacity Pc of the
    standard path in both.  The inner test "ratio above the limit" never
    fails for a slender element. *)
Theorem compresion_esbeltos_anchos (perfil : PropiedadesPerfilW)
    (cargas : CondicionesCarga) (r : E7.t) :
  _verificar_compresion_esbeltos perfil cargas = inr r ->
  exists r0 : E3.t,
    _verificar_compresion_no_esbeltos perfil cargas = inr r0 /\
    (1.49 * sqrt (E perfil / Fy perfil) < lambda_f_B4 perfil ->
     E7.be_patin r =
       be_E7_3 (bf perfil) (Fcl_E7_5 perfil 1.03 (lambda_f_B4 perfil))
         (E3.Pc r0)) /\
    (lambda_f_B4 perfil <= 1.49 * sqrt (E perfil / Fy perfil) ->
     E7.be_patin r = bf perfil) /\
    (5.70 * sqrt (E perfil / Fy perfil) < lambda_w_B4 perfil ->
     E7.be_alma r =
       be_E7_3 (d perfil - 2 * tf perfil)
         (Fcl_E7_5 perfil 5.70 (lambda_w_B4 perfil)) (E3.Pc r0)) /\
    (lambda_w_B4 perfil <= 5.70 * sqrt (E perfil / Fy perfil) ->
     E7.be_alma r = d perfil - 2 * tf perfil).
Proof. exact (compresion_esbeltos_inr_anchos perfil cargas r). Qed.

Lemma compresion_esbeltos_anchos_witness :
  exists (r : E7.t) (r0 : E3.t),
    _verificar_compresion_esbeltos perfil_S2 cargas_S2 = inr r /\
    _verificar_compresion_no_esbeltos perfil_S2 cargas_S2 = inr r0 /\
    E7.be_patin r =
      be_E7_3 40 (Fcl_E7_5 perfil_S2 1.03 (lambda_f_B4 perfil_S2)) (E3.Pc r0) /\
    E7.be_alma r = 40.
Proof.
  destruct compresion_esbeltos_S2 as [r Hr].
  destruct (compresion_esbeltos_anchos perfil_S2 cargas_S2 r Hr)
    as (r0 & Hr0 & Hf & _ & _ & Hw).
  exists r, r0. split; [exact Hr | ]. split; [exact Hr0 | ].
  assert (Hs : sqrt (E perfil_S2 / Fy perfil_S2) = 24).
  { cbn [perfil_S2 E Fy]. apply sqrt_val. split; lra. }
  split.
  - apply Hf. rewrite Hs. unfold lambda_f_B4. cbn [perfil_S2 bf tf]. lra.
  - rewrite Hw.
    + cbn [perfil_S2 d tf]. lra.
    + rewrite Hs. unfold lambda_w_B4. cbn [perfil_S2 d tf tw]. lra.
Defined.

(** The bookkeeping of the slender-element path: effective area,
    modified yield stress, the guards it passed and the two regimes. *)
Lemma compresion_esbeltos_valores (perfil : PropiedadesPerfilW)
    (cargas : CondicionesCarga) (r : E7.t) :
  _verificar_compresion_esbeltos perfil cargas = inr r ->
  E7.Ae r =
    Rmin (A perfil - 2 * (bf perfil - E7.be_patin r) * tf perfil
          - (d perfil - 2 * tf perfil - E7.be_alma r) * tw perfil)
         (A perfil) /\
  E7.Fy_mod r = Fy perfil * (E7.Ae r / A perfil) /\
  E7.Fe r = Fe_E3_4 perfil cargas /\
  E7.Pn r = E7.Fcr r * E7.Ae r /\
  E7.Pc r = 0.9 * E7.Pn r /\
  E7.RDC r = Rabs (Pu cargas) / E7.Pc r /\
  E7.estado r = (if Rleb (E7.RDC r) 1.0 then "PASA" else "FALLA") /\
  A perfil <> 0 /\ KL_r_E3 perfil cargas <> 0 /\
  0 <= E7.Fy_mod r / Fe_E3_4 perfil cargas /\
  E7.Fy_mod r <> 0 /\ 0 <= E perfil / E7.Fy_mod r /\ E7.Pc r <> 0 /\
  (E7.Fcr r
     = Rpower 0.658 (E7.Fy_mod r / Fe_E3_4 perfil cargas) * E7.Fy_mod r \/
   (E7.Fcr r = 0.877 * Fe_E3_4 perfil cargas /\
    2.25 < sqrt (E7.Fy_mod r / Fe_E3_4 perfil cargas))).
Proof.
  unfold _verificar_compresion_esbeltos. intros H.
  peel_bind H as cl Hcl. peel_bind H as r0 Hr0.
  peel_bind H as be Hbe. peel_bind H as bw Hbw. clear Hcl Hr0 Hbe Hbw.
  rewrite Rmin_cap in H. peel H.
  fold (KL_r_E3 perfil cargas) in *. fold (Fe_E3_4 perfil cargas) in *.
  match type of H with
  | context [Rpower 0.658 (sqrt ?x ^ 2)] =>
      replace (sqrt x ^ 2) with x in H
        by (rewrite pow2_sqrt by assumption; reflexivity)
  end.
  destruct (Rleb (KL_r_E3 perfil cargas) _) eqn:Hk;
    [ | destruct (Rleb (sqrt _) 2.25) eqn:Hl;
        [ | apply Rleb_false_iff in Hl]];
    cbn [orb] in H; peel H; injection H as <-;
    cbn [E7.Ae E7.Fy_mod E7.Fe E7.Pn E7.Pc E7.RDC E7.estado E7.Fcr
         E7.be_patin E7.be_alma];
    repeat split; try assumption; try reflexivity;
    try (left; reflexivity);
    try (right; split; [reflexivity | assumption]);
    match goal with
    | Hk2 : KL_r_E3 perfil cargas ^ 2 <> 0 |- _ =>
        intros Hz; apply Hk2; rewrite Hz; ring
    end.
Qed.

(** X10.  For positive E, Fy and A, whenever the slender-element path
    returns, the effective area is positive and at most the gross area,
    the modified yield stress Fy Ae / A is positive and at most Fy, the
    critical stress is positive and at most the modified yield stress,
    and the design capacity is 0.9 Fcr Ae, at most 0.9 Fy A. *)
Theorem compresion_esbeltos_cotas (perfil : PropiedadesPerfilW)
    (cargas : CondicionesCarga) (r : E7.t) :
  _verificar_compresion_esbeltos perfil cargas = inr r ->
  0 < E perfil -> 0 < Fy perfil -> 0 < A perfil ->
  0 < E7.Ae r <= A perfil /\
  E7.Fy_mod r = Fy perfil * (E7.Ae r / A perfil) /\
  0 < E7.Fy_mod r <= Fy perfil /\
  0 < E7.Fcr r <= E7.Fy_mod r /\
  E7.Pc r = 0.9 * (E7.Fcr r * E7.Ae r) /\
  0 < E7.Pc r <= 0.9 * (Fy perfil * A perfil) /\
  (E7.estado r = "PASA" <-> Rabs (Pu cargas) <= E7.Pc r).
Proof.
  intros Hr HE HFy HA.
  destruct (compresion_esbeltos_valores perfil cargas r Hr)
    as (HAe & HFym & _ & HPn & HPc & HRDC & Hest & _ & HK & Hq1 & Hne
        & _ & _ & HFcr).
  destruct (lambda_c_positivo perfil cargas HE HFy HK) as (HFe & _ & _).
  assert (HFm0 : 0 < E7.Fy_mod r).
  { destruct (Rle_lt_dec (E7.Fy_mod r) 0) as [Hle | Hlt]; [ | exact Hlt].
    exfalso. assert (Hlt : E7.Fy_mod r < 0) by lra.
    assert (Hneg : E7.Fy_mod r / Fe_E3_4 perfil cargas < 0).
    { assert (Hinv := Rinv_0_lt_compat _ HFe). unfold Rdiv. nra. }
    lra. }
  assert (HAe_le : E7.Ae r <= A perfil) by (rewrite HAe; apply Rmin_r).
  assert (Hquot : E7.Ae r / A perfil = E7.Fy_mod r / Fy perfil).
  { rewrite HFym. field. split; lra. }
  assert (HAe0 : 0 < E7.Ae r).
  { assert (Hq : 0 < E7.Fy_mod r / Fy perfil)
      by (apply Rdiv_lt_0_compat; assumption).
    rewrite <- Hquot in Hq.
    apply Rmult_lt_compat_r with (r := A perfil) in Hq; [ | exact HA].
    unfold Rdiv in Hq. rewrite Rmult_assoc, Rinv_l in Hq by lra. lra. }
  assert (HFm_le : E7.Fy_mod r <= Fy perfil).
  { rewrite HFym.
    assert (Hq : E7.Ae r / A perfil <= 1).
    { apply Rmult_le_reg_r with (A perfil); [exact HA | ].
      unfold Rdiv. rewrite Rmult_assoc, Rinv_l by lra. lra. }
    nra. }
  assert (Hlam : 0 < E7.Fy_mod r / Fe_E3_4 perfil cargas)
    by (apply Rdiv_lt_0_compat; assumption).
  assert (HFcr' : 0 < E7.Fcr r <= E7.Fy_mod r).
  { destruct HFcr as [-> | [-> Hel]].
    - destruct (Rpower_0658_lt_1 _ Hlam) as [Hp0 Hp1]. split; nra.
    - assert (Hs0 := sqrt_pos (E7.Fy_mod r / Fe_E3_4 perfil cargas)).
      assert (Hss := sqrt_sqrt _ (Rlt_le _ _ Hlam)).
      assert (H5 : 5.0625 < E7.Fy_mod r / Fe_E3_4 perfil cargas) by nra.
      apply Rmult_lt_compat_r with (r := Fe_E3_4 perfil cargas) in H5;
        [ | exact HFe].
      unfold Rdiv in H5. rewrite Rmult_assoc, Rinv_l in H5 by lra.
      split; lra. }
  assert (HPc' : 0 < E7.Pc r <= 0.9 * (Fy perfil * A perfil)).
  { rewrite HPc, HPn. split; nra. }
  split; [split; assumption | ]. split; [exact HFym | ].
  split; [split; assumption | ]. split; [exact HFcr' | ].
  split; [rewrite HPc, HPn; reflexivity | ]. split; [exact HPc' | ].
  rewrite Hest, HRDC. split; intros H.
  - apply Rabs_cociente_le_1; [lra | ]. apply estado_PASA. exact H.
  - apply estado_PASA. apply Rabs_cociente_le_1; [lra | exact H].
Qed.

Lemma compresion_esbeltos_cotas_witness :
  exists r : E7.t,
    _verificar_compresion_esbeltos perfil_S2 cargas_S2 = inr r /\
    0 < E7.Ae r <= 60 /\ 0 < E7.Pc r <= 189000.
Proof.
  destruct compresion_esbeltos_S2 as [r Hr].
  exists r. split; [exact Hr | ].
  destruct (compresion_esbeltos_cotas perfil_S2 cargas_S2 r Hr)
    as (HAe & _ & _ & _ & _ & HPc & _); try (cbn [perfil_S2 E Fy A]; lra).
  cbn [perfil_S2 Fy A] in HAe, HPc. split; [exact HAe | lra].
Defined.




(* ================================================================== *)
(** * More on strong-axis flexure *)

(** The bookkeeping of the strong-axis check. *)
Lemma flexion_eje_fuerte_valores (perfil : PropiedadesPerfilW)
    (cargas : CondicionesCarga) (r : F2.t) :
  _verificar_flexion_eje_fuerte perfil cargas = inr r ->
  F2.Lt r = Lt cargas /\
  F2.rts r = rts_F2_7 perfil /\
  F2.Mux_aplicada r = Mux cargas /\
  F2.Mb r <> 0 /\
  F2.RDC r = Rabs (Mux cargas) / F2.Mb r /\
  F2.estado r = (if Rleb (F2.RDC r) 1.0 then "PASA" else "FALLA") /\
  F2.clasificacion r = Clasificacion.patin_flexion (clasificacion_B4 perfil).
Proof.
  unfold _verificar_flexion_eje_fuerte. intros H.
  peel_bind H as cl Hcl.
  apply clasificar_seccion_inr in Hcl. destruct Hcl as (_ & _ & _ & _ & ->).
  peel H. peel_bind H as v Hv. destruct v as [[Mn el] ec]. peel H.
  injection H as <-.
  cbn [F2.Lt F2.rts F2.Mux_aplicada F2.Mb F2.RDC F2.estado F2.clasificacion].
  repeat split; try reflexivity; assumption.
Qed.

Lemma interpolacion_positiva (Mp Mr x y : R) :
  0 < Mp -> 0 < Mr -> 0 < x < y -> 0 < Mp - (Mp - Mr) * x / y.
Proof.
  intros HMp HMr [Hx Hxy].
  assert (Hy : 0 < y) by lra.
  assert (Ht : 0 < x / y < 1).
  { split; [apply Rdiv_lt_0_compat; lra | ].
    apply Rmult_lt_reg_r with y; [exact Hy | ].
    unfold Rdiv. rewrite Rmult_assoc, Rinv_l by lra. lra. }
  replace ((Mp - Mr) * x / y) with ((Mp - Mr) * (x / y))
    by (unfold Rdiv; ring).
  nra.
Qed.

Lemma interpolacion_cotas (Mp Mr x y : R) :
  Mr <= Mp -> 0 < x < y ->
  Mr <= Mp - (Mp - Mr) * x / y <= Mp.
Proof.
  intros HM [Hx Hxy].
  assert (Hy : 0 < y) by lra.
  assert (Ht : 0 < x / y < 1).
  { split; [apply Rdiv_lt_0_compat; lra | ].
    apply Rmult_lt_reg_r with y; [exact Hy | ].
    unfold Rdiv. rewrite Rmult_assoc, Rinv_l by lra. lra. }
  replace ((Mp - Mr) * x / y) with ((Mp - Mr) * (x / y))
    by (unfold Rdiv; ring).
  split; nra.
Qed.

(** In the exact arithmetic of the model no division or square root of
    the strong-axis check fails on a section with positive properties,
    and the nominal moment is positive. *)
Lemma flexion_eje_fuerte_devuelve (perfil : PropiedadesPerfilW)
    (cargas : CondicionesCarga) :
  tf perfil <> 0 -> tw perfil <> 0 ->
  0 < E perfil -> 0 < Fy perfil -> 0 <= ry perfil ->
  0 < Iy perfil -> 0 < Cw perfil -> 0 < Sx perfil -> 0 < Zx perfil ->
  0 < ho perfil -> 0 <= J perfil -> 0 < Cb cargas ->
  exists r : F2.t,
    _verificar_flexion_eje_fuerte perfil cargas = inr r /\ 0 < F2.Mn r.
Proof.
  intros Htf Htw HE HFy Hry HIy HCw HSx HZx Hho HJ HCb.
  assert (HEFy : 0 < E perfil / Fy perfil) by (apply Rdiv_lt_0_compat; lra).
  assert (Hs := sqrt_pos (E perfil / Fy perfil)).
  assert (HIC : 0 < Iy perfil * Cw perfil) by (apply Rmult_lt_0_compat; lra).
  assert (Hs1 : 0 < sqrt (Iy perfil * Cw perfil)) by (apply sqrt_lt_R0; lra).
  assert (Hq : 0 < sqrt (Iy perfil * Cw perfil) / Sx perfil)
    by (apply Rdiv_lt_0_compat; lra).
  assert (Hrts : 0 < rts_F2_7 perfil) by (apply sqrt_lt_R0; exact Hq).
  assert (HSh : 0 < Sx perfil * ho perfil) by (apply Rmult_lt_0_compat; lra).
  assert (Ha : 0 <= J perfil * 1.0 / (Sx perfil * ho perfil)).
  { apply Rmult_le_pos; [lra | left; apply Rinv_0_lt_compat; exact HSh]. }
  assert (HMp : 0 < Fy perfil * Zx perfil) by (apply Rmult_lt_0_compat; lra).
  assert (HMr : 0 < 0.7 * Fy perfil * Sx perfil)
    by (apply Rmult_lt_0_compat; lra).
  unfold _verificar_flexion_eje_fuerte.
  rewrite (clasificar_seccion_ok perfil) by lra. cbn [bind].
  rewrite (raiz_E_Fy_ok perfil) by lra. cbn [bind]. cbv zeta.
  fold (Lp_F2_5 perfil).
  rewrite (math_sqrt_ok (Iy perfil * Cw perfil)) by lra. cbn [bind].
  rewrite (div_ok _ (Sx perfil)) by lra. cbn [bind].
  rewrite math_sqrt_ok by lra. cbn [bind]. fold (rts_F2_7 perfil).
  rewrite (div_ok (E perfil)) by lra. cbn [bind].
  rewrite (div_ok (J perfil * 1.0)) by lra. cbn [bind].
  rewrite (div_ok (0.7 * Fy perfil)) by lra. cbn [bind].
  set (a := J perfil * 1.0 / (Sx perfil * ho perfil)) in *.
  set (b := 0.7 * Fy perfil / E perfil).
  assert (Hin : 0 <= a ^ 2 + 6.76 * b ^ 2).
  { assert (H1 := pow2_ge_0 a). assert (H2 := pow2_ge_0 b). lra. }
  rewrite (math_sqrt_ok (a ^ 2 + 6.76 * b ^ 2)) by exact Hin. cbn [bind].
  assert (Hs2 := sqrt_pos (a ^ 2 + 6.76 * b ^ 2)).
  rewrite math_sqrt_ok by lra. cbn [bind].
  unfold a, b. fold (Lr_F2_6 perfil). fold a.
  assert (HLp : 0 <= Lp_F2_5 perfil).
  { unfold Lp_F2_5. apply Rmult_le_pos; [lra | exact Hs]. }
  destruct (Rleb (Lt cargas) (Lp_F2_5 perfil)) eqn:Hp;
    [apply Rleb_true_iff in Hp | apply Rleb_false_iff in Hp].
  { cbn [bind ret]. rewrite div_ok by lra. cbn [bind ret].
    eexists. split; [reflexivity | ]. cbn [F2.Mn]. exact HMp. }
  destruct (Rltb (Lt cargas) (Lr_F2_6 perfil)) eqn:Hr;
    [apply Rltb_true_iff in Hr | apply Rltb_false_iff in Hr].
  { rewrite Rleb_true by lra. cbn [andb].
    rewrite div_ok by lra. cbn [bind ret].
    assert (Hpos := interpolacion_positiva (Fy perfil * Zx perfil)
                      (0.7 * Fy perfil * Sx perfil)
                      (Lt cargas - Lp_F2_5 perfil)
                      (Lr_F2_6 perfil - Lp_F2_5 perfil)
                      HMp HMr ltac:(lra)).
    assert (HMn : 0 < Cb cargas
                      * (Fy perfil * Zx perfil
                         - (Fy perfil * Zx perfil
                            - 0.7 * Fy perfil * Sx perfil)
                           * (Lt cargas - Lp_F2_5 perfil)
                           / (Lr_F2_6 perfil - Lp_F2_5 perfil)))
      by (apply Rmult_lt_0_compat; assumption).
    rewrite div_ok by lra. cbn [bind ret].
    eexists. split; [reflexivity | ]. cbn [F2.Mn]. exact HMn. }
  cbn [andb].
  assert (HLt : 0 < Lt cargas) by lra.
  assert (He1 : 0 < Lt cargas / rts_F2_7 perfil)
    by (apply Rdiv_lt_0_compat; assumption).
  rewrite (div_ok (Lt cargas)) by lra. cbn [bind].
  set (e1 := Lt cargas / rts_F2_7 perfil) in *.
  assert (He12 : 0 < e1 ^ 2) by (apply pow_lt; exact He1).
  rewrite (div_ok _ (e1 ^ 2)) by lra. cbn [bind].
  assert (Hrad : 1 <= 1 + 0.078 * a * e1 ^ 2).
  { assert (0 <= 0.078 * a * e1 ^ 2); [ | lra].
    apply Rmult_le_pos; [ | lra]. apply Rmult_le_pos; lra. }
  rewrite math_sqrt_ok by lra. cbn [bind ret].
  assert (Hs3 : 0 < sqrt (1 + 0.078 * a * e1 ^ 2)) by (apply sqrt_lt_R0; lra).
  assert (Hpi2 : 0 < PI ^ 2) by (apply pow_lt; apply PI_RGT_0).
  assert (Hnum : 0 < Cb cargas * PI ^ 2 * E perfil).
  { apply Rmult_lt_0_compat; [apply Rmult_lt_0_compat; assumption | exact HE]. }
  assert (HFcr : 0 < Cb cargas * PI ^ 2 * E perfil / e1 ^ 2
                     * sqrt (1 + 0.078 * a * e1 ^ 2) * Sx perfil).
  { apply Rmult_lt_0_compat; [ | exact HSx].
    apply Rmult_lt_0_compat; [ | exact Hs3].
    apply Rdiv_lt_0_compat; assumption. }
  rewrite Rmin_cap.
  assert (Hmin : 0 < Rmin (Cb cargas * PI ^ 2 * E perfil / e1 ^ 2
                           * sqrt (1 + 0.078 * a * e1 ^ 2) * Sx perfil)
                          (Fy perfil * Zx perfil))
    by (apply Rmin_glb_lt; assumption).
  rewrite div_ok by lra. cbn [bind ret].
  eexists. split; [reflexivity | ]. cbn [F2.Mn]. exact Hmin.
Qed.

(** X12.  On a section with positive properties (non-negative ry and
    J) and with a positive Cb, whenever the strong-axis check returns, in
    any of its three regimes and whatever the unbraced length, the
    nominal moment is positive, the design moment is 0.9 times the
    nominal one and positive, the ratio is not negative, and the check
    passes exactly when |Mux| does not exceed the design moment. *)
Theorem flexion_eje_fuerte_positivo (perfil : PropiedadesPerfilW)
    (cargas : CondicionesCarga) (r : F2.t) :
  tf perfil <> 0 -> tw perfil <> 0 ->
  0 < E perfil -> 0 < Fy perfil -> 0 <= ry perfil ->
  0 < Iy perfil -> 0 < Cw perfil -> 0 < Sx perfil -> 0 < Zx perfil ->
  0 < ho perfil -> 0 <= J perfil -> 0 < Cb cargas ->
  _verificar_flexion_eje_fuerte perfil cargas = inr r ->
  0 < F2.Mn r /\
  F2.Mb r = 0.9 * F2.Mn r /\
  0 < F2.Mb r /\
  0 <= F2.RDC r /\
  (F2.estado r = "PASA" <-> Rabs (Mux cargas) <= F2.Mb r).
Proof.
  intros Htf Htw HE HFy Hry HIy HCw HSx HZx Hho HJ HCb Hr.
  destruct (flexion_eje_fuerte_devuelve perfil cargas
              Htf Htw HE HFy Hry HIy HCw HSx HZx Hho HJ HCb)
    as (r' & Hr' & HMn).
  rewrite Hr in Hr'. injection Hr' as <-.
  split; [exact HMn | ].
  destruct (flexion_eje_fuerte_regimenes perfil cargas r Hr)
    as (_ & _ & HMb & _).
  destruct (flexion_eje_fuerte_valores perfil cargas r Hr)
    as (_ & _ & _ & _ & HRDC & Hest & _).
  assert (HMb0 : 0 < F2.Mb r) by lra.
  split; [exact HMb | ]. split; [exact HMb0 | ]. split.
  - rewrite HRDC. apply Rabs_cociente_pos. exact HMb0.
  - rewrite Hest, HRDC. split; intros H.
    + apply Rabs_cociente_le_1; [exact HMb0 | ]. apply estado_PASA. exact H.
    + apply estado_PASA. apply Rabs_cociente_le_1; assumption.
Qed.

Lemma flexion_eje_fuerte_positivo_witness :
  exists r : F2.t,
    _verificar_flexion_eje_fuerte perfil_S1_patin_esbelto cargas_inelastico
      = inr r /\
    0 < F2.Mn r /\ 0 < F2.Mb r.
Proof.
  destruct (flexion_eje_fuerte_devuelve perfil_S1_patin_esbelto
              cargas_inelastico)
    as (r & Hr & _);
    try (cbn [perfil_S1_patin_esbelto cargas_inelastico
              tf tw E Fy ry Iy Cw Sx Zx ho J Cb]; lra).
  exists r. split; [exact Hr | ].
  destruct (flexion_eje_fuerte_positivo perfil_S1_patin_esbelto
              cargas_inelastico r)
    as (HMn & _ & HMb & _);
    try (cbn [perfil_S1_patin_esbelto cargas_inelastico
              tf tw E Fy ry Iy Cw Sx Zx ho J Cb]; lra);
    try exact Hr; try (split; assumption).
Defined.

(** The strong-axis formulas read nine properties of the section. *)
Lemma F2_mismas_propiedades (p1 p2 : PropiedadesPerfilW) :
  ry p1 = ry p2 -> E p1 = E p2 -> Fy p1 = Fy p2 ->
  Iy p1 = Iy p2 -> Cw p1 = Cw p2 -> Sx p1 = Sx p2 -> Zx p1 = Zx p2 ->
  J p1 = J p2 -> ho p1 = ho p2 ->
  Lp_F2_5 p1 = Lp_F2_5 p2 /\ rts_F2_7 p1 = rts_F2_7 p2 /\
  Lr_F2_6 p1 = Lr_F2_6 p2 /\ Mn_F2_1 p1 = Mn_F2_1 p2 /\
  (forall Cb Lt Lp Lr : R, Mn_F2_2 p1 Cb Lt Lp Lr = Mn_F2_2 p2 Cb Lt Lp Lr) /\
  (forall Cb Lt : R, Mn_F2_3 p1 Cb Lt = Mn_F2_3 p2 Cb Lt).
Proof.
  intros Hry HE HFy HIy HCw HSx HZx HJ Hho.
  unfold Lr_F2_6, Mn_F2_3, Fcr_F2_4, Lp_F2_5, rts_F2_7, Mn_F2_1, Mn_F2_2.
  rewrite Hry, HE, HFy, HIy, HCw, HSx, HZx, HJ, Hho.
  repeat split; reflexivity.
Qed.

(** X13.  The strong-axis check never uses the classification it
    computes: two sections that agree on ry, E, Fy, Iy, Cw, Sx, Zx, J
    and ho get the same Lp, Lr, limit state, nominal and design moment,
    ratio and verdict under the same loads, whatever their flange and
    web dimensions; only the reported ['clasificacion'] can differ.  A
    noncompact or slender flange does not reduce the strong-axis
    capacity. *)
Theorem flexion_eje_fuerte_ignora_clasificacion (p1 p2 : PropiedadesPerfilW)
    (cargas : CondicionesCarga) (r1 r2 : F2.t) :
  ry p1 = ry p2 -> E p1 = E p2 -> Fy p1 = Fy p2 ->
  Iy p1 = Iy p2 -> Cw p1 = Cw p2 -> Sx p1 = Sx p2 -> Zx p1 = Zx p2 ->
  J p1 = J p2 -> ho p1 = ho p2 ->
  _verificar_flexion_eje_fuerte p1 cargas = inr r1 ->
  _verificar_flexion_eje_fuerte p2 cargas = inr r2 ->
  F2.Lp r1 = F2.Lp r2 /\ F2.Lr r1 = F2.Lr r2 /\
  F2.estado_limite r1 = F2.estado_limite r2 /\
  F2.ecuaciones_ref r1 = F2.ecuaciones_ref r2 /\
  F2.Mn r1 = F2.Mn r2 /\ F2.Mb r1 = F2.Mb r2 /\
  F2.RDC r1 = F2.RDC r2 /\ F2.estado r1 = F2.estado r2.
Proof.
  intros Hry HE HFy HIy HCw HSx HZx HJ Hho Hr1 Hr2.
  destruct (F2_mismas_propiedades p1 p2 Hry HE HFy HIy HCw HSx HZx HJ Hho)
    as (HLp & _ & HLr & HM1 & HM2 & HM3).
  destruct (flexion_eje_fuerte_regimenes p1 cargas r1 Hr1)
    as (HLp1 & HLr1 & HMb1 & Hy1 & Hi1 & He1).
  destruct (flexion_eje_fuerte_regimenes p2 cargas r2 Hr2)
    as (HLp2 & HLr2 & HMb2 & Hy2 & Hi2 & He2).
  destruct (flexion_eje_fuerte_valores p1 cargas r1 Hr1)
    as (_ & _ & _ & _ & HRDC1 & Hest1 & _).
  destruct (flexion_eje_fuerte_valores p2 cargas r2 Hr2)
    as (_ & _ & _ & _ & HRDC2 & Hest2 & _).
  assert (Hcore : F2.estado_limite r1 = F2.estado_limite r2 /\
                  F2.ecuaciones_ref r1 = F2.ecuaciones_ref r2 /\
                  F2.Mn r1 = F2.Mn r2).
  { destruct (Rle_dec (Lt cargas) (Lp_F2_5 p1)) as [Hp | Hp].
    - destruct (Hy1 Hp) as (-> & -> & ->).
      rewrite HLp in Hp. destruct (Hy2 Hp) as (-> & -> & ->).
      rewrite HM1. repeat split; reflexivity.
    - apply Rnot_le_lt in Hp.
      destruct (Rlt_dec (Lt cargas) (Lr_F2_6 p1)) as [Hr | Hr].
      + destruct (Hi1 (conj Hp Hr)) as (-> & -> & ->).
        rewrite HLp, HLr in *. destruct (Hi2 (conj Hp Hr)) as (-> & -> & ->).
        rewrite HM2. repeat split; reflexivity.
      + apply Rnot_lt_le in Hr.
        destruct (He1 (conj Hp Hr)) as (-> & -> & ->).
        rewrite HLp, HLr in *. destruct (He2 (conj Hp Hr)) as (-> & -> & ->).
        rewrite HM3. repeat split; reflexivity. }
  destruct Hcore as (Hel & Hec & HMn).
  assert (HMb : F2.Mb r1 = F2.Mb r2) by (rewrite HMb1, HMb2, HMn; reflexivity).
  assert (HRDC : F2.RDC r1 = F2.RDC r2)
    by (rewrite HRDC1, HRDC2, HMb; reflexivity).
  repeat split; try assumption.
  - rewrite HLp1, HLp2. exact HLp.
  - rewrite HLr1, HLr2. exact HLr.
  - rewrite Hest1, Hest2, HRDC. reflexivity.
Qed.

Lemma flexion_eje_fuerte_ignora_clasificacion_witness :
  exists r1 r2 : F2.t,
    _verificar_flexion_eje_fuerte perfil_S1 cargas_inelastico = inr r1 /\
    _verificar_flexion_eje_fuerte perfil_S1_patin_esbelto cargas_inelastico
      = inr r2 /\
    F2.clasificacion r1 = "compacta" /\
    F2.clasificacion r2 = "esbelta" /\
    F2.Mn r1 = F2.Mn r2.
Proof.
  destruct flexion_eje_fuerte_S1_inelastico as [r1 Hr1].
  destruct (flexion_eje_fuerte_devuelve perfil_S1_patin_esbelto
              cargas_inelastico) as (r2 & Hr2 & _);
    try (cbn [perfil_S1_patin_esbelto cargas_inelastico
              tf tw E Fy ry Iy Cw Sx Zx ho J Cb]; lra).
  exists r1, r2. split; [exact Hr1 | ]. split; [exact Hr2 | ].
  destruct (flexion_eje_fuerte_valores _ _ r1 Hr1) as (_ & _ & _ & _ & _ & _ & Hc1).
  destruct (flexion_eje_fuerte_valores _ _ r2 Hr2) as (_ & _ & _ & _ & _ & _ & Hc2).
  split; [ | split].
  - rewrite Hc1. unfold clasificacion_B4, lambda_f_B4.
    cbn [Clasificacion.patin_flexion perfil_S1 bf tf E Fy].
    rewrite (sqrt_val (2016000 / 3500) 24) by (split; lra).
    apply clasificar_elemento_inv. lra.
  - rewrite Hc2. unfold clasificacion_B4, lambda_f_B4.
    cbn [Clasificacion.patin_flexion perfil_S1_patin_esbelto bf tf E Fy].
    rewrite (sqrt_val (2016000 / 3500) 24) by (split; lra).
    apply clasificar_elemento_inv. lra.
  - apply (flexion_eje_fuerte_ignora_clasificacion perfil_S1
             perfil_S1_patin_esbelto cargas_inelastico r1 r2);
      try reflexivity; assumption.
Defined.

(** X14.  In the inelastic regime Lp < Lt < Lr, for Cb >= 0, Fy >= 0
    and Zx >= 0.7 Sx, the nominal moment lies between Cb 0.7 Fy Sx and
    Cb Fy Zx, and it does not increase with the unbraced length: of two
    load cases with the same Cb in this regime, the longer one has the
    smaller or equal nominal moment. *)
Theorem flexion_eje_fuerte_inelastico_cotas (perfil : PropiedadesPerfilW)
    (c1 c2 : CondicionesCarga) (r1 r2 : F2.t) :
  _verificar_flexion_eje_fuerte perfil c1 = inr r1 ->
  _verificar_flexion_eje_fuerte perfil c2 = inr r2 ->
  0 <= Fy perfil -> 0.7 * Sx perfil <= Zx perfil ->
  Cb c1 = Cb c2 -> 0 <= Cb c1 ->
  Lp_F2_5 perfil < Lt c1 -> Lt c1 <= Lt c2 -> Lt c2 < Lr_F2_6 perfil ->
  Cb c1 * (0.7 * Fy perfil * Sx perfil) <= F2.Mn r1
    <= Cb c1 * (Fy perfil * Zx perfil) /\
  F2.Mn r2 <= F2.Mn r1.
Proof.
  intros Hr1 Hr2 HFy HZ HCb HCb0 HLp H12 HLr.
  destruct (flexion_eje_fuerte_regimenes perfil c1 r1 Hr1)
    as (_ & _ & _ & _ & Hi1 & _).
  destruct (flexion_eje_fuerte_regimenes perfil c2 r2 Hr2)
    as (_ & _ & _ & _ & Hi2 & _).
  destruct Hi1 as (-> & _); [lra | ].
  destruct Hi2 as (-> & _); [lra | ].
  unfold Mn_F2_2. rewrite <- HCb.
  set (Mp := Fy perfil * Zx perfil).
  set (Mr := 0.7 * Fy perfil * Sx perfil).
  set (Lp := Lp_F2_5 perfil) in *. set (Lr := Lr_F2_6 perfil) in *.
  assert (HM : Mr <= Mp) by (unfold Mr, Mp; nra).
  assert (Hb1 := interpolacion_cotas Mp Mr (Lt c1 - Lp) (Lr - Lp) HM
                   ltac:(lra)).
  split.
  - replace (0.7 * Fy perfil * Sx perfil) with Mr by reflexivity.
    split; nra.
  - apply Rmult_le_compat_l; [exact HCb0 | ].
    assert (Hinv : 0 < / (Lr - Lp)) by (apply Rinv_0_lt_compat; lra).
    unfold Rdiv. nra.
Qed.

Lemma flexion_eje_fuerte_inelastico_cotas_witness :
  exists r1 r2 : F2.t,
    _verificar_flexion_eje_fuerte perfil_S1 cargas_inelastico = inr r1 /\
    _verificar_flexion_eje_fuerte perfil_S1 cargas_inelastico_largo = inr r2 /\
    F2.Mn r2 <= F2.Mn r1 <= 5040000.
Proof.
  destruct flexion_eje_fuerte_S1_inelastico as [r1 Hr1].
  destruct (flexion_eje_fuerte_devuelve perfil_S1 cargas_inelastico_largo)
    as (r2 & Hr2 & _);
    try (cbn [perfil_S1 cargas_inelastico_largo
              tf tw E Fy ry Iy Cw Sx Zx ho J Cb]; lra).
  exists r1, r2. split; [exact Hr1 | ]. split; [exact Hr2 | ].
  destruct (flexion_eje_fuerte_inelastico_cotas perfil_S1
              cargas_inelastico cargas_inelastico_largo r1 r2 Hr1 Hr2)
    as [[_ Hup] Hmon];
    try rewrite Lp_S1; try rewrite Lr_S1;
    try (cbn [perfil_S1 cargas_inelastico cargas_inelastico_largo
              Fy Sx Zx Cb Lt]; lra).
  cbn [perfil_S1 cargas_inelastico Fy Zx Cb] in Hup. lra.
Defined.

(* ================================================================== *)
(** * More on weak-axis flexure *)

Lemma patin_flexion_B4 (perfil : PropiedadesPerfilW) :
  (Clasificacion.patin_flexion (clasificacion_B4 perfil) = "compacta" <->
   lambda_f_B4 perfil <= 0.38 * sqrt (E perfil / Fy perfil)) /\
  (Clasificacion.patin_flexion (clasificacion_B4 perfil) = "no_compacta" <->
   0.38 * sqrt (E perfil / Fy perfil) < lambda_f_B4 perfil
     <= 1.0 * sqrt (E perfil / Fy perfil)) /\
  (Clasificacion.patin_flexion (clasificacion_B4 perfil) = "esbelta" <->
   1.0 * sqrt (E perfil / Fy perfil) < lambda_f_B4 perfil).
Proof.
  unfold clasificacion_B4. cbn [Clasificacion.patin_flexion].
  assert (Hs := sqrt_pos (E perfil / Fy perfil)).
  destruct (clasificar_elemento_inv (lambda_f_B4 perfil)
              (0.38 * sqrt (E perfil / Fy perfil))
              (1.0 * sqrt (E perfil / Fy perfil))) as (H1 & H2 & H3).
  split; [exact H1 | ]. split; [exact H2 | ].
  rewrite H3. split; [tauto | ]. intros H. split; lra.
Qed.

(** What the weak-axis check returns, branch by branch. *)
Lemma flexion_eje_debil_ramas (perfil : PropiedadesPerfilW)
    (cargas : CondicionesCarga) (r : F6.t) :
  _verificar_flexion_eje_debil perfil cargas = inr r ->
  F6.clasificacion r = Clasificacion.patin_flexion (clasificacion_B4 perfil) /\
  F6.Mb r = 0.9 * F6.Mn r /\
  F6.Mb r <> 0 /\
  F6.RDC r = Rabs (Muy cargas) / F6.Mb r /\
  F6.estado r = (if Rleb (F6.RDC r) 1.0 then "PASA" else "FALLA") /\
  (F6.clasificacion r = "compacta" ->
   F6.estado_limite r = "fluencia" /\ F6.ecuaciones_ref r = ["F6-1"] /\
   F6.Mn r = Fy perfil * Zy perfil) /\
  (F6.clasificacion r = "no_compacta" ->
   F6.estado_limite r = "no_compacta" /\ F6.ecuaciones_ref r = ["F6-2"] /\
   F6.Mn r =
     Fy perfil * Zy perfil
     - (Fy perfil * Zy perfil - 0.70 * Sy perfil * Sy perfil)
       * ((lambda_f_B4 perfil - 0.38 * sqrt (E perfil / Fy perfil))
          / (1.0 * sqrt (E perfil / Fy perfil)
             - 0.38 * sqrt (E perfil / Fy perfil)))) /\
  (F6.clasificacion r = "esbelta" ->
   F6.estado_limite r = "esbelta" /\ F6.ecuaciones_ref r = ["F6-3"] /\
   F6.Mn r = 0.70 * E perfil / (bf perfil / tf perfil) ^ 2 * Sy perfil).
Proof.
  unfold _verificar_flexion_eje_debil. intros H.
  peel_bind H as cl Hcl.
  apply clasificar_seccion_inr in Hcl. destruct Hcl as (_ & _ & _ & _ & ->).
  peel H. peel_bind H as v Hv. destruct v as [[Mn el] ec]. peel H.
  injection H as <-.
  cbn [F6.clasificacion F6.Mb F6.Mn F6.RDC F6.estado F6.estado_limite
       F6.ecuaciones_ref].
  split; [reflexivity | ]. split; [reflexivity | ]. split; [assumption | ].
  split; [reflexivity | ]. split; [reflexivity | ].
  unfold clasificacion_B4 in Hv |- *.
  cbn [Clasificacion.patin_flexion] in Hv |- *.
  split; [ | split]; intros Hc; rewrite Hc in Hv.
  - change ("compacta" =? "compacta")%string with true in Hv.
    cbv iota in Hv. injection Hv as <- <- <-. repeat split; reflexivity.
  - change ("no_compacta" =? "compacta")%string with false in Hv.
    change ("no_compacta" =? "no_compacta")%string with true in Hv.
    cbv iota in Hv. peel Hv. injection Hv as <- <- <-.
    repeat split; reflexivity.
  - change ("esbelta" =? "compacta")%string with false in Hv.
    change ("esbelta" =? "no_compacta")%string with false in Hv.
    cbv iota in Hv. injection Hv as <- <- <-. repeat split; reflexivity.
Qed.

(** In the exact arithmetic of the model no division of the weak-axis
    check fails on a section with positive properties, and the nominal
    moment is positive. *)
Lemma flexion_eje_debil_devuelve (perfil : PropiedadesPerfilW)
    (cargas : CondicionesCarga) :
  0 < tf perfil -> tw perfil <> 0 -> 0 < bf perfil ->
  0 < E perfil -> 0 < Fy perfil -> 0 < Sy perfil -> 0 < Zy perfil ->
  exists r : F6.t,
    _verificar_flexion_eje_debil perfil cargas = inr r /\ 0 < F6.Mn r.
Proof.
  intros Htf Htw Hbf HE HFy HSy HZy.
  assert (HEFy : 0 < E perfil / Fy perfil) by (apply Rdiv_lt_0_compat; lra).
  assert (Hs : 0 < sqrt (E perfil / Fy perfil)) by (apply sqrt_lt_R0; lra).
  assert (Hq : 0 < bf perfil / tf perfil) by (apply Rdiv_lt_0_compat; lra).
  assert (Hq2 : 0 < (bf perfil / tf perfil) ^ 2) by (apply pow_lt; exact Hq).
  assert (HMp : 0 < Fy perfil * Zy perfil) by (apply Rmult_lt_0_compat; lra).
  assert (HSS : 0 < 0.70 * Sy perfil * Sy perfil)
    by (apply Rmult_lt_0_compat; [ | exact HSy]; lra).
  destruct (patin_flexion_B4 perfil) as (Hc & Hn & He).
  unfold _verificar_flexion_eje_debil.
  rewrite (clasificar_seccion_ok perfil) by lra. cbn [bind]. cbv zeta.
  rewrite (div_ok (bf perfil)) by lra. cbn [bind].
  rewrite (div_ok (0.70 * E perfil)) by lra. cbn [bind].
  destruct (_ =? "compacta")%string eqn:E1.
  { cbn [bind ret]. rewrite div_ok by lra. cbn [bind ret].
    eexists. split; [reflexivity | ]. cbn [F6.Mn]. exact HMp. }
  destruct (_ =? "no_compacta")%string eqn:E2.
  { apply String.eqb_eq in E2. apply Hn in E2.
    unfold clasificacion_B4.
    cbn [Clasificacion.relaciones Relaciones.lambda_f
         Relaciones.lambda_p_f_flex Relaciones.lambda_r_f_flex].
    set (s := sqrt (E perfil / Fy perfil)) in *.
    set (lf := lambda_f_B4 perfil) in *.
    rewrite (div_ok (lf - 0.38 * s)) by lra. cbn [bind ret].
    assert (Ht : 0 < (lf - 0.38 * s) / (1.0 * s - 0.38 * s) <= 1).
    { split; [apply Rdiv_lt_0_compat; lra | ].
      apply Rmult_le_reg_r with (1.0 * s - 0.38 * s); [lra | ].
      unfold Rdiv. rewrite Rmult_assoc, Rinv_l by lra. lra. }
    set (t := (lf - 0.38 * s) / (1.0 * s - 0.38 * s)) in *.
    assert (HMn : 0 < Fy perfil * Zy perfil
                      - (Fy perfil * Zy perfil
                         - 0.70 * Sy perfil * Sy perfil) * t) by nra.
    rewrite div_ok by lra. cbn [bind ret].
    eexists. split; [reflexivity | ]. cbn [F6.Mn]. exact HMn. }
  cbn [bind ret].
  assert (HFcr : 0 < 0.70 * E perfil / (bf perfil / tf perfil) ^ 2
                     * Sy perfil).
  { apply Rmult_lt_0_compat; [ | exact HSy].
    apply Rdiv_lt_0_compat; lra. }
  rewrite div_ok by lra. cbn [bind ret].
  eexists. split; [reflexivity | ]. cbn [F6.Mn]. exact HFcr.
Qed.

(** X15.  The three branches of the weak-axis check by the flange
    ratio lambda_f = bf / (2 tf) and s = sqrt(E / Fy): up to 0.38 s the
    nominal moment is Fy Zy (F6-1); above 0.38 s and up to 1.0 s it is
    Mp - (Mp - 0.70 Sy Sy)(lambda_f - 0.38 s)/(1.0 s - 0.38 s) (F6-2, with
    the product Sy Sy as the code has it); above 1.0 s it is
    0.70 E / (bf / tf)^2 Sy (F6-3).  The design moment is 0.9 times the
    nominal one. *)
Theorem flexion_eje_debil_tres_ramas (perfil : PropiedadesPerfilW)
    (cargas : CondicionesCarga) (r : F6.t) :
  _verificar_flexion_eje_debil perfil cargas = inr r ->
  F6.Mb r = 0.9 * F6.Mn r /\
  (lambda_f_B4 perfil <= 0.38 * sqrt (E perfil / Fy perfil) ->
   F6.estado_limite r = "fluencia" /\
   F6.Mn r = Fy perfil * Zy perfil) /\
  (0.38 * sqrt (E perfil / Fy perfil) < lambda_f_B4 perfil
     <= 1.0 * sqrt (E perfil / Fy perfil) ->
   F6.estado_limite r = "no_compacta" /\
   F6.Mn r =
     Fy perfil * Zy perfil
     - (Fy perfil * Zy perfil - 0.70 * Sy perfil * Sy perfil)
       * ((lambda_f_B4 perfil - 0.38 * sqrt (E perfil / Fy perfil))
          / (1.0 * sqrt (E perfil / Fy perfil)
             - 0.38 * sqrt (E perfil / Fy perfil)))) /\
  (1.0 * sqrt (E perfil / Fy perfil) < lambda_f_B4 perfil ->
   F6.estado_limite r = "esbelta" /\
   F6.Mn r = 0.70 * E perfil / (bf perfil / tf perfil) ^ 2 * Sy perfil).
Proof.
  intros Hr.
  destruct (flexion_eje_debil_ramas perfil cargas r Hr)
    as (Hcl & HMb & _ & _ & _ & Hc & Hn & He).
  destruct (patin_flexion_B4 perfil) as (Pc & Pn & Pe).
  rewrite Hcl in Hc, Hn, He.
  split; [exact HMb | ]. split; [ | split].
  - intros H. apply Pc in H. destruct (Hc H) as (H1 & _ & H2). split; assumption.
  - intros H. apply Pn in H. destruct (Hn H) as (H1 & _ & H2). split; assumption.
  - intros H. apply Pe in H. destruct (He H) as (H1 & _ & H2). split; assumption.
Qed.

Lemma flexion_eje_debil_tres_ramas_witness :
  exists r : F6.t,
    _verificar_flexion_eje_debil perfil_S1 cargas_eje_debil = inr r /\
    F6.estado_limite r = "fluencia" /\
    F6.Mn r = 3500 * 245.
Proof.
  destruct (flexion_eje_debil_devuelve perfil_S1 cargas_eje_debil)
    as (r & Hr & _);
    try (cbn [perfil_S1 tf tw bf E Fy Sy Zy]; lra).
  exists r. split; [exact Hr | ].
  destruct (flexion_eje_debil_tres_ramas perfil_S1 cargas_eje_debil r Hr)
    as (_ & Hc & _).
  apply Hc. unfold lambda_f_B4. cbn [perfil_S1 bf tf E Fy].
  rewrite (sqrt_val (2016000 / 3500) 24) by (split; lra). lra.
Defined.

(** X16.  On a section with positive flange width and thickness, E,
    Fy, Sy and Zy (and a non-zero web thickness), whenever the weak-axis
    check returns, in any of its three branches, the nominal and design
    moments are positive, the ratio is not negative, and the check
    passes exactly when |Muy| does not exceed the design moment. *)
Theorem flexion_eje_debil_positivo (perfil : PropiedadesPerfilW)
    (cargas : CondicionesCarga) (r : F6.t) :
  0 < tf perfil -> tw perfil <> 0 -> 0 < bf perfil ->
  0 < E perfil -> 0 < Fy perfil -> 0 < Sy perfil -> 0 < Zy perfil ->
  _verificar_flexion_eje_debil perfil cargas = inr r ->
  0 < F6.Mn r /\
  0 < F6.Mb r /\
  0 <= F6.RDC r /\
  (F6.estado r = "PASA" <-> Rabs (Muy cargas) <= F6.Mb r).
Proof.
  intros Htf Htw Hbf HE HFy HSy HZy Hr.
  destruct (flexion_eje_debil_devuelve perfil cargas
              Htf Htw Hbf HE HFy HSy HZy) as (r' & Hr' & HMn).
  rewrite Hr in Hr'. injection Hr' as <-.
  split; [exact HMn | ].
  destruct (flexion_eje_debil_ramas perfil cargas r Hr)
    as (_ & HMb & _ & HRDC & Hest & _).
  assert (HMb0 : 0 < F6.Mb r) by lra.
  split; [exact HMb0 | ]. split.
  - rewrite HRDC. apply Rabs_cociente_pos. exact HMb0.
  - rewrite Hest, HRDC. split; intros H.
    + apply Rabs_cociente_le_1; [exact HMb0 | ]. apply estado_PASA. exact H.
    + apply estado_PASA. apply Rabs_cociente_le_1; assumption.
Qed.

Lemma flexion_eje_debil_positivo_witness :
  exists r : F6.t,
    _verificar_flexion_eje_debil perfil_S2 cargas_S2 = inr r /\
    0 < F6.Mb r.
Proof.
  destruct (flexion_eje_debil_devuelve perfil_S2 cargas_S2)
    as (r & Hr & _);
    try (cbn [perfil_S2 tf tw bf E Fy Sy Zy]; lra).
  exists r. split; [exact Hr | ].
  destruct (flexion_eje_debil_positivo perfil_S2 cargas_S2 r)
    as (_ & HMb & _);
    try (cbn [perfil_S2 tf tw bf E Fy Sy Zy]; lra);
    try exact Hr; try exact HMb.
Defined.

(* ================================================================== *)
(** * More on the interaction check *)

(** With a compression result and three non-zero capacities the check
    returns the full result, whose fields are these. *)
Lemma interaccion_devuelve (cargas : CondicionesCarga)
    (previos : Resultados.t) (comp : Compresion) :
  Resultados.compresion previos = Some comp ->
  Compresion_Pc comp <> 0 ->
  Mb_previo (Resultados.flexion_eje_fuerte previos) <> 0 ->
  Mb_previo (Resultados.flexion_eje_debil previos) <> 0 ->
  exists r : H1.t,
    verificar_interaccion_flexo_compresion cargas previos
      = inr (InteraccionOk r) /\
    H1.Pc r = Compresion_Pc comp /\
    H1.Mcx r = Mb_previo (Resultados.flexion_eje_fuerte previos) /\
    H1.Mcy r = Mb_previo (Resultados.flexion_eje_debil previos) /\
    H1.Pr r = Rabs (Pu cargas) /\
    H1.Mrx r = Rabs (Mux cargas) /\
    H1.Mry r = Rabs (Muy cargas) /\
    H1.interaccion r =
      (if Rgeb (H1.Pr r / H1.Pc r) 0.2
       then H1.Pr r / H1.Pc r
            + 8.0 / 9.0 * (H1.Mrx r / H1.Mcx r + H1.Mry r / H1.Mcy r)
       else H1.Pr r / (2 * H1.Pc r)
            + (H1.Mrx r / H1.Mcx r + H1.Mry r / H1.Mcy r)) /\
    H1.ecuacion_aplicada r =
      (if Rgeb (H1.Pr r / H1.Pc r) 0.2 then "H1-1a" else "H1-1b") /\
    H1.estado r = (if Rleb (H1.interaccion r) 1.0 then "PASA" else "FALLA") /\
    H1.Pr_Pc r = (if Rgtb (H1.Pc r) 0 then H1.Pr r / H1.Pc r else 0) /\
    H1.Mrx_Mcx r = (if Rgtb (H1.Mcx r) 0 then H1.Mrx r / H1.Mcx r else 0) /\
    H1.Mry_Mcy r = (if Rgtb (H1.Mcy r) 0 then H1.Mry r / H1.Mcy r else 0) /\
    H1.ecuaciones_ref r = [H1.ecuacion_aplicada r].
Proof.
  intros Hc HPc HMcx HMcy.
  unfold verificar_interaccion_flexo_compresion. rewrite Hc. cbv zeta.
  unfold Mb_previo in *.
  set (Mcx := match Resultados.flexion_eje_fuerte previos with
              | Some f => Flexion_Mb f | None => 0 end) in *.
  set (Mcy := match Resultados.flexion_eje_debil previos with
              | Some f => Flexion_Mb f | None => 0 end) in *.
  rewrite (div_ok (Rabs (Pu cargas)) (Compresion_Pc comp)) by assumption.
  rewrite (div_ok (Rabs (Mux cargas)) Mcx) by assumption.
  rewrite (div_ok (Rabs (Muy cargas)) Mcy) by assumption.
  rewrite (div_ok (Rabs (Pu cargas)) (2 * Compresion_Pc comp)) by lra.
  cbn [bind].
  destruct (Rgeb (Rabs (Pu cargas) / Compresion_Pc comp) 0.2) eqn:Ht;
    cbn [bind ret];
    destruct (Rgtb (Compresion_Pc comp) 0) eqn:H1;
    destruct (Rgtb Mcx 0) eqn:H2;
    destruct (Rgtb Mcy 0) eqn:H3;
    cbn [bind ret];
    eexists; (split; [reflexivity | ]);
    cbn [H1.Pc H1.Mcx H1.Mcy H1.Pr H1.Mrx H1.Mry H1.interaccion
         H1.ecuacion_aplicada H1.estado H1.Pr_Pc H1.Mrx_Mcx H1.Mry_Mcy
         H1.ecuaciones_ref];
    rewrite ?Ht, ?H1, ?H2, ?H3; repeat split; reflexivity.
Qed.

(** Without one of the three capacities the check raises. *)
Lemma interaccion_division_por_cero (cargas : CondicionesCarga)
    (previos : Resultados.t) (comp : Compresion) :
  Resultados.compresion previos = Some comp ->
  ~ (Compresion_Pc comp <> 0 /\
     Mb_previo (Resultados.flexion_eje_fuerte previos) <> 0 /\
     Mb_previo (Resultados.flexion_eje_debil previos) <> 0) ->
  verificar_interaccion_flexo_compresion cargas previos
    = inl ZeroDivisionError.
Proof.
  intros Hc Hno.
  unfold verificar_interaccion_flexo_compresion. rewrite Hc. cbv zeta.
  unfold Mb_previo in Hno.
  set (Mcx := match Resultados.flexion_eje_fuerte previos with
              | Some f => Flexion_Mb f | None => 0 end) in *.
  set (Mcy := match Resultados.flexion_eje_debil previos with
              | Some f => Flexion_Mb f | None => 0 end) in *.
  destruct (Req_dec (Compresion_Pc comp) 0) as [HPc | HPc].
  { rewrite HPc, div_zero. reflexivity. }
  rewrite (div_ok (Rabs (Pu cargas)) (Compresion_Pc comp)) by assumption.
  rewrite (div_ok (Rabs (Pu cargas)) (2 * Compresion_Pc comp)) by lra.
  cbn [bind].
  destruct (Req_dec Mcx 0) as [HMcx | HMcx].
  { rewrite HMcx, div_zero. destruct (Rgeb _ _); reflexivity. }
  rewrite (div_ok (Rabs (Mux cargas)) Mcx) by assumption.
  destruct (Req_dec Mcy 0) as [HMcy | HMcy].
  { rewrite HMcy, div_zero. destruct (Rgeb _ _); reflexivity. }
  exfalso. apply Hno. repeat split; assumption.
Qed.

(** X17.  The interaction check never raises without a compression
    result: it returns the two-key ERROR value.  With one, it returns the
    full result exactly when the compression capacity and both flexure
    capacities are not zero, an empty flexure slot counting as capacity 0;
    in every other case it raises ZeroDivisionError. *)
Theorem interaccion_excepciones (cargas : CondicionesCarga)
    (previos : Resultados.t) :
  (Resultados.compresion previos = None ->
   verificar_interaccion_flexo_compresion cargas previos
     = inr (InteraccionError "ERROR"
              "Se requiere verificación de compresión")) /\
  (forall comp : Compresion,
     Resultados.compresion previos = Some comp ->
     (Compresion_Pc comp <> 0 /\
      Mb_previo (Resultados.flexion_eje_fuerte previos) <> 0 /\
      Mb_previo (Resultados.flexion_eje_debil previos) <> 0 ->
      exists r : H1.t,
        verificar_interaccion_flexo_compresion cargas previos
          = inr (InteraccionOk r)) /\
     (~ (Compresion_Pc comp <> 0 /\
         Mb_previo (Resultados.flexion_eje_fuerte previos) <> 0 /\
         Mb_previo (Resultados.flexion_eje_debil previos) <> 0) ->
      verificar_interaccion_flexo_compresion cargas previos
        = inl ZeroDivisionError)).
Proof.
  split.
  - intros Hc. unfold verificar_interaccion_flexo_compresion.
    rewrite Hc. reflexivity.
  - intros comp Hc. split.
    + intros (HPc & HMcx & HMcy).
      destruct (interaccion_devuelve cargas previos comp Hc HPc HMcx HMcy)
        as (r & Hr & _).
      exists r. exact Hr.
    + intros Hno.
      exact (interaccion_division_por_cero cargas previos comp Hc Hno).
Qed.

(** The two H1-1 expressions on non-negative ratios: below the value 1
    they agree on the verdict with every smaller triple of ratios. *)
Lemma H1_1_monotona (p p' m m' : R) :
  0 <= p' <= p -> 0 <= m' <= m ->
  (if Rgeb p 0.2 then p + 8.0 / 9.0 * m else p / 2 + m) <= 1 ->
  (if Rgeb p' 0.2 then p' + 8.0 / 9.0 * m' else p' / 2 + m') <= 1.
Proof.
  intros Hp Hm.
  unfold Rgeb.
  destruct (Rleb 0.2 p) eqn:E1; destruct (Rleb 0.2 p') eqn:E2;
    try (apply Rleb_true_iff in E1); try (apply Rleb_false_iff in E1);
    try (apply Rleb_true_iff in E2); try (apply Rleb_false_iff in E2);
    intros H; lra.
Qed.

Lemma cociente_monotono (x y c : R) :
  0 < c -> 0 <= x <= y -> 0 <= x / c <= y / c.
Proof.
  intros Hc [H0 H1]. assert (Hi := Rinv_0_lt_compat c Hc).
  unfold Rdiv. split.
  - apply Rmult_le_pos; lra.
  - apply Rmult_le_compat_r; lra.
Qed.

(** X18.  Against the same previous results with positive capacities,
    lowering the magnitudes of the axial load and of the two moments
    never turns a passing interaction check into a failing one. *)
Theorem interaccion_veredicto_monotono (c1 c2 : CondicionesCarga)
    (previos : Resultados.t) (comp : Compresion) (r2 : H1.t) :
  Resultados.compresion previos = Some comp ->
  0 < Compresion_Pc comp ->
  0 < Mb_previo (Resultados.flexion_eje_fuerte previos) ->
  0 < Mb_previo (Resultados.flexion_eje_debil previos) ->
  Rabs (Pu c1) <= Rabs (Pu c2) ->
  Rabs (Mux c1) <= Rabs (Mux c2) ->
  Rabs (Muy c1) <= Rabs (Muy c2) ->
  verificar_interaccion_flexo_compresion c2 previos = inr (InteraccionOk r2) ->
  H1.estado r2 = "PASA" ->
  exists r1 : H1.t,
    verificar_interaccion_flexo_compresion c1 previos
      = inr (InteraccionOk r1) /\
    H1.estado r1 = "PASA".
Proof.
  intros Hc HPc HMcx HMcy HP HX HY Hr2 Hpasa.
  destruct (interaccion_devuelve c2 previos comp Hc)
    as (r2' & Hr2' & E2); try lra.
  rewrite Hr2 in Hr2'. injection Hr2' as <-.
  destruct (interaccion_devuelve c1 previos comp Hc)
    as (r1 & Hr1 & E1); try lra.
  exists r1. split; [exact Hr1 | ].
  destruct E1 as (-> & -> & -> & -> & -> & -> & Hi1 & _ & He1 & _).
  destruct E2 as (-> & -> & -> & -> & -> & -> & Hi2 & _ & He2 & _).
  rewrite He2 in Hpasa. apply estado_PASA in Hpasa.
  rewrite He1. apply estado_PASA.
  rewrite Hi2 in Hpasa. rewrite Hi1.
  set (Pc := Compresion_Pc comp) in *.
  set (Mcx := Mb_previo (Resultados.flexion_eje_fuerte previos)) in *.
  set (Mcy := Mb_previo (Resultados.flexion_eje_debil previos)) in *.
  assert (Hp := cociente_monotono (Rabs (Pu c1)) (Rabs (Pu c2)) Pc HPc
                  (conj (Rabs_pos _) HP)).
  assert (Hx := cociente_monotono (Rabs (Mux c1)) (Rabs (Mux c2)) Mcx HMcx
                  (conj (Rabs_pos _) HX)).
  assert (Hy := cociente_monotono (Rabs (Muy c1)) (Rabs (Muy c2)) Mcy HMcy
                  (conj (Rabs_pos _) HY)).
  assert (Hd1 : Rabs (Pu c1) / (2 * Pc) = Rabs (Pu c1) / Pc / 2)
    by (field; lra).
  assert (Hd2 : Rabs (Pu c2) / (2 * Pc) = Rabs (Pu c2) / Pc / 2)
    by (field; lra).
  rewrite Hd1. rewrite Hd2 in Hpasa.
  apply (H1_1_monotona (Rabs (Pu c2) / Pc) (Rabs (Pu c1) / Pc)
           (Rabs (Mux c2) / Mcx + Rabs (Muy c2) / Mcy)
           (Rabs (Mux c1) / Mcx + Rabs (Muy c1) / Mcy)); [lra | lra | ].
  exact Hpasa.
Qed.

Lemma interaccion_veredicto_monotono_witness :
  exists r1 : H1.t,
    verificar_interaccion_flexo_compresion cargas_interaccion_menor
      previos_ejemplo = inr (InteraccionOk r1) /\
    H1.estado r1 = "PASA".
Proof.
  assert (Hp : Rabs (-50) = 50) by (rewrite Rabs_left; lra).
  assert (Hx : Rabs 9 = 9) by (apply Rabs_pos_eq; lra).
  assert (Hy : Rabs (-18) = 18) by (rewrite Rabs_left; lra).
  assert (Hq : Rabs (-10) = 10) by (rewrite Rabs_left; lra).
  destruct (interaccion_devuelve cargas_interaccion previos_ejemplo _ eq_refl)
    as (r2 & Hr2 & HPc & HMcx & HMcy & HPr & HMrx & HMry & Hi & _ & He & _);
    try (cbn [previos_ejemplo Resultados.flexion_eje_fuerte
              Resultados.flexion_eje_debil Mb_previo Compresion_Pc Flexion_Mb
              E3.Pc F2.Mb F6.Mb]; lra).
  refine (interaccion_veredicto_monotono cargas_interaccion_menor
            cargas_interaccion previos_ejemplo _ r2 eq_refl _ _ _ _ _ _
            Hr2 _);
    try (cbn [previos_ejemplo Resultados.flexion_eje_fuerte
              Resultados.flexion_eje_debil Mb_previo Compresion_Pc Flexion_Mb
              E3.Pc F2.Mb F6.Mb cargas_interaccion cargas_interaccion_menor
              Pu Mux Muy]; rewrite ?Hp, ?Hx, ?Hy, ?Hq; lra).
  rewrite He. apply estado_PASA. rewrite Hi.
  rewrite HPc, HMcx, HMcy, HPr, HMrx, HMry.
  cbn [previos_ejemplo Resultados.flexion_eje_fuerte
       Resultados.flexion_eje_debil Mb_previo Compresion_Pc Flexion_Mb
       E3.Pc F2.Mb F6.Mb cargas_interaccion Pu Mux Muy].
  rewrite Hp, Hx, Hy.
  unfold Rgeb. rewrite Rleb_true by lra. lra.
Defined.

(** X19.  The combined value is not monotone in the axial load.  For
    two loads with the same moments against the same previous results,
    one with Pr/Pc below 0.2 (H1-1b) and the other at or above 0.2
    (H1-1a), the smaller axial load gives the larger combined value
    exactly when the sum m of the two moment ratios exceeds
    9 (Pr2/Pc - Pr1/(2 Pc)). *)
Theorem interaccion_salto_en_02 (c1 c2 : CondicionesCarga)
    (previos : Resultados.t) (comp : Compresion) (r1 r2 : H1.t) :
  Resultados.compresion previos = Some comp ->
  0 < Compresion_Pc comp ->
  Mux c1 = Mux c2 -> Muy c1 = Muy c2 ->
  Rabs (Pu c1) / Compresion_Pc comp < 0.2 ->
  0.2 <= Rabs (Pu c2) / Compresion_Pc comp ->
  verificar_interaccion_flexo_compresion c1 previos = inr (InteraccionOk r1) ->
  verificar_interaccion_flexo_compresion c2 previos = inr (InteraccionOk r2) ->
  H1.ecuacion_aplicada r1 = "H1-1b" /\
  H1.ecuacion_aplicada r2 = "H1-1a" /\
  (H1.interaccion r2 < H1.interaccion r1 <->
   9 * (Rabs (Pu c2) / Compresion_Pc comp
        - Rabs (Pu c1) / (2 * Compresion_Pc comp))
   < Rabs (Mux c2) / H1.Mcx r2 + Rabs (Muy c2) / H1.Mcy r2).
Proof.
  intros Hc HPc HX HY Hp1 Hp2 Hr1 Hr2.
  destruct (Req_dec (Mb_previo (Resultados.flexion_eje_fuerte previos)) 0)
    as [HMcx | HMcx].
  { rewrite (interaccion_division_por_cero c1 previos comp Hc) in Hr1;
      [discriminate | tauto]. }
  destruct (Req_dec (Mb_previo (Resultados.flexion_eje_debil previos)) 0)
    as [HMcy | HMcy].
  { rewrite (interaccion_division_por_cero c1 previos comp Hc) in Hr1;
      [discriminate | tauto]. }
  destruct (interaccion_devuelve c1 previos comp Hc)
    as (r1' & Hr1' & E1); try assumption; try lra.
  rewrite Hr1 in Hr1'. injection Hr1' as <-.
  destruct (interaccion_devuelve c2 previos comp Hc)
    as (r2' & Hr2' & E2); try assumption; try lra.
  rewrite Hr2 in Hr2'. injection Hr2' as <-.
  destruct E1 as (P1 & X1 & Y1 & Pr1 & Mrx1 & Mry1 & Hi1 & Ha1 & _).
  destruct E2 as (P2 & X2 & Y2 & Pr2 & Mrx2 & Mry2 & Hi2 & Ha2 & _).
  rewrite P1, Pr1 in Ha1, Hi1. rewrite P2, Pr2 in Ha2, Hi2.
  unfold Rgeb in *.
  rewrite Rleb_false in Ha1, Hi1 by exact Hp1.
  rewrite Rleb_true in Ha2, Hi2 by exact Hp2.
  split; [exact Ha1 | ]. split; [exact Ha2 | ].
  rewrite Hi1, Hi2, Mrx1, Mry1, Mrx2, Mry2, X1, Y1, X2, Y2, HX, HY.
  split; intros H; lra.
Qed.

Lemma interaccion_salto_en_02_witness :
  exists r1 r2 : H1.t,
    verificar_interaccion_flexo_compresion cargas_bajo_02 previos_ejemplo
      = inr (InteraccionOk r1) /\
    verificar_interaccion_flexo_compresion cargas_en_02 previos_ejemplo
      = inr (InteraccionOk r2) /\
    H1.interaccion r2 < H1.interaccion r1.
Proof.
  assert (Hp : Rabs (-19) = 19) by (rewrite Rabs_left; lra).
  assert (Hq : Rabs (-20) = 20) by (rewrite Rabs_left; lra).
  assert (Hx : Rabs 90 = 90) by (apply Rabs_pos_eq; lra).
  assert (Hy : Rabs 0 = 0) by (apply Rabs_R0).
  destruct (interaccion_devuelve cargas_bajo_02 previos_ejemplo _ eq_refl)
    as (r1 & Hr1 & _);
    try (cbn [previos_ejemplo Resultados.flexion_eje_fuerte
              Resultados.flexion_eje_debil Mb_previo Compresion_Pc Flexion_Mb
              E3.Pc F2.Mb F6.Mb]; lra).
  destruct (interaccion_devuelve cargas_en_02 previos_ejemplo _ eq_refl)
    as (r2 & Hr2 & _ & HMcx & HMcy & _);
    try (cbn [previos_ejemplo Resultados.flexion_eje_fuerte
              Resultados.flexion_eje_debil Mb_previo Compresion_Pc Flexion_Mb
              E3.Pc F2.Mb F6.Mb]; lra).
  exists r1, r2. split; [exact Hr1 | ]. split; [exact Hr2 | ].
  refine (proj2 (proj2 (proj2
            (interaccion_salto_en_02 cargas_bajo_02 cargas_en_02
               previos_ejemplo _ r1 r2 eq_refl _ eq_refl eq_refl _ _
               Hr1 Hr2))) _);
    rewrite ?HMcx, ?HMcy;
    cbn [previos_ejemplo Resultados.flexion_eje_fuerte
         Resultados.flexion_eje_debil Mb_previo Compresion_Pc Flexion_Mb
         E3.Pc F2.Mb F6.Mb cargas_bajo_02 cargas_en_02 Pu Mux Muy];
    rewrite ?Hp, ?Hq, ?Hx, ?Hy; lra.
Defined.

(** A passing interaction check bounds each demand. *)
Lemma interaccion_PASA_cotas (cargas : CondicionesCarga)
    (previos : Resultados.t) (comp : Compresion) (r : H1.t) :
  Resultados.compresion previos = Some comp ->
  0 < Compresion_Pc comp ->
  0 < Mb_previo (Resultados.flexion_eje_fuerte previos) ->
  0 < Mb_previo (Resultados.flexion_eje_debil previos) ->
  verificar_interaccion_flexo_compresion cargas previos
    = inr (InteraccionOk r) ->
  H1.estado r = "PASA" ->
  Rabs (Pu cargas) <= Compresion_Pc comp /\
  Rabs (Mux cargas) <= Mb_previo (Resultados.flexion_eje_fuerte previos) /\
  Rabs (Muy cargas) <= Mb_previo (Resultados.flexion_eje_debil previos) /\
  0 <= H1.Pr_Pc r <= 1 /\ 0 <= H1.Mrx_Mcx r <= 1 /\ 0 <= H1.Mry_Mcy r <= 1.
Proof.
  intros Hc HPc HMcx HMcy Hr Hpasa.
  destruct (interaccion_devuelve cargas previos comp Hc)
    as (r' & Hr' & E); try lra.
  rewrite Hr in Hr'. injection Hr' as <-.
  destruct E as (-> & -> & -> & -> & -> & -> & Hi & _ & He & H1 & H2 & H3 & _).
  rewrite He in Hpasa. apply estado_PASA in Hpasa. rewrite Hi in Hpasa.
  unfold Rgtb in H1, H2, H3.
  rewrite Rltb_true in H1, H2, H3 by assumption.
  rewrite H1, H2, H3.
  set (Pc := Compresion_Pc comp) in *.
  set (Mcx := Mb_previo (Resultados.flexion_eje_fuerte previos)) in *.
  set (Mcy := Mb_previo (Resultados.flexion_eje_debil previos)) in *.
  assert (Hp := Rabs_cociente_pos (Pu cargas) Pc HPc).
  assert (Hx := Rabs_cociente_pos (Mux cargas) Mcx HMcx).
  assert (Hy := Rabs_cociente_pos (Muy cargas) Mcy HMcy).
  assert (Hd : Rabs (Pu cargas) / (2 * Pc) = Rabs (Pu cargas) / Pc / 2)
    by (field; lra).
  rewrite Hd in Hpasa.
  assert (Hb : Rabs (Pu cargas) / Pc <= 1 /\
               Rabs (Mux cargas) / Mcx <= 1 /\
               Rabs (Muy cargas) / Mcy <= 1).
  { unfold Rgeb in Hpasa.
    destruct (Rleb 0.2 (Rabs (Pu cargas) / Pc)) eqn:Ht.
    - apply Rleb_true_iff in Ht. repeat split; lra.
    - apply Rleb_false_iff in Ht. repeat split; lra. }
  destruct Hb as (B1 & B2 & B3).
  split; [apply Rabs_cociente_le_1; assumption | ].
  split; [apply Rabs_cociente_le_1; assumption | ].
  split; [apply Rabs_cociente_le_1; assumption | ].
  repeat split; assumption.
Qed.

(** X20.  With positive capacities a passing interaction check bounds
    each demand by its capacity: |Pu| <= Pc, |Mux| <= Mcx and
    |Muy| <= Mcy, and the three reported ratios lie between 0 and 1. *)
Theorem interaccion_PASA_acota (cargas : CondicionesCarga)
    (previos : Resultados.t) (comp : Compresion) (r : H1.t) :
  Resultados.compresion previos = Some comp ->
  0 < Compresion_Pc comp ->
  0 < Mb_previo (Resultados.flexion_eje_fuerte previos) ->
  0 < Mb_previo (Resultados.flexion_eje_debil previos) ->
  verificar_interaccion_flexo_compresion cargas previos
    = inr (InteraccionOk r) ->
  H1.estado r = "PASA" ->
  Rabs (Pu cargas) <= Compresion_Pc comp /\
  Rabs (Mux cargas) <= Mb_previo (Resultados.flexion_eje_fuerte previos) /\
  Rabs (Muy cargas) <= Mb_previo (Resultados.flexion_eje_debil previos) /\
  0 <= H1.Pr_Pc r <= 1 /\ 0 <= H1.Mrx_Mcx r <= 1 /\ 0 <= H1.Mry_Mcy r <= 1.
Proof.
  exact (interaccion_PASA_cotas cargas previos comp r).
Qed.

Lemma interaccion_PASA_acota_witness :
  exists r : H1.t,
    verificar_interaccion_flexo_compresion cargas_interaccion previos_ejemplo
      = inr (InteraccionOk r) /\
    0 <= H1.Pr_Pc r <= 1.
Proof.
  assert (Hp : Rabs (-50) = 50) by (rewrite Rabs_left; lra).
  assert (Hx : Rabs 9 = 9) by (apply Rabs_pos_eq; lra).
  assert (Hy : Rabs (-18) = 18) by (rewrite Rabs_left; lra).
  destruct (interaccion_devuelve cargas_interaccion previos_ejemplo _ eq_refl)
    as (r & Hr & HPc & HMcx & HMcy & HPr & HMrx & HMry & Hi & _ & He & _);
    try (cbn [previos_ejemplo Resultados.flexion_eje_fuerte
              Resultados.flexion_eje_debil Mb_previo Compresion_Pc Flexion_Mb
              E3.Pc F2.Mb F6.Mb]; lra).
  exists r. split; [exact Hr | ].
  refine (proj1 (proj2 (proj2 (proj2
            (interaccion_PASA_acota cargas_interaccion previos_ejemplo _ r
               eq_refl _ _ _ Hr _)))));
    try (cbn [previos_ejemplo Resultados.flexion_eje_fuerte
              Resultados.flexion_eje_debil Mb_previo Compresion_Pc Flexion_Mb
              E3.Pc F2.Mb F6.Mb]; lra).
  rewrite He. apply estado_PASA. rewrite Hi.
  rewrite HPc, HMcx, HMcy, HPr, HMrx, HMry.
  cbn [previos_ejemplo Resultados.flexion_eje_fuerte
       Resultados.flexion_eje_debil Mb_previo Compresion_Pc Flexion_Mb
       E3.Pc F2.Mb F6.Mb cargas_interaccion Pu Mux Muy].
  rewrite Hp, Hx, Hy.
  unfold Rgeb. rewrite Rleb_true by lra. lra.
Defined.

(* ================================================================== *)
(** * The orchestrator *)

(** One slot of the result dict: [check() if cond else None]. *)
Lemma ranura_inr {T : Type} (b : bool) (m : Py T) (o : option T) :
  (if b then r <- m ;; ret (Some r) else ret None) = inr o ->
  (b = true -> exists r : T, m = inr r /\ o = Some r) /\
  (b = false -> o = None).
Proof.
  destruct b; intros H.
  - apply bind_inr in H. destruct H as (r & Hr & H).
    injection H as <-. split; [ | discriminate].
    intros _. exists r. split; [exact Hr | reflexivity].
  - injection H as <-. split; [discriminate | reflexivity].
Qed.

Lemma ranura_ok {T : Type} (b : bool) (m : Py T) (r : T) :
  m = inr r ->
  (if b then r <- m ;; ret (Some r) else ret None)
    = inr (if b then Some r else None).
Proof. intros ->. destruct b; reflexivity. Qed.

Lemma Rabs_gtb_0 (x : R) : Rgtb (Rabs x) 0 = true <-> x <> 0.
Proof.
  unfold Rgtb. rewrite Rltb_true_iff. split.
  - intros H Hx. rewrite Hx, Rabs_R0 in H. lra.
  - apply Rabs_pos_lt.
Qed.

Lemma Rabs_gtb_0_false (x : R) : Rgtb (Rabs x) 0 = false <-> x = 0.
Proof.
  unfold Rgtb. rewrite Rltb_false_iff. split.
  - intros H. destruct (Req_dec x 0) as [Hx | Hx]; [exact Hx | ].
    apply Rabs_pos_lt in Hx. lra.
  - intros ->. rewrite Rabs_R0. lra.
Qed.

(** The interaction check reads three slots of the previous results
    and nothing else. *)
Lemma interaccion_tres_ranuras (cargas : CondicionesCarga)
    (p q : Resultados.t) :
  Resultados.compresion p = Resultados.compresion q ->
  Resultados.flexion_eje_fuerte p = Resultados.flexion_eje_fuerte q ->
  Resultados.flexion_eje_debil p = Resultados.flexion_eje_debil q ->
  verificar_interaccion_flexo_compresion cargas p
    = verificar_interaccion_flexo_compresion cargas q.
Proof.
  intros H1 H2 H3. unfold verificar_interaccion_flexo_compresion.
  rewrite H1, H2, H3. reflexivity.
Qed.

(** What [validar_todo] has done when it returns. *)
Lemma validar_todo_inr (perfil : PropiedadesPerfilW)
    (cargas : CondicionesCarga) (res : Resultados.t) :
  validar_todo perfil cargas = inr res ->
  ((0 < Pu cargas ->
    exists r, verificar_tension perfil cargas = inr r /\
              Resultados.tension res = Some r) /\
   (Pu cargas <= 0 -> Resultados.tension res = None)) /\
  ((Pu cargas < 0 ->
    exists r, verificar_compresion perfil cargas = inr r /\
              Resultados.compresion res = Some r) /\
   (0 <= Pu cargas -> Resultados.compresion res = None)) /\
  ((Mux cargas <> 0 ->
    exists r, verificar_flexion perfil cargas FUERTE = inr r /\
              Resultados.flexion_eje_fuerte res = Some r) /\
   (Mux cargas = 0 -> Resultados.flexion_eje_fuerte res = None)) /\
  ((Muy cargas <> 0 ->
    exists r, verificar_flexion perfil cargas DEBIL = inr r /\
              Resultados.flexion_eje_debil res = Some r) /\
   (Muy cargas = 0 -> Resultados.flexion_eje_debil res = None)) /\
  Resultados.clasificacion_seccion res = clasificacion_B4 perfil /\
  ((Pu cargas < 0 /\ (Mux cargas <> 0 \/ Muy cargas <> 0) ->
    exists i, verificar_interaccion_flexo_compresion cargas res = inr i /\
              Resultados.interaccion_flexo_compresion res = Some i) /\
   (~ (Pu cargas < 0 /\ (Mux cargas <> 0 \/ Muy cargas <> 0)) ->
    Resultados.interaccion_flexo_compresion res = None)).
Proof.
  unfold validar_todo. intros H.
  peel_bind H as t Ht. apply ranura_inr in Ht.
  peel_bind H as c Hc. apply ranura_inr in Hc.
  peel_bind H as fx Hfx. apply ranura_inr in Hfx.
  peel_bind H as fy Hfy. apply ranura_inr in Hfy.
  peel_bind H as cl Hcl.
  apply clasificar_seccion_inr in Hcl. destruct Hcl as (_ & _ & _ & _ & ->).
  assert (Hslots :
    ((0 < Pu cargas ->
      exists r, verificar_tension perfil cargas = inr r /\ t = Some r) /\
     (Pu cargas <= 0 -> t = None)) /\
    ((Pu cargas < 0 ->
      exists r, verificar_compresion perfil cargas = inr r /\ c = Some r) /\
     (0 <= Pu cargas -> c = None)) /\
    ((Mux cargas <> 0 ->
      exists r, verificar_flexion perfil cargas FUERTE = inr r /\
                fx = Some r) /\
     (Mux cargas = 0 -> fx = None)) /\
    ((Muy cargas <> 0 ->
      exists r, verificar_flexion perfil cargas DEBIL = inr r /\
                fy = Some r) /\
     (Muy cargas = 0 -> fy = None))).
  { destruct Ht as [Ht1 Ht0], Hc as [Hc1 Hc0], Hfx as [Hx1 Hx0],
             Hfy as [Hy1 Hy0].
    repeat split.
    - intros Hp. apply Ht1. apply Rltb_true_iff. exact Hp.
    - intros Hp. apply Ht0. apply Rltb_false_iff. exact Hp.
    - intros Hp. apply Hc1. apply Rltb_true_iff. exact Hp.
    - intros Hp. apply Hc0. apply Rltb_false_iff. exact Hp.
    - intros Hp. apply Hx1. apply Rabs_gtb_0. exact Hp.
    - intros Hp. apply Hx0. apply Rabs_gtb_0_false. exact Hp.
    - intros Hp. apply Hy1. apply Rabs_gtb_0. exact Hp.
    - intros Hp. apply Hy0. apply Rabs_gtb_0_false. exact Hp. }
  destruct Hslots as (St & Sc & Sx & Sy).
  destruct (Rltb (Pu cargas) 0
            && (Rgtb (Rabs (Mux cargas)) 0 || Rgtb (Rabs (Muy cargas)) 0))
    eqn:Eb.
  - apply andb_true_iff in Eb. destruct Eb as [Eb1 Eb2].
    apply Rltb_true_iff in Eb1. apply orb_true_iff in Eb2.
    rewrite !Rabs_gtb_0 in Eb2.
    peel_bind H as i Hi. injection H as <-.
    cbn [Resultados.tension Resultados.compresion
         Resultados.flexion_eje_fuerte Resultados.flexion_eje_debil
         Resultados.clasificacion_seccion
         Resultados.interaccion_flexo_compresion].
    repeat (split; [assumption | ]). split; [reflexivity | ].
    split.
    + intros _. exists i. split; [ | reflexivity].
      rewrite <- Hi. apply interaccion_tres_ranuras; reflexivity.
    + intros Hno. exfalso. apply Hno. split; assumption.
  - injection H as <-.
    cbn [Resultados.tension Resultados.compresion
         Resultados.flexion_eje_fuerte Resultados.flexion_eje_debil
         Resultados.clasificacion_seccion
         Resultados.interaccion_flexo_compresion].
    repeat (split; [assumption | ]). split; [reflexivity | ].
    split; [ | reflexivity].
    intros [Hp Hm]. exfalso.
    apply andb_false_iff in Eb. destruct Eb as [Eb | Eb].
    + apply Rltb_false_iff in Eb. lra.
    + apply orb_false_iff in Eb. destruct Eb as [Ex Ey].
      apply Rabs_gtb_0_false in Ex. apply Rabs_gtb_0_false in Ey. tauto.
Qed.

Lemma verificar_tension_devuelve (perfil : PropiedadesPerfilW)
    (cargas : CondicionesCarga) :
  0 < A perfil -> 0 < Fy perfil -> 0 < Fu perfil ->
  exists r : Tension.t, verificar_tension perfil cargas = inr r.
Proof.
  intros HA HFy HFu.
  assert (Hy : 0 < 0.9 * (Fy perfil * A perfil)) by nra.
  assert (Hu : 0 < 0.75 * (Fu perfil * A perfil)) by nra.
  assert (Hm : 0 < Rmin (0.9 * (Fy perfil * A perfil))
                        (0.75 * (Fu perfil * A perfil)))
    by (apply Rmin_glb_lt; assumption).
  unfold verificar_tension. cbv zeta.
  rewrite div_ok by lra. cbn [bind ret]. eexists. reflexivity.
Qed.

Lemma verificar_compresion_devuelve (perfil : PropiedadesPerfilW)
    (cargas : CondicionesCarga) :
  perfil_positivo perfil -> sin_elementos_esbeltos perfil ->
  KL_r_E3 perfil cargas <> 0 ->
  exists r0 : E3.t,
    verificar_compresion perfil cargas = inr (NoEsbeltos r0) /\
    E3.Pc r0 <> 0 /\
    _verificar_compresion_no_esbeltos perfil cargas = inr r0.
Proof.
  intros (Hbf & Htf & Htw & HA & _ & _ & Hrx & _ & _ & _ & Hry & _ & _ & _
          & HFy & _ & HE) [Hf Hw] HK.
  assert (HEFy : 0 < E perfil / Fy perfil) by (apply Rdiv_lt_0_compat; lra).
  destruct (compresion_no_esbeltos_devuelve perfil cargas) as [r0 Hr0];
    try lra.
  exists r0. split.
  - unfold verificar_compresion.
    rewrite (clasificar_seccion_ok perfil) by lra. cbn [bind].
    assert (Ef : (Clasificacion.patin_compresion (clasificacion_B4 perfil)
                  =? "esbelta")%string = false).
    { apply String.eqb_neq. intros Ef.
      apply patin_compresion_esbelta_iff in Ef. lra. }
    assert (Ew : (Clasificacion.alma_flexion (clasificacion_B4 perfil)
                  =? "esbelta")%string = false).
    { apply String.eqb_neq. intros Ew.
      apply alma_flexion_esbelta_iff in Ew. lra. }
    rewrite Ef, Ew.
    cbn [orb]. rewrite Hr0. reflexivity.
  - split; [ | exact Hr0].
    apply (compresion_no_esbeltos_guardas perfil cargas r0 Hr0).
Qed.

(** In the exact arithmetic of the model: on a section with positive
    properties and no slender element, with a positive Cb and a
    slenderness that is not zero, every check returns, and so does
    [validar_todo] unless compression comes with exactly one moment,
    where it raises ZeroDivisionError. *)
Lemma validar_todo_devuelve (perfil : PropiedadesPerfilW)
    (cargas : CondicionesCarga) :
  perfil_positivo perfil -> sin_elementos_esbeltos perfil ->
  0 < Cb cargas -> KL_r_E3 perfil cargas <> 0 ->
  (~ un_solo_momento cargas ->
   exists res : Resultados.t, validar_todo perfil cargas = inr res) /\
  (un_solo_momento cargas ->
   validar_todo perfil cargas = inl ZeroDivisionError).
Proof.
  intros Hpos Hne HCb HK.
  destruct (verificar_compresion_devuelve perfil cargas Hpos Hne HK)
    as (r0 & Hcomp & HPc & _).
  destruct Hpos as (Hbf & Htf & Htw & HA & HSx & HZx & Hrx & HIy & HSy & HZy
                    & Hry & Hho & HJ & HCw & HFy & HFu & HE).
  destruct (verificar_tension_devuelve perfil cargas HA HFy HFu) as [rt Hrt].
  destruct (flexion_eje_fuerte_devuelve perfil cargas) as (rx' & Hrx' & _);
    try lra.
  destruct (flexion_eje_debil_devuelve perfil cargas) as (ry' & Hry' & _);
    try lra.
  assert (HMbx : F2.Mb rx' <> 0)
    by apply (flexion_eje_fuerte_valores perfil cargas rx' Hrx').
  assert (HMby : F6.Mb ry' <> 0)
    by apply (flexion_eje_debil_ramas perfil cargas ry' Hry').
  assert (HEFy : 0 < E perfil / Fy perfil) by (apply Rdiv_lt_0_compat; lra).
  unfold validar_todo.
  rewrite (ranura_ok _ _ _ Hrt). cbn [bind].
  rewrite (ranura_ok _ _ _ Hcomp). cbn [bind].
  assert (Hfx : verificar_flexion perfil cargas FUERTE = inr (EjeFuerte rx'))
    by (cbn [verificar_flexion]; rewrite Hrx'; reflexivity).
  assert (Hfy : verificar_flexion perfil cargas DEBIL = inr (EjeDebil ry'))
    by (cbn [verificar_flexion]; rewrite Hry'; reflexivity).
  rewrite (ranura_ok _ _ _ Hfx). cbn [bind].
  rewrite (ranura_ok _ _ _ Hfy). cbn [bind].
  rewrite (clasificar_seccion_ok perfil) by lra. cbn [bind]. cbv zeta.
  unfold un_solo_momento.
  destruct (Rltb (Pu cargas) 0) eqn:Ep; cbn [andb].
  2:{ apply Rltb_false_iff in Ep. split.
      - intros _. eexists. reflexivity.
      - intros [Hp _]. lra. }
  apply Rltb_true_iff in Ep.
  destruct (Rgtb (Rabs (Mux cargas)) 0) eqn:Ex;
    [apply Rabs_gtb_0 in Ex | apply Rabs_gtb_0_false in Ex];
    (destruct (Rgtb (Rabs (Muy cargas)) 0) eqn:Ey;
     [apply Rabs_gtb_0 in Ey | apply Rabs_gtb_0_false in Ey]);
    cbn [orb].
  - split; [ | tauto]. intros _.
    match goal with
    | |- context [verificar_interaccion_flexo_compresion cargas ?p] =>
        destruct (interaccion_devuelve cargas p (NoEsbeltos r0) eq_refl)
          as (r & Hr & _);
          try assumption
    end.
    rewrite Hr. cbn [bind ret]. eexists. reflexivity.
  - split; [tauto | ]. intros _.
    match goal with
    | |- context [verificar_interaccion_flexo_compresion cargas ?p] =>
        rewrite (interaccion_division_por_cero cargas p (NoEsbeltos r0)
                   eq_refl)
    end; [reflexivity | ].
    cbn [Resultados.flexion_eje_debil Mb_previo]. tauto.
  - split; [tauto | ]. intros _.
    match goal with
    | |- context [verificar_interaccion_flexo_compresion cargas ?p] =>
        rewrite (interaccion_division_por_cero cargas p (NoEsbeltos r0)
                   eq_refl)
    end; [reflexivity | ].
    cbn [Resultados.flexion_eje_fuerte Mb_previo]. tauto.
  - split; [ | tauto]. intros _. eexists. reflexivity.
Qed.

(** When the interaction slot of the result is filled. *)
Lemma validar_todo_interaccion_inv (perfil : PropiedadesPerfilW)
    (cargas : CondicionesCarga) (res : Resultados.t) (i : Interaccion) :
  validar_todo perfil cargas = inr res ->
  Resultados.interaccion_flexo_compresion res = Some i ->
  Pu cargas < 0 /\ Mux cargas <> 0 /\ Muy cargas <> 0 /\
  exists (r : H1.t) (c : Compresion) (fx fy : Flexion),
    i = InteraccionOk r /\
    verificar_interaccion_flexo_compresion cargas res = inr i /\
    Resultados.tension res = None /\
    verificar_compresion perfil cargas = inr c /\
    Resultados.compresion res = Some c /\
    verificar_flexion perfil cargas FUERTE = inr fx /\
    Resultados.flexion_eje_fuerte res = Some fx /\
    verificar_flexion perfil cargas DEBIL = inr fy /\
    Resultados.flexion_eje_debil res = Some fy /\
    H1.Pc r = Compresion_Pc c /\
    H1.Mcx r = Flexion_Mb fx /\
    H1.Mcy r = Flexion_Mb fy /\
    H1.Pc r <> 0 /\ H1.Mcx r <> 0 /\ H1.Mcy r <> 0.
Proof.
  intros Hres Hslot.
  destruct (validar_todo_inr perfil cargas res Hres)
    as ((_ & St) & (Sc & _) & (Sx1 & Sx0) & (Sy1 & Sy0) & _ & Si1 & Si0).
  destruct (Rlt_dec (Pu cargas) 0) as [Hp | Hp].
  2:{ rewrite Si0 in Hslot by tauto. discriminate. }
  destruct (Req_dec (Mux cargas) 0) as [Hx | Hx];
    destruct (Req_dec (Muy cargas) 0) as [Hy | Hy].
  1:{ rewrite Si0 in Hslot by tauto. discriminate. }
  all: destruct Si1 as (i' & Hi & Hslot'); [tauto | ].
  all: rewrite Hslot in Hslot'; injection Hslot' as <-.
  all: destruct (Sc Hp) as (c & Hc & Hcs).
  - exfalso.
    rewrite (interaccion_division_por_cero cargas res c Hcs) in Hi;
      [discriminate | ].
    rewrite (Sx0 Hx). cbn [Mb_previo]. tauto.
  - exfalso.
    rewrite (interaccion_division_por_cero cargas res c Hcs) in Hi;
      [discriminate | ].
    rewrite (Sy0 Hy). cbn [Mb_previo]. tauto.
  - destruct (Sx1 Hx) as (fx & Hfx & Hfxs).
    destruct (Sy1 Hy) as (fy & Hfy & Hfys).
    assert (Hcap : Compresion_Pc c <> 0 /\
                   Mb_previo (Resultados.flexion_eje_fuerte res) <> 0 /\
                   Mb_previo (Resultados.flexion_eje_debil res) <> 0).
    { destruct (Req_dec (Compresion_Pc c) 0) as [H1 | H1];
        [ | destruct (Req_dec
                        (Mb_previo (Resultados.flexion_eje_fuerte res)) 0)
              as [H2 | H2];
            [ | destruct (Req_dec
                            (Mb_previo (Resultados.flexion_eje_debil res)) 0)
                  as [H3 | H3]; [ | tauto]]];
        exfalso;
        rewrite (interaccion_division_por_cero cargas res c Hcs) in Hi;
        try discriminate; tauto. }
    destruct Hcap as (H1 & H2 & H3).
    destruct (interaccion_devuelve cargas res c Hcs H1 H2 H3)
      as (r & Hr & EPc & EMcx & EMcy & _).
    rewrite Hfxs in EMcx, H2. rewrite Hfys in EMcy, H3.
    cbn [Mb_previo] in EMcx, EMcy, H2, H3.
    split; [exact Hp | ]. split; [exact Hx | ]. split; [exact Hy | ].
    exists r, c, fx, fy.
    assert (Ei : i = InteraccionOk r) by congruence.
    split; [exact Ei | ]. split; [exact Hi | ].
    split; [apply St; lra | ].
    repeat (split; [assumption | ]).
    rewrite EPc, EMcx, EMcy. tauto.
Qed.

Lemma perfil_S1_positivo : perfil_positivo perfil_S1.
Proof. unfold perfil_positivo. cbn. repeat split; lra. Qed.

Lemma perfil_S1_sin_esbeltos : sin_elementos_esbeltos perfil_S1.
Proof.
  unfold sin_elementos_esbeltos, lambda_f_B4, lambda_w_B4.
  cbn [perfil_S1 bf tf d tw E Fy].
  rewrite (sqrt_val (2016000 / 3500) 24) by (split; lra). split; lra.
Qed.

Lemma KL_r_flexo_compresion :
  KL_r_E3 perfil_S1 cargas_flexo_compresion = 75.
Proof.
  unfold KL_r_E3. cbn [perfil_S1 cargas_flexo_compresion Lx Ly rx ry].
  rewrite Rmax_right by lra. lra.
Qed.

Lemma no_un_solo_momento_flexo_compresion :
  ~ un_solo_momento cargas_flexo_compresion.
Proof.
  unfold un_solo_momento. cbn [cargas_flexo_compresion Pu Mux Muy].
  intros (_ & [[H _] | [_ H]]); lra.
Qed.

Lemma validar_todo_S1_flexo_compresion :
  exists res : Resultados.t,
    validar_todo perfil_S1 cargas_flexo_compresion = inr res.
Proof.
  apply (validar_todo_devuelve perfil_S1 cargas_flexo_compresion).
  - exact perfil_S1_positivo.
  - exact perfil_S1_sin_esbeltos.
  - cbn. lra.
  - rewrite KL_r_flexo_compresion. lra.
  - exact no_un_solo_momento_flexo_compresion.
Qed.

(** X21.  When [validar_todo] returns, each slot of the result holds
    what the corresponding check returns on the same inputs, and is filled
    exactly under its condition: tension for Pu > 0, compression for
    Pu < 0, strong-axis flexure for Mux <> 0, weak-axis flexure for
    Muy <> 0; the classification slot always holds the ratios and classes
    of the section. *)
Theorem validar_todo_ranuras (perfil : PropiedadesPerfilW)
    (cargas : CondicionesCarga) (res : Resultados.t) :
  validar_todo perfil cargas = inr res ->
  (0 < Pu cargas ->
   exists r : Tension.t,
     verificar_tension perfil cargas = inr r /\
     Resultados.tension res = Some r) /\
  (Pu cargas <= 0 -> Resultados.tension res = None) /\
  (Pu cargas < 0 ->
   exists r : Compresion,
     verificar_compresion perfil cargas = inr r /\
     Resultados.compresion res = Some r) /\
  (0 <= Pu cargas -> Resultados.compresion res = None) /\
  (Mux cargas <> 0 ->
   exists r : F2.t,
     _verificar_flexion_eje_fuerte perfil cargas = inr r /\
     Resultados.flexion_eje_fuerte res = Some (EjeFuerte r)) /\
  (Mux cargas = 0 -> Resultados.flexion_eje_fuerte res = None) /\
  (Muy cargas <> 0 ->
   exists r : F6.t,
     _verificar_flexion_eje_debil perfil cargas = inr r /\
     Resultados.flexion_eje_debil res = Some (EjeDebil r)) /\
  (Muy cargas = 0 -> Resultados.flexion_eje_debil res = None) /\
  Resultados.clasificacion_seccion res = clasificacion_B4 perfil.
Proof.
  intros Hres.
  destruct (validar_todo_inr perfil cargas res Hres)
    as ((St1 & St0) & (Sc1 & Sc0) & (Sx1 & Sx0) & (Sy1 & Sy0) & Hcl & _).
  repeat (split; [assumption | ]).
  split; [ | split; [assumption | ]].
  - intros Hx. destruct (Sx1 Hx) as (f & Hf & Hs).
    cbn [verificar_flexion] in Hf.
    apply bind_inr in Hf. destruct Hf as (r & Hr & Hf).
    injection Hf as <-. exists r. split; assumption.
  - split; [ | split; assumption].
    intros Hy. destruct (Sy1 Hy) as (f & Hf & Hs).
    cbn [verificar_flexion] in Hf.
    apply bind_inr in Hf. destruct Hf as (r & Hr & Hf).
    injection Hf as <-. exists r. split; assumption.
Qed.

Lemma validar_todo_ranuras_witness :
  exists (res : Resultados.t) (c : Compresion),
    validar_todo perfil_S1 cargas_flexo_compresion = inr res /\
    Resultados.tension res = None /\
    Resultados.compresion res = Some c.
Proof.
  destruct validar_todo_S1_flexo_compresion as [res Hres].
  destruct (validar_todo_ranuras perfil_S1 cargas_flexo_compresion res Hres)
    as (_ & Ht & Hc & _).
  destruct Hc as (c & _ & Hc); [cbn; lra | ].
  exists res, c. split; [exact Hres | ]. split; [ | exact Hc].
  apply Ht. cbn. lra.
Defined.

(** X22.  The interaction slot of a returned result is empty exactly
    when Pu >= 0 or both moments are zero.  When it is filled it is never
    the ERROR value: the axial load is compressive, BOTH moments are
    non-zero, the tension slot is empty, and the full interaction result
    takes its three capacities, none of them zero, from the compression
    and flexure slots of the same result. *)
Theorem validar_todo_interaccion (perfil : PropiedadesPerfilW)
    (cargas : CondicionesCarga) (res : Resultados.t) :
  validar_todo perfil cargas = inr res ->
  (Resultados.interaccion_flexo_compresion res = None <->
   0 <= Pu cargas \/ (Mux cargas = 0 /\ Muy cargas = 0)) /\
  (forall i : Interaccion,
     Resultados.interaccion_flexo_compresion res = Some i ->
     Pu cargas < 0 /\ Mux cargas <> 0 /\ Muy cargas <> 0 /\
     Resultados.tension res = None /\
     exists (r : H1.t) (c : Compresion) (fx fy : Flexion),
       i = InteraccionOk r /\
       Resultados.compresion res = Some c /\
       Resultados.flexion_eje_fuerte res = Some fx /\
       Resultados.flexion_eje_debil res = Some fy /\
       H1.Pc r = Compresion_Pc c /\
       H1.Mcx r = Flexion_Mb fx /\
       H1.Mcy r = Flexion_Mb fy /\
       H1.Pc r <> 0 /\ H1.Mcx r <> 0 /\ H1.Mcy r <> 0).
Proof.
  intros Hres. split.
  - destruct (validar_todo_inr perfil cargas res Hres)
      as (_ & _ & _ & _ & _ & Si1 & Si0).
    split.
    + intros Hnone.
      destruct (Rlt_dec (Pu cargas) 0) as [Hp | Hp]; [ | lra].
      destruct (Req_dec (Mux cargas) 0) as [Hx | Hx];
        destruct (Req_dec (Muy cargas) 0) as [Hy | Hy]; try tauto;
        destruct Si1 as (i & _ & Hi); try tauto;
        rewrite Hnone in Hi; discriminate.
    + intros H. apply Si0. intros (Hp & Hm). destruct H as [H | [Hx Hy]].
      * lra.
      * tauto.
  - intros i Hi.
    destruct (validar_todo_interaccion_inv perfil cargas res i Hres Hi)
      as (Hp & Hx & Hy & r & c & fx & fy & Ei & _ & Ht & _ & Hc & _ & Hfx
          & _ & Hfy & E1 & E2 & E3 & N1 & N2 & N3).
    repeat (split; [assumption | ]).
    exists r, c, fx, fy. tauto.
Qed.

Lemma validar_todo_interaccion_witness :
  exists res : Resultados.t,
    validar_todo perfil_S1 cargas_flexo_compresion = inr res /\
    Resultados.interaccion_flexo_compresion res <> None.
Proof.
  destruct validar_todo_S1_flexo_compresion as [res Hres].
  exists res. split; [exact Hres | ].
  intros Hnone.
  apply (proj1 (validar_todo_interaccion perfil_S1 cargas_flexo_compresion
                  res Hres)) in Hnone.
  cbn [cargas_flexo_compresion Pu Mux Muy] in Hnone.
  destruct Hnone as [H | [H _]]; lra.
Defined.

(** [validar_todo] classifies the section whatever the loads. *)
Lemma validar_todo_clasifica (perfil : PropiedadesPerfilW)
    (cargas : CondicionesCarga) (res : Resultados.t) :
  validar_todo perfil cargas = inr res ->
  exists cl : Clasificacion.t, clasificar_seccion perfil = inr cl.
Proof.
  unfold validar_todo. intros H.
  peel_bind H as t Ht. peel_bind H as c Hc.
  peel_bind H as fx Hfx. peel_bind H as fy Hfy.
  peel_bind H as cl Hcl. exists cl. exact Hcl.
Qed.

(** X23.  [validar_todo] classifies the section whatever the loads:
    with a zero flange thickness, a zero web thickness, a zero yield
    stress or a negative E / Fy it raises, also for loads whose own
    checks do not use the classification, such as pure tension. *)
Theorem validar_todo_exige_clasificacion (perfil : PropiedadesPerfilW)
    (cargas : CondicionesCarga) :
  tf perfil = 0 \/ tw perfil = 0 \/ Fy perfil = 0
  \/ E perfil / Fy perfil < 0 ->
  exists e : Excepcion, validar_todo perfil cargas = inl e.
Proof.
  intros Hbad.
  destruct (validar_todo perfil cargas) as [e | res] eqn:Hres.
  - exists e. reflexivity.
  - exfalso.
    destruct (validar_todo_clasifica perfil cargas res Hres) as [cl Hcl].
    apply clasificar_seccion_inr in Hcl.
    destruct Hcl as (H1 & H2 & H3 & H4 & _).
    destruct Hbad as [H | [H | [H | H]]]; try contradiction. lra.
Qed.

Lemma validar_todo_exige_clasificacion_witness :
  (exists r : Tension.t,
     verificar_tension perfil_S1_sin_alma cargas_tension = inr r) /\
  (exists e : Excepcion,
     validar_todo perfil_S1_sin_alma cargas_tension = inl e).
Proof.
  split.
  - apply verificar_tension_devuelve; cbn; lra.
  - apply validar_todo_exige_clasificacion.
    right. left. reflexivity.
Defined.

(** The checks never return a zero capacity: each divides by it. *)
Lemma verificar_compresion_Pc (perfil : PropiedadesPerfilW)
    (cargas : CondicionesCarga) (c : Compresion) :
  verificar_compresion perfil cargas = inr c -> Compresion_Pc c <> 0.
Proof.
  unfold verificar_compresion. intros H.
  peel_bind H as cl Hcl.
  destruct (_ || _) in H; peel_bind H as r Hr; injection H as <-;
    cbn [Compresion_Pc].
  - apply (compresion_esbeltos_valores perfil cargas r Hr).
  - apply (compresion_no_esbeltos_guardas perfil cargas r Hr).
Qed.

Lemma verificar_flexion_Mb (perfil : PropiedadesPerfilW)
    (cargas : CondicionesCarga) (eje : Eje) (f : Flexion) :
  verificar_flexion perfil cargas eje = inr f -> Flexion_Mb f <> 0.
Proof.
  destruct eje; cbn [verificar_flexion]; intros H;
    apply bind_inr in H; destruct H as (r & Hr & H); injection H as <-;
    cbn [Flexion_Mb].
  - apply (flexion_eje_fuerte_valores perfil cargas r Hr).
  - apply (flexion_eje_debil_ramas perfil cargas r Hr).
Qed.

Lemma ranura_devuelve {T : Type} (b : bool) (m : Py T) :
  (b = true -> exists r : T, m = inr r) ->
  exists o : option T,
    (if b then r <- m ;; ret (Some r) else ret None) = inr o /\
    (b = true -> exists r : T, m = inr r /\ o = Some r) /\
    (b = false -> o = None).
Proof.
  destruct b; intros H.
  - destruct (H eq_refl) as [r Hr]. exists (Some r). rewrite Hr.
    split; [reflexivity | ]. split; [ | discriminate].
    intros _. exists r. split; reflexivity.
  - exists None. split; [reflexivity | ]. split; [discriminate | reflexivity].
Qed.

(** X24.  [validar_todo] adds one failure of its own to those of the
    checks it calls.  If every check that the loads call for returns
    (tension for Pu > 0, compression for Pu < 0, flexure about each axis
    with a non-zero moment) and the classification returns, then
    [validar_todo] returns for every combination of loads except
    compression with exactly one non-zero moment, where it raises
    ZeroDivisionError. *)
Theorem validar_todo_compone (perfil : PropiedadesPerfilW)
    (cargas : CondicionesCarga) :
  (0 < Pu cargas ->
   exists r : Tension.t, verificar_tension perfil cargas = inr r) ->
  (Pu cargas < 0 ->
   exists r : Compresion, verificar_compresion perfil cargas = inr r) ->
  (Mux cargas <> 0 ->
   exists r : Flexion, verificar_flexion perfil cargas FUERTE = inr r) ->
  (Muy cargas <> 0 ->
   exists r : Flexion, verificar_flexion perfil cargas DEBIL = inr r) ->
  (exists cl : Clasificacion.t, clasificar_seccion perfil = inr cl) ->
  ((exists res : Resultados.t, validar_todo perfil cargas = inr res) <->
   ~ un_solo_momento cargas) /\
  (un_solo_momento cargas ->
   validar_todo perfil cargas = inl ZeroDivisionError).
Proof.
  intros Ht Hc Hx Hy [cl Hcl].
  assert (Hboth :
    (~ un_solo_momento cargas ->
     exists res : Resultados.t, validar_todo perfil cargas = inr res) /\
    (un_solo_momento cargas ->
     validar_todo perfil cargas = inl ZeroDivisionError)).
  { unfold validar_todo.
    destruct (ranura_devuelve (Rgtb (Pu cargas) 0)
                (verificar_tension perfil cargas)) as (t & Et & _).
    { intros Hb. apply Ht. apply Rltb_true_iff. exact Hb. }
    rewrite Et. cbn [bind].
    destruct (ranura_devuelve (Rltb (Pu cargas) 0)
                (verificar_compresion perfil cargas)) as (c & Ec & Hc1 & _).
    { intros Hb. apply Hc. apply Rltb_true_iff. exact Hb. }
    rewrite Ec. cbn [bind].
    destruct (ranura_devuelve (Rgtb (Rabs (Mux cargas)) 0)
                (verificar_flexion perfil cargas FUERTE))
      as (fx & Ex & Hx1 & Hx0).
    { intros Hb. apply Hx. apply Rabs_gtb_0. exact Hb. }
    rewrite Ex. cbn [bind].
    destruct (ranura_devuelve (Rgtb (Rabs (Muy cargas)) 0)
                (verificar_flexion perfil cargas DEBIL))
      as (fy & Ey & Hy1 & Hy0).
    { intros Hb. apply Hy. apply Rabs_gtb_0. exact Hb. }
    rewrite Ey. cbn [bind].
    rewrite Hcl. cbn [bind]. cbv zeta.
    unfold un_solo_momento.
    destruct (Rltb (Pu cargas) 0) eqn:Ep; cbn [andb].
    2:{ apply Rltb_false_iff in Ep. split.
        - intros _. eexists. reflexivity.
        - intros [Hp _]. lra. }
    destruct (Hc1 eq_refl) as (comp & Hcomp & ->).
    assert (HPc := verificar_compresion_Pc perfil cargas comp Hcomp).
    apply Rltb_true_iff in Ep.
    destruct (Rgtb (Rabs (Mux cargas)) 0) eqn:Emx;
      destruct (Rgtb (Rabs (Muy cargas)) 0) eqn:Emy; cbn [orb].
    - destruct (Hx1 eq_refl) as (f1 & Hf1 & ->).
      destruct (Hy1 eq_refl) as (f2 & Hf2 & ->).
      apply Rabs_gtb_0 in Emx. apply Rabs_gtb_0 in Emy.
      split; [ | tauto]. intros _.
      match goal with
      | |- context [verificar_interaccion_flexo_compresion cargas ?p] =>
          destruct (interaccion_devuelve cargas p comp eq_refl)
            as (r & Hr & _)
      end.
      + exact HPc.
      + cbn [Resultados.flexion_eje_fuerte Mb_previo].
        exact (verificar_flexion_Mb perfil cargas FUERTE f1 Hf1).
      + cbn [Resultados.flexion_eje_debil Mb_previo].
        exact (verificar_flexion_Mb perfil cargas DEBIL f2 Hf2).
      + rewrite Hr. cbn [bind ret]. eexists. reflexivity.
    - rewrite (Hy0 eq_refl).
      apply Rabs_gtb_0 in Emx. apply Rabs_gtb_0_false in Emy.
      split; [tauto | ]. intros _.
      match goal with
      | |- context [verificar_interaccion_flexo_compresion cargas ?p] =>
          rewrite (interaccion_division_por_cero cargas p comp eq_refl)
      end; [reflexivity | ].
      cbn [Resultados.flexion_eje_debil Mb_previo]. tauto.
    - rewrite (Hx0 eq_refl).
      apply Rabs_gtb_0_false in Emx. apply Rabs_gtb_0 in Emy.
      split; [tauto | ]. intros _.
      match goal with
      | |- context [verificar_interaccion_flexo_compresion cargas ?p] =>
          rewrite (interaccion_division_por_cero cargas p comp eq_refl)
      end; [reflexivity | ].
      cbn [Resultados.flexion_eje_fuerte Mb_previo]. tauto.
    - apply Rabs_gtb_0_false in Emx. apply Rabs_gtb_0_false in Emy.
      split; [ | tauto]. intros _. eexists. reflexivity. }
  destruct Hboth as [Hsi Hno].
  split; [ | exact Hno]. split; [ | exact Hsi].
  intros [res Hres] Hun. rewrite (Hno Hun) in Hres. discriminate.
Qed.

(** The checks on [perfil_S1], in the exact arithmetic of the model. *)
Lemma comprobaciones_S1 (cargas : CondicionesCarga) :
  0 < Cb cargas -> KL_r_E3 perfil_S1 cargas <> 0 ->
  (exists r : Compresion, verificar_compresion perfil_S1 cargas = inr r) /\
  (exists r : Flexion, verificar_flexion perfil_S1 cargas FUERTE = inr r) /\
  (exists r : Flexion, verificar_flexion perfil_S1 cargas DEBIL = inr r) /\
  (exists cl : Clasificacion.t, clasificar_seccion perfil_S1 = inr cl).
Proof.
  intros HCb HK.
  destruct (verificar_compresion_devuelve perfil_S1 cargas
              perfil_S1_positivo perfil_S1_sin_esbeltos HK)
    as (r0 & Hc & _).
  destruct (flexion_eje_fuerte_devuelve perfil_S1 cargas) as (rx' & Hx & _);
    try (cbn [perfil_S1 tf tw E Fy ry Iy Cw Sx Zx ho J]; lra);
    try exact HCb.
  destruct (flexion_eje_debil_devuelve perfil_S1 cargas) as (ry' & Hy & _);
    try (cbn [perfil_S1 tf tw bf E Fy Sy Zy]; lra).
  split; [exists (NoEsbeltos r0); exact Hc | ].
  split; [exists (EjeFuerte rx'); cbn [verificar_flexion];
          rewrite Hx; reflexivity | ].
  split; [exists (EjeDebil ry'); cbn [verificar_flexion];
          rewrite Hy; reflexivity | ].
  destruct clasificar_seccion_S1 as [cl Hcl]. exists cl. exact Hcl.
Qed.

Lemma validar_todo_compone_witness :
  (exists res : Resultados.t,
     validar_todo perfil_S1 cargas_flexo_compresion = inr res) /\
  validar_todo perfil_S1 cargas_un_momento = inl ZeroDivisionError.
Proof.
  destruct (comprobaciones_S1 cargas_flexo_compresion)
    as (Hc1 & Hx1 & Hy1 & Hcl1);
    [cbn; lra | rewrite KL_r_flexo_compresion; lra | ].
  destruct (comprobaciones_S1 cargas_un_momento)
    as (Hc2 & Hx2 & Hy2 & Hcl2);
    [cbn; lra
    | unfold KL_r_E3; cbn; rewrite Rmax_right by lra; lra | ].
  split.
  - apply (proj1 (validar_todo_compone perfil_S1 cargas_flexo_compresion
                    ltac:(cbn; intros H; exfalso; lra)
                    (fun _ => Hc1) (fun _ => Hx1) (fun _ => Hy1) Hcl1)).
    exact no_un_solo_momento_flexo_compresion.
  - apply (proj2 (validar_todo_compone perfil_S1 cargas_un_momento
                    ltac:(cbn; intros H; exfalso; lra)
                    (fun _ => Hc2) (fun _ => Hx2) (fun _ => Hy2) Hcl2)).
    unfold un_solo_momento. cbn. split; [lra | ]. right. split; lra.
Defined.

(** The verdict of the compression slot, for both kinds of section. *)
Lemma verificar_compresion_estado (perfil : PropiedadesPerfilW)
    (cargas : CondicionesCarga) (c : Compresion) :
  verificar_compresion perfil cargas = inr c ->
  Compresion_estado c =
    (if Rleb (Rabs (Pu cargas) / Compresion_Pc c) 1.0
     then "PASA" else "FALLA").
Proof.
  unfold verificar_compresion. intros H.
  peel_bind H as cl Hcl.
  destruct (_ || _) in H; peel_bind H as r Hr; injection H as <-;
    cbn [Compresion_estado Compresion_Pc].
  - destruct (compresion_esbeltos_valores perfil cargas r Hr)
      as (_ & _ & _ & _ & _ & HRDC & Hest & _).
    rewrite Hest, HRDC. reflexivity.
  - destruct (compresion_no_esbeltos_guardas perfil cargas r Hr)
      as (_ & _ & _ & _ & _ & _ & _ & _ & _ & HRDC & Hest).
    rewrite Hest, HRDC. reflexivity.
Qed.

(** The verdict of a flexure slot, for both axes. *)
Lemma verificar_flexion_estado (perfil : PropiedadesPerfilW)
    (cargas : CondicionesCarga) (eje : Eje) (f : Flexion) :
  verificar_flexion perfil cargas eje = inr f ->
  Flexion_estado f =
    (if Rleb (Rabs (match eje with
                    | FUERTE => Mux cargas
                    | DEBIL => Muy cargas
                    end) / Flexion_Mb f) 1.0
     then "PASA" else "FALLA").
Proof.
  destruct eje; cbn [verificar_flexion]; intros H;
    apply bind_inr in H; destruct H as (r & Hr & H); injection H as <-;
    cbn [Flexion_estado Flexion_Mb].
  - destruct (flexion_eje_fuerte_valores perfil cargas r Hr)
      as (_ & _ & _ & _ & HRDC & Hest & _).
    rewrite Hest, HRDC. reflexivity.
  - destruct (flexion_eje_debil_ramas perfil cargas r Hr)
      as (_ & _ & _ & HRDC & Hest & _).
    rewrite Hest, HRDC. reflexivity.
Qed.

(** X25.  In a returned result whose interaction check passes with
    positive capacities, the compression check and both flexure checks of
    the same result pass as well. *)
Theorem validar_todo_interaccion_PASA (perfil : PropiedadesPerfilW)
    (cargas : CondicionesCarga) (res : Resultados.t) (r : H1.t) :
  validar_todo perfil cargas = inr res ->
  Resultados.interaccion_flexo_compresion res = Some (InteraccionOk r) ->
  0 < H1.Pc r -> 0 < H1.Mcx r -> 0 < H1.Mcy r ->
  H1.estado r = "PASA" ->
  exists (c : Compresion) (fx fy : Flexion),
    Resultados.compresion res = Some c /\
    Compresion_estado c = "PASA" /\
    Resultados.flexion_eje_fuerte res = Some fx /\
    Flexion_estado fx = "PASA" /\
    Resultados.flexion_eje_debil res = Some fy /\
    Flexion_estado fy = "PASA".
Proof.
  intros Hres Hslot HPc HMcx HMcy Hpasa.
  destruct (validar_todo_interaccion_inv perfil cargas res _ Hres Hslot)
    as (Hp & Hx & Hy & r' & c & fx & fy & Ei & Hi & _ & Hc & Hcs & Hfx
        & Hfxs & Hfy & Hfys & E1 & E2 & E3 & _).
  injection Ei as <-.
  rewrite E1 in HPc. rewrite E2 in HMcx. rewrite E3 in HMcy.
  destruct (interaccion_PASA_cotas cargas res c r Hcs HPc)
    as (B1 & B2 & B3 & _);
    try (rewrite ?Hfxs, ?Hfys; cbn [Mb_previo]; assumption).
  rewrite Hfxs in B2. rewrite Hfys in B3. cbn [Mb_previo] in B2, B3.
  exists c, fx, fy.
  split; [exact Hcs | ]. split.
  { rewrite (verificar_compresion_estado perfil cargas c Hc).
    apply estado_PASA. apply Rabs_cociente_le_1; assumption. }
  split; [exact Hfxs | ]. split.
  { rewrite (verificar_flexion_estado perfil cargas FUERTE fx Hfx).
    apply estado_PASA. apply Rabs_cociente_le_1; assumption. }
  split; [exact Hfys | ].
  rewrite (verificar_flexion_estado perfil cargas DEBIL fy Hfy).
  apply estado_PASA. apply Rabs_cociente_le_1; assumption.
Qed.

Lemma cociente_le (x y c : R) : 0 < y -> x <= c * y -> x / y <= c.
Proof.
  intros Hy H. apply Rmult_le_reg_r with y; [exact Hy | ].
  unfold Rdiv. rewrite Rmult_assoc, Rinv_l by lra. lra.
Qed.

(** The beam-column example on [perfil_S1]: every check returns and the
    interaction check passes. *)
Lemma validar_todo_S1_flexo_compresion_PASA :
  exists (res : Resultados.t) (r : H1.t),
    validar_todo perfil_S1 cargas_flexo_compresion = inr res /\
    Resultados.interaccion_flexo_compresion res = Some (InteraccionOk r) /\
    0 < H1.Pc r /\ 0 < H1.Mcx r /\ 0 < H1.Mcy r /\
    H1.estado r = "PASA".
Proof.
  destruct validar_todo_S1_flexo_compresion as [res Hres].
  destruct (validar_todo_inr _ _ res Hres) as (_ & _ & _ & _ & _ & Si1 & _).
  destruct Si1 as (i & Hi & Hslot).
  { cbn [cargas_flexo_compresion Pu Mux Muy]. split; [lra | left; lra]. }
  destruct (validar_todo_interaccion_inv _ _ res i Hres Hslot)
    as (_ & _ & _ & r & c & fx & fy & Ei & _ & _ & Hc & Hcs & Hfx
        & Hfxs & Hfy & Hfys & E1 & E2 & E3 & _).
  subst i. exists res, r.
  split; [exact Hres | ]. split; [exact Hslot | ].
  (* compression: inelastic buckling at KL/r = 75 *)
  assert (HK : KL_r_E3 perfil_S1 cargas_flexo_compresion <> 0)
    by (rewrite KL_r_flexo_compresion; lra).
  destruct (verificar_compresion_devuelve perfil_S1 cargas_flexo_compresion
              perfil_S1_positivo perfil_S1_sin_esbeltos HK)
    as (r0 & Hc0 & _ & Hr0).
  rewrite Hc in Hc0. injection Hc0 as ->.
  cbn [Compresion_Pc] in E1.
  destruct (compresion_no_esbeltos_regimenes _ _ r0 Hr0)
    as (_ & HPn & HPc & Hin & _).
  assert (Hs : sqrt (E perfil_S1 / Fy perfil_S1) = 24).
  { cbn [perfil_S1 E Fy]. apply sqrt_val. split; lra. }
  destruct Hin as (_ & HFcr).
  { left. rewrite KL_r_flexo_compresion, Hs. lra. }
  destruct (lambda_c_positivo perfil_S1 cargas_flexo_compresion)
    as (_ & Hl0 & Hl); try (cbn [perfil_S1 E Fy]; lra); try exact HK.
  assert (Hl1 : Fy perfil_S1 / Fe_E3_4 perfil_S1 cargas_flexo_compresion
                <= 2.25).
  { rewrite Hl, KL_r_flexo_compresion. cbn [perfil_S1 E Fy].
    assert (Hpi := PI2_cotas).
    apply cociente_le; [ | lra].
    apply Rmult_lt_0_compat; lra. }
  assert (Hpw := Rpower_0658_decreciente _ _ Hl1).
  assert (Hpw2 := Rpower_0658_225).
  assert (HPc0 : 122787 <= E3.Pc r0).
  { rewrite HPc, HPn, HFcr. cbn [perfil_S1 A Fy] in *. nra. }
  (* flexure *)
  cbn [verificar_flexion] in Hfx, Hfy.
  apply bind_inr in Hfx. destruct Hfx as (rx' & Hrx' & Hfx).
  injection Hfx as <-.
  apply bind_inr in Hfy. destruct Hfy as (ry' & Hry' & Hfy).
  injection Hfy as <-.
  cbn [Flexion_Mb] in E2, E3.
  destruct (flexion_eje_fuerte_regimenes _ _ rx' Hrx')
    as (_ & _ & HMbx & HMnx & _).
  destruct HMnx as (HMnx & _).
  { rewrite Lp_S1. cbn [cargas_flexo_compresion Lt]. lra. }
  unfold Mn_F2_1 in HMnx. cbn [perfil_S1 Fy Zx] in HMnx.
  destruct (flexion_eje_debil_ramas _ _ ry' Hry')
    as (Hcl & HMby & _ & _ & _ & Hcomp & _).
  destruct Hcomp as (_ & _ & HMny).
  { rewrite Hcl. apply patin_flexion_B4.
    unfold lambda_f_B4. rewrite Hs. cbn [perfil_S1 bf tf]. lra. }
  cbn [perfil_S1 Fy Zy] in HMny.
  assert (HMcx : H1.Mcx r = 2268000) by (rewrite E2, HMbx, HMnx; lra).
  assert (HMcy : H1.Mcy r = 771750) by (rewrite E3, HMby, HMny; lra).
  split; [rewrite E1; lra | ]. split; [lra | ]. split; [lra | ].
  (* interaction *)
  destruct (interaccion_devuelve cargas_flexo_compresion res _ Hcs)
    as (r' & Hr' & _ & _ & _ & HPr & HMrx & HMry & Hint & _ & Hest & _);
    try (rewrite ?Hfxs, ?Hfys; cbn [Mb_previo Compresion_Pc Flexion_Mb];
         lra).
  rewrite Hi in Hr'. injection Hr' as <-.
  cbn [cargas_flexo_compresion Pu Mux Muy] in HPr, HMrx, HMry.
  rewrite Rabs_left in HPr by lra.
  rewrite Rabs_pos_eq in HMrx by lra.
  rewrite Rabs_left in HMry by lra.
  rewrite Hest. apply estado_PASA. rewrite Hint.
  rewrite HPr, HMrx, HMry, HMcx, HMcy, E1.
  assert (Hq : 0 <= - -1000 / E3.Pc r0 <= 0.01).
  { split.
    - apply Rmult_le_pos; [lra | ]. left. apply Rinv_0_lt_compat. lra.
    - apply cociente_le; lra. }
  assert (Hq2 : - -1000 / (2 * E3.Pc r0) <= 0.01).
  { apply cociente_le; lra. }
  unfold Rgeb. rewrite Rleb_false by lra. lra.
Qed.

Lemma validar_todo_interaccion_PASA_witness :
  exists (res : Resultados.t) (c : Compresion),
    validar_todo perfil_S1 cargas_flexo_compresion = inr res /\
    Resultados.compresion res = Some c /\
    Compresion_estado c = "PASA".
Proof.
  destruct validar_todo_S1_flexo_compresion_PASA
    as (res & r & Hres & Hslot & H1 & H2 & H3 & Hpasa).
  destruct (validar_todo_interaccion_PASA perfil_S1 cargas_flexo_compresion
              res r Hres Hslot H1 H2 H3 Hpasa)
    as (c & _ & _ & Hc & Hest & _).
  exists res, c. split; [exact Hres | ]. split; assumption.
Defined.

(* ================================================================== *)
(** * The catalogue *)

(** ** Dicts as association lists *)

Lemma dict_get_In {V : Type} (dic : list (string * V)) (k : string) (v : V) :
  perfiles_aisc.dict_get dic k = Some v -> In (k, v) dic.
Proof.
  induction dic as [ | [k' v'] dic IH]; cbn [perfiles_aisc.dict_get].
  - discriminate.
  - destruct (String.eqb k k') eqn:Ek.
    + apply String.eqb_eq in Ek. subst k'. intros H. injection H as <-.
      left. reflexivity.
    + intros H. right. apply IH. exact H.
Qed.

Lemma dict_get_NoDup {V : Type} (dic : list (string * V)) (k : string)
    (v : V) :
  NoDup (perfiles_aisc.keys dic) -> In (k, v) dic ->
  perfiles_aisc.dict_get dic k = Some v.
Proof.
  induction dic as [ | [k' v'] dic IH];
    cbn [perfiles_aisc.dict_get perfiles_aisc.keys map fst].
  - intros _ [].
  - intros Hnd Hin. apply NoDup_cons_iff in Hnd. destruct Hnd as [Hk Hnd].
    destruct Hin as [Heq | Hin].
    + injection Heq as -> ->. rewrite String.eqb_refl. reflexivity.
    + destruct (String.eqb k k') eqn:Ek.
      * apply String.eqb_eq in Ek. subst k'. exfalso. apply Hk.
        change k with (fst (k, v)). apply in_map. exact Hin.
      * apply IH; assumption.
Qed.

Lemma dict_get_None {V : Type} (dic : list (string * V)) (k : string) :
  perfiles_aisc.dict_get dic k = None <-> ~ In k (perfiles_aisc.keys dic).
Proof.
  induction dic as [ | [k' v'] dic IH];
    cbn [perfiles_aisc.dict_get perfiles_aisc.keys map fst In].
  - tauto.
  - destruct (String.eqb k k') eqn:Ek.
    + apply String.eqb_eq in Ek. subst k'. split; [discriminate | tauto].
    + apply String.eqb_neq in Ek. rewrite IH.
      unfold perfiles_aisc.keys. split.
      * intros H [He | Hi]; [congruence | tauto].
      * tauto.
Qed.

(** ** The order of strings *)

Lemma ascii_compare_trans (a b c : ascii) :
  Ascii.compare a b = Datatypes.Lt -> Ascii.compare b c = Datatypes.Lt ->
  Ascii.compare a c = Datatypes.Lt.
Proof.
  unfold Ascii.compare. rewrite !N.compare_lt_iff. apply N.lt_trans.
Qed.

Lemma ascii_compare_refl (a : ascii) : Ascii.compare a a = Datatypes.Eq.
Proof. unfold Ascii.compare. apply N.compare_refl. Qed.

Lemma string_compare_Lt_trans (s1 : string) :
  forall s2 s3 : string,
    String.compare s1 s2 = Datatypes.Lt ->
    String.compare s2 s3 = Datatypes.Lt ->
    String.compare s1 s3 = Datatypes.Lt.
Proof.
  induction s1 as [ | c1 s1 IH]; intros [ | c2 s2] [ | c3 s3];
    cbn [String.compare]; try discriminate; try reflexivity.
  destruct (Ascii.compare c1 c2) eqn:E12; try discriminate;
    destruct (Ascii.compare c2 c3) eqn:E23; try discriminate.
  - apply Ascii.compare_eq_iff in E12, E23. subst c2 c3.
    rewrite ascii_compare_refl. apply IH.
  - apply Ascii.compare_eq_iff in E12. subst c2. rewrite E23. reflexivity.
  - apply Ascii.compare_eq_iff in E23. subst c3. rewrite E12. reflexivity.
  - rewrite (ascii_compare_trans c1 c2 c3 E12 E23). reflexivity.
Qed.

Lemma string_compare_refl (s : string) : String.compare s s = Datatypes.Eq.
Proof.
  induction s as [ | c s IH]; cbn [String.compare]; [reflexivity | ].
  rewrite ascii_compare_refl. exact IH.
Qed.

Lemma string_leb_iff (s1 s2 : string) :
  String.leb s1 s2 = true <-> String.compare s1 s2 = Datatypes.Lt \/ s1 = s2.
Proof.
  unfold String.leb. destruct (String.compare s1 s2) eqn:Ec.
  - apply String.compare_eq_iff in Ec. tauto.
  - tauto.
  - split; [discriminate | ]. intros [H | H]; [discriminate | ].
    subst s2. rewrite string_compare_refl in Ec. discriminate.
Qed.

Lemma string_leb_trans (s1 s2 s3 : string) :
  String.leb s1 s2 = true -> String.leb s2 s3 = true ->
  String.leb s1 s3 = true.
Proof.
  rewrite !string_leb_iff. intros [H12 | ->] [H23 | ->]; try tauto.
  left. exact (string_compare_Lt_trans s1 s2 s3 H12 H23).
Qed.

(** ** [sorted] *)

Lemma insertar_In (x y : string) (l : list string) :
  In y (perfiles_aisc.insertar x l) <-> y = x \/ In y l.
Proof.
  induction l as [ | z l IH]; cbn [perfiles_aisc.insertar In].
  - intuition congruence.
  - destruct (String.leb x z); cbn [In]; rewrite ?IH; intuition congruence.
Qed.

Lemma sorted_In (y : string) (l : list string) :
  In y (perfiles_aisc.sorted l) <-> In y l.
Proof.
  induction l as [ | x l IH]; cbn [perfiles_aisc.sorted fold_right In].
  - tauto.
  - fold (perfiles_aisc.sorted l). rewrite insertar_In, IH.
    intuition congruence.
Qed.

Lemma insertar_Permutation (x : string) (l : list string) :
  Permutation (perfiles_aisc.insertar x l) (x :: l).
Proof.
  induction l as [ | z l IH]; cbn [perfiles_aisc.insertar].
  - apply Permutation_refl.
  - destruct (String.leb x z).
    + apply Permutation_refl.
    + apply perm_trans with (z :: x :: l).
      * apply perm_skip. exact IH.
      * apply perm_swap.
Qed.

Lemma sorted_Permutation (l : list string) :
  Permutation (perfiles_aisc.sorted l) l.
Proof.
  induction l as [ | x l IH]; cbn [perfiles_aisc.sorted fold_right].
  - apply perm_nil.
  - fold (perfiles_aisc.sorted l).
    apply perm_trans with (x :: perfiles_aisc.sorted l).
    + apply insertar_Permutation.
    + apply perm_skip. exact IH.
Qed.

Lemma insertar_ordenada (x : string) (l : list string) :
  StronglySorted (fun a b => String.leb a b = true) l ->
  StronglySorted (fun a b => String.leb a b = true)
    (perfiles_aisc.insertar x l).
Proof.
  induction 1 as [ | z l Hl IH Hz]; cbn [perfiles_aisc.insertar].
  - apply SSorted_cons; [apply SSorted_nil | apply Forall_nil].
  - destruct (String.leb x z) eqn:Exz.
    + apply SSorted_cons.
      * apply SSorted_cons; assumption.
      * apply Forall_cons; [exact Exz | ].
        apply Forall_impl with (2 := Hz).
        intros a Ha. exact (string_leb_trans x z a Exz Ha).
    + apply SSorted_cons; [exact IH | ].
      apply Forall_forall. intros a Ha. apply insertar_In in Ha.
      destruct Ha as [-> | Ha].
      * destruct (String.leb_total x z) as [H | H]; [congruence | exact H].
      * rewrite Forall_forall in Hz. apply Hz. exact Ha.
Qed.

Lemma sorted_ordenada (l : list string) :
  StronglySorted (fun a b => String.leb a b = true) (perfiles_aisc.sorted l).
Proof.
  induction l as [ | x l IH]; cbn [perfiles_aisc.sorted fold_right].
  - apply SSorted_nil.
  - apply insertar_ordenada. exact IH.
Qed.

(** Filtering commutes with sorting. *)
Lemma filter_insertar (f : string -> bool) (x : string) (l : list string) :
  StronglySorted (fun a b => String.leb a b = true) l ->
  filter f (perfiles_aisc.insertar x l)
    = if f x then perfiles_aisc.insertar x (filter f l) else filter f l.
Proof.
  induction 1 as [ | z l Hl IH Hz];
    cbn [perfiles_aisc.insertar filter].
  - destruct (f x); reflexivity.
  - destruct (String.leb x z) eqn:Exz; cbn [filter].
    + destruct (f x) eqn:Efx; [ | reflexivity].
      destruct (f z) eqn:Efz.
      * cbn [perfiles_aisc.insertar]. rewrite Exz. reflexivity.
      * (* x goes in front of everything kept from l *)
        assert (Hall : Forall (fun a => String.leb x a = true) (filter f l)).
        { apply Forall_forall. intros a Ha. apply filter_In in Ha.
          rewrite Forall_forall in Hz.
          exact (string_leb_trans x z a Exz (Hz a (proj1 Ha))). }
        destruct (filter f l) as [ | a l'] eqn:Efl;
          cbn [perfiles_aisc.insertar]; [reflexivity | ].
        apply Forall_inv in Hall. rewrite Hall. reflexivity.
    + rewrite IH. destruct (f z) eqn:Efz.
      * destruct (f x); [ | reflexivity].
        cbn [perfiles_aisc.insertar]. rewrite Exz. reflexivity.
      * reflexivity.
Qed.

Lemma sorted_filter (f : string -> bool) (l : list string) :
  perfiles_aisc.sorted (filter f l) = filter f (perfiles_aisc.sorted l).
Proof.
  induction l as [ | x l IH]; cbn [filter perfiles_aisc.sorted fold_right].
  - reflexivity.
  - fold (perfiles_aisc.sorted l).
    rewrite (filter_insertar f x _ (sorted_ordenada l)).
    destruct (f x); [ | exact IH].
    cbn [perfiles_aisc.sorted fold_right].
    fold (perfiles_aisc.sorted (filter f l)). rewrite IH. reflexivity.
Qed.

(** A sorted list without repetition is strictly increasing. *)
Lemma ordenada_estricta (l : list string) :
  StronglySorted (fun a b => String.leb a b = true) l -> NoDup l ->
  StronglySorted (fun a b => String.ltb a b = true) l.
Proof.
  induction 1 as [ | z l Hl IH Hz]; intros Hnd.
  - apply SSorted_nil.
  - apply NoDup_cons_iff in Hnd. destruct Hnd as [Hz' Hnd].
    apply SSorted_cons; [apply IH; exact Hnd | ].
    apply Forall_forall. intros a Ha.
    rewrite Forall_forall in Hz. specialize (Hz a Ha).
    apply string_leb_iff in Hz. destruct Hz as [Hlt | ->]; [ | contradiction].
    unfold String.ltb. rewrite Hlt. reflexivity.
Qed.

(** ** The table *)

Lemma perfiles_w_NoDup : NoDup (perfiles_aisc.keys perfiles_aisc.perfiles_w).
Proof.
  assert (H : nodup string_dec (perfiles_aisc.keys perfiles_aisc.perfiles_w)
              = perfiles_aisc.keys perfiles_aisc.perfiles_w)
    by (vm_compute; reflexivity).
  rewrite <- H. apply NoDup_nodup.
Qed.

Lemma perfiles_w_lower (k : string) :
  In k (perfiles_aisc.keys perfiles_aisc.perfiles_w) ->
  perfiles_aisc.lower k = k.
Proof.
  assert (H : forallb (fun k => String.eqb (perfiles_aisc.lower k) k)
                (perfiles_aisc.keys perfiles_aisc.perfiles_w) = true)
    by (vm_compute; reflexivity).
  rewrite forallb_forall in H. intros Hk.
  apply String.eqb_eq. apply H. exact Hk.
Qed.

(** ** [obtener_perfil] *)

Lemma obtener_perfil_inr (nombre : string)
    (p : perfiles_aisc.PropiedadesPerfilW) :
  perfiles_aisc.obtener_perfil nombre = inr p <->
  In (perfiles_aisc.lower nombre, p) perfiles_aisc.perfiles_w.
Proof.
  unfold perfiles_aisc.obtener_perfil. cbv zeta. split.
  - destruct (perfiles_aisc.dict_get _ _) as [q | ] eqn:Hq; [ | discriminate].
    intros H. injection H as <-. apply dict_get_In. exact Hq.
  - intros Hin.
    rewrite (dict_get_NoDup _ _ _ perfiles_w_NoDup Hin). reflexivity.
Qed.

(** X26.  [obtener_perfil] returns a section exactly when the table
    pairs it with the lower-case form of the name, so that the letter
    case of the name does not matter; every key of the table fetches its
    own entry. *)
Theorem obtener_perfil_catalogo :
  (forall (nombre : string) (p : perfiles_aisc.PropiedadesPerfilW),
     perfiles_aisc.obtener_perfil nombre = inr p <->
     In (perfiles_aisc.lower nombre, p) perfiles_aisc.perfiles_w) /\
  (forall (n1 n2 : string),
     perfiles_aisc.lower n1 = perfiles_aisc.lower n2 ->
     forall p : perfiles_aisc.PropiedadesPerfilW,
       perfiles_aisc.obtener_perfil n1 = inr p <->
       perfiles_aisc.obtener_perfil n2 = inr p) /\
  (forall (k : string) (p : perfiles_aisc.PropiedadesPerfilW),
     In (k, p) perfiles_aisc.perfiles_w ->
     perfiles_aisc.obtener_perfil k = inr p).
Proof.
  split; [exact obtener_perfil_inr | ]. split.
  - intros n1 n2 Hl p. rewrite !obtener_perfil_inr, Hl. tauto.
  - intros k p Hin. apply obtener_perfil_inr.
    rewrite perfiles_w_lower; [exact Hin | ].
    change k with (fst (k, p)). apply in_map. exact Hin.
Qed.

(** X27.  A name is found exactly when its lower-case form is among
    the names [listar_perfiles()] returns; otherwise [obtener_perfil]
    raises ValueError with a message that quotes the name as it was
    given, not in lower case. *)
Theorem obtener_perfil_o_error (nombre : string) :
  (In (perfiles_aisc.lower nombre) (perfiles_aisc.listar_perfiles None) ->
   exists p : perfiles_aisc.PropiedadesPerfilW,
     perfiles_aisc.obtener_perfil nombre = inr p) /\
  (~ In (perfiles_aisc.lower nombre) (perfiles_aisc.listar_perfiles None) ->
   perfiles_aisc.obtener_perfil nombre
     = inl (perfiles_aisc.ValueError
              ("Perfil '" ++ nombre
               ++ "' no encontrado. Use listar_perfiles() para ver disponibles."))).
Proof.
  cbn [perfiles_aisc.listar_perfiles]. rewrite sorted_In.
  unfold perfiles_aisc.obtener_perfil. cbv zeta.
  destruct (perfiles_aisc.dict_get _ _) as [q | ] eqn:Hq.
  - split; [intros _; exists q; reflexivity | ].
    intros Hno. exfalso. apply Hno.
    apply dict_get_In in Hq.
    change (perfiles_aisc.lower nombre)
      with (fst (perfiles_aisc.lower nombre, q)).
    apply in_map. exact Hq.
  - split; [ | reflexivity].
    intros Hin. apply dict_get_None in Hq. contradiction.
Qed.

(** ** [listar_perfiles] *)

Lemma listar_perfiles_filtra (serie : string) :
  perfiles_aisc.listar_perfiles (Some serie)
    = filter (fun p =>
                perfiles_aisc.startswith p (perfiles_aisc.lower serie))
        (perfiles_aisc.listar_perfiles None).
Proof.
  cbn [perfiles_aisc.listar_perfiles]. cbv zeta. apply sorted_filter.
Qed.

Lemma listar_perfiles_NoDup (serie : option string) :
  NoDup (perfiles_aisc.listar_perfiles serie).
Proof.
  assert (H0 : NoDup (perfiles_aisc.listar_perfiles None)).
  { cbn [perfiles_aisc.listar_perfiles].
    apply (Permutation_NoDup
             (Permutation_sym (sorted_Permutation _)) perfiles_w_NoDup). }
  destruct serie as [serie | ]; [ | exact H0].
  rewrite listar_perfiles_filtra. apply NoDup_filter. exact H0.
Qed.

(** X28.  Whatever the series, the list [listar_perfiles] returns is
    strictly increasing in the order of strings, hence without
    repetition, and holds keys of the table only; without a series it is
    a permutation of the 193 keys. *)
Theorem listar_perfiles_ordenada :
  (forall serie : option string,
     StronglySorted (fun a b => String.ltb a b = true)
       (perfiles_aisc.listar_perfiles serie)) /\
  (forall (serie : option string) (nombre : string),
     In nombre (perfiles_aisc.listar_perfiles serie) ->
     In nombre (perfiles_aisc.keys perfiles_aisc.perfiles_w)) /\
  Permutation (perfiles_aisc.listar_perfiles None)
    (perfiles_aisc.keys perfiles_aisc.perfiles_w) /\
  length (perfiles_aisc.listar_perfiles None) = 193%nat.
Proof.
  split; [ | split; [ | split]].
  - intros serie. apply ordenada_estricta.
    + destruct serie; apply sorted_ordenada.
    + apply listar_perfiles_NoDup.
  - intros [serie | ] nombre; cbn [perfiles_aisc.listar_perfiles];
      rewrite sorted_In; [ | tauto].
    intros H. apply filter_In in H. tauto.
  - apply sorted_Permutation.
  - cbn [perfiles_aisc.listar_perfiles].
    rewrite (Permutation_length (sorted_Permutation _)). reflexivity.
Qed.

(** X29.  With a series, [listar_perfiles] returns the full listing
    filtered by the lower-case series as a textual prefix: a key is
    listed exactly when it starts with it.  The empty series lists
    everything. *)
Theorem listar_perfiles_serie :
  (forall serie : string,
     perfiles_aisc.listar_perfiles (Some serie)
       = filter (fun p =>
                   perfiles_aisc.startswith p (perfiles_aisc.lower serie))
           (perfiles_aisc.listar_perfiles None)) /\
  (forall serie nombre : string,
     In nombre (perfiles_aisc.listar_perfiles (Some serie)) <->
     In nombre (perfiles_aisc.keys perfiles_aisc.perfiles_w) /\
     String.prefix (perfiles_aisc.lower serie) nombre = true) /\
  perfiles_aisc.listar_perfiles (Some "")
    = perfiles_aisc.listar_perfiles None.
Proof.
  split; [exact listar_perfiles_filtra | ]. split.
  - intros serie nombre. cbn [perfiles_aisc.listar_perfiles]. cbv zeta.
    rewrite sorted_In, filter_In. reflexivity.
  - rewrite listar_perfiles_filtra. cbn [perfiles_aisc.lower].
    apply forallb_filter_id. apply forallb_forall. intros x _.
    unfold perfiles_aisc.startswith. destruct x; reflexivity.
Qed.

(** The series is a prefix of the name, not its depth: W4 also lists
    the W40 and W44 sections. *)
Lemma listar_perfiles_W4 :
  perfiles_aisc.listar_perfiles (Some "W4")
    = ["w40x331"; "w40x397"; "w40x503"; "w44x230"; "w44x290"; "w44x335";
       "w4x13"].
Proof. vm_compute. reflexivity. Qed.

(** ** The sections of the table *)

Lemma perfiles_w_invariante :
  Forall (fun kp : string * perfiles_aisc.PropiedadesPerfilW =>
            let p := snd kp in
            (0 < perfiles_aisc.d p /\ 0 < perfiles_aisc.bf p /\
             0 < perfiles_aisc.tf p /\ 0 < perfiles_aisc.tw p /\
             0 < perfiles_aisc.A p) /\
            (0 < perfiles_aisc.Ix p /\ 0 < perfiles_aisc.Sx p /\
             0 < perfiles_aisc.Zx p /\ 0 < perfiles_aisc.rx p) /\
            (0 < perfiles_aisc.Iy p /\ 0 < perfiles_aisc.Sy p /\
             0 < perfiles_aisc.Zy p /\ 0 < perfiles_aisc.ry p) /\
            (0 < perfiles_aisc.J p /\ 0 < perfiles_aisc.Cw p /\
             0 < perfiles_aisc.ho p) /\
            (perfiles_aisc.Fy p = 3515 /\ perfiles_aisc.Fu p = 4570) /\
            (2 * perfiles_aisc.tf p < perfiles_aisc.d p /\
             perfiles_aisc.Sx p < perfiles_aisc.Zx p /\
             perfiles_aisc.Sy p < perfiles_aisc.Zy p))
    perfiles_aisc.perfiles_w.
Proof.
  unfold perfiles_aisc.perfiles_w.
  repeat (apply Forall_cons;
          [cbn; repeat split; try reflexivity; lra | ]).
  apply Forall_nil.
Qed.

(** X30.  Every section [obtener_perfil] returns has positive
    dimensions and properties, the default steel (Fy = 3515, Fu = 4570),
    a depth greater than the two flange thicknesses, and plastic moduli
    above the elastic ones. *)
Theorem obtener_perfil_invariante (nombre : string)
    (p : perfiles_aisc.PropiedadesPerfilW) :
  perfiles_aisc.obtener_perfil nombre = inr p ->
  (0 < perfiles_aisc.d p /\ 0 < perfiles_aisc.bf p /\
   0 < perfiles_aisc.tf p /\ 0 < perfiles_aisc.tw p /\
   0 < perfiles_aisc.A p) /\
  (0 < perfiles_aisc.Ix p /\ 0 < perfiles_aisc.Sx p /\
   0 < perfiles_aisc.Zx p /\ 0 < perfiles_aisc.rx p) /\
  (0 < perfiles_aisc.Iy p /\ 0 < perfiles_aisc.Sy p /\
   0 < perfiles_aisc.Zy p /\ 0 < perfiles_aisc.ry p) /\
  (0 < perfiles_aisc.J p /\ 0 < perfiles_aisc.Cw p /\
   0 < perfiles_aisc.ho p) /\
  (perfiles_aisc.Fy p = 3515 /\ perfiles_aisc.Fu p = 4570) /\
  (2 * perfiles_aisc.tf p < perfiles_aisc.d p /\
   perfiles_aisc.Sx p < perfiles_aisc.Zx p /\
   perfiles_aisc.Sy p < perfiles_aisc.Zy p).
Proof.
  intros H. apply obtener_perfil_inr in H.
  assert (Hall := perfiles_w_invariante).
  rewrite Forall_forall in Hall.
  exact (Hall _ H).
Qed.

Lemma obtener_perfil_invariante_witness :
  perfiles_aisc.obtener_perfil "W8X10" = inr perfiles_aisc.w8x10 /\
  perfiles_aisc.Fy perfiles_aisc.w8x10 = 3515.
Proof.
  assert (H : perfiles_aisc.obtener_perfil "W8X10"
              = inr perfiles_aisc.w8x10) by reflexivity.
  split; [exact H | ].
  apply (obtener_perfil_invariante "W8X10" perfiles_aisc.w8x10 H).
Defined.
